(* ===== verification/_CoqProject ===== *)
-Q . S2P
Prelude.v
GoBase.v
Sha256.v
Json.v
ModelTypes.v
ModelValidate.v
TransactionTypes.v
TransactionDigest.v
TransactionValidate.v
TransactionProjection.v
TransactionReducer.v
TransactionEvents.v
ProjectionValidate.v
EventLedger.v
SequencePolicy.v
PrepareAuthority.v
RunTypes.v
RunValidate.v
RunReducer.v
TransactionInvariants.v
TransactionBinding.v
Demo.v
TransactionLifecycle.v
TransactionAuthority.v
TransactionEvidence.v
PlanSafety.v
PreparationSafety.v
PolicySafety.v
ExecutionSafety.v
TransactionEventSafety.v
RunDemo.v
RunSafety.v
