(* ===== verification/Prelude.v ===== *)
(** * Gatemole: the transaction kernel, verified

    Gatemole puts an AI agent's side effects behind a transaction.  The agent
    proposes effects; the daemon freezes them, runs verification, prepares an
    immutable commit plan and approval package, waits for human approval where
    policy asks for it, and only then releases the effects.  All of this is
    event sourced: a transaction is a hash chain of events, and its state is
    the fold of a reducer over them.  The reducer and the validators it calls
    are the part of the program that enforces the release protocol whatever a
    client, a handler or a crashed daemon does, so they are what this library
    models first: [Apply], [Replay] and [Projection.Validate] of
    internal/kernel/transaction, and the resource model of
    internal/kernel/model on which they rest.  The agent runs that work on a
    transaction have a ledger of their own, internal/kernel/reducer, which is
    modelled as well.  (Paths are relative to src/.)

    ** Files

    Foundations
    - [Prelude]: errors (model/errors.go), the [result] type with its
      sequencing notations ([let?], [check], [reject_if]), Go slices (a nil
      slice and an empty slice are different values, since JSON tells them
      apart), int64 wrap-around, decimal printing, record updates, the tactics
      [res_inv], [bool_hyps] and the generic lemmas;
    - [GoBase]: the Go standard library the kernel uses: UTF-8 decoding
      (unicode/utf8), [strings.TrimSpace], instants and RFC 3339 (time),
      base64, hexadecimal;
    - [Sha256]: FIPS 180-4 SHA-256 (crypto/sha256), executable, so that every
      digest of the demonstration history is computed, not assumed;
    - [Json]: encoding/json as the kernel uses it: the printer with its
      escapes, and decoding of the already parsed tree with unknown fields
      refused.  A [Codec] pairs an encoder and a decoder; [struct_codec] builds
      one from the field tags.

    Resource model (internal/kernel/model)
    - [ModelTypes]: types.go, agent_task.go: principals, selectors, artifacts,
      grants, requests, runs, run events;
    - [ModelValidate]: validate.go: the shared validators;
    - [TransactionTypes]: transaction_types.go: transactions, executions,
      effects, verification results, plans, packages, decisions, events, each
      with its codec;
    - [TransactionDigest]: transaction/digest.go, event_digest.go: the content
      digests;
    - [TransactionValidate]: transaction_validate.go: the [Validate] method of
      each of these resources.

    Event sourcing
    - [EventLedger]: the interface both reducers implement (a type class of an
      [Apply], its cursor and its laws) and what follows for histories: the
      induction principles and the gap-free hash chain;

    Transaction kernel (internal/kernel/transaction)
    - [TransactionProjection]: the projection record and the event payloads of
      reducer.go;
    - [TransactionReducer]: reducer.go: transition tables, preconditions, the
      fourteen handlers, [Apply], [Replay];
    - [TransactionEvents]: event.go: [CreationEvent] and [NextEvent];
    - [ProjectionValidate]: [Projection.Validate] and
      [validateProjectionHistory] of reducer.go;
    - [SequencePolicy]: policy.go: the baseline sequence policy;
    - [PrepareAuthority]: prepare.go.

    Run kernel (internal/kernel/reducer, internal/kernel/eventlog)
    - [RunTypes]: the run event payloads of model/types.go;
    - [RunValidate]: [Validate] of grants, action requests, runs and run events
      (model/validate.go), the run event digest;
    - [RunReducer]: reducer.go ([allowedTransitions], every event, [ApplyRun],
      [ReplayRun]; the name carries [Run] where both reducers have it) and
      [Next] of eventlog/event.go.

    Theorems
    - [TransactionInvariants], [TransactionBinding]: inversion lemmas of the
      handlers, the induction principle [Replay_ind], and the invariants the
      other files share;
    - [Demo]: a concrete history of sixteen events, built by the kernel's own
      [NextEvent] and replayed by computation, that goes from creation through
      verification, approval and release to the committed state, with detours
      for revision, renewal and effects after the end; the witnesses apply the
      theorems to it;
    - [TransactionLifecycle]: replay simulates an abstract release protocol
      (drafting, frozen, awaiting, authorized, releasing, settled) event by
      event: consecutive prefixes of a history are in the same phase or one
      labelled protocol step apart;
      transitions follow the table, terminal states are final, identity is
      kept, the history is a gap-free hash chain, attempts are numbered;
    - [TransactionAuthority]: from ready-to-commit on, and for every effect
      that is released, verification passed on the platform and, if the package
      requires approval, every identifier last put outstanding was approved by
      a human's decision of its own on exactly the frozen package; what an
      approval decision requires and does.  The reducer counts identifiers; that
      the decisions cover every required class is checked at release by
      internal/kernel/api/authority.go, which is not modelled;
    - [TransactionEvidence]: the frozen proposal hashes to its digest, evidence
      names the proposal it was made for, a stored release binds plan, package,
      effects and results, and a committed transaction is complete;
    - [PlanSafety]: accepted plans are in dependency order and compensate in
      reverse; for any iteration order of the Go map the compensation check
      accepts exactly the plans that do;
    - [PreparationSafety]: what [PrepareAuthority] returns is accepted by the
      reducer (a refinement of the reducer's contract) and covers exactly the
      releasable effects;
    - [PolicySafety]: the baseline policy's outcome is the gravest finding, is
      monotone in the transaction, and blocks self-use exactly; a negative row
      threshold has the digest of the default one and other decisions;
    - [ExecutionSafety]: executions are bound to run, stage and task; the call
      counters are exact below the overflow and exactly off by 2^64 beyond it;
    - [TransactionEventSafety]: [NextEvent] builds events whose cursor checks
      cannot fail; the two digest recognisers agree;
    - [RunDemo], [RunSafety]: a concrete run, and the run ledger: it refines a
      lock that one execution may hold, its budget is the exact sum of what was
      charged, its capabilities are those granted, an ended run is final, and
      replay does not protect the attribution of its events.

    ** How the code is read

    A handler that mutates [*Projection] and may return an error is a function
    to [result Projection]; [Apply] drops the half-updated copy on an error, as
    the source does, because [cloneProjection] runs first.  The clone copies
    every slice of the projection, and handlers replace elements without
    writing into them, so no two projections share a mutable cell and values
    are enough.  The run reducer does not clone; its only slice operation is an
    [append] to the capability list, which can only be seen by a second history
    forked off the same projection, and the theorems are about one history.

    A Go map filled while validating is a [gmap]; where the source ranges over
    it the order is a parameter ([CommitPlan_Validate_visiting]), instantiated with
    [map_to_list], and the theorem [compensation_check_exact] shows that every
    order gives the same result.  int is
    64 bits wide: additions the source leaves unchecked are wrapped with
    [wrap64].  Enumerations are inductive types with an extra constructor for
    any other string, since Go's string types admit them.  An index out of
    range is the error [index_panic]; a JSON encoding failure is
    [encoding_error].

    A payload ([json.RawMessage]) is kept as its syntax tree with the lexemes
    of its strings and numbers, from which [Json] computes the compact text the
    encoder writes; text that is not one JSON value is [RawInvalid].  Error
    values keep code, operation, resource and field, and drop the message and
    the wrapped cause: the source documents the code as the stable part.
    [DecodeStrict] stops at the first decoding error, where encoding/json may
    report a later one instead, so only the code of a refused payload can differ.
    [filepath.ToSlash] is the identity, as on every Unix build.

    ** Fuel

    [Fixpoint]s with fuel occur only in foundations: [runes_fuel] and
    [escape_fuel] take the length of the string, of which every step consumes
    at least one byte; [unquote_fuel], [compact_fuel] and SHA-256's [process]
    likewise.  The reducers are structural on the list of events, the effects
    or the steps.

    ** Parameters

    [SequencePolicy.UnicodeTables] stands for the Unicode case tables of the Go
    distribution, which [strings.ToLower] consults on runes beyond ASCII; the
    policy theorems hold for every such table.  Nothing else is assumed, and
    SHA-256 is not assumed to be collision free: theorems that speak of content
    speak of equal digests.

    ** Not modelled

    SQL storage, HTTP, processes, containers, git and the file system
    (store, api, client, daemon, sandbox, driver, verification, gitstage,
    peercred, runtimepreflight): the effects themselves.  Planned, in this
    order: the compare-and-swap of the transaction store around [Apply] and [Validate],
    authority compilation and path containment (authority, capability),
    approval verification (approval, with Ed25519 as a parameter), admission,
    the model broker's budget and receipt ledger (modelbroker), the release
    evidence policy (internal/gatemole/policy.go), and round trips of the
    codecs. *)
From stdpp Require Export base tactics list strings gmap.
From Stdlib Require Export ZArith Lia.
From Stdlib Require Import DecimalString DecimalZ.

#[global] Open Scope Z_scope.

(** ** Kernel errors (internal/kernel/model/errors.go)

    The message text and the wrapped cause are not part of the model: the
    source documents [Code] as the stable boundary. *)

Inductive ErrorCode :=
  | ErrorSchemaInvalid | ErrorUnknownField | ErrorIdentityInvalid
  | ErrorTransitionInvalid | ErrorEventSequence | ErrorEventChain
  | ErrorCapabilityDenied | ErrorCapabilityExpired | ErrorCapabilityRevoked
  | ErrorDelegationExceeded | ErrorApprovalRequired | ErrorApprovalInvalid
  | ErrorBudgetExceeded | ErrorActionUnknown | ErrorCheckpointIncompatible
  | ErrorNotFound | ErrorConflict | ErrorIdempotencyConflict
  | ErrorDriverUnavailable | ErrorTransactionConflict | ErrorEffectSequence
  | ErrorVerificationFailed | ErrorPartialCommit | ErrorInternal.

#[export] Instance ErrorCode_eq_dec : EqDecision ErrorCode.
Proof. solve_decision. Defined.

Record KernelError := mkKernelError {
  KernelError_Code : ErrorCode;
  KernelError_Operation : string;
  KernelError_Resource : string;
  KernelError_Field : string;
}.

#[export] Instance KernelError_eq_dec : EqDecision KernelError.
Proof. solve_decision. Defined.

(** [newError] of errors.go, without the message and the cause. *)
Definition newError (code : ErrorCode) (operation resource field : string) : KernelError :=
  mkKernelError code operation resource field.

(** ** Results: a Go [(T, error)] return *)

Inductive result (A : Type) :=
  | Ok (value : A)
  | Err (error : KernelError).
Arguments Ok {A} value.
Arguments Err {A} error.

Definition rbind {A B} (c : result A) (k : A -> result B) : result B :=
  match c with Ok x => k x | Err e => Err e end.

Declare Scope kernel_scope.
Delimit Scope kernel_scope with kernel.

Notation "'let?' x ':=' c 'in' k" := (rbind c (fun x => k))
  (at level 10, x name, c at level 200, k at level 200) : kernel_scope.
Notation "'check' c ';;' k" := (rbind c (fun _ : unit => k))
  (at level 10, c at level 99, k at level 200) : kernel_scope.
Notation "'reject_if' b 'with' e ';;' k" := (if (b : bool) then Err e else k)
  (at level 10, b at level 99, e at level 99, k at level 200) : kernel_scope.
#[global] Open Scope kernel_scope.

(** Boolean equality tests, written as the source writes them. *)
Notation "a ==? b" := (bool_decide (a = b)) (at level 70, no associativity) : kernel_scope.
Notation "a !=? b" := (negb (bool_decide (a = b))) (at level 70, no associativity) : kernel_scope.

(** A Go loop whose body may return an error and carries a local state. *)
Fixpoint fold_res {A S} (f : S -> A -> result S) (s : S) (l : list A) : result S :=
  match l with
  | [] => Ok s
  | x :: l' => let? s' := f s x in fold_res f s' l'
  end.

(** The same loop without a local state. *)
Fixpoint each {A} (f : A -> result unit) (l : list A) : result unit :=
  match l with
  | [] => Ok tt
  | x :: l' => check f x ;; each f l'
  end.

(** [for i, x := range l]. *)
Definition indexed {A} (l : list A) : list (nat * A) := imap (fun i x => (i, x)) l.

(** First index satisfying a test; Go's [-1] is [None]. *)
Fixpoint index_where {A} (p : A -> bool) (l : list A) : option nat :=
  match l with
  | [] => None
  | x :: l' => if p x then Some O else S <$> index_where p l'
  end.

(** ** Go slices: a nil slice and an empty one differ in their JSON form *)

Inductive slice (A : Type) :=
  | SNil
  | SList (l : list A).
Arguments SNil {A}.
Arguments SList {A} l.

#[export] Instance slice_eq_dec {A} `{EqDecision A} : EqDecision (slice A).
Proof. solve_decision. Defined.

Definition elems {A} (s : slice A) : list A :=
  match s with SNil => [] | SList l => l end.
Coercion elems : slice >-> list.

(** [append(s, l...)]: appending nothing returns [s] itself. *)
Definition append {A} (s : slice A) (l : list A) : slice A :=
  match l with [] => s | _ => SList (elems s ++ l) end.

(** [append([]T(nil), s...)]. *)
Definition clone {A} (s : slice A) : slice A := append SNil (elems s).

(** [len]. *)
Definition len {A} (l : list A) : Z := Z.of_nat (length l).

(** ** Machine integers *)

Definition MaxInt64 : Z := 2 ^ 63 - 1.
Definition int64_range (z : Z) : Prop := - 2 ^ 63 <= z <= MaxInt64.
(** Two's complement wrap-around of an int64 result. *)
Definition wrap64 (z : Z) : Z := (z + 2 ^ 63) mod 2 ^ 64 - 2 ^ 63.

(** [%d] of an integer. *)
Definition decimal (z : Z) : string := NilZero.string_of_int (Z.to_int z).

(** [fmt.Sprintf("%s[%d]", field, i)]. *)
Definition at_index (field : string) (i : nat) : string :=
  field +:+ "[" +:+ decimal (Z.of_nat i) +:+ "]".

(** ** Record update: [r <| f := v |>] and [r <| f; g := v |>]

    [eta_of R] is the constructor of [R] applied to its projections; the
    update of one field is read off it by abstracting that projection. *)

Class RecordEta (R : Type) := record_eta : R -> R.
Class FieldUpdate {R T : Type} (f : R -> T) := field_update : (T -> T) -> R -> R.
Arguments field_update {R T} f {_} _ _.

Ltac solve_field_update :=
  lazymatch goal with
  | |- @FieldUpdate ?R ?T ?f =>
    let inst := constr:(_ : RecordEta R) in
    let body := eval hnf in inst in
    let abstracted := eval pattern f in body in
    lazymatch abstracted with
    | ?h _ =>
      let upd := eval cbv beta in (fun (u : T -> T) => h (fun r : R => u (f r))) in
      exact upd
    end
  end.
#[export] Hint Extern 1 (FieldUpdate _) => solve_field_update : typeclass_instances.

Notation "r <| f := v |>" := (field_update f (fun _ => v) r)
  (at level 12, f at level 200, v at level 200, left associativity,
   format "r  <|  f  :=  v  |>") : kernel_scope.
Notation "r <| f ; g := v |>" := (field_update f (field_update g (fun _ => v)) r)
  (at level 12, f at level 200, g at level 200, v at level 200, left associativity) : kernel_scope.

(** ** Lemmas on results and loops *)

Lemma rbind_ok {A B} (c : result A) (k : A -> result B) y :
  rbind c k = Ok y <-> exists x, c = Ok x /\ k x = Ok y.
Proof. destruct c; naive_solver. Qed.

Lemma ok_inj {A} (x y : A) : Ok x = Ok y -> x = y.
Proof. congruence. Qed.

Lemma each_ok {A} (f : A -> result unit) l :
  each f l = Ok tt <-> Forall (fun x => f x = Ok tt) l.
Proof.
  induction l as [|x l IH]; simpl; [by split|].
  rewrite Forall_cons, rbind_ok, <- IH. split; [intros ([] & ? & ?) | intros []; exists tt]; auto.
Qed.

Lemma each_forall {A} (f : A -> result unit) (P : A -> Prop) l :
  (forall x, f x = Ok tt -> P x) -> each f l = Ok tt -> Forall P l.
Proof. intros HP Hl%each_ok. eapply Forall_impl; eauto. Qed.

Lemma each_true {A} (f : A -> result unit) l :
  (forall x, x ∈ l -> f x = Ok tt) -> each f l = Ok tt.
Proof. intros Hf. apply each_ok, Forall_forall. done. Qed.

(** A loop preserves what each iteration preserves. *)
Lemma fold_res_invariant {A S} (f : S -> A -> result S) (I : list A -> S -> Prop) s l s' :
  (forall done_ s x t, I done_ s -> f s x = Ok t -> I (done_ ++ [x]) t) ->
  I [] s -> fold_res f s l = Ok s' -> I l s'.
Proof.
  intros Hstep. enough (forall done_, I done_ s -> fold_res f s l = Ok s' -> I (done_ ++ l) s') as H
    by (intros; by apply (H [])).
  revert s. induction l as [|x l IH]; simpl; intros s done_ HI Hf.
  - rewrite app_nil_r. by simplify_eq.
  - apply rbind_ok in Hf as (t & Ht & Hf).
    replace (done_ ++ x :: l) with ((done_ ++ [x]) ++ l) by by rewrite <- app_assoc.
    eapply IH; eauto.
Qed.

Lemma fold_res_app {A S} (f : S -> A -> result S) s l k :
  fold_res f s (l ++ k) = rbind (fold_res f s l) (fun t => fold_res f t k).
Proof. revert s. induction l as [|x l IH]; intros s; simpl; [done|]. destruct (f s x); simpl; auto. Qed.

Lemma index_where_some {A} (p : A -> bool) l i :
  index_where p l = Some i -> exists x, l !! i = Some x /\ p x = true.
Proof.
  revert i. induction l as [|x l IH]; simpl; intros i Hi; [done|].
  destruct (p x) eqn:Hp; [simplify_eq; eauto|].
  destruct (index_where p l) as [j|]; simplify_eq/=. naive_solver.
Qed.

Lemma index_where_none {A} (p : A -> bool) l :
  index_where p l = None <-> Forall (fun x => p x = false) l.
Proof.
  induction l as [|x l IH]; simpl; [by split|].
  rewrite Forall_cons, <- IH. destruct (p x), (index_where p l); naive_solver.
Qed.

Lemma indexed_lookup {A} (l : list A) i : indexed l !! i = (fun x => (i, x)) <$> l !! i.
Proof. unfold indexed. by rewrite list_lookup_imap. Qed.

Lemma length_indexed {A} (l : list A) : length (indexed l) = length l.
Proof. unfold indexed. by rewrite length_imap. Qed.

Lemma indexed_snd {A} (l : list A) : map snd (indexed l) = l.
Proof.
  apply list_eq. intros i. rewrite list_lookup_fmap, indexed_lookup. by destruct (l !! i).
Qed.

Lemma elem_of_indexed {A} (l : list A) i x : (i, x) ∈ indexed l <-> l !! i = Some x.
Proof.
  rewrite list_elem_of_lookup. setoid_rewrite indexed_lookup. split.
  - intros (j & Hj). destruct (l !! j) eqn:E; naive_solver.
  - intros Hi. exists i. by rewrite Hi.
Qed.

Lemma elem_of_map {A B} (f : A -> B) l y : y ∈ map f l <-> exists x, y = f x /\ x ∈ l.
Proof. apply list_elem_of_fmap. Qed.

Lemma elem_of_map_intro {A B} (f : A -> B) l x : x ∈ l -> f x ∈ map f l.
Proof. rewrite elem_of_map. eauto. Qed.

(** ** Lemmas on slices *)

Lemma elems_append {A} (s : slice A) l : elems (append s l) = elems s ++ l.
Proof. destruct l; simpl; [by rewrite app_nil_r | done]. Qed.

Lemma elems_clone {A} (s : slice A) : elems (clone s) = elems s.
Proof. unfold clone. by rewrite elems_append. Qed.

Lemma clone_clone {A} (s : slice A) : clone (clone s) = clone s.
Proof. unfold clone at 1. rewrite elems_clone. done. Qed.

Create HintDb kernel.
#[export] Hint Rewrite @elems_append @elems_clone @length_app @app_nil_r : kernel.

(** ** int64 arithmetic *)

Lemma wrap64_id z : int64_range z -> wrap64 z = z.
Proof. unfold int64_range, MaxInt64, wrap64. intros. rewrite Z.mod_small; lia. Qed.

Lemma wrap64_range z : int64_range (wrap64 z).
Proof. unfold int64_range, MaxInt64, wrap64. pose proof (Z.mod_pos_bound (z + 2 ^ 63) (2 ^ 64)). lia. Qed.

(** A successor that is positive did not wrap. *)
Lemma wrap64_succ z : int64_range z -> 1 <= wrap64 (z + 1) -> 0 <= z -> wrap64 (z + 1) = z + 1.
Proof.
  unfold int64_range, MaxInt64. intros Hz Hw Hpos.
  destruct (decide (z + 1 <= 2 ^ 63 - 1)); [apply wrap64_id; unfold int64_range, MaxInt64; lia|].
  assert (z = 2 ^ 63 - 1) as -> by lia. revert Hw. vm_compute. congruence.
Qed.

Lemma wrap64_succ_nonneg z : 0 <= z <= MaxInt64 -> 0 <= wrap64 (z + 1) -> wrap64 (z + 1) = z + 1.
Proof.
  unfold MaxInt64. intros Hz Hw. destruct (decide (z = 2 ^ 63 - 1)) as [->|].
  - exfalso. revert Hw. vm_compute. congruence.
  - apply wrap64_id. unfold int64_range, MaxInt64. lia.
Qed.

(** ** Tactics *)

(** Boolean tests to propositions. *)
Ltac bool_hyps :=
  repeat match goal with
  | H : _ || _ = false |- _ => apply orb_false_elim in H as [? ?]
  | H : _ && _ = true |- _ => apply andb_prop in H as [? ?]
  | H : negb _ = false |- _ => apply negb_false_iff in H
  | H : negb _ = true |- _ => apply negb_true_iff in H
  | H : bool_decide _ = true |- _ => apply bool_decide_eq_true in H
  | H : bool_decide _ = false |- _ => apply bool_decide_eq_false in H
  | H : (_ =? _)%Z = true |- _ => apply Z.eqb_eq in H
  | H : (_ =? _)%Z = false |- _ => apply Z.eqb_neq in H
  | H : (_ =? _)%nat = true |- _ => apply Nat.eqb_eq in H
  | H : (_ =? _)%nat = false |- _ => apply Nat.eqb_neq in H
  | H : (_ <? _)%Z = true |- _ => apply Z.ltb_lt in H
  | H : (_ <? _)%Z = false |- _ => apply Z.ltb_ge in H
  | H : (_ <=? _)%Z = true |- _ => apply Z.leb_le in H
  | H : (_ <=? _)%Z = false |- _ => apply Z.leb_gt in H
  | H : (_ <? _)%nat = true |- _ => apply Nat.ltb_lt in H
  | H : (_ <? _)%nat = false |- _ => apply Nat.ltb_ge in H
  | H : (_ <=? _)%nat = true |- _ => apply Nat.leb_le in H
  | H : (_ <=? _)%nat = false |- _ => apply Nat.leb_gt in H
  end.

(** One step of the inversion of a successful computation. *)
Ltac res_step H :=
  cbv beta zeta in H;
  lazymatch type of H with
  | rbind _ _ = Ok _ =>
    let x := fresh "x" in let E := fresh "Hok" in
    apply rbind_ok in H as (x & E & H);
    try (lazymatch type of x with unit => destruct x end)
  | (if ?b then Err _ else _) = Ok _ =>
    let E := fresh "Hguard" in destruct b eqn:E; [discriminate H|]
  | Err _ = Ok _ => discriminate H
  end.

(** Invert a successful computation completely; the last equation is
    substituted. *)
Ltac res_inv H :=
  repeat first
    [ res_step H
    | lazymatch type of H with
      | (match ?x with _ => _ end) = Ok _ =>
        let E := fresh "Hcase" in destruct x eqn:E; try discriminate H
      end ];
  try (apply ok_inj in H; try subst).
