(* ===== verification/GoBase.v ===== *)
(** * The parts of Go's language and standard library the kernel relies on

    Byte strings, UTF-8 decoding ([unicode/utf8]), [strings.TrimSpace] used as
    a blankness test, hexadecimal encoding and [time.Time] with its RFC 3339
    text form.  A Go string is a Rocq [string] read as a list of bytes. *)
From S2P Require Import Prelude.
From Stdlib Require Import Ascii.

(** ** Bytes *)

Definition byte_of (c : ascii) : N := N_of_ascii c.
Definition char_of (b : N) : ascii := ascii_of_N b.

Fixpoint bytes_of (s : string) : list N :=
  match s with
  | EmptyString => []
  | String c s' => byte_of c :: bytes_of s'
  end.

Fixpoint string_of_bytes (bs : list N) : string :=
  match bs with
  | [] => EmptyString
  | b :: bs' => String (char_of b) (string_of_bytes bs')
  end.

(** ** UTF-8 ([utf8.DecodeRune]) *)

Definition RuneError : N := 0xFFFD.

Definition between (lo b hi : N) : bool := ((lo <=? b) && (b <=? hi))%N.

(** The rune at the head of a byte string and its width in bytes; an invalid
    encoding is [RuneError] of width one. *)
Definition decode_rune (bs : list N) : N * nat :=
  match bs with
  | [] => (RuneError, 0%nat)
  | b0 :: rest =>
    if (b0 <? 0x80)%N then (b0, 1%nat)
    else if between 0xC2 b0 0xDF then
      match rest with
      | b1 :: _ =>
        if between 0x80 b1 0xBF then (((b0 - 0xC0) * 64 + (b1 - 0x80))%N, 2%nat) else (RuneError, 1%nat)
      | [] => (RuneError, 1%nat)
      end
    else if between 0xE0 b0 0xEF then
      let lo := if (b0 =? 0xE0)%N then 0xA0%N else 0x80%N in
      let hi := if (b0 =? 0xED)%N then 0x9F%N else 0xBF%N in
      match rest with
      | b1 :: b2 :: _ =>
        if between lo b1 hi && between 0x80 b2 0xBF
        then (((b0 - 0xE0) * 4096 + (b1 - 0x80) * 64 + (b2 - 0x80))%N, 3%nat)
        else (RuneError, 1%nat)
      | _ => (RuneError, 1%nat)
      end
    else if between 0xF0 b0 0xF4 then
      let lo := if (b0 =? 0xF0)%N then 0x90%N else 0x80%N in
      let hi := if (b0 =? 0xF4)%N then 0x8F%N else 0xBF%N in
      match rest with
      | b1 :: b2 :: b3 :: _ =>
        if between lo b1 hi && between 0x80 b2 0xBF && between 0x80 b3 0xBF
        then (((b0 - 0xF0) * 262144 + (b1 - 0x80) * 4096 + (b2 - 0x80) * 64 + (b3 - 0x80))%N, 4%nat)
        else (RuneError, 1%nat)
      | _ => (RuneError, 1%nat)
      end
    else (RuneError, 1%nat)
  end.

(** [for _, r := range s]: each rune with its width. The fuel is the number of
    bytes, and every rune consumes at least one. *)
Fixpoint runes_fuel (fuel : nat) (bs : list N) : list (N * nat) :=
  match fuel, bs with
  | S fuel', _ :: _ =>
    let '(r, w) := decode_rune bs in (r, w) :: runes_fuel fuel' (drop w bs)
  | _, _ => []
  end.

Definition runes (s : string) : list (N * nat) :=
  let bs := bytes_of s in runes_fuel (length bs) bs.

(** [utf8.ValidString]. *)
Definition valid_utf8 (s : string) : bool :=
  forallb (fun '(r, w) => negb ((r =? RuneError)%N && (w =? 1)%nat)) (runes s).

(** [unicode.IsSpace]. *)
Definition is_space (r : N) : bool :=
  between 9 r 13 || (r =? 0x20)%N || (r =? 0x85)%N || (r =? 0xA0)%N ||
  (r =? 0x1680)%N || between 0x2000 r 0x200A || (r =? 0x2028)%N || (r =? 0x2029)%N ||
  (r =? 0x202F)%N || (r =? 0x205F)%N || (r =? 0x3000)%N.

(** [strings.TrimSpace(s) == ""]. *)
Definition blank (s : string) : bool := forallb (fun '(r, _) => is_space r) (runes s).

(** [strings.ContainsRune(s, 0)]. *)
Definition contains_nul (s : string) : bool := existsb (fun b => (b =? 0)%N) (bytes_of s).

(** [len(s)]. *)
Definition string_len (s : string) : Z := Z.of_nat (String.length s).

(** ** Hexadecimal ([hex.EncodeToString]) *)

Definition hex_digit (n : N) : ascii :=
  char_of (if (n <? 10)%N then (48 + n)%N else (87 + n)%N).

Fixpoint hex_encode (bs : list N) : string :=
  match bs with
  | [] => EmptyString
  | b :: bs' => String (hex_digit (b / 16)%N) (String (hex_digit (b mod 16)%N) (hex_encode bs'))
  end.

(** ** Time

    An instant in nanoseconds since 0001-01-01T00:00:00Z (so Go's zero time is
    0) with the zone offset, in minutes, its text form shows. *)

Record Time := mkTime { Time_ns : Z; Time_offset : Z }.

#[export] Instance Time_eq_dec : EqDecision Time.
Proof. solve_decision. Defined.

Definition zero_time : Time := mkTime 0 0.
Definition IsZero (t : Time) : bool := Time_ns t =? 0.
Definition Before (t u : Time) : bool := Time_ns t <? Time_ns u.
Definition After (t u : Time) : bool := Time_ns u <? Time_ns t.
Definition Equal (t u : Time) : bool := Time_ns t =? Time_ns u.
Definition UTC (t : Time) : Time := mkTime (Time_ns t) 0.
Definition Add (t : Time) (d : Z) : Time := mkTime (Time_ns t + d) (Time_offset t).
Definition Second : Z := 1000000000.
Definition Minute : Z := 60 * Second.
Definition Hour : Z := 60 * Minute.

(** Civil date of a day count since 0000-03-01 (proleptic Gregorian): year,
    month, day. *)
Definition civil_of_days (z : Z) : Z * Z * Z :=
  let era := z / 146097 in
  let doe := z mod 146097 in
  let yoe := (doe - doe / 1460 + doe / 36524 - doe / 146096) / 365 in
  let doy := doe - (365 * yoe + yoe / 4 - yoe / 100) in
  let mp := (5 * doy + 2) / 153 in
  let d := doy - (153 * mp + 2) / 5 + 1 in
  let m := if mp <? 10 then mp + 3 else mp - 9 in
  (yoe + era * 400 + (if m <=? 2 then 1 else 0), m, d).

Definition days_of_civil (y m d : Z) : Z :=
  let y' := if m <=? 2 then y - 1 else y in
  let era := y' / 400 in
  let yoe := y' mod 400 in
  let mp := if 2 <? m then m - 3 else m + 9 in
  era * 146097 + (yoe * 365 + yoe / 4 - yoe / 100) + ((153 * mp + 2) / 5 + d - 1).

(** Days from 0000-03-01 to 0001-01-01. *)
Definition epoch_days : Z := 306.

(** [n] digits, padded with zeros on the left. *)
Fixpoint digits (n : nat) (z : Z) : string :=
  match n with
  | O => EmptyString
  | S n' => String (char_of (48 + Z.to_N (z / 10 ^ Z.of_nat n' mod 10))) (digits n' z)
  end.

(** The fractional second of RFC 3339 Nano: trailing zeros removed, absent
    when zero. *)
Fixpoint fraction_digits (n : nat) (z : Z) : string :=
  match n with
  | O => EmptyString
  | S n' =>
    if z =? 0 then EmptyString
    else String (char_of (48 + Z.to_N (z / 10 ^ Z.of_nat n'))) (fraction_digits n' (z mod 10 ^ Z.of_nat n'))
  end.

Definition zone_text (off : Z) : string :=
  if off =? 0 then "Z"
  else (if off <? 0 then "-" else "+") +:+ digits 2 (Z.abs off / 60) +:+ ":" +:+ digits 2 (Z.abs off mod 60).

(** [t.Format(time.RFC3339Nano)]; [None] where [MarshalJSON] refuses the year
    or the offset. *)
Definition format_rfc3339 (t : Time) : option string :=
  let local := Time_ns t + Time_offset t * Minute in
  let days := local / (86400 * Second) in
  let secs := (local mod (86400 * Second)) / Second in
  let nanos := local mod Second in
  let '(y, m, d) := civil_of_days (days + epoch_days) in
  if (0 <=? y) && (y <=? 9999) && (Z.abs (Time_offset t) <? 1440) then
    Some (digits 4 y +:+ "-" +:+ digits 2 m +:+ "-" +:+ digits 2 d +:+ "T" +:+
          digits 2 (secs / 3600) +:+ ":" +:+ digits 2 (secs / 60 mod 60) +:+ ":" +:+ digits 2 (secs mod 60) +:+
          (if nanos =? 0 then "" else "." +:+ fraction_digits 9 nanos) +:+ zone_text (Time_offset t))
  else None.

(** Reading decimal digits. *)
Definition digit_value (c : ascii) : option Z :=
  let b := byte_of c in
  if between 48 b 57 then Some (Z.of_N (b - 48)) else None.

Fixpoint read_digits (n : nat) (s : string) (acc : Z) : option (Z * string) :=
  match n, s with
  | O, _ => Some (acc, s)
  | S n', String c s' =>
    match digit_value c with
    | Some v => read_digits n' s' (acc * 10 + v)
    | None => None
    end
  | S _, EmptyString => None
  end.

Definition read_char (c : ascii) (s : string) : option string :=
  match s with
  | String c' s' => if bool_decide (c = c') then Some s' else None
  | EmptyString => None
  end.

(** Fraction digits: the first nine count, the rest are read and dropped. *)
Fixpoint read_fraction (s : string) (weight acc : Z) (seen : bool) : option (Z * string) :=
  match s with
  | String c s' =>
    match digit_value c with
    | Some v => read_fraction s' (weight / 10) (acc + v * weight) true
    | None => if seen then Some (acc, s) else None
    end
  | EmptyString => None
  end.

Definition days_in_month (y m : Z) : Z :=
  if m =? 2 then
    (if (y mod 4 =? 0) && (negb (y mod 100 =? 0) || (y mod 400 =? 0)) then 29 else 28)
  else if (m =? 4) || (m =? 6) || (m =? 9) || (m =? 11) then 30 else 31.

Definition read_zone (s : string) : option Z :=
  if bool_decide (s = "Z") then Some 0
  else match s with
  | String sign s1 =>
    let parsed :=
      hr ← read_digits 2 s1 0; s2 ← read_char ":"%char (snd hr);
      mn ← read_digits 2 s2 0;
      if bool_decide (snd mn = EmptyString) && (fst hr <? 24) && (fst mn <? 60)
      then Some (fst hr * 60 + fst mn) else None in
    if bool_decide (sign = "+"%char) then parsed
    else if bool_decide (sign = "-"%char) then Z.opp <$> parsed else None
  | EmptyString => None
  end.

(** [Time.UnmarshalJSON] on the text between the quotes (strict RFC 3339). *)
Definition parse_rfc3339 (s : string) : option Time :=
  y ← read_digits 4 s 0; s ← read_char "-"%char (snd y);
  m ← read_digits 2 s 0; s ← read_char "-"%char (snd m);
  d ← read_digits 2 s 0; s ← read_char "T"%char (snd d);
  hh ← read_digits 2 s 0; s ← read_char ":"%char (snd hh);
  mi ← read_digits 2 s 0; s ← read_char ":"%char (snd mi);
  ss ← read_digits 2 s 0;
  fr ← match read_char "."%char (snd ss) with
       | Some rest => read_fraction rest 100000000 0 false
       | None => Some (0, snd ss)
       end;
  off ← read_zone (snd fr);
  if (1 <=? fst m) && (fst m <=? 12) && (1 <=? fst d) && (fst d <=? days_in_month (fst y) (fst m)) &&
     (fst hh <? 24) && (fst mi <? 60) && (fst ss <? 60)
  then Some (mkTime (((days_of_civil (fst y) (fst m) (fst d) - epoch_days) * 86400 +
                      fst hh * 3600 + fst mi * 60 + fst ss) * Second + fst fr - off * Minute) off)
  else None.

(** ** base64.StdEncoding.DecodeString *)

Definition base64_value (b : N) : option N :=
  if between 65 b 90 then Some (b - 65)%N
  else if between 97 b 122 then Some (b - 71)%N
  else if between 48 b 57 then Some (b + 4)%N
  else if (b =? 43)%N then Some 62%N
  else if (b =? 47)%N then Some 63%N
  else None.

(** Quanta of four symbols; padding only in the last one. *)
Fixpoint base64_quanta (bs : list N) : option (list N) :=
  match bs with
  | [] => Some []
  | a :: b :: c :: d :: rest =>
    x ← base64_value a; y ← base64_value b;
    let first := (x * 4 + y / 16)%N in
    if (c =? 61)%N && (d =? 61)%N then
      match rest with [] => Some [first] | _ => None end
    else
      z ← base64_value c;
      let second := (y mod 16 * 16 + z / 4)%N in
      if (d =? 61)%N then
        match rest with [] => Some [first; second] | _ => None end
      else
        w ← base64_value d;
        tail ← base64_quanta rest;
        Some (first :: second :: (z mod 4 * 64 + w)%N :: tail)
  | _ => None
  end.

(** Carriage returns and newlines are skipped. *)
Definition base64_decode (s : string) : option (list N) :=
  base64_quanta (List.filter (fun b => negb ((b =? 10)%N || (b =? 13)%N)) (bytes_of s)).

(** ** ASCII tests on runes and on bytes *)

Lemma length_bytes_of s : length (bytes_of s) = String.length s.
Proof. induction s; simpl; auto. Qed.

Lemma bytes_of_inj s t : bytes_of s = bytes_of t -> s = t.
Proof.
  revert t. induction s as [|c s IH]; destruct t as [|d t]; simpl; intros H; try done.
  injection H as Hc Hs. f_equal; [|by apply IH].
  rewrite <- (ascii_N_embedding c), <- (ascii_N_embedding d). unfold byte_of in Hc. by rewrite Hc.
Qed.

Lemma bytes_of_substring n m s : bytes_of (String.substring n m s) = take m (drop n (bytes_of s)).
Proof.
  revert n m. induction s as [|c s IH]; intros n m; destruct n, m; simpl; try done.
  by rewrite IH.
Qed.

(** A byte of a longer encoding never decodes to an ASCII rune. *)
Lemma decode_rune_ascii b0 bs :
  (b0 <? 0x80)%N = false -> (0x80 <= fst (decode_rune (b0 :: bs)))%N.
Proof.
  intros H%N.ltb_ge. unfold decode_rune, RuneError, between. rewrite (proj2 (N.ltb_ge _ _) H).
  repeat case_match; simpl;
    repeat match goal with
    | G : _ && _ = true |- _ => apply andb_prop in G as [? ?]
    | G : (_ <=? _)%N = true |- _ => apply N.leb_le in G
    | G : (_ =? _)%N = true |- _ => apply N.eqb_eq in G
    | G : (_ =? _)%N = false |- _ => apply N.eqb_neq in G
    end; lia.
Qed.

(** A test that holds of ASCII runes only can be made byte by byte. *)
Lemma forallb_runes_fuel (f : N -> bool) fuel bs :
  (forall r, f r = true -> (r < 0x80)%N) -> (length bs <= fuel)%nat ->
  forallb (fun '(r, _) => f r) (runes_fuel fuel bs) = forallb f bs.
Proof.
  intros Hf. revert bs. induction fuel as [|fuel IH]; intros bs Hlen; destruct bs as [|b bs]; simpl in Hlen; try done; try lia.
  cbn [runes_fuel]. destruct (b <? 0x80)%N eqn:E.
  - assert (decode_rune (b :: bs) = (b, 1%nat)) as -> by (unfold decode_rune; by rewrite E).
    simpl. rewrite drop_0, IH by lia. done.
  - pose proof (decode_rune_ascii b bs E) as Hr. destruct (decode_rune (b :: bs)) as [r w]. simpl in *.
    assert (f r = false) as -> by (destruct (f r) eqn:Er; [apply Hf in Er; lia|done]).
    apply N.ltb_ge in E. assert (f b = false) as -> by (destruct (f b) eqn:Eb; [apply Hf in Eb; lia|done]). done.
Qed.

Lemma forallb_runes (f : N -> bool) s :
  (forall r, f r = true -> (r < 0x80)%N) -> forallb (fun '(r, _) => f r) (runes s) = forallb f (bytes_of s).
Proof. intros Hf. unfold runes. by apply forallb_runes_fuel. Qed.
