(* ===== verification/Sha256.v ===== *)
(** * SHA-256 (crypto/sha256), executable

    [sha256_sum] maps a byte string to its 32 digest bytes; [sha256_digest] is
    the text form ["sha256:" + hex] that every digest of the kernel has. *)
From S2P Require Import Prelude GoBase.
#[local] Open Scope N_scope.

Definition w32 (x : N) : N := N.land x 0xFFFFFFFF.
Definition rotr (n x : N) : N := N.lor (N.shiftr x n) (w32 (N.shiftl x (32 - n))).

Definition small_sigma0 (x : N) : N := N.lxor (N.lxor (rotr 7 x) (rotr 18 x)) (N.shiftr x 3).
Definition small_sigma1 (x : N) : N := N.lxor (N.lxor (rotr 17 x) (rotr 19 x)) (N.shiftr x 10).
Definition big_sigma0 (x : N) : N := N.lxor (N.lxor (rotr 2 x) (rotr 13 x)) (rotr 22 x).
Definition big_sigma1 (x : N) : N := N.lxor (N.lxor (rotr 6 x) (rotr 11 x)) (rotr 25 x).
Definition choose (x y z : N) : N := N.lxor (N.land x y) (N.land (N.lxor x 0xFFFFFFFF) z).
Definition majority (x y z : N) : N := N.lxor (N.lxor (N.land x y) (N.land x z)) (N.land y z).

(** FIPS 180-4 takes its constants from the primes: the first 32 bits of the
    fractional parts of their cube roots (rounds) and square roots (initial
    state).  They are computed from that, once. *)
Definition is_prime (n : N) : bool :=
  forallb (fun d => negb (n mod N.of_nat d =? 0)) (seq 2 (N.to_nat n - 2)).

Definition primes : list N := List.filter is_prime (map N.of_nat (seq 2 310)).

(** The integer cube root, one bit at a time from bit [n - 1] down. *)
Fixpoint cube_root (n : nat) (x root : N) : N :=
  match n with
  | O => root
  | S n' =>
    let next := root + N.shiftl 1 (N.of_nat n') in
    cube_root n' x (if next * next * next <=? x then next else root)
  end.

Definition round_constants : list N :=
  Eval vm_compute in map (fun p => w32 (cube_root 36 (N.shiftl p 96) 0)) primes.

Definition words8 : Type := N * N * N * N * N * N * N * N.

Definition root_word (i : nat) : N := w32 (N.sqrt (N.shiftl (nth i primes 0) 64)).

Definition initial_state : words8 :=
  Eval vm_compute in
    (root_word 0, root_word 1, root_word 2, root_word 3, root_word 4, root_word 5, root_word 6, root_word 7).

(** The rounds of one block; [w] is the sliding window of sixteen message
    schedule words. *)
Fixpoint rounds (ks w : list N) (s : words8) : words8 :=
  match ks, w with
  | k :: ks', w0 :: w' =>
    let '(a, b, c, d, e, f, g, h) := s in
    let t1 := w32 (h + big_sigma1 e + choose e f g + k + w0) in
    let t2 := big_sigma0 a + majority a b c in
    let wn := w32 (small_sigma1 (nth 13 w' 0) + nth 8 w' 0 + small_sigma0 (nth 0 w' 0) + w0) in
    rounds ks' (w' ++ [wn]) (w32 (t1 + t2), a, b, c, w32 (d + t1), e, f, g)
  | _, _ => s
  end.

Definition compress (s : words8) (block : list N) : words8 :=
  let '(a, b, c, d, e, f, g, h) := s in
  let '(a', b', c', d', e', f', g', h') := rounds round_constants block s in
  (w32 (a + a'), w32 (b + b'), w32 (c + c'), w32 (d + d'),
   w32 (e + e'), w32 (f + f'), w32 (g + g'), w32 (h + h')).

Fixpoint words_of_bytes (bs : list N) : list N :=
  match bs with
  | b0 :: b1 :: b2 :: b3 :: r => (b0 * 16777216 + b1 * 65536 + b2 * 256 + b3) :: words_of_bytes r
  | _ => []
  end.

Fixpoint process (fuel : nat) (ws : list N) (s : words8) : words8 :=
  match fuel, ws with
  | S fuel', _ :: _ => process fuel' (drop 16 ws) (compress s (take 16 ws))
  | _, _ => s
  end.

(** The [n] low bytes of [x], most significant first. *)
Definition bytes_be (n : nat) (x : N) : list N :=
  map (fun i => N.land (N.shiftr x (8 * N.of_nat i)) 255) (rev (seq 0 n)).

Definition pad (m : list N) : list N :=
  let l := length m in
  m ++ [128] ++ replicate ((119 - l mod 64) mod 64) 0 ++ bytes_be 8 (8 * N.of_nat l).

Definition sha256_bytes (m : list N) : list N :=
  let ws := words_of_bytes (pad m) in
  let '(a, b, c, d, e, f, g, h) := process (length ws) ws initial_state in
  concat (map (bytes_be 4) [a; b; c; d; e; f; g; h]).

(** [sha256.Sum256([]byte(s))]. *)
Definition sha256_sum (s : string) : list N := sha256_bytes (bytes_of s).

(** ["sha256:" + hex.EncodeToString(sum[:])]. *)
Definition sha256_digest (s : string) : string := "sha256:" +:+ hex_encode (sha256_sum s).

Example sha256_abc :
  sha256_digest "abc" = "sha256:ba7816bf8f01cfea414140de5dae2223b00361a396177a9cb410ff61f20015ad".
Proof. vm_compute. reflexivity. Qed.

Example sha256_empty :
  sha256_digest "" = "sha256:e3b0c44298fc1c149afbf4c8996fb92427ae41e4649b934ca495991b7852b855".
Proof. vm_compute. reflexivity. Qed.

(** A message of two blocks. *)
Example sha256_two_blocks :
  sha256_digest "abcdbcdecdefdefgefghfghighijhijkijkljklmklmnlmnomnopnopq" =
  "sha256:248d6a61d20638b8e5c026930c3e6039a33ce45964ff2167f6ecedd419db06c1".
Proof. vm_compute. reflexivity. Qed.

(** ** The digest text is always well formed *)

Lemma length_bytes_be n x : length (bytes_be n x) = n.
Proof. unfold bytes_be. by rewrite length_map, length_rev, length_seq. Qed.

Lemma bytes_be_lt n x : Forall (fun b => b < 256) (bytes_be n x).
Proof.
  unfold bytes_be. apply Forall_forall. intros b (i & -> & _)%list_elem_of_fmap.
  change 255 with (N.ones 8). rewrite N.land_ones. by apply N.mod_lt.
Qed.

Lemma length_sha256_sum s : length (sha256_sum s) = 32%nat.
Proof.
  unfold sha256_sum, sha256_bytes. destruct (process _ _ _) as [[[[[[[a b] c] d] e] f] g] h].
  cbn [map concat]. by rewrite !length_app, !length_bytes_be.
Qed.

Lemma sha256_sum_lt s : Forall (fun b => b < 256) (sha256_sum s).
Proof.
  unfold sha256_sum, sha256_bytes. destruct (process _ _ _) as [[[[[[[a b] c] d] e] f] g] h].
  apply Forall_concat. repeat (constructor; [apply bytes_be_lt|]). constructor.
Qed.
