(* ===== verification/Json.v ===== *)
(** * JSON values and struct codecs (encoding/json)

    A [json.RawMessage] is modelled by its syntax tree.  Strings and numbers keep
    their source lexeme, so the tree determines the compact text the encoder
    writes.  Text that is not exactly one JSON value is [RawInvalid].

    A struct type is described once, by its table of fields; [json.Marshal] and
    the strict decoder are both derived from the table. *)
From S2P Require Import Prelude GoBase Sha256.
From Stdlib Require Import DecimalString DecimalZ Ascii.

Inductive json :=
  | JNull
  | JBool (b : bool)
  | JNumber (lexeme : string)
  | JString (lexeme : string)
  | JArray (l : list json)
  | JObject (l : list (string * json)).

Inductive RawMessage :=
  | RawEmpty
  | RawInvalid
  | RawJSON (j : json).

(** ** String lexemes *)

Definition quote_char : ascii := char_of 34.
Definition backslash : ascii := char_of 92.

(** [\u00xx] and friends: the four hexadecimal digits of a code unit. *)
Definition unicode_escape (r : N) : string :=
  String backslash (String "u"%char (hex_encode [(r / 256)%N; (r mod 256)%N])).

(** The escape of one ASCII byte ([appendString] with HTML escaping). *)
Definition escape_ascii (b : N) : string :=
  if (b =? 34)%N || (b =? 92)%N then String backslash (String (char_of b) EmptyString)
  else if (b =? 8)%N then String backslash "b"
  else if (b =? 12)%N then String backslash "f"
  else if (b =? 10)%N then String backslash "n"
  else if (b =? 13)%N then String backslash "r"
  else if (b =? 9)%N then String backslash "t"
  else if (b <? 32)%N || (b =? 60)%N || (b =? 62)%N || (b =? 38)%N then unicode_escape b
  else String (char_of b) EmptyString.

(** The lexeme, without its quotes, that Go writes for a string. *)
Fixpoint escape_fuel (fuel : nat) (bs : list N) : string :=
  match fuel, bs with
  | S fuel', b :: _ =>
    let '(r, w) := decode_rune bs in
    (if (b <? 0x80)%N then escape_ascii b
     else if (r =? RuneError)%N && (w =? 1)%nat then unicode_escape RuneError
     else if (r =? 0x2028)%N || (r =? 0x2029)%N then unicode_escape r
     else string_of_bytes (take w bs)) +:+ escape_fuel fuel' (drop w bs)
  | _, _ => EmptyString
  end.

Definition escape (s : string) : string :=
  let bs := bytes_of s in escape_fuel (length bs) bs.

(** UTF-8 encoding of a rune ([utf8.AppendRune]). *)
Definition encode_rune (r : N) : list N :=
  (if r <? 0x80 then [r]
   else if r <? 0x800 then [0xC0 + r / 64; 0x80 + r mod 64]
   else if r <? 0x10000 then [0xE0 + r / 4096; 0x80 + r / 64 mod 64; 0x80 + r mod 64]
   else [0xF0 + r / 262144; 0x80 + r / 4096 mod 64; 0x80 + r / 64 mod 64; 0x80 + r mod 64])%N.

Definition hex_value (b : N) : option N :=
  if between 48 b 57 then Some (b - 48)%N
  else if between 97 b 102 then Some (b - 87)%N
  else if between 65 b 70 then Some (b - 55)%N
  else None.

(** The code unit of [uXXXX], after the backslash. *)
Definition read_u4 (bs : list N) : option (N * list N) :=
  match bs with
  | 117%N :: a :: b :: c :: d :: rest =>
    a ← hex_value a; b ← hex_value b; c ← hex_value c; d ← hex_value d;
    Some ((a * 4096 + b * 256 + c * 16 + d)%N, rest)
  | _ => None
  end.

Definition surrogate (r : N) : bool := between 0xD800 r 0xDFFF.

(** The rune of an escape and what follows it; a high surrogate followed by an
    escaped low one is one rune, any other surrogate is [RuneError]. *)
Definition read_escape (bs : list N) : option (N * list N) :=
  match bs with
  | 34%N :: r => Some (34%N, r)
  | 92%N :: r => Some (92%N, r)
  | 47%N :: r => Some (47%N, r)
  | 98%N :: r => Some (8%N, r)
  | 102%N :: r => Some (12%N, r)
  | 110%N :: r => Some (10%N, r)
  | 114%N :: r => Some (13%N, r)
  | 116%N :: r => Some (9%N, r)
  | _ =>
    u ← read_u4 bs;
    if surrogate (fst u) then
      match snd u with
      | 92%N :: rest =>
        match read_u4 rest with
        | Some (lo, rest') =>
          if between 0xD800 (fst u) 0xDBFF && between 0xDC00 lo 0xDFFF
          then Some ((0x10000 + (fst u - 0xD800) * 1024 + (lo - 0xDC00))%N, rest')
          else Some (RuneError, snd u)
        | None => Some (RuneError, snd u)
        end
      | _ => Some (RuneError, snd u)
      end
    else Some u
  end.

(** [unquote]: the string a lexeme stands for. *)
Fixpoint unquote_fuel (fuel : nat) (bs : list N) : option (list N) :=
  match fuel, bs with
  | _, [] => Some []
  | O, _ => None
  | S fuel', b :: rest =>
    if (b =? 92)%N then
      e ← read_escape rest;
      tail ← unquote_fuel fuel' (snd e);
      Some (encode_rune (fst e) ++ tail)
    else
      let '(r, w) := decode_rune bs in
      tail ← unquote_fuel fuel' (drop w bs);
      Some (encode_rune r ++ tail)
  end.

Definition unquote (s : string) : option string :=
  let bs := bytes_of s in string_of_bytes <$> unquote_fuel (length bs) bs.

(** ** Printing: the compact text, HTML characters escaped *)

(** [compact] rewrites [<], [>], [&] and U+2028/9 inside string lexemes. *)
Fixpoint compact_fuel (fuel : nat) (bs : list N) : string :=
  match fuel, bs with
  | S fuel', b :: rest =>
    if (b =? 60)%N || (b =? 62)%N || (b =? 38)%N then unicode_escape b +:+ compact_fuel fuel' rest
    else match bs with
    | 226%N :: 128%N :: c :: rest' =>
      if (c =? 168)%N || (c =? 169)%N
      then unicode_escape (0x2028 + (c - 168))%N +:+ compact_fuel fuel' rest'
      else String (char_of b) (compact_fuel fuel' rest)
    | _ => String (char_of b) (compact_fuel fuel' rest)
    end
  | _, _ => EmptyString
  end.

Definition compact (lexeme : string) : string :=
  let bs := bytes_of lexeme in compact_fuel (length bs) bs.

Definition quoted (lexeme : string) : string :=
  String quote_char (compact lexeme +:+ String quote_char EmptyString).

Fixpoint join (sep : string) (l : list string) : string :=
  match l with
  | [] => ""
  | [x] => x
  | x :: l' => x +:+ sep +:+ join sep l'
  end.

Fixpoint print_json (j : json) : string :=
  match j with
  | JNull => "null"
  | JBool b => if b then "true" else "false"
  | JNumber s => s
  | JString s => quoted s
  | JArray l => "[" +:+ join "," (map print_json l) +:+ "]"
  | JObject l => "{" +:+ join "," (map (fun '(k, v) => quoted k +:+ ":" +:+ print_json v) l) +:+ "}"
  end.

(** ** Codecs *)

(** A decoding failure: an unknown field, or a value of another type. *)
Inductive decode_error := DecodeUnknownField | DecodeType.

Inductive decoded (A : Type) :=
  | Decoded (value : A)
  | DecodeFails (e : decode_error).
Arguments Decoded {A} value.
Arguments DecodeFails {A} e.

Definition dbind {A B} (c : decoded A) (k : A -> decoded B) : decoded B :=
  match c with Decoded x => k x | DecodeFails e => DecodeFails e end.

(** [encode] is [None] where [json.Marshal] fails; [decode] stores into an
    existing value, as [json.Unmarshal] does; [is_empty] is the [omitempty]
    test; [zero] is the Go zero value. *)
Record Codec (T : Type) := mkCodec {
  encode : T -> option json;
  decode : json -> T -> decoded T;
  is_empty : T -> bool;
  zero : T;
}.
Arguments encode {T} c. Arguments decode {T} c.
Arguments is_empty {T} c. Arguments zero {T} c.

Definition string_codec : Codec string := {|
  encode s := Some (JString (escape s));
  decode j cur := match j with
    | JNull => Decoded cur
    | JString l => match unquote l with Some s => Decoded s | None => DecodeFails DecodeType end
    | _ => DecodeFails DecodeType
    end;
  is_empty s := bool_decide (s = EmptyString);
  zero := EmptyString;
|}.

(** A string-kinded enumeration, through its text. *)
Definition enum_codec {T} (to_string : T -> string) (of_string : string -> T) : Codec T := {|
  encode x := encode string_codec (to_string x);
  decode j cur := dbind (decode string_codec j (to_string cur)) (fun s => Decoded (of_string s));
  is_empty x := is_empty string_codec (to_string x);
  zero := of_string EmptyString;
|}.

(** [strconv.ParseInt(lexeme, 10, 64)]. *)
Definition parse_int64 (lexeme : string) : option Z :=
  z ← Z.of_int <$> NilZero.int_of_string lexeme;
  if (- 2 ^ 63 <=? z) && (z <=? MaxInt64) then Some z else None.

Definition int64_codec : Codec Z := {|
  encode z := Some (JNumber (decimal z));
  decode j cur := match j with
    | JNull => Decoded cur
    | JNumber l => match parse_int64 l with Some z => Decoded z | None => DecodeFails DecodeType end
    | _ => DecodeFails DecodeType
    end;
  is_empty z := z =? 0;
  zero := 0;
|}.

Definition bool_codec : Codec bool := {|
  encode b := Some (JBool b);
  decode j cur := match j with
    | JNull => Decoded cur
    | JBool b => Decoded b
    | _ => DecodeFails DecodeType
    end;
  is_empty b := negb b;
  zero := false;
|}.

Definition time_codec : Codec Time := {|
  encode t := JString <$> format_rfc3339 t;
  decode j cur := match j with
    | JNull => Decoded cur
    | JString l => match parse_rfc3339 l with Some t => Decoded t | None => DecodeFails DecodeType end
    | _ => DecodeFails DecodeType
    end;
  is_empty _ := false;
  zero := zero_time;
|}.

(** [json.RawMessage]: an empty one marshals as null, an invalid one fails. *)
Definition raw_codec : Codec RawMessage := {|
  encode r := match r with RawEmpty => Some JNull | RawInvalid => None | RawJSON j => Some j end;
  decode j _ := Decoded (RawJSON j);
  is_empty r := match r with RawEmpty => true | _ => false end;
  zero := RawEmpty;
|}.

Fixpoint encode_all {T} (c : Codec T) (l : list T) : option (list json) :=
  match l with
  | [] => Some []
  | x :: l' => j ← encode c x; js ← encode_all c l'; Some (j :: js)
  end.

(** Array elements are stored over the elements already there. *)
Fixpoint decode_all {T} (c : Codec T) (js : list json) (cur : list T) : decoded (list T) :=
  match js with
  | [] => Decoded []
  | j :: js' =>
    dbind (decode c j (default (zero c) (head cur))) (fun x =>
    dbind (decode_all c js' (tail cur)) (fun l => Decoded (x :: l)))
  end.

Definition slice_codec {T} (c : Codec T) : Codec (slice T) := {|
  encode s := match s with SNil => Some JNull | SList l => JArray <$> encode_all c l end;
  decode j cur := match j with
    | JNull => Decoded SNil
    | JArray js => dbind (decode_all c js (elems cur)) (fun l => Decoded (SList l))
    | _ => DecodeFails DecodeType
    end;
  is_empty s := match elems s with [] => true | _ => false end;
  zero := SNil;
|}.

(** A pointer: decoding allocates a zero value when it is nil. *)
Definition pointer_codec {T} (c : Codec T) : Codec (option T) := {|
  encode o := match o with None => Some JNull | Some x => encode c x end;
  decode j cur := match j with
    | JNull => Decoded None
    | _ => dbind (decode c j (default (zero c) cur)) (fun x => Decoded (Some x))
    end;
  is_empty o := match o with None => true | Some _ => false end;
  zero := None;
|}.

(** ** Struct codecs *)

Record Field (R : Type) := mkField {
  field_name : string;
  field_omitted : R -> bool;
  field_encode : R -> option json;
  field_decode : json -> R -> decoded R;
}.
Arguments field_name {R} f. Arguments field_omitted {R} f.
Arguments field_encode {R} f. Arguments field_decode {R} f.

Definition make_field {R T} (omitempty : bool) (name : string) (c : Codec T)
    (get : R -> T) (update : (T -> T) -> R -> R) : Field R := {|
  field_name := name;
  field_omitted r := omitempty && is_empty c (get r);
  field_encode r := encode c (get r);
  field_decode j r := dbind (decode c j (get r)) (fun v => Decoded (update (fun _ => v) r));
|}.

(** [`json:"name"`] and [`json:"name,omitempty"`]. *)
Notation "name ':-' c 'at' f" := (make_field false name c f (field_update f))
  (at level 70, c at level 60, f at level 60) : kernel_scope.
Notation "name ':-?' c 'at' f" := (make_field true name c f (field_update f))
  (at level 70, c at level 60, f at level 60) : kernel_scope.

Fixpoint encode_fields {R} (fs : list (Field R)) (r : R) : option (list (string * json)) :=
  match fs with
  | [] => Some []
  | f :: fs' =>
    if field_omitted f r then encode_fields fs' r
    else j ← field_encode f r; kvs ← encode_fields fs' r; Some ((field_name f, j) :: kvs)
  end.

(** Case folding of a field name ([foldName]): ASCII letters, the long s and the
    Kelvin sign. *)
Fixpoint fold_name (bs : list N) : list N :=
  match bs with
  | [] => []
  | 0xC5%N :: 0xBF%N :: r => 83%N :: fold_name r
  | 0xE2%N :: 0x84%N :: 0xAA%N :: r => 75%N :: fold_name r
  | b :: r => (if between 97 b 122 then b - 32 else b)%N :: fold_name r
  end.

(** The field a key selects: an exact match first, else the first field whose
    folded name agrees. *)
Definition find_field {R} (fs : list (Field R)) (key : string) : option (Field R) :=
  match List.find (fun f => bool_decide (field_name f = key)) fs with
  | Some f => Some f
  | None => List.find (fun f => bool_decide (fold_name (bytes_of (field_name f)) = fold_name (bytes_of key))) fs
  end.

(** Key by key in the order of the text; an unknown key is an error
    ([DisallowUnknownFields]). *)
Fixpoint decode_fields {R} (fs : list (Field R)) (kvs : list (string * json)) (r : R) : decoded R :=
  match kvs with
  | [] => Decoded r
  | (k, j) :: kvs' =>
    match unquote k with
    | None => DecodeFails DecodeType
    | Some key =>
      match find_field fs key with
      | None => DecodeFails DecodeUnknownField
      | Some f => dbind (field_decode f j r) (fun r' => decode_fields fs kvs' r')
      end
    end
  end.

Definition struct_codec {R} (fs : list (Field R)) (zero_value : R) : Codec R := {|
  encode r := JObject <$> encode_fields fs r;
  decode j cur := match j with
    | JNull => Decoded cur
    | JObject kvs => decode_fields fs kvs cur
    | _ => DecodeFails DecodeType
    end;
  is_empty _ := false;
  zero := zero_value;
|}.

(** ** json.Marshal, its digest, and the strict decoder *)

Definition Marshal {T} (c : Codec T) (x : T) : option RawMessage := RawJSON <$> encode c x.

(** [digestJSON] of transaction/digest.go, shared by every content digest. *)
Definition digestJSON {T} (c : Codec T) (x : T) : option string :=
  j ← encode c x; Some (sha256_digest (print_json j)).

(** [model.DecodeStrict] (decode.go). *)
Definition DecodeStrict {T} (c : Codec T) (data : RawMessage) : result T :=
  match data with
  | RawJSON j =>
    match decode c j (zero c) with
    | Decoded x => Ok x
    | DecodeFails DecodeUnknownField => Err (newError ErrorUnknownField "decode" "" "")
    | DecodeFails DecodeType => Err (newError ErrorSchemaInvalid "decode" "" "")
    end
  | _ => Err (newError ErrorSchemaInvalid "decode" "" "")
  end.

(** ** What a decoder preserves *)

(** The zero value has [P], and decoding over a value with [P] gives one. *)
Definition decodes_to {T} (c : Codec T) (P : T -> Prop) : Prop :=
  P (zero c) /\ forall j cur v, P cur -> decode c j cur = Decoded v -> P v.

Lemma DecodeStrict_decodes_to {T} (c : Codec T) (P : T -> Prop) data v :
  decodes_to c P -> DecodeStrict c data = Ok v -> P v.
Proof.
  intros [Hz Hd] H. unfold DecodeStrict in H. destruct data; try done.
  destruct (decode c j (zero c)) as [x|[]] eqn:E; simplify_eq. by eapply Hd.
Qed.

Lemma int64_decodes_to : decodes_to int64_codec int64_range.
Proof.
  split; [unfold int64_range, MaxInt64; simpl; lia|]. intros j cur v Hcur Hv. simpl in Hv.
  destruct j; simplify_eq; [done|]. destruct (parse_int64 lexeme) as [z|] eqn:E; simplify_eq.
  unfold parse_int64 in E. destruct (Z.of_int <$> _) as [z|]; simpl in E; [|done].
  destruct ((- 2 ^ 63 <=? z) && _) eqn:Er; simplify_eq. unfold int64_range. lia.
Qed.

(** A field over which decoding keeps [P]. *)
Definition field_keeps {R} (P : R -> Prop) (f : Field R) : Prop :=
  forall j r r', P r -> field_decode f j r = Decoded r' -> P r'.

Lemma make_field_keeps {R T} (P : R -> Prop) omitempty name (c : Codec T) (get : R -> T) update :
  (forall r v, P r -> (exists j, decode c j (get r) = Decoded v) -> P (update (fun _ => v) r)) ->
  field_keeps P (make_field omitempty name c get update).
Proof.
  intros HP j r r' Hr H. simpl in H. destruct (decode c j (get r)) as [v|] eqn:E; simplify_eq/=. eauto.
Qed.

Lemma struct_decodes_to {R} (fs : list (Field R)) zero_value (P : R -> Prop) :
  P zero_value -> Forall (field_keeps P) fs -> decodes_to (struct_codec fs zero_value) P.
Proof.
  intros Hz Hfs. split; [done|]. intros j cur v Hcur Hv. simpl in Hv. destruct j; simplify_eq; [done|].
  revert cur Hcur Hv. induction l as [|[k j] kvs IH]; simpl; intros cur Hcur Hv; [by simplify_eq|].
  destruct (unquote k) as [key|]; [|done]. destruct (find_field fs key) as [f|] eqn:Ef; [|done].
  destruct (field_decode f j cur) as [r|] eqn:E; simpl in Hv; [|done]. eapply IH; [|exact Hv].
  assert (f ∈ fs) as Hin.
  { unfold find_field in Ef. destruct (List.find _ fs) as [g|] eqn:Eg in Ef; simplify_eq;
      [apply find_some in Eg as [Hin _]|apply find_some in Ef as [Hin _]]; by apply list_elem_of_In. }
  rewrite Forall_forall in Hfs. by eapply Hfs.
Qed.
