(* ===== verification/ModelTypes.v ===== *)
(** * Kernel resource types (internal/kernel/model/types.go)

    The string-kinded enumerations, the records and their JSON field tables.
    An enumeration keeps any other text it was decoded from in its [Other]
    constructor, because the Go type is an open string type. *)
From S2P Require Import Prelude GoBase Json.

Definition CapabilityGrantVersion : string := "gatemole.capability_grant.v0".
Definition ActionRequestVersion : string := "gatemole.action_request.v0".
Definition AgentRunVersion : string := "gatemole.agent_run.v0".
Definition RunEventVersion : string := "gatemole.run_event.v0".

Inductive PrincipalKind :=
  | PrincipalHuman | PrincipalService | PrincipalAgent | PrincipalRun | PrincipalOperator
  | PrincipalKindOther (text : string).

#[export] Instance PrincipalKind_eq_dec : EqDecision PrincipalKind.
Proof. solve_decision. Defined.

Definition PrincipalKind_text (x : PrincipalKind) : string :=
  match x with
  | PrincipalHuman => "human"
  | PrincipalService => "service"
  | PrincipalAgent => "agent"
  | PrincipalRun => "run"
  | PrincipalOperator => "operator"
  | PrincipalKindOther s => s
  end.

Definition PrincipalKind_of_text (s : string) : PrincipalKind :=
  if s ==? "human" then PrincipalHuman else
  if s ==? "service" then PrincipalService else
  if s ==? "agent" then PrincipalAgent else
  if s ==? "run" then PrincipalRun else
  if s ==? "operator" then PrincipalOperator else
  PrincipalKindOther s.

Definition PrincipalKind_codec : Codec PrincipalKind := enum_codec PrincipalKind_text PrincipalKind_of_text.

Inductive RunState :=
  | RunCreated | RunAdmitted | RunRunning | RunWaitingForEvent | RunWaitingForAgent
  | RunWaitingForApproval | RunBlocked | RunFailed | RunCancelled | RunCompleted
  | RunStateOther (text : string).

#[export] Instance RunState_eq_dec : EqDecision RunState.
Proof. solve_decision. Defined.

Definition RunState_text (x : RunState) : string :=
  match x with
  | RunCreated => "created"
  | RunAdmitted => "admitted"
  | RunRunning => "running"
  | RunWaitingForEvent => "waiting_for_event"
  | RunWaitingForAgent => "waiting_for_agent"
  | RunWaitingForApproval => "waiting_for_approval"
  | RunBlocked => "blocked"
  | RunFailed => "failed"
  | RunCancelled => "cancelled"
  | RunCompleted => "completed"
  | RunStateOther s => s
  end.

Definition RunState_of_text (s : string) : RunState :=
  if s ==? "created" then RunCreated else
  if s ==? "admitted" then RunAdmitted else
  if s ==? "running" then RunRunning else
  if s ==? "waiting_for_event" then RunWaitingForEvent else
  if s ==? "waiting_for_agent" then RunWaitingForAgent else
  if s ==? "waiting_for_approval" then RunWaitingForApproval else
  if s ==? "blocked" then RunBlocked else
  if s ==? "failed" then RunFailed else
  if s ==? "cancelled" then RunCancelled else
  if s ==? "completed" then RunCompleted else
  RunStateOther s.

Definition RunState_codec : Codec RunState := enum_codec RunState_text RunState_of_text.

Inductive PolicyDecisionKind :=
  | DecisionAllow | DecisionDeny | DecisionRequireApproval | DecisionConstrain | DecisionPause
  | DecisionTerminate
  | PolicyDecisionKindOther (text : string).

#[export] Instance PolicyDecisionKind_eq_dec : EqDecision PolicyDecisionKind.
Proof. solve_decision. Defined.

Definition PolicyDecisionKind_text (x : PolicyDecisionKind) : string :=
  match x with
  | DecisionAllow => "allow"
  | DecisionDeny => "deny"
  | DecisionRequireApproval => "require_approval"
  | DecisionConstrain => "constrain"
  | DecisionPause => "pause"
  | DecisionTerminate => "terminate"
  | PolicyDecisionKindOther s => s
  end.

Definition PolicyDecisionKind_of_text (s : string) : PolicyDecisionKind :=
  if s ==? "allow" then DecisionAllow else
  if s ==? "deny" then DecisionDeny else
  if s ==? "require_approval" then DecisionRequireApproval else
  if s ==? "constrain" then DecisionConstrain else
  if s ==? "pause" then DecisionPause else
  if s ==? "terminate" then DecisionTerminate else
  PolicyDecisionKindOther s.

Definition PolicyDecisionKind_codec : Codec PolicyDecisionKind := enum_codec PolicyDecisionKind_text PolicyDecisionKind_of_text.

Record Principal := mkPrincipal {
  Principal_ID : string;
  Principal_Kind : PrincipalKind;
  Principal_Issuer : string;
  Principal_ClaimsDigest : string;
}.

#[export] Instance Principal_eta : RecordEta Principal := fun r =>
  mkPrincipal (Principal_ID r) (Principal_Kind r) (Principal_Issuer r) (Principal_ClaimsDigest r).

#[export] Instance Principal_eq_dec : EqDecision Principal.
Proof. solve_decision. Defined.

Definition zero_Principal : Principal :=
  mkPrincipal "" (PrincipalKindOther "") "" "".

Definition Principal_fields : list (Field Principal) := [
  "id" :- string_codec at Principal_ID;
  "kind" :- PrincipalKind_codec at Principal_Kind;
  "issuer" :-? string_codec at Principal_Issuer;
  "claims_digest" :-? string_codec at Principal_ClaimsDigest].

Definition Principal_codec : Codec Principal := struct_codec Principal_fields zero_Principal.

Record ArtifactRef := mkArtifactRef {
  Ref_URI : string;
  Ref_Digest : string;
  Ref_MediaType : string;
}.

#[export] Instance ArtifactRef_eta : RecordEta ArtifactRef := fun r =>
  mkArtifactRef (Ref_URI r) (Ref_Digest r) (Ref_MediaType r).

#[export] Instance ArtifactRef_eq_dec : EqDecision ArtifactRef.
Proof. solve_decision. Defined.

Definition zero_ArtifactRef : ArtifactRef :=
  mkArtifactRef "" "" "".

Definition ArtifactRef_fields : list (Field ArtifactRef) := [
  "uri" :- string_codec at Ref_URI;
  "digest" :- string_codec at Ref_Digest;
  "media_type" :-? string_codec at Ref_MediaType].

Definition ArtifactRef_codec : Codec ArtifactRef := struct_codec ArtifactRef_fields zero_ArtifactRef.

Record ResourceSelector := mkResourceSelector {
  Selector_Kind : string;
  Selector_Pattern : string;
}.

#[export] Instance ResourceSelector_eta : RecordEta ResourceSelector := fun r =>
  mkResourceSelector (Selector_Kind r) (Selector_Pattern r).

#[export] Instance ResourceSelector_eq_dec : EqDecision ResourceSelector.
Proof. solve_decision. Defined.

Definition zero_ResourceSelector : ResourceSelector :=
  mkResourceSelector "" "".

Definition ResourceSelector_fields : list (Field ResourceSelector) := [
  "kind" :- string_codec at Selector_Kind;
  "pattern" :- string_codec at Selector_Pattern].

Definition ResourceSelector_codec : Codec ResourceSelector := struct_codec ResourceSelector_fields zero_ResourceSelector.

Record BudgetLimits := mkBudgetLimits {
  Limits_MaxInputTokens : option Z;
  Limits_MaxOutputTokens : option Z;
  Limits_MaxModelCalls : option Z;
  Limits_MaxToolCalls : option Z;
  Limits_MaxCostMicros : option Z;
  Limits_MaxWallTimeSeconds : option Z;
}.

#[export] Instance BudgetLimits_eta : RecordEta BudgetLimits := fun r =>
  mkBudgetLimits (Limits_MaxInputTokens r) (Limits_MaxOutputTokens r) (Limits_MaxModelCalls r)
    (Limits_MaxToolCalls r) (Limits_MaxCostMicros r) (Limits_MaxWallTimeSeconds r).

#[export] Instance BudgetLimits_eq_dec : EqDecision BudgetLimits.
Proof. solve_decision. Defined.

Definition zero_BudgetLimits : BudgetLimits :=
  mkBudgetLimits None None None None None None.

Definition BudgetLimits_fields : list (Field BudgetLimits) := [
  "max_input_tokens" :-? (pointer_codec int64_codec) at Limits_MaxInputTokens;
  "max_output_tokens" :-? (pointer_codec int64_codec) at Limits_MaxOutputTokens;
  "max_model_calls" :-? (pointer_codec int64_codec) at Limits_MaxModelCalls;
  "max_tool_calls" :-? (pointer_codec int64_codec) at Limits_MaxToolCalls;
  "max_cost_micros" :-? (pointer_codec int64_codec) at Limits_MaxCostMicros;
  "max_wall_time_seconds" :-? (pointer_codec int64_codec) at Limits_MaxWallTimeSeconds].

Definition BudgetLimits_codec : Codec BudgetLimits := struct_codec BudgetLimits_fields zero_BudgetLimits.

Record BudgetUsage := mkBudgetUsage {
  Usage_InputTokens : Z;
  Usage_OutputTokens : Z;
  Usage_ModelCalls : Z;
  Usage_ToolCalls : Z;
  Usage_CostMicros : Z;
  Usage_WallTimeSeconds : Z;
}.

#[export] Instance BudgetUsage_eta : RecordEta BudgetUsage := fun r =>
  mkBudgetUsage (Usage_InputTokens r) (Usage_OutputTokens r) (Usage_ModelCalls r) (Usage_ToolCalls r)
    (Usage_CostMicros r) (Usage_WallTimeSeconds r).

#[export] Instance BudgetUsage_eq_dec : EqDecision BudgetUsage.
Proof. solve_decision. Defined.

Definition zero_BudgetUsage : BudgetUsage :=
  mkBudgetUsage 0 0 0 0 0 0.

Definition BudgetUsage_fields : list (Field BudgetUsage) := [
  "input_tokens" :- int64_codec at Usage_InputTokens;
  "output_tokens" :- int64_codec at Usage_OutputTokens;
  "model_calls" :- int64_codec at Usage_ModelCalls;
  "tool_calls" :- int64_codec at Usage_ToolCalls;
  "cost_micros" :- int64_codec at Usage_CostMicros;
  "wall_time_seconds" :- int64_codec at Usage_WallTimeSeconds].

Definition BudgetUsage_codec : Codec BudgetUsage := struct_codec BudgetUsage_fields zero_BudgetUsage.

Record RuntimeBinding := mkRuntimeBinding {
  RuntimeBinding_Adapter : string;
  RuntimeBinding_AdapterVersion : string;
  RuntimeBinding_LeaseID : string;
  RuntimeBinding_LeaseExpiresAt : option Time;
}.

#[export] Instance RuntimeBinding_eta : RecordEta RuntimeBinding := fun r =>
  mkRuntimeBinding (RuntimeBinding_Adapter r) (RuntimeBinding_AdapterVersion r) (RuntimeBinding_LeaseID r)
    (RuntimeBinding_LeaseExpiresAt r).

Definition zero_RuntimeBinding : RuntimeBinding :=
  mkRuntimeBinding "" "" "" None.

Definition RuntimeBinding_fields : list (Field RuntimeBinding) := [
  "adapter" :- string_codec at RuntimeBinding_Adapter;
  "adapter_version" :- string_codec at RuntimeBinding_AdapterVersion;
  "lease_id" :-? string_codec at RuntimeBinding_LeaseID;
  "lease_expires_at" :-? (pointer_codec time_codec) at RuntimeBinding_LeaseExpiresAt].

Definition RuntimeBinding_codec : Codec RuntimeBinding := struct_codec RuntimeBinding_fields zero_RuntimeBinding.

Record CapabilityConditions := mkCapabilityConditions {
  Cond_ApprovalRequired : bool;
  Cond_WorkspaceRoot : string;
  Cond_EnvironmentAllow : slice string;
  Cond_DataClassifications : slice string;
  Cond_MaxOutputBytes : option Z;
}.

#[export] Instance CapabilityConditions_eta : RecordEta CapabilityConditions := fun r =>
  mkCapabilityConditions (Cond_ApprovalRequired r) (Cond_WorkspaceRoot r) (Cond_EnvironmentAllow r)
    (Cond_DataClassifications r) (Cond_MaxOutputBytes r).

Definition zero_CapabilityConditions : CapabilityConditions :=
  mkCapabilityConditions false "" SNil SNil None.

Definition CapabilityConditions_fields : list (Field CapabilityConditions) := [
  "approval_required" :-? bool_codec at Cond_ApprovalRequired;
  "workspace_root" :-? string_codec at Cond_WorkspaceRoot;
  "environment_allowlist" :-? (slice_codec string_codec) at Cond_EnvironmentAllow;
  "data_classifications" :-? (slice_codec string_codec) at Cond_DataClassifications;
  "max_output_bytes" :-? (pointer_codec int64_codec) at Cond_MaxOutputBytes].

Definition CapabilityConditions_codec : Codec CapabilityConditions := struct_codec CapabilityConditions_fields zero_CapabilityConditions.

Record CapabilityGrant := mkCapabilityGrant {
  Grant_Version : string;
  Grant_ID : string;
  Grant_SubjectRunID : string;
  Grant_Issuer : Principal;
  Grant_Resource : ResourceSelector;
  Grant_Operations : slice string;
  Grant_Conditions : CapabilityConditions;
  Grant_Delegable : bool;
  Grant_DelegationParentID : string;
  Grant_IssuedAt : Time;
  Grant_ExpiresAt : Time;
  Grant_RevokedAt : option Time;
  Grant_MaxUses : option Z;
  Grant_Uses : Z;
  Grant_PolicyDecisionID : string;
}.

#[export] Instance CapabilityGrant_eta : RecordEta CapabilityGrant := fun r =>
  mkCapabilityGrant (Grant_Version r) (Grant_ID r) (Grant_SubjectRunID r) (Grant_Issuer r) (Grant_Resource r)
    (Grant_Operations r) (Grant_Conditions r) (Grant_Delegable r) (Grant_DelegationParentID r)
    (Grant_IssuedAt r) (Grant_ExpiresAt r) (Grant_RevokedAt r) (Grant_MaxUses r) (Grant_Uses r)
    (Grant_PolicyDecisionID r).

Definition zero_CapabilityGrant : CapabilityGrant :=
  mkCapabilityGrant "" "" "" zero_Principal zero_ResourceSelector SNil zero_CapabilityConditions false "" zero_time
    zero_time None None 0 "".

Definition CapabilityGrant_fields : list (Field CapabilityGrant) := [
  "version" :- string_codec at Grant_Version;
  "id" :- string_codec at Grant_ID;
  "subject_run_id" :- string_codec at Grant_SubjectRunID;
  "issuer" :- Principal_codec at Grant_Issuer;
  "resource" :- ResourceSelector_codec at Grant_Resource;
  "operations" :- (slice_codec string_codec) at Grant_Operations;
  "conditions" :-? CapabilityConditions_codec at Grant_Conditions;
  "delegable" :- bool_codec at Grant_Delegable;
  "delegation_parent_id" :-? string_codec at Grant_DelegationParentID;
  "issued_at" :- time_codec at Grant_IssuedAt;
  "expires_at" :- time_codec at Grant_ExpiresAt;
  "revoked_at" :-? (pointer_codec time_codec) at Grant_RevokedAt;
  "max_uses" :-? (pointer_codec int64_codec) at Grant_MaxUses;
  "uses" :- int64_codec at Grant_Uses;
  "policy_decision_id" :- string_codec at Grant_PolicyDecisionID].

Definition CapabilityGrant_codec : Codec CapabilityGrant := struct_codec CapabilityGrant_fields zero_CapabilityGrant.

Record ActionRequest := mkActionRequest {
  Request_Version : string;
  Request_ID : string;
  Request_RunID : string;
  Request_Operation : string;
  Request_Resource : ResourceSelector;
  Request_Arguments : RawMessage;
  Request_ArgumentsDigest : string;
  Request_IdempotencyKey : string;
  Request_Intent : string;
  Request_CapabilityHint : string;
  Request_RequestedAt : Time;
  Request_ParentActionID : string;
  Request_Attempt : Z;
}.

#[export] Instance ActionRequest_eta : RecordEta ActionRequest := fun r =>
  mkActionRequest (Request_Version r) (Request_ID r) (Request_RunID r) (Request_Operation r) (Request_Resource r)
    (Request_Arguments r) (Request_ArgumentsDigest r) (Request_IdempotencyKey r) (Request_Intent r)
    (Request_CapabilityHint r) (Request_RequestedAt r) (Request_ParentActionID r)
    (Request_Attempt r).

Definition zero_ActionRequest : ActionRequest :=
  mkActionRequest "" "" "" "" zero_ResourceSelector RawEmpty "" "" "" "" zero_time "" 0.

Definition ActionRequest_fields : list (Field ActionRequest) := [
  "version" :- string_codec at Request_Version;
  "id" :- string_codec at Request_ID;
  "run_id" :- string_codec at Request_RunID;
  "operation" :- string_codec at Request_Operation;
  "resource" :- ResourceSelector_codec at Request_Resource;
  "arguments" :- raw_codec at Request_Arguments;
  "arguments_digest" :- string_codec at Request_ArgumentsDigest;
  "idempotency_key" :- string_codec at Request_IdempotencyKey;
  "intent" :- string_codec at Request_Intent;
  "capability_hint" :-? string_codec at Request_CapabilityHint;
  "requested_at" :- time_codec at Request_RequestedAt;
  "parent_action_id" :-? string_codec at Request_ParentActionID;
  "attempt" :-? int64_codec at Request_Attempt].

Definition ActionRequest_codec : Codec ActionRequest := struct_codec ActionRequest_fields zero_ActionRequest.

Record RunEvent := mkRunEvent {
  RunEvent_Version : string;
  RunEvent_ID : string;
  RunEvent_RunID : string;
  RunEvent_Sequence : Z;
  RunEvent_Type : string;
  RunEvent_Actor : Principal;
  RunEvent_OccurredAt : Time;
  RunEvent_Payload : RawMessage;
  RunEvent_Artifacts : slice ArtifactRef;
  RunEvent_PolicyDecisionID : string;
  RunEvent_PreviousDigest : string;
  RunEvent_Digest : string;
}.

#[export] Instance RunEvent_eta : RecordEta RunEvent := fun r =>
  mkRunEvent (RunEvent_Version r) (RunEvent_ID r) (RunEvent_RunID r) (RunEvent_Sequence r) (RunEvent_Type r)
    (RunEvent_Actor r) (RunEvent_OccurredAt r) (RunEvent_Payload r) (RunEvent_Artifacts r)
    (RunEvent_PolicyDecisionID r) (RunEvent_PreviousDigest r) (RunEvent_Digest r).

Definition zero_RunEvent : RunEvent :=
  mkRunEvent "" "" "" 0 "" zero_Principal zero_time RawEmpty SNil "" "" "".

Definition RunEvent_fields : list (Field RunEvent) := [
  "version" :- string_codec at RunEvent_Version;
  "id" :- string_codec at RunEvent_ID;
  "run_id" :- string_codec at RunEvent_RunID;
  "sequence" :- int64_codec at RunEvent_Sequence;
  "type" :- string_codec at RunEvent_Type;
  "actor" :- Principal_codec at RunEvent_Actor;
  "occurred_at" :- time_codec at RunEvent_OccurredAt;
  "payload" :- raw_codec at RunEvent_Payload;
  "artifacts" :-? (slice_codec ArtifactRef_codec) at RunEvent_Artifacts;
  "policy_decision_id" :-? string_codec at RunEvent_PolicyDecisionID;
  "previous_digest" :-? string_codec at RunEvent_PreviousDigest;
  "digest" :- string_codec at RunEvent_Digest].

Definition RunEvent_codec : Codec RunEvent := struct_codec RunEvent_fields zero_RunEvent.

Record AgentRun := mkAgentRun {
  Run_Version : string;
  Run_ID : string;
  Run_Namespace : string;
  Run_ImageDigest : string;
  Run_ContractDigest : string;
  Run_Principal : Principal;
  Run_DelegationChain : slice Principal;
  Run_ParentRunID : string;
  Run_State : RunState;
  Run_StateReason : string;
  Run_Priority : Z;
  Run_Deadline : option Time;
  Run_BudgetLimits : BudgetLimits;
  Run_BudgetUsage : BudgetUsage;
  Run_Workspace : string;
  Run_Runtime : option RuntimeBinding;
  Run_ActiveExecutionID : string;
  Run_CapabilityIDs : slice string;
  Run_CheckpointID : string;
  Run_OutstandingApprovalIDs : slice string;
  Run_EventSequence : Z;
  Run_CreatedAt : Time;
  Run_UpdatedAt : Time;
  Run_CompletedAt : option Time;
}.

#[export] Instance AgentRun_eta : RecordEta AgentRun := fun r =>
  mkAgentRun (Run_Version r) (Run_ID r) (Run_Namespace r) (Run_ImageDigest r) (Run_ContractDigest r)
    (Run_Principal r) (Run_DelegationChain r) (Run_ParentRunID r) (Run_State r) (Run_StateReason r)
    (Run_Priority r) (Run_Deadline r) (Run_BudgetLimits r) (Run_BudgetUsage r) (Run_Workspace r)
    (Run_Runtime r) (Run_ActiveExecutionID r) (Run_CapabilityIDs r) (Run_CheckpointID r)
    (Run_OutstandingApprovalIDs r) (Run_EventSequence r) (Run_CreatedAt r) (Run_UpdatedAt r)
    (Run_CompletedAt r).

Definition zero_AgentRun : AgentRun :=
  mkAgentRun "" "" "" "" "" zero_Principal SNil "" (RunStateOther "") "" 0 None zero_BudgetLimits
    zero_BudgetUsage "" None "" SNil "" SNil 0 zero_time zero_time None.

Definition AgentRun_fields : list (Field AgentRun) := [
  "version" :- string_codec at Run_Version;
  "id" :- string_codec at Run_ID;
  "namespace" :- string_codec at Run_Namespace;
  "image_digest" :- string_codec at Run_ImageDigest;
  "contract_digest" :- string_codec at Run_ContractDigest;
  "principal" :- Principal_codec at Run_Principal;
  "delegation_chain" :- (slice_codec Principal_codec) at Run_DelegationChain;
  "parent_run_id" :-? string_codec at Run_ParentRunID;
  "state" :- RunState_codec at Run_State;
  "state_reason" :-? string_codec at Run_StateReason;
  "priority" :-? int64_codec at Run_Priority;
  "deadline" :-? (pointer_codec time_codec) at Run_Deadline;
  "budget_limits" :- BudgetLimits_codec at Run_BudgetLimits;
  "budget_usage" :- BudgetUsage_codec at Run_BudgetUsage;
  "workspace" :-? string_codec at Run_Workspace;
  "runtime" :-? (pointer_codec RuntimeBinding_codec) at Run_Runtime;
  "active_execution_id" :-? string_codec at Run_ActiveExecutionID;
  "capability_ids" :- (slice_codec string_codec) at Run_CapabilityIDs;
  "checkpoint_id" :-? string_codec at Run_CheckpointID;
  "outstanding_approval_ids" :- (slice_codec string_codec) at Run_OutstandingApprovalIDs;
  "event_sequence" :- int64_codec at Run_EventSequence;
  "created_at" :- time_codec at Run_CreatedAt;
  "updated_at" :- time_codec at Run_UpdatedAt;
  "completed_at" :-? (pointer_codec time_codec) at Run_CompletedAt].

Definition AgentRun_codec : Codec AgentRun := struct_codec AgentRun_fields zero_AgentRun.

Definition RunState_Terminal (s : RunState) : bool :=
  match s with
  | RunFailed | RunCancelled | RunCompleted => true
  | _ => false
  end.
