(* ===== verification/ModelValidate.v ===== *)
(** * Shared validators (internal/kernel/model/validate.go)

    Identifier, digest, principal, selector and list checks, with the
    characterisation of each as a predicate on its argument. *)
From S2P Require Import Prelude GoBase Json ModelTypes.
From Stdlib Require Import Ascii.

Definition invalid (resource field : string) : KernelError :=
  newError ErrorSchemaInvalid "validate" resource field.

Definition identityInvalid (resource field : string) : KernelError :=
  newError ErrorIdentityInvalid "validate" resource field.

(** ** The three patterns *)

Definition is_lower (b : N) : bool := between 97 b 122.
Definition is_upper (b : N) : bool := between 65 b 90.
Definition is_digit (b : N) : bool := between 48 b 57.

(** [[A-Za-z0-9]] and [[A-Za-z0-9._:/-]]. *)
Definition identifier_start (b : N) : bool := is_upper b || is_lower b || is_digit b.
Definition identifier_char (b : N) : bool :=
  identifier_start b || (b =? 46)%N || (b =? 95)%N || (b =? 58)%N || (b =? 47)%N || (b =? 45)%N.

(** [^[A-Za-z0-9][A-Za-z0-9._:/-]{0,255}$]. *)
Definition IsIdentifier (value : string) : bool :=
  match bytes_of value with
  | [] => false
  | b :: rest => identifier_start b && forallb identifier_char rest && (length rest <=? 255)%nat
  end.

(** [[a-f0-9]]. *)
Definition hex_char (b : N) : bool := between 97 b 102 || is_digit b.

(** [^prefix[a-f0-9]{64}$]. *)
Definition hex64_after (prefix value : string) : bool :=
  let bs := bytes_of value in
  let n := String.length prefix in
  bool_decide (take n bs = bytes_of prefix) && (length (drop n bs) =? 64)%nat && forallb hex_char (drop n bs).

Definition IsSHA256Digest (value : string) : bool := hex64_after "sha256:" value.
Definition IsRuntimeID (value : string) : bool := hex64_after "runtime:" value.

Definition IsEnforcementProfile (value : string) : bool :=
  (value ==? "development") || (value ==? "production").

(** ** Field validators *)

Definition validateVersion (resource actual expected : string) : result unit :=
  reject_if actual !=? expected with invalid resource "version" ;; Ok tt.

Definition validateIdentifier (resource field value : string) : result unit :=
  reject_if negb (IsIdentifier value) with invalid resource field ;; Ok tt.

Definition validateDigest (resource field value : string) : result unit :=
  reject_if negb (IsSHA256Digest value) with invalid resource field ;; Ok tt.

Definition validatePrincipal (resource field : string) (principal : Principal) : result unit :=
  reject_if negb (IsIdentifier (Principal_ID principal)) with identityInvalid resource (field +:+ ".id") ;;
  match Principal_Kind principal with
  | PrincipalHuman | PrincipalService | PrincipalAgent | PrincipalRun | PrincipalOperator =>
    if Principal_ClaimsDigest principal !=? "" then
      validateDigest resource (field +:+ ".claims_digest") (Principal_ClaimsDigest principal)
    else Ok tt
  | PrincipalKindOther _ => Err (identityInvalid resource (field +:+ ".kind"))
  end.

Definition validateArtifactRef (resource field : string) (ref : ArtifactRef) : result unit :=
  reject_if blank (Ref_URI ref) with invalid resource (field +:+ ".uri") ;;
  validateDigest resource (field +:+ ".digest") (Ref_Digest ref).

Definition validateResourceSelector (resource field : string) (selector : ResourceSelector) : result unit :=
  check validateIdentifier resource (field +:+ ".kind") (Selector_Kind selector) ;;
  reject_if blank (Selector_Pattern selector) with invalid resource (field +:+ ".pattern") ;;
  Ok tt.

(** The loop of [validateUniqueIdentifiers] and [validateUniqueNonempty]: a
    check on each value, then the test against the values already seen. *)
Definition validate_unique (each_value : nat -> string -> result unit) (duplicate : KernelError)
    (values : list string) : result unit :=
  let? _ := fold_res (fun (seen : gset string) '(i, value) =>
      check each_value i value ;;
      reject_if bool_decide (value ∈ seen) with duplicate ;;
      Ok ({[value]} ∪ seen)) ∅ (indexed values) in
  Ok tt.

Definition validateUniqueIdentifiers (resource field : string) (values : list string) : result unit :=
  validate_unique (fun i value => validateIdentifier resource (at_index field i) value)
    (invalid resource field) values.

Definition validateUniqueNonempty (resource field : string) (values : list string) : result unit :=
  validate_unique (fun i value =>
      reject_if blank value with invalid resource (at_index field i) ;; Ok tt)
    (invalid resource field) values.

Definition validateOptionalNonnegative (resource field : string) (value : option Z) : result unit :=
  match value with
  | Some v => reject_if v <? 0 with invalid resource field ;; Ok tt
  | None => Ok tt
  end.

Definition validateConditions (resource field : string) (conditions : CapabilityConditions) : result unit :=
  check validateUniqueNonempty resource (field +:+ ".environment_allowlist") (Cond_EnvironmentAllow conditions) ;;
  check validateUniqueNonempty resource (field +:+ ".data_classifications") (Cond_DataClassifications conditions) ;;
  validateOptionalNonnegative resource (field +:+ ".max_output_bytes") (Cond_MaxOutputBytes conditions).

Definition validateOperations (resource field : string) (values : list string) : result unit :=
  reject_if (length values =? 0)%nat with invalid resource field ;;
  validateUniqueIdentifiers resource field values.

Definition validateBudgetLimits (resource field : string) (limits : BudgetLimits) : result unit :=
  each (fun '(name, value) => validateOptionalNonnegative resource (field +:+ "." +:+ name) value)
    [("max_input_tokens", Limits_MaxInputTokens limits);
     ("max_output_tokens", Limits_MaxOutputTokens limits);
     ("max_model_calls", Limits_MaxModelCalls limits);
     ("max_tool_calls", Limits_MaxToolCalls limits);
     ("max_cost_micros", Limits_MaxCostMicros limits);
     ("max_wall_time_seconds", Limits_MaxWallTimeSeconds limits)].

Definition validateBudgetUsage (resource field : string) (usage : BudgetUsage) (limits : BudgetLimits) : result unit :=
  each (fun '(name, used, limit) =>
      reject_if used <? 0 with invalid resource (field +:+ "." +:+ name) ;;
      reject_if match limit with Some l => l <? used | None => false end
        with newError ErrorBudgetExceeded "validate" resource (field +:+ "." +:+ name) ;;
      Ok tt)
    [("input_tokens", Usage_InputTokens usage, Limits_MaxInputTokens limits);
     ("output_tokens", Usage_OutputTokens usage, Limits_MaxOutputTokens limits);
     ("model_calls", Usage_ModelCalls usage, Limits_MaxModelCalls limits);
     ("tool_calls", Usage_ToolCalls usage, Limits_MaxToolCalls limits);
     ("cost_micros", Usage_CostMicros usage, Limits_MaxCostMicros limits);
     ("wall_time_seconds", Usage_WallTimeSeconds usage, Limits_MaxWallTimeSeconds limits)].

Definition validateRuntimeBinding (resource field : string) (runtime : RuntimeBinding) : result unit :=
  check validateIdentifier resource (field +:+ ".adapter") (RuntimeBinding_Adapter runtime) ;;
  reject_if blank (RuntimeBinding_AdapterVersion runtime) with invalid resource (field +:+ ".adapter_version") ;;
  if RuntimeBinding_LeaseID runtime !=? "" then
    check validateIdentifier resource (field +:+ ".lease_id") (RuntimeBinding_LeaseID runtime) ;;
    reject_if match RuntimeBinding_LeaseExpiresAt runtime with None => true | Some t => IsZero t end
      with invalid resource (field +:+ ".lease_expires_at") ;;
    Ok tt
  else
    reject_if bool_decide (is_Some (RuntimeBinding_LeaseExpiresAt runtime))
      with invalid resource (field +:+ ".lease_id") ;;
    Ok tt.

Definition validateJSONObject (resource field : string) (data : RawMessage) : result unit :=
  match data with
  | RawJSON (JObject _) => Ok tt
  | _ => Err (invalid resource field)
  end.

(** ** What the list validators accept *)

(** The loop with the values already seen. *)
Lemma validate_unique_loop (f : nat -> string -> result unit) (dup : KernelError) (seen0 : gset string)
    (items : list (nat * string)) seen :
  fold_res (fun (seen : gset string) '(i, value) =>
      check f i value ;; reject_if bool_decide (value ∈ seen) with dup ;; Ok ({[value]} ∪ seen)) seen0 items = Ok seen ->
  Forall (fun '(i, value) => f i value = Ok tt) items /\ NoDup (map snd items) /\
  Forall (fun value => value ∉ seen0) (map snd items).
Proof.
  revert seen0. induction items as [|[i value] items IH]; simpl; intros seen0 H; [by split_and!; constructor|].
  apply rbind_ok in H as (s & Hs & H). apply rbind_ok in Hs as ([] & Hf & Hs).
  destruct (bool_decide (value ∈ seen0)) eqn:E; [discriminate|]. apply ok_inj in Hs as <-. bool_hyps.
  destruct (IH _ H) as (Hall & Hnd & Hseen). rewrite Forall_forall in Hseen. split_and!.
  - by constructor.
  - constructor; [|done]. intros Hin. specialize (Hseen _ Hin). set_solver.
  - constructor; [done|]. apply Forall_forall. intros x Hx. specialize (Hseen _ Hx). set_solver.
Qed.

Lemma validate_unique_sound f dup values :
  validate_unique f dup values = Ok tt ->
  (forall i value, values !! i = Some value -> f i value = Ok tt) /\ NoDup values.
Proof.
  unfold validate_unique. intros H. apply rbind_ok in H as (seen & H & _).
  apply validate_unique_loop in H as (Hall & Hnd & _). rewrite indexed_snd in Hnd. split; [|done].
  intros i value Hi. rewrite Forall_forall in Hall. exact (Hall (i, value) (proj2 (elem_of_indexed _ _ _) Hi)).
Qed.

Lemma validateUniqueIdentifiers_nodup resource field values :
  validateUniqueIdentifiers resource field values = Ok tt -> NoDup values.
Proof. by intros [_ ?]%validate_unique_sound. Qed.
