(* ===== verification/TransactionTypes.v ===== *)
(** * Transaction resource types

    internal/kernel/model/transaction_types.go and the task envelope of
    internal/kernel/model/agent_task.go: enumerations, records, field tables. *)
From S2P Require Import Prelude GoBase Json ModelTypes.

Definition AgentTaskVersion : string := "gatemole.agent_task.v0".
Definition MaxAgentTaskIntentBytes : Z := Z.shiftl 64 10.
Definition AgentTransactionVersion : string := "gatemole.agent_transaction.v0".
Definition EffectVersion : string := "gatemole.effect.v0".
Definition VerificationResultVersion : string := "gatemole.verification_result.v0".
Definition ApprovalPackageVersion : string := "gatemole.approval_package.v0".
Definition ApprovalDecisionVersion : string := "gatemole.approval_decision.v0".
Definition CommitPlanVersion : string := "gatemole.commit_plan.v0".
Definition TransactionEventVersion : string := "gatemole.transaction_event.v0".
Definition AgentExecutionVersion : string := "gatemole.agent_execution.v0".

Record AgentTaskProfileBinding := mkAgentTaskProfileBinding {
  Profile_ID : string;
  Profile_Digest : string;
  Profile_RuntimeClass : string;
  Profile_ImageDigest : string;
  Profile_Entrypoint : string;
  Profile_CommandDigest : string;
}.

#[export] Instance AgentTaskProfileBinding_eta : RecordEta AgentTaskProfileBinding := fun r =>
  mkAgentTaskProfileBinding (Profile_ID r) (Profile_Digest r) (Profile_RuntimeClass r) (Profile_ImageDigest r)
    (Profile_Entrypoint r) (Profile_CommandDigest r).

#[export] Instance AgentTaskProfileBinding_eq_dec : EqDecision AgentTaskProfileBinding.
Proof. solve_decision. Defined.

Definition zero_AgentTaskProfileBinding : AgentTaskProfileBinding :=
  mkAgentTaskProfileBinding "" "" "" "" "" "".

Definition AgentTaskProfileBinding_fields : list (Field AgentTaskProfileBinding) := [
  "id" :- string_codec at Profile_ID;
  "digest" :- string_codec at Profile_Digest;
  "runtime_class" :- string_codec at Profile_RuntimeClass;
  "image_digest" :-? string_codec at Profile_ImageDigest;
  "entrypoint" :-? string_codec at Profile_Entrypoint;
  "command_digest" :- string_codec at Profile_CommandDigest].

Definition AgentTaskProfileBinding_codec : Codec AgentTaskProfileBinding := struct_codec AgentTaskProfileBinding_fields zero_AgentTaskProfileBinding.

Record AgentTask := mkAgentTask {
  Task_Version : string;
  Task_ID : string;
  Task_TransactionID : string;
  Task_Namespace : string;
  Task_RunID : string;
  Task_Intent : string;
  Task_IntentDigest : string;
  Task_AgentProfile : AgentTaskProfileBinding;
  Task_CreatedAt : Time;
  Task_Digest : string;
}.

#[export] Instance AgentTask_eta : RecordEta AgentTask := fun r =>
  mkAgentTask (Task_Version r) (Task_ID r) (Task_TransactionID r) (Task_Namespace r) (Task_RunID r)
    (Task_Intent r) (Task_IntentDigest r) (Task_AgentProfile r) (Task_CreatedAt r) (Task_Digest r).

#[export] Instance AgentTask_eq_dec : EqDecision AgentTask.
Proof. solve_decision. Defined.

Definition zero_AgentTask : AgentTask :=
  mkAgentTask "" "" "" "" "" "" "" zero_AgentTaskProfileBinding zero_time "".

Definition AgentTask_fields : list (Field AgentTask) := [
  "version" :- string_codec at Task_Version;
  "id" :- string_codec at Task_ID;
  "transaction_id" :- string_codec at Task_TransactionID;
  "namespace" :- string_codec at Task_Namespace;
  "run_id" :- string_codec at Task_RunID;
  "intent" :- string_codec at Task_Intent;
  "intent_digest" :- string_codec at Task_IntentDigest;
  "agent_profile" :- AgentTaskProfileBinding_codec at Task_AgentProfile;
  "created_at" :- time_codec at Task_CreatedAt;
  "digest" :- string_codec at Task_Digest].

Definition AgentTask_codec : Codec AgentTask := struct_codec AgentTask_fields zero_AgentTask.

Inductive TransactionState :=
  | TransactionCreated | TransactionRunning | TransactionCompletedNoEffect | TransactionStaged
  | TransactionValidating | TransactionValidationFailed | TransactionReviseRequired
  | TransactionBlocked | TransactionPendingApproval | TransactionReadyToCommit
  | TransactionCommitting | TransactionCommitted | TransactionCompensating | TransactionRolledBack
  | TransactionReleaseFailed | TransactionPartiallyCommitted | TransactionManualRecoveryRequired
  | TransactionAborted
  | TransactionStateOther (text : string).

#[export] Instance TransactionState_eq_dec : EqDecision TransactionState.
Proof. solve_decision. Defined.

Definition TransactionState_text (x : TransactionState) : string :=
  match x with
  | TransactionCreated => "created"
  | TransactionRunning => "running"
  | TransactionCompletedNoEffect => "completed_no_effect"
  | TransactionStaged => "staged"
  | TransactionValidating => "validating"
  | TransactionValidationFailed => "validation_failed"
  | TransactionReviseRequired => "revise_required"
  | TransactionBlocked => "blocked"
  | TransactionPendingApproval => "pending_approval"
  | TransactionReadyToCommit => "ready_to_commit"
  | TransactionCommitting => "committing"
  | TransactionCommitted => "committed"
  | TransactionCompensating => "compensating"
  | TransactionRolledBack => "rolled_back"
  | TransactionReleaseFailed => "release_failed"
  | TransactionPartiallyCommitted => "partially_committed"
  | TransactionManualRecoveryRequired => "manual_recovery_required"
  | TransactionAborted => "aborted"
  | TransactionStateOther s => s
  end.

Definition TransactionState_of_text (s : string) : TransactionState :=
  if s ==? "created" then TransactionCreated else
  if s ==? "running" then TransactionRunning else
  if s ==? "completed_no_effect" then TransactionCompletedNoEffect else
  if s ==? "staged" then TransactionStaged else
  if s ==? "validating" then TransactionValidating else
  if s ==? "validation_failed" then TransactionValidationFailed else
  if s ==? "revise_required" then TransactionReviseRequired else
  if s ==? "blocked" then TransactionBlocked else
  if s ==? "pending_approval" then TransactionPendingApproval else
  if s ==? "ready_to_commit" then TransactionReadyToCommit else
  if s ==? "committing" then TransactionCommitting else
  if s ==? "committed" then TransactionCommitted else
  if s ==? "compensating" then TransactionCompensating else
  if s ==? "rolled_back" then TransactionRolledBack else
  if s ==? "release_failed" then TransactionReleaseFailed else
  if s ==? "partially_committed" then TransactionPartiallyCommitted else
  if s ==? "manual_recovery_required" then TransactionManualRecoveryRequired else
  if s ==? "aborted" then TransactionAborted else
  TransactionStateOther s.

Definition TransactionState_codec : Codec TransactionState := enum_codec TransactionState_text TransactionState_of_text.

Inductive EffectRecoveryClass :=
  | RecoveryReadOnly | RecoveryStageable | RecoveryReversible | RecoveryCompensatable
  | RecoveryIrreversible
  | EffectRecoveryClassOther (text : string).

#[export] Instance EffectRecoveryClass_eq_dec : EqDecision EffectRecoveryClass.
Proof. solve_decision. Defined.

Definition EffectRecoveryClass_text (x : EffectRecoveryClass) : string :=
  match x with
  | RecoveryReadOnly => "read_only"
  | RecoveryStageable => "stageable"
  | RecoveryReversible => "reversible"
  | RecoveryCompensatable => "compensatable"
  | RecoveryIrreversible => "irreversible"
  | EffectRecoveryClassOther s => s
  end.

Definition EffectRecoveryClass_of_text (s : string) : EffectRecoveryClass :=
  if s ==? "read_only" then RecoveryReadOnly else
  if s ==? "stageable" then RecoveryStageable else
  if s ==? "reversible" then RecoveryReversible else
  if s ==? "compensatable" then RecoveryCompensatable else
  if s ==? "irreversible" then RecoveryIrreversible else
  EffectRecoveryClassOther s.

Definition EffectRecoveryClass_codec : Codec EffectRecoveryClass := enum_codec EffectRecoveryClass_text EffectRecoveryClass_of_text.

Inductive EffectStatus :=
  | EffectProposed | EffectStaged | EffectValidated | EffectReleaseReady | EffectCommitting
  | EffectCommitted | EffectBlocked | EffectRejected | EffectFailed | EffectUnknown
  | EffectCompensating | EffectCompensated | EffectManualRecoveryRequired
  | EffectStatusOther (text : string).

#[export] Instance EffectStatus_eq_dec : EqDecision EffectStatus.
Proof. solve_decision. Defined.

Definition EffectStatus_text (x : EffectStatus) : string :=
  match x with
  | EffectProposed => "proposed"
  | EffectStaged => "staged"
  | EffectValidated => "validated"
  | EffectReleaseReady => "release_ready"
  | EffectCommitting => "committing"
  | EffectCommitted => "committed"
  | EffectBlocked => "blocked"
  | EffectRejected => "rejected"
  | EffectFailed => "failed"
  | EffectUnknown => "unknown"
  | EffectCompensating => "compensating"
  | EffectCompensated => "compensated"
  | EffectManualRecoveryRequired => "manual_recovery_required"
  | EffectStatusOther s => s
  end.

Definition EffectStatus_of_text (s : string) : EffectStatus :=
  if s ==? "proposed" then EffectProposed else
  if s ==? "staged" then EffectStaged else
  if s ==? "validated" then EffectValidated else
  if s ==? "release_ready" then EffectReleaseReady else
  if s ==? "committing" then EffectCommitting else
  if s ==? "committed" then EffectCommitted else
  if s ==? "blocked" then EffectBlocked else
  if s ==? "rejected" then EffectRejected else
  if s ==? "failed" then EffectFailed else
  if s ==? "unknown" then EffectUnknown else
  if s ==? "compensating" then EffectCompensating else
  if s ==? "compensated" then EffectCompensated else
  if s ==? "manual_recovery_required" then EffectManualRecoveryRequired else
  EffectStatusOther s.

Definition EffectStatus_codec : Codec EffectStatus := enum_codec EffectStatus_text EffectStatus_of_text.

Inductive VerificationKind :=
  | VerificationPrecondition | VerificationInvariant | VerificationPostcondition
  | VerificationKindOther (text : string).

#[export] Instance VerificationKind_eq_dec : EqDecision VerificationKind.
Proof. solve_decision. Defined.

Definition VerificationKind_text (x : VerificationKind) : string :=
  match x with
  | VerificationPrecondition => "precondition"
  | VerificationInvariant => "invariant"
  | VerificationPostcondition => "postcondition"
  | VerificationKindOther s => s
  end.

Definition VerificationKind_of_text (s : string) : VerificationKind :=
  if s ==? "precondition" then VerificationPrecondition else
  if s ==? "invariant" then VerificationInvariant else
  if s ==? "postcondition" then VerificationPostcondition else
  VerificationKindOther s.

Definition VerificationKind_codec : Codec VerificationKind := enum_codec VerificationKind_text VerificationKind_of_text.

Inductive VerificationStatus :=
  | VerificationPassed | VerificationFailed | VerificationIndeterminate
  | VerificationStatusOther (text : string).

#[export] Instance VerificationStatus_eq_dec : EqDecision VerificationStatus.
Proof. solve_decision. Defined.

Definition VerificationStatus_text (x : VerificationStatus) : string :=
  match x with
  | VerificationPassed => "passed"
  | VerificationFailed => "failed"
  | VerificationIndeterminate => "indeterminate"
  | VerificationStatusOther s => s
  end.

Definition VerificationStatus_of_text (s : string) : VerificationStatus :=
  if s ==? "passed" then VerificationPassed else
  if s ==? "failed" then VerificationFailed else
  if s ==? "indeterminate" then VerificationIndeterminate else
  VerificationStatusOther s.

Definition VerificationStatus_codec : Codec VerificationStatus := enum_codec VerificationStatus_text VerificationStatus_of_text.

Inductive VerificationIndependence :=
  | VerificationAgentSupplied | VerificationPlatformRun | VerificationExternalAttestation
  | VerificationIndependenceOther (text : string).

#[export] Instance VerificationIndependence_eq_dec : EqDecision VerificationIndependence.
Proof. solve_decision. Defined.

Definition VerificationIndependence_text (x : VerificationIndependence) : string :=
  match x with
  | VerificationAgentSupplied => "agent_supplied"
  | VerificationPlatformRun => "platform_run"
  | VerificationExternalAttestation => "external_attestation"
  | VerificationIndependenceOther s => s
  end.

Definition VerificationIndependence_of_text (s : string) : VerificationIndependence :=
  if s ==? "agent_supplied" then VerificationAgentSupplied else
  if s ==? "platform_run" then VerificationPlatformRun else
  if s ==? "external_attestation" then VerificationExternalAttestation else
  VerificationIndependenceOther s.

Definition VerificationIndependence_codec : Codec VerificationIndependence := enum_codec VerificationIndependence_text VerificationIndependence_of_text.

Inductive AgentExecutionStatus :=
  | AgentExecutionRunning | AgentExecutionSucceeded | AgentExecutionFailed | AgentExecutionInterrupted
  | AgentExecutionStartFailed
  | AgentExecutionStatusOther (text : string).

#[export] Instance AgentExecutionStatus_eq_dec : EqDecision AgentExecutionStatus.
Proof. solve_decision. Defined.

Definition AgentExecutionStatus_text (x : AgentExecutionStatus) : string :=
  match x with
  | AgentExecutionRunning => "running"
  | AgentExecutionSucceeded => "succeeded"
  | AgentExecutionFailed => "failed"
  | AgentExecutionInterrupted => "interrupted"
  | AgentExecutionStartFailed => "start_failed"
  | AgentExecutionStatusOther s => s
  end.

Definition AgentExecutionStatus_of_text (s : string) : AgentExecutionStatus :=
  if s ==? "running" then AgentExecutionRunning else
  if s ==? "succeeded" then AgentExecutionSucceeded else
  if s ==? "failed" then AgentExecutionFailed else
  if s ==? "interrupted" then AgentExecutionInterrupted else
  if s ==? "start_failed" then AgentExecutionStartFailed else
  AgentExecutionStatusOther s.

Definition AgentExecutionStatus_codec : Codec AgentExecutionStatus := enum_codec AgentExecutionStatus_text AgentExecutionStatus_of_text.

Inductive ApprovalDecisionKind :=
  | ApprovalApprove | ApprovalReject | ApprovalRevise
  | ApprovalDecisionKindOther (text : string).

#[export] Instance ApprovalDecisionKind_eq_dec : EqDecision ApprovalDecisionKind.
Proof. solve_decision. Defined.

Definition ApprovalDecisionKind_text (x : ApprovalDecisionKind) : string :=
  match x with
  | ApprovalApprove => "approve"
  | ApprovalReject => "reject"
  | ApprovalRevise => "revise"
  | ApprovalDecisionKindOther s => s
  end.

Definition ApprovalDecisionKind_of_text (s : string) : ApprovalDecisionKind :=
  if s ==? "approve" then ApprovalApprove else
  if s ==? "reject" then ApprovalReject else
  if s ==? "revise" then ApprovalRevise else
  ApprovalDecisionKindOther s.

Definition ApprovalDecisionKind_codec : Codec ApprovalDecisionKind := enum_codec ApprovalDecisionKind_text ApprovalDecisionKind_of_text.

Record ModelBrokerExecution := mkModelBrokerExecution {
  MBroker_Provider : string;
  MBroker_ImageDigest : string;
  MBroker_PolicyDigest : string;
  MBroker_ReceiptLedgerDigest : string;
  MBroker_Calls : Z;
  MBroker_CompletedCalls : Z;
  MBroker_FailedCalls : Z;
  MBroker_UnknownCalls : Z;
  MBroker_InputTokens : Z;
  MBroker_OutputTokens : Z;
}.

#[export] Instance ModelBrokerExecution_eta : RecordEta ModelBrokerExecution := fun r =>
  mkModelBrokerExecution (MBroker_Provider r) (MBroker_ImageDigest r) (MBroker_PolicyDigest r)
    (MBroker_ReceiptLedgerDigest r) (MBroker_Calls r) (MBroker_CompletedCalls r)
    (MBroker_FailedCalls r) (MBroker_UnknownCalls r) (MBroker_InputTokens r)
    (MBroker_OutputTokens r).

Definition zero_ModelBrokerExecution : ModelBrokerExecution :=
  mkModelBrokerExecution "" "" "" "" 0 0 0 0 0 0.

Definition ModelBrokerExecution_fields : list (Field ModelBrokerExecution) := [
  "provider" :- string_codec at MBroker_Provider;
  "image_digest" :- string_codec at MBroker_ImageDigest;
  "policy_digest" :- string_codec at MBroker_PolicyDigest;
  "receipt_ledger_digest" :-? string_codec at MBroker_ReceiptLedgerDigest;
  "calls" :- int64_codec at MBroker_Calls;
  "completed_calls" :- int64_codec at MBroker_CompletedCalls;
  "failed_calls" :- int64_codec at MBroker_FailedCalls;
  "unknown_calls" :- int64_codec at MBroker_UnknownCalls;
  "input_tokens" :- int64_codec at MBroker_InputTokens;
  "output_tokens" :- int64_codec at MBroker_OutputTokens].

Definition ModelBrokerExecution_codec : Codec ModelBrokerExecution := struct_codec ModelBrokerExecution_fields zero_ModelBrokerExecution.

Record AgentExecution := mkAgentExecution {
  Exec_Version : string;
  Exec_ID : string;
  Exec_TransactionID : string;
  Exec_Attempt : Z;
  Exec_RunID : string;
  Exec_StageBindingID : string;
  Exec_Program : string;
  Exec_CommandDigest : string;
  Exec_RuntimeClass : string;
  Exec_RuntimeConfigDigest : string;
  Exec_ImageDigest : string;
  Exec_TaskDigest : string;
  Exec_ModelBroker : option ModelBrokerExecution;
  Exec_Status : AgentExecutionStatus;
  Exec_ExitCode : option Z;
  Exec_StdoutDigest : string;
  Exec_StderrDigest : string;
  Exec_StartedAt : Time;
  Exec_CompletedAt : option Time;
}.

#[export] Instance AgentExecution_eta : RecordEta AgentExecution := fun r =>
  mkAgentExecution (Exec_Version r) (Exec_ID r) (Exec_TransactionID r) (Exec_Attempt r) (Exec_RunID r)
    (Exec_StageBindingID r) (Exec_Program r) (Exec_CommandDigest r) (Exec_RuntimeClass r)
    (Exec_RuntimeConfigDigest r) (Exec_ImageDigest r) (Exec_TaskDigest r) (Exec_ModelBroker r)
    (Exec_Status r) (Exec_ExitCode r) (Exec_StdoutDigest r) (Exec_StderrDigest r) (Exec_StartedAt r)
    (Exec_CompletedAt r).

Definition zero_AgentExecution : AgentExecution :=
  mkAgentExecution "" "" "" 0 "" "" "" "" "" "" "" "" None (AgentExecutionStatusOther "") None "" "" zero_time None.

Definition AgentExecution_fields : list (Field AgentExecution) := [
  "version" :- string_codec at Exec_Version;
  "id" :- string_codec at Exec_ID;
  "transaction_id" :- string_codec at Exec_TransactionID;
  "attempt" :-? int64_codec at Exec_Attempt;
  "run_id" :- string_codec at Exec_RunID;
  "stage_binding_id" :- string_codec at Exec_StageBindingID;
  "program" :- string_codec at Exec_Program;
  "command_digest" :- string_codec at Exec_CommandDigest;
  "runtime_class" :- string_codec at Exec_RuntimeClass;
  "runtime_config_digest" :- string_codec at Exec_RuntimeConfigDigest;
  "image_digest" :-? string_codec at Exec_ImageDigest;
  "task_digest" :-? string_codec at Exec_TaskDigest;
  "model_broker" :-? (pointer_codec ModelBrokerExecution_codec) at Exec_ModelBroker;
  "status" :- AgentExecutionStatus_codec at Exec_Status;
  "exit_code" :-? (pointer_codec int64_codec) at Exec_ExitCode;
  "stdout_digest" :-? string_codec at Exec_StdoutDigest;
  "stderr_digest" :-? string_codec at Exec_StderrDigest;
  "started_at" :- time_codec at Exec_StartedAt;
  "completed_at" :-? (pointer_codec time_codec) at Exec_CompletedAt].

Definition AgentExecution_codec : Codec AgentExecution := struct_codec AgentExecution_fields zero_AgentExecution.

Record TransactionAdmissionBinding := mkTransactionAdmissionBinding {
  Admission_RuntimeID : string;
  Admission_EnforcementProfile : string;
  Admission_TaskDigest : string;
  Admission_RunID : string;
  Admission_ContractDigest : string;
}.

#[export] Instance TransactionAdmissionBinding_eta : RecordEta TransactionAdmissionBinding := fun r =>
  mkTransactionAdmissionBinding (Admission_RuntimeID r) (Admission_EnforcementProfile r) (Admission_TaskDigest r)
    (Admission_RunID r) (Admission_ContractDigest r).

Definition zero_TransactionAdmissionBinding : TransactionAdmissionBinding :=
  mkTransactionAdmissionBinding "" "" "" "" "".

Definition TransactionAdmissionBinding_fields : list (Field TransactionAdmissionBinding) := [
  "runtime_id" :-? string_codec at Admission_RuntimeID;
  "enforcement_profile" :-? string_codec at Admission_EnforcementProfile;
  "task_digest" :- string_codec at Admission_TaskDigest;
  "run_id" :- string_codec at Admission_RunID;
  "contract_digest" :- string_codec at Admission_ContractDigest].

Definition TransactionAdmissionBinding_codec : Codec TransactionAdmissionBinding := struct_codec TransactionAdmissionBinding_fields zero_TransactionAdmissionBinding.

Record StageBinding := mkStageBinding {
  Binding_ID : string;
  Binding_Kind : string;
  Binding_Resource : ResourceSelector;
  Binding_Location : string;
  Binding_BaseRevision : string;
  Binding_CreatedAt : Time;
}.

#[export] Instance StageBinding_eta : RecordEta StageBinding := fun r =>
  mkStageBinding (Binding_ID r) (Binding_Kind r) (Binding_Resource r) (Binding_Location r)
    (Binding_BaseRevision r) (Binding_CreatedAt r).

Definition zero_StageBinding : StageBinding :=
  mkStageBinding "" "" zero_ResourceSelector "" "" zero_time.

Definition StageBinding_fields : list (Field StageBinding) := [
  "id" :- string_codec at Binding_ID;
  "kind" :- string_codec at Binding_Kind;
  "resource" :- ResourceSelector_codec at Binding_Resource;
  "location" :- string_codec at Binding_Location;
  "base_revision" :- string_codec at Binding_BaseRevision;
  "created_at" :- time_codec at Binding_CreatedAt].

Definition StageBinding_codec : Codec StageBinding := struct_codec StageBinding_fields zero_StageBinding.

Record AgentTransaction := mkAgentTransaction {
  Tx_Version : string;
  Tx_ID : string;
  Tx_Namespace : string;
  Tx_Attempt : Z;
  Tx_IntentDigest : string;
  Tx_Task : option AgentTask;
  Tx_Admission : option TransactionAdmissionBinding;
  Tx_Sponsor : Principal;
  Tx_AgentRunIDs : slice string;
  Tx_StageBindings : slice StageBinding;
  Tx_State : TransactionState;
  Tx_StateReason : string;
  Tx_EffectIDs : slice string;
  Tx_VerificationResultIDs : slice string;
  Tx_OutstandingApprovalIDs : slice string;
  Tx_StagedStateDigest : string;
  Tx_EffectSetDigest : string;
  Tx_ApprovalPackageDigest : string;
  Tx_CommitPlanDigest : string;
  Tx_EventSequence : Z;
  Tx_CreatedAt : Time;
  Tx_UpdatedAt : Time;
  Tx_CompletedAt : option Time;
}.

#[export] Instance AgentTransaction_eta : RecordEta AgentTransaction := fun r =>
  mkAgentTransaction (Tx_Version r) (Tx_ID r) (Tx_Namespace r) (Tx_Attempt r) (Tx_IntentDigest r) (Tx_Task r)
    (Tx_Admission r) (Tx_Sponsor r) (Tx_AgentRunIDs r) (Tx_StageBindings r) (Tx_State r)
    (Tx_StateReason r) (Tx_EffectIDs r) (Tx_VerificationResultIDs r) (Tx_OutstandingApprovalIDs r)
    (Tx_StagedStateDigest r) (Tx_EffectSetDigest r) (Tx_ApprovalPackageDigest r)
    (Tx_CommitPlanDigest r) (Tx_EventSequence r) (Tx_CreatedAt r) (Tx_UpdatedAt r)
    (Tx_CompletedAt r).

Definition zero_AgentTransaction : AgentTransaction :=
  mkAgentTransaction "" "" "" 0 "" None None zero_Principal SNil SNil (TransactionStateOther "") "" SNil SNil SNil ""
    "" "" "" 0 zero_time zero_time None.

Definition AgentTransaction_fields : list (Field AgentTransaction) := [
  "version" :- string_codec at Tx_Version;
  "id" :- string_codec at Tx_ID;
  "namespace" :- string_codec at Tx_Namespace;
  "attempt" :-? int64_codec at Tx_Attempt;
  "intent_digest" :- string_codec at Tx_IntentDigest;
  "task" :-? (pointer_codec AgentTask_codec) at Tx_Task;
  "admission" :-? (pointer_codec TransactionAdmissionBinding_codec) at Tx_Admission;
  "sponsor" :- Principal_codec at Tx_Sponsor;
  "agent_run_ids" :- (slice_codec string_codec) at Tx_AgentRunIDs;
  "stage_bindings" :- (slice_codec StageBinding_codec) at Tx_StageBindings;
  "state" :- TransactionState_codec at Tx_State;
  "state_reason" :-? string_codec at Tx_StateReason;
  "effect_ids" :- (slice_codec string_codec) at Tx_EffectIDs;
  "verification_result_ids" :- (slice_codec string_codec) at Tx_VerificationResultIDs;
  "outstanding_approval_ids" :- (slice_codec string_codec) at Tx_OutstandingApprovalIDs;
  "staged_state_digest" :-? string_codec at Tx_StagedStateDigest;
  "effect_set_digest" :-? string_codec at Tx_EffectSetDigest;
  "approval_package_digest" :-? string_codec at Tx_ApprovalPackageDigest;
  "commit_plan_digest" :-? string_codec at Tx_CommitPlanDigest;
  "event_sequence" :- int64_codec at Tx_EventSequence;
  "created_at" :- time_codec at Tx_CreatedAt;
  "updated_at" :- time_codec at Tx_UpdatedAt;
  "completed_at" :-? (pointer_codec time_codec) at Tx_CompletedAt].

Definition AgentTransaction_codec : Codec AgentTransaction := struct_codec AgentTransaction_fields zero_AgentTransaction.

Record EffectScope := mkEffectScope {
  Scope_Rows : option Z;
  Scope_Bytes : option Z;
  Scope_Objects : option Z;
}.

#[export] Instance EffectScope_eta : RecordEta EffectScope := fun r =>
  mkEffectScope (Scope_Rows r) (Scope_Bytes r) (Scope_Objects r).

#[export] Instance EffectScope_eq_dec : EqDecision EffectScope.
Proof. solve_decision. Defined.

Definition zero_EffectScope : EffectScope :=
  mkEffectScope None None None.

Definition EffectScope_fields : list (Field EffectScope) := [
  "rows" :-? (pointer_codec int64_codec) at Scope_Rows;
  "bytes" :-? (pointer_codec int64_codec) at Scope_Bytes;
  "objects" :-? (pointer_codec int64_codec) at Scope_Objects].

Definition EffectScope_codec : Codec EffectScope := struct_codec EffectScope_fields zero_EffectScope.

Record CompensationSpec := mkCompensationSpec {
  CompSpec_Operation : string;
  CompSpec_Arguments : RawMessage;
  CompSpec_ArgumentsDigest : string;
  CompSpec_PlanRef : option ArtifactRef;
}.

#[export] Instance CompensationSpec_eta : RecordEta CompensationSpec := fun r =>
  mkCompensationSpec (CompSpec_Operation r) (CompSpec_Arguments r) (CompSpec_ArgumentsDigest r) (CompSpec_PlanRef r).

Definition zero_CompensationSpec : CompensationSpec :=
  mkCompensationSpec "" RawEmpty "" None.

Definition CompensationSpec_fields : list (Field CompensationSpec) := [
  "operation" :- string_codec at CompSpec_Operation;
  "arguments" :- raw_codec at CompSpec_Arguments;
  "arguments_digest" :- string_codec at CompSpec_ArgumentsDigest;
  "plan_ref" :-? (pointer_codec ArtifactRef_codec) at CompSpec_PlanRef].

Definition CompensationSpec_codec : Codec CompensationSpec := struct_codec CompensationSpec_fields zero_CompensationSpec.

Record EffectReceipt := mkEffectReceipt {
  Receipt_Driver : string;
  Receipt_OperationID : string;
  Receipt_ResultDigest : string;
  Receipt_ResourceVersion : string;
  Receipt_CommittedAt : Time;
}.

#[export] Instance EffectReceipt_eta : RecordEta EffectReceipt := fun r =>
  mkEffectReceipt (Receipt_Driver r) (Receipt_OperationID r) (Receipt_ResultDigest r) (Receipt_ResourceVersion r)
    (Receipt_CommittedAt r).

Definition zero_EffectReceipt : EffectReceipt :=
  mkEffectReceipt "" "" "" "" zero_time.

Definition EffectReceipt_fields : list (Field EffectReceipt) := [
  "driver" :- string_codec at Receipt_Driver;
  "operation_id" :- string_codec at Receipt_OperationID;
  "result_digest" :- string_codec at Receipt_ResultDigest;
  "resource_version" :-? string_codec at Receipt_ResourceVersion;
  "committed_at" :- time_codec at Receipt_CommittedAt].

Definition EffectReceipt_codec : Codec EffectReceipt := struct_codec EffectReceipt_fields zero_EffectReceipt.

Record Effect := mkEffect {
  Effect_Version : string;
  Effect_ID : string;
  Effect_TransactionID : string;
  Effect_Attempt : Z;
  Effect_Sequence : Z;
  Effect_RunID : string;
  Effect_OriginExecutionID : string;
  Effect_OriginActionID : string;
  Effect_System : string;
  Effect_Resource : ResourceSelector;
  Effect_Operation : string;
  Effect_Arguments : RawMessage;
  Effect_ArgumentsDigest : string;
  Effect_Dependencies : slice string;
  Effect_EstimatedScope : EffectScope;
  Effect_DataClassification : string;
  Effect_RecoveryClass : EffectRecoveryClass;
  Effect_Status : EffectStatus;
  Effect_IdempotencyKey : string;
  Effect_StageRef : option ArtifactRef;
  Effect_BeforeStateRef : option ArtifactRef;
  Effect_Compensation : option CompensationSpec;
  Effect_Receipt : option EffectReceipt;
  Effect_CompensationReceipt : option EffectReceipt;
  Effect_CreatedAt : Time;
  Effect_UpdatedAt : Time;
}.

#[export] Instance Effect_eta : RecordEta Effect := fun r =>
  mkEffect (Effect_Version r) (Effect_ID r) (Effect_TransactionID r) (Effect_Attempt r) (Effect_Sequence r)
    (Effect_RunID r) (Effect_OriginExecutionID r) (Effect_OriginActionID r) (Effect_System r)
    (Effect_Resource r) (Effect_Operation r) (Effect_Arguments r) (Effect_ArgumentsDigest r)
    (Effect_Dependencies r) (Effect_EstimatedScope r) (Effect_DataClassification r)
    (Effect_RecoveryClass r) (Effect_Status r) (Effect_IdempotencyKey r) (Effect_StageRef r)
    (Effect_BeforeStateRef r) (Effect_Compensation r) (Effect_Receipt r)
    (Effect_CompensationReceipt r) (Effect_CreatedAt r) (Effect_UpdatedAt r).

Definition zero_Effect : Effect :=
  mkEffect "" "" "" 0 0 "" "" "" "" zero_ResourceSelector "" RawEmpty "" SNil zero_EffectScope ""
    (EffectRecoveryClassOther "") (EffectStatusOther "") "" None None None None None zero_time
    zero_time.

Definition Effect_fields : list (Field Effect) := [
  "version" :- string_codec at Effect_Version;
  "id" :- string_codec at Effect_ID;
  "transaction_id" :- string_codec at Effect_TransactionID;
  "attempt" :-? int64_codec at Effect_Attempt;
  "sequence" :- int64_codec at Effect_Sequence;
  "run_id" :-? string_codec at Effect_RunID;
  "origin_execution_id" :-? string_codec at Effect_OriginExecutionID;
  "origin_action_id" :-? string_codec at Effect_OriginActionID;
  "system" :- string_codec at Effect_System;
  "resource" :- ResourceSelector_codec at Effect_Resource;
  "operation" :- string_codec at Effect_Operation;
  "arguments" :- raw_codec at Effect_Arguments;
  "arguments_digest" :- string_codec at Effect_ArgumentsDigest;
  "dependencies" :- (slice_codec string_codec) at Effect_Dependencies;
  "estimated_scope" :- EffectScope_codec at Effect_EstimatedScope;
  "data_classification" :-? string_codec at Effect_DataClassification;
  "recovery_class" :- EffectRecoveryClass_codec at Effect_RecoveryClass;
  "status" :- EffectStatus_codec at Effect_Status;
  "idempotency_key" :-? string_codec at Effect_IdempotencyKey;
  "stage_ref" :-? (pointer_codec ArtifactRef_codec) at Effect_StageRef;
  "before_state_ref" :-? (pointer_codec ArtifactRef_codec) at Effect_BeforeStateRef;
  "compensation" :-? (pointer_codec CompensationSpec_codec) at Effect_Compensation;
  "receipt" :-? (pointer_codec EffectReceipt_codec) at Effect_Receipt;
  "compensation_receipt" :-? (pointer_codec EffectReceipt_codec) at Effect_CompensationReceipt;
  "created_at" :- time_codec at Effect_CreatedAt;
  "updated_at" :- time_codec at Effect_UpdatedAt].

Definition Effect_codec : Codec Effect := struct_codec Effect_fields zero_Effect.

Record VerificationResult := mkVerificationResult {
  Ver_Version : string;
  Ver_ID : string;
  Ver_TransactionID : string;
  Ver_Attempt : Z;
  Ver_Name : string;
  Ver_Kind : VerificationKind;
  Ver_Status : VerificationStatus;
  Ver_EffectSetDigest : string;
  Ver_StagedStateDigest : string;
  Ver_Verifier : Principal;
  Ver_Independence : VerificationIndependence;
  Ver_VerifierDigest : string;
  Ver_InputsDigest : string;
  Ver_Evidence : slice ArtifactRef;
  Ver_Summary : string;
  Ver_EvaluatedAt : Time;
  Ver_ExpiresAt : option Time;
}.

#[export] Instance VerificationResult_eta : RecordEta VerificationResult := fun r =>
  mkVerificationResult (Ver_Version r) (Ver_ID r) (Ver_TransactionID r) (Ver_Attempt r) (Ver_Name r) (Ver_Kind r)
    (Ver_Status r) (Ver_EffectSetDigest r) (Ver_StagedStateDigest r) (Ver_Verifier r)
    (Ver_Independence r) (Ver_VerifierDigest r) (Ver_InputsDigest r) (Ver_Evidence r)
    (Ver_Summary r) (Ver_EvaluatedAt r) (Ver_ExpiresAt r).

Definition zero_VerificationResult : VerificationResult :=
  mkVerificationResult "" "" "" 0 "" (VerificationKindOther "") (VerificationStatusOther "") "" "" zero_Principal
    (VerificationIndependenceOther "") "" "" SNil "" zero_time None.

Definition VerificationResult_fields : list (Field VerificationResult) := [
  "version" :- string_codec at Ver_Version;
  "id" :- string_codec at Ver_ID;
  "transaction_id" :- string_codec at Ver_TransactionID;
  "attempt" :-? int64_codec at Ver_Attempt;
  "name" :- string_codec at Ver_Name;
  "kind" :- VerificationKind_codec at Ver_Kind;
  "status" :- VerificationStatus_codec at Ver_Status;
  "effect_set_digest" :- string_codec at Ver_EffectSetDigest;
  "staged_state_digest" :- string_codec at Ver_StagedStateDigest;
  "verifier" :- Principal_codec at Ver_Verifier;
  "independence" :- VerificationIndependence_codec at Ver_Independence;
  "verifier_digest" :- string_codec at Ver_VerifierDigest;
  "inputs_digest" :- string_codec at Ver_InputsDigest;
  "evidence" :- (slice_codec ArtifactRef_codec) at Ver_Evidence;
  "summary" :- string_codec at Ver_Summary;
  "evaluated_at" :- time_codec at Ver_EvaluatedAt;
  "expires_at" :-? (pointer_codec time_codec) at Ver_ExpiresAt].

Definition VerificationResult_codec : Codec VerificationResult := struct_codec VerificationResult_fields zero_VerificationResult.

Record RiskFinding := mkRiskFinding {
  Risk_Code : string;
  Risk_Severity : string;
  Risk_Summary : string;
  Risk_EffectIDs : slice string;
}.

#[export] Instance RiskFinding_eta : RecordEta RiskFinding := fun r =>
  mkRiskFinding (Risk_Code r) (Risk_Severity r) (Risk_Summary r) (Risk_EffectIDs r).

Definition zero_RiskFinding : RiskFinding :=
  mkRiskFinding "" "" "" SNil.

Definition RiskFinding_fields : list (Field RiskFinding) := [
  "code" :- string_codec at Risk_Code;
  "severity" :- string_codec at Risk_Severity;
  "summary" :- string_codec at Risk_Summary;
  "effect_ids" :- (slice_codec string_codec) at Risk_EffectIDs].

Definition RiskFinding_codec : Codec RiskFinding := struct_codec RiskFinding_fields zero_RiskFinding.

Record ApprovalPackage := mkApprovalPackage {
  Pkg_Version : string;
  Pkg_ID : string;
  Pkg_TransactionID : string;
  Pkg_Attempt : Z;
  Pkg_IntentDigest : string;
  Pkg_EffectSetDigest : string;
  Pkg_StagedStateDigest : string;
  Pkg_PolicyDigest : string;
  Pkg_CommitPlanDigest : string;
  Pkg_VerificationResultIDs : slice string;
  Pkg_RiskFindings : slice RiskFinding;
  Pkg_RequiredApprovalClasses : slice string;
  Pkg_Summary : string;
  Pkg_Digest : string;
  Pkg_CreatedAt : Time;
  Pkg_ExpiresAt : Time;
}.

#[export] Instance ApprovalPackage_eta : RecordEta ApprovalPackage := fun r =>
  mkApprovalPackage (Pkg_Version r) (Pkg_ID r) (Pkg_TransactionID r) (Pkg_Attempt r) (Pkg_IntentDigest r)
    (Pkg_EffectSetDigest r) (Pkg_StagedStateDigest r) (Pkg_PolicyDigest r) (Pkg_CommitPlanDigest r)
    (Pkg_VerificationResultIDs r) (Pkg_RiskFindings r) (Pkg_RequiredApprovalClasses r)
    (Pkg_Summary r) (Pkg_Digest r) (Pkg_CreatedAt r) (Pkg_ExpiresAt r).

Definition zero_ApprovalPackage : ApprovalPackage :=
  mkApprovalPackage "" "" "" 0 "" "" "" "" "" SNil SNil SNil "" "" zero_time zero_time.

Definition ApprovalPackage_fields : list (Field ApprovalPackage) := [
  "version" :- string_codec at Pkg_Version;
  "id" :- string_codec at Pkg_ID;
  "transaction_id" :- string_codec at Pkg_TransactionID;
  "attempt" :-? int64_codec at Pkg_Attempt;
  "intent_digest" :- string_codec at Pkg_IntentDigest;
  "effect_set_digest" :- string_codec at Pkg_EffectSetDigest;
  "staged_state_digest" :- string_codec at Pkg_StagedStateDigest;
  "policy_digest" :- string_codec at Pkg_PolicyDigest;
  "commit_plan_digest" :- string_codec at Pkg_CommitPlanDigest;
  "verification_result_ids" :- (slice_codec string_codec) at Pkg_VerificationResultIDs;
  "risk_findings" :- (slice_codec RiskFinding_codec) at Pkg_RiskFindings;
  "required_approval_classes" :- (slice_codec string_codec) at Pkg_RequiredApprovalClasses;
  "summary" :- string_codec at Pkg_Summary;
  "digest" :- string_codec at Pkg_Digest;
  "created_at" :- time_codec at Pkg_CreatedAt;
  "expires_at" :- time_codec at Pkg_ExpiresAt].

Definition ApprovalPackage_codec : Codec ApprovalPackage := struct_codec ApprovalPackage_fields zero_ApprovalPackage.

Record ApprovalDecision := mkApprovalDecision {
  Dec_Version : string;
  Dec_ID : string;
  Dec_TransactionID : string;
  Dec_ApprovalID : string;
  Dec_PackageDigest : string;
  Dec_ApprovalClass : string;
  Dec_Decision : ApprovalDecisionKind;
  Dec_Reason : string;
  Dec_Approver : Principal;
  Dec_KeyID : string;
  Dec_IssuedAt : Time;
  Dec_ExpiresAt : Time;
  Dec_Nonce : string;
  Dec_Digest : string;
  Dec_SignatureBase64 : string;
}.

#[export] Instance ApprovalDecision_eta : RecordEta ApprovalDecision := fun r =>
  mkApprovalDecision (Dec_Version r) (Dec_ID r) (Dec_TransactionID r) (Dec_ApprovalID r) (Dec_PackageDigest r)
    (Dec_ApprovalClass r) (Dec_Decision r) (Dec_Reason r) (Dec_Approver r) (Dec_KeyID r)
    (Dec_IssuedAt r) (Dec_ExpiresAt r) (Dec_Nonce r) (Dec_Digest r) (Dec_SignatureBase64 r).

Definition zero_ApprovalDecision : ApprovalDecision :=
  mkApprovalDecision "" "" "" "" "" "" (ApprovalDecisionKindOther "") "" zero_Principal "" zero_time zero_time "" ""
    "".

Definition ApprovalDecision_fields : list (Field ApprovalDecision) := [
  "version" :- string_codec at Dec_Version;
  "id" :- string_codec at Dec_ID;
  "transaction_id" :- string_codec at Dec_TransactionID;
  "approval_id" :- string_codec at Dec_ApprovalID;
  "package_digest" :- string_codec at Dec_PackageDigest;
  "approval_class" :- string_codec at Dec_ApprovalClass;
  "decision" :- ApprovalDecisionKind_codec at Dec_Decision;
  "reason" :-? string_codec at Dec_Reason;
  "approver" :- Principal_codec at Dec_Approver;
  "key_id" :- string_codec at Dec_KeyID;
  "issued_at" :- time_codec at Dec_IssuedAt;
  "expires_at" :- time_codec at Dec_ExpiresAt;
  "nonce" :- string_codec at Dec_Nonce;
  "digest" :- string_codec at Dec_Digest;
  "signature_base64" :- string_codec at Dec_SignatureBase64].

Definition ApprovalDecision_codec : Codec ApprovalDecision := struct_codec ApprovalDecision_fields zero_ApprovalDecision.

Record CommitStep := mkCommitStep {
  CStep_Sequence : Z;
  CStep_EffectID : string;
  CStep_DependsOn : slice string;
  CStep_PreconditionIDs : slice string;
  CStep_IdempotencyKey : string;
  CStep_TimeoutSeconds : Z;
  CStep_RequiresReceipt : bool;
}.

#[export] Instance CommitStep_eta : RecordEta CommitStep := fun r =>
  mkCommitStep (CStep_Sequence r) (CStep_EffectID r) (CStep_DependsOn r) (CStep_PreconditionIDs r)
    (CStep_IdempotencyKey r) (CStep_TimeoutSeconds r) (CStep_RequiresReceipt r).

Definition zero_CommitStep : CommitStep :=
  mkCommitStep 0 "" SNil SNil "" 0 false.

Definition CommitStep_fields : list (Field CommitStep) := [
  "sequence" :- int64_codec at CStep_Sequence;
  "effect_id" :- string_codec at CStep_EffectID;
  "depends_on" :- (slice_codec string_codec) at CStep_DependsOn;
  "precondition_ids" :- (slice_codec string_codec) at CStep_PreconditionIDs;
  "idempotency_key" :-? string_codec at CStep_IdempotencyKey;
  "timeout_seconds" :- int64_codec at CStep_TimeoutSeconds;
  "requires_receipt" :- bool_codec at CStep_RequiresReceipt].

Definition CommitStep_codec : Codec CommitStep := struct_codec CommitStep_fields zero_CommitStep.

Record CompensationStep := mkCompensationStep {
  KStep_Sequence : Z;
  KStep_EffectID : string;
  KStep_PreconditionIDs : slice string;
  KStep_PlanRef : option ArtifactRef;
}.

#[export] Instance CompensationStep_eta : RecordEta CompensationStep := fun r =>
  mkCompensationStep (KStep_Sequence r) (KStep_EffectID r) (KStep_PreconditionIDs r) (KStep_PlanRef r).

Definition zero_CompensationStep : CompensationStep :=
  mkCompensationStep 0 "" SNil None.

Definition CompensationStep_fields : list (Field CompensationStep) := [
  "sequence" :- int64_codec at KStep_Sequence;
  "effect_id" :- string_codec at KStep_EffectID;
  "precondition_ids" :- (slice_codec string_codec) at KStep_PreconditionIDs;
  "plan_ref" :-? (pointer_codec ArtifactRef_codec) at KStep_PlanRef].

Definition CompensationStep_codec : Codec CompensationStep := struct_codec CompensationStep_fields zero_CompensationStep.

Record CommitPlan := mkCommitPlan {
  Plan_Version : string;
  Plan_ID : string;
  Plan_TransactionID : string;
  Plan_Attempt : Z;
  Plan_IntentDigest : string;
  Plan_EffectSetDigest : string;
  Plan_StagedStateDigest : string;
  Plan_PolicyDigest : string;
  Plan_Connector : string;
  Plan_Target : ResourceSelector;
  Plan_ExpectedResourceVersion : string;
  Plan_Steps : slice CommitStep;
  Plan_CompensationSteps : slice CompensationStep;
  Plan_IrreversibleEffectIDs : slice string;
  Plan_ManualRecoveryRef : option ArtifactRef;
  Plan_Digest : string;
  Plan_CreatedAt : Time;
}.

#[export] Instance CommitPlan_eta : RecordEta CommitPlan := fun r =>
  mkCommitPlan (Plan_Version r) (Plan_ID r) (Plan_TransactionID r) (Plan_Attempt r) (Plan_IntentDigest r)
    (Plan_EffectSetDigest r) (Plan_StagedStateDigest r) (Plan_PolicyDigest r) (Plan_Connector r)
    (Plan_Target r) (Plan_ExpectedResourceVersion r) (Plan_Steps r) (Plan_CompensationSteps r)
    (Plan_IrreversibleEffectIDs r) (Plan_ManualRecoveryRef r) (Plan_Digest r) (Plan_CreatedAt r).

Definition zero_CommitPlan : CommitPlan :=
  mkCommitPlan "" "" "" 0 "" "" "" "" "" zero_ResourceSelector "" SNil SNil SNil None "" zero_time.

Definition CommitPlan_fields : list (Field CommitPlan) := [
  "version" :- string_codec at Plan_Version;
  "id" :- string_codec at Plan_ID;
  "transaction_id" :- string_codec at Plan_TransactionID;
  "attempt" :-? int64_codec at Plan_Attempt;
  "intent_digest" :- string_codec at Plan_IntentDigest;
  "effect_set_digest" :- string_codec at Plan_EffectSetDigest;
  "staged_state_digest" :- string_codec at Plan_StagedStateDigest;
  "policy_digest" :- string_codec at Plan_PolicyDigest;
  "connector" :- string_codec at Plan_Connector;
  "target" :- ResourceSelector_codec at Plan_Target;
  "expected_resource_version" :- string_codec at Plan_ExpectedResourceVersion;
  "steps" :- (slice_codec CommitStep_codec) at Plan_Steps;
  "compensation_steps" :- (slice_codec CompensationStep_codec) at Plan_CompensationSteps;
  "irreversible_effect_ids" :- (slice_codec string_codec) at Plan_IrreversibleEffectIDs;
  "manual_recovery_ref" :-? (pointer_codec ArtifactRef_codec) at Plan_ManualRecoveryRef;
  "digest" :- string_codec at Plan_Digest;
  "created_at" :- time_codec at Plan_CreatedAt].

Definition CommitPlan_codec : Codec CommitPlan := struct_codec CommitPlan_fields zero_CommitPlan.

Record TransactionEvent := mkTransactionEvent {
  Event_Version : string;
  Event_ID : string;
  Event_TransactionID : string;
  Event_Sequence : Z;
  Event_Type : string;
  Event_Actor : Principal;
  Event_OccurredAt : Time;
  Event_Payload : RawMessage;
  Event_Artifacts : slice ArtifactRef;
  Event_PreviousDigest : string;
  Event_Digest : string;
}.

#[export] Instance TransactionEvent_eta : RecordEta TransactionEvent := fun r =>
  mkTransactionEvent (Event_Version r) (Event_ID r) (Event_TransactionID r) (Event_Sequence r) (Event_Type r)
    (Event_Actor r) (Event_OccurredAt r) (Event_Payload r) (Event_Artifacts r)
    (Event_PreviousDigest r) (Event_Digest r).

Definition zero_TransactionEvent : TransactionEvent :=
  mkTransactionEvent "" "" "" 0 "" zero_Principal zero_time RawEmpty SNil "" "".

Definition TransactionEvent_fields : list (Field TransactionEvent) := [
  "version" :- string_codec at Event_Version;
  "id" :- string_codec at Event_ID;
  "transaction_id" :- string_codec at Event_TransactionID;
  "sequence" :- int64_codec at Event_Sequence;
  "type" :- string_codec at Event_Type;
  "actor" :- Principal_codec at Event_Actor;
  "occurred_at" :- time_codec at Event_OccurredAt;
  "payload" :- raw_codec at Event_Payload;
  "artifacts" :-? (slice_codec ArtifactRef_codec) at Event_Artifacts;
  "previous_digest" :-? string_codec at Event_PreviousDigest;
  "digest" :- string_codec at Event_Digest].

Definition TransactionEvent_codec : Codec TransactionEvent := struct_codec TransactionEvent_fields zero_TransactionEvent.

(** ** Terminal states *)

Definition TransactionState_Terminal (s : TransactionState) : bool :=
  match s with
  | TransactionCompletedNoEffect | TransactionBlocked | TransactionCommitted | TransactionRolledBack
  | TransactionReleaseFailed | TransactionPartiallyCommitted | TransactionManualRecoveryRequired
  | TransactionAborted => true
  | _ => false
  end.

Definition EffectStatus_Terminal (s : EffectStatus) : bool :=
  match s with
  | EffectCommitted | EffectBlocked | EffectRejected | EffectFailed
  | EffectCompensated | EffectManualRecoveryRequired => true
  | _ => false
  end.

Definition AgentExecutionStatus_Terminal (s : AgentExecutionStatus) : bool :=
  match s with
  | AgentExecutionSucceeded | AgentExecutionFailed
  | AgentExecutionInterrupted | AgentExecutionStartFailed => true
  | _ => false
  end.
