(* ===== verification/TransactionDigest.v ===== *)
(** * Content digests

    internal/kernel/transaction/digest.go, internal/kernel/model/event_digest.go
    and the digests of internal/kernel/model/agent_task.go.  A digest is the
    SHA-256 of the JSON text; [None] stands for an encoding error. *)
From S2P Require Import Prelude GoBase Sha256 Json ModelTypes TransactionTypes.

(** ** The immutable proposal fields of an effect *)

Record immutableEffect := mkImmutableEffect {
  IEffect_ID : string;
  IEffect_TransactionID : string;
  IEffect_Attempt : Z;
  IEffect_Sequence : Z;
  IEffect_RunID : string;
  IEffect_OriginExecutionID : string;
  IEffect_OriginActionID : string;
  IEffect_System : string;
  IEffect_Resource : ResourceSelector;
  IEffect_Operation : string;
  IEffect_ArgumentsDigest : string;
  IEffect_Dependencies : slice string;
  IEffect_EstimatedScope : EffectScope;
  IEffect_DataClassification : string;
  IEffect_RecoveryClass : EffectRecoveryClass;
  IEffect_IdempotencyKey : string;
  IEffect_StageDigest : string;
  IEffect_BeforeStateDigest : string;
  IEffect_Compensation : option CompensationSpec;
}.

#[export] Instance immutableEffect_eta : RecordEta immutableEffect := fun r =>
  mkImmutableEffect (IEffect_ID r) (IEffect_TransactionID r) (IEffect_Attempt r) (IEffect_Sequence r)
    (IEffect_RunID r) (IEffect_OriginExecutionID r) (IEffect_OriginActionID r) (IEffect_System r)
    (IEffect_Resource r) (IEffect_Operation r) (IEffect_ArgumentsDigest r) (IEffect_Dependencies r)
    (IEffect_EstimatedScope r) (IEffect_DataClassification r) (IEffect_RecoveryClass r)
    (IEffect_IdempotencyKey r) (IEffect_StageDigest r) (IEffect_BeforeStateDigest r)
    (IEffect_Compensation r).

Definition zero_immutableEffect : immutableEffect :=
  mkImmutableEffect "" "" 0 0 "" "" "" "" zero_ResourceSelector "" "" SNil zero_EffectScope ""
    (EffectRecoveryClassOther "") "" "" "" None.

Definition immutableEffect_fields : list (Field immutableEffect) := [
  "id" :- string_codec at IEffect_ID;
  "transaction_id" :- string_codec at IEffect_TransactionID;
  "attempt" :-? int64_codec at IEffect_Attempt;
  "sequence" :- int64_codec at IEffect_Sequence;
  "run_id" :-? string_codec at IEffect_RunID;
  "origin_execution_id" :-? string_codec at IEffect_OriginExecutionID;
  "origin_action_id" :-? string_codec at IEffect_OriginActionID;
  "system" :- string_codec at IEffect_System;
  "resource" :- ResourceSelector_codec at IEffect_Resource;
  "operation" :- string_codec at IEffect_Operation;
  "arguments_digest" :- string_codec at IEffect_ArgumentsDigest;
  "dependencies" :- (slice_codec string_codec) at IEffect_Dependencies;
  "estimated_scope" :- EffectScope_codec at IEffect_EstimatedScope;
  "data_classification" :-? string_codec at IEffect_DataClassification;
  "recovery_class" :- EffectRecoveryClass_codec at IEffect_RecoveryClass;
  "idempotency_key" :-? string_codec at IEffect_IdempotencyKey;
  "stage_digest" :-? string_codec at IEffect_StageDigest;
  "before_state_digest" :-? string_codec at IEffect_BeforeStateDigest;
  "compensation" :-? (pointer_codec CompensationSpec_codec) at IEffect_Compensation].

Definition immutableEffect_codec : Codec immutableEffect := struct_codec immutableEffect_fields zero_immutableEffect.

Definition immutable_effect (effect : Effect) : immutableEffect := {|
  IEffect_ID := Effect_ID effect;
  IEffect_TransactionID := Effect_TransactionID effect;
  IEffect_Attempt := Effect_Attempt effect;
  IEffect_Sequence := Effect_Sequence effect;
  IEffect_RunID := Effect_RunID effect;
  IEffect_OriginExecutionID := Effect_OriginExecutionID effect;
  IEffect_OriginActionID := Effect_OriginActionID effect;
  IEffect_System := Effect_System effect;
  IEffect_Resource := Effect_Resource effect;
  IEffect_Operation := Effect_Operation effect;
  IEffect_ArgumentsDigest := Effect_ArgumentsDigest effect;
  IEffect_Dependencies := Effect_Dependencies effect;
  IEffect_EstimatedScope := Effect_EstimatedScope effect;
  IEffect_DataClassification := Effect_DataClassification effect;
  IEffect_RecoveryClass := Effect_RecoveryClass effect;
  IEffect_IdempotencyKey := Effect_IdempotencyKey effect;
  IEffect_StageDigest := match Effect_StageRef effect with Some ref => Ref_Digest ref | None => "" end;
  IEffect_BeforeStateDigest := match Effect_BeforeStateRef effect with Some ref => Ref_Digest ref | None => "" end;
  IEffect_Compensation := Effect_Compensation effect;
|}.

(** The loop that checks the sequence and collects the immutable fields. *)
Definition immutable_effects (effects : list Effect) : option (list immutableEffect) :=
  if forallb (fun '(i, effect) => Effect_Sequence effect =? Z.of_nat (i + 1)) (indexed effects)
  then Some (map immutable_effect effects) else None.

Definition ComputeEffectSetDigest (effects : list Effect) : option string :=
  values ← immutable_effects effects;
  digestJSON (slice_codec immutableEffect_codec) (SList values).

(** ** Documents whose own digest field is blanked first *)

Definition ComputeCommitPlanDigest (plan : CommitPlan) : option string :=
  digestJSON CommitPlan_codec (plan <| Plan_Digest := "" |>).

Definition ComputeApprovalPackageDigest (approval : ApprovalPackage) : option string :=
  digestJSON ApprovalPackage_codec (approval <| Pkg_Digest := "" |>).

Definition ComputeApprovalDecisionDigest (decision : ApprovalDecision) : option string :=
  digestJSON ApprovalDecision_codec (decision <| Dec_Digest := "" |> <| Dec_SignatureBase64 := "" |>).

Definition ComputeTransactionEventDigest (event : TransactionEvent) : option string :=
  digestJSON TransactionEvent_codec (event <| Event_Digest := "" |>).

(** [(false, err)] on an encoding error is [None]. *)
Definition VerifyTransactionEventDigest (event : TransactionEvent) : option bool :=
  want ← ComputeTransactionEventDigest event; Some (Event_Digest event ==? want).

Definition ComputeAgentTaskIntentDigest (intent : string) : string := sha256_digest intent.

Definition ComputeAgentTaskDigest (task : AgentTask) : option string :=
  digestJSON AgentTask_codec (task <| Task_Digest := "" |>).
