(* ===== verification/TransactionValidate.v ===== *)
(** * Structural validation of the transaction resources

    The [Validate] methods of internal/kernel/model/transaction_validate.go and
    [AgentTask.Validate] of internal/kernel/model/agent_task.go, check by check
    in the order of the source. *)
From S2P Require Import Prelude GoBase Sha256 Json ModelTypes ModelValidate TransactionTypes TransactionDigest.

(** Several fields through one validator, in order. *)
Definition validate_fields (validator : string -> string -> string -> result unit) (resource : string)
    (items : list (string * string)) : result unit :=
  each (fun '(field, value) => validator resource field value) items.

(** The same, skipping empty values. *)
Definition validate_optional_fields (validator : string -> string -> string -> result unit) (resource : string)
    (items : list (string * string)) : result unit :=
  each (fun '(field, value) => if value !=? "" then validator resource field value else Ok tt) items.

(** ** Enumerations *)

Definition validTransactionState (state : TransactionState) : bool :=
  match state with TransactionStateOther _ => false | _ => true end.

Definition validAgentExecutionStatus (status : AgentExecutionStatus) : bool :=
  match status with AgentExecutionStatusOther _ => false | _ => true end.

Definition transactionStateRequiresReason (state : TransactionState) : bool :=
  match state with
  | TransactionValidationFailed | TransactionReviseRequired
  | TransactionBlocked | TransactionReleaseFailed | TransactionPartiallyCommitted
  | TransactionManualRecoveryRequired | TransactionAborted => true
  | _ => false
  end.

Definition transactionStateRequiresFrozenEffects (state : TransactionState) : bool :=
  match state with
  | TransactionStaged | TransactionValidating | TransactionValidationFailed
  | TransactionReviseRequired | TransactionPendingApproval
  | TransactionReadyToCommit | TransactionCommitting | TransactionCommitted
  | TransactionCompensating | TransactionRolledBack | TransactionReleaseFailed
  | TransactionPartiallyCommitted | TransactionManualRecoveryRequired => true
  | _ => false
  end.

Definition transactionStateRequiresCommitPlan (state : TransactionState) : bool :=
  match state with
  | TransactionReadyToCommit | TransactionCommitting
  | TransactionCommitted | TransactionCompensating
  | TransactionRolledBack | TransactionReleaseFailed | TransactionPartiallyCommitted
  | TransactionManualRecoveryRequired => true
  | _ => false
  end.

Definition validRecoveryClass (class : EffectRecoveryClass) : bool :=
  match class with EffectRecoveryClassOther _ => false | _ => true end.

Definition validEffectStatus (status : EffectStatus) : bool :=
  match status with EffectStatusOther _ => false | _ => true end.

Definition effectStatusRequiresStage (status : EffectStatus) : bool :=
  match status with
  | EffectStaged | EffectValidated | EffectReleaseReady | EffectCommitting
  | EffectCommitted | EffectCompensating | EffectCompensated => true
  | _ => false
  end.

Definition effectStatusRequiresReleaseMetadata (status : EffectStatus) : bool :=
  match status with
  | EffectReleaseReady | EffectCommitting | EffectCommitted
  | EffectCompensating | EffectCompensated => true
  | _ => false
  end.

Definition effectStatusRequiresReceipt (status : EffectStatus) : bool :=
  match status with
  | EffectCommitted | EffectCompensating | EffectCompensated => true
  | _ => false
  end.

Definition validVerificationKind (kind : VerificationKind) : bool :=
  match kind with VerificationKindOther _ => false | _ => true end.

Definition validVerificationStatus (status : VerificationStatus) : bool :=
  match status with VerificationStatusOther _ => false | _ => true end.

Definition validVerificationIndependence (value : VerificationIndependence) : bool :=
  match value with VerificationIndependenceOther _ => false | _ => true end.

Definition validRiskSeverity (value : string) : bool :=
  bool_decide (value ∈ ["info"; "low"; "medium"; "high"; "critical"]).

(** ** AgentTask *)

(** Non-empty UTF-8 without NUL. *)
Definition plain_text (s : string) : bool := valid_utf8 s && negb (blank s) && negb (contains_nul s).

Definition AgentTask_Validate (task : AgentTask) : result unit :=
  let resource := "AgentTask" in
  let profile := Task_AgentProfile task in
  check validateVersion resource (Task_Version task) AgentTaskVersion ;;
  check validate_fields validateIdentifier resource
    [("id", Task_ID task); ("transaction_id", Task_TransactionID task);
     ("namespace", Task_Namespace task); ("run_id", Task_RunID task);
     ("agent_profile.id", Profile_ID profile)] ;;
  reject_if negb (plain_text (Task_Intent task)) with invalid resource "intent" ;;
  reject_if MaxAgentTaskIntentBytes <? string_len (Task_Intent task) with invalid resource "intent" ;;
  check validate_fields validateDigest resource
    [("intent_digest", Task_IntentDigest task); ("agent_profile.digest", Profile_Digest profile);
     ("agent_profile.command_digest", Profile_CommandDigest profile); ("digest", Task_Digest task)] ;;
  reject_if Task_IntentDigest task !=? ComputeAgentTaskIntentDigest (Task_Intent task)
    with invalid resource "intent_digest" ;;
  check (if Profile_RuntimeClass profile ==? "oci" then
      check validateDigest resource "agent_profile.image_digest" (Profile_ImageDigest profile) ;;
      reject_if (Profile_Entrypoint profile !=? "") && negb (plain_text (Profile_Entrypoint profile))
        with invalid resource "agent_profile.entrypoint" ;;
      Ok tt
    else if Profile_RuntimeClass profile ==? "host" then
      reject_if Profile_ImageDigest profile !=? "" with invalid resource "agent_profile.image_digest" ;;
      reject_if Profile_Entrypoint profile !=? "" with invalid resource "agent_profile.entrypoint" ;;
      Ok tt
    else Err (invalid resource "agent_profile.runtime_class")) ;;
  reject_if IsZero (Task_CreatedAt task) with invalid resource "created_at" ;;
  match ComputeAgentTaskDigest task with
  | None => Err (invalid resource "digest")
  | Some computed => reject_if Task_Digest task !=? computed with invalid resource "digest" ;; Ok tt
  end.

(** ** AgentTransaction *)

Definition validate_stage_bindings (resource : string) (bindings : list StageBinding) : result unit :=
  let? _ := fold_res (fun (stageIDs : gset string) '(i, binding) =>
      let field := at_index "stage_bindings" i in
      check validateIdentifier resource (field +:+ ".id") (Binding_ID binding) ;;
      reject_if bool_decide (Binding_ID binding ∈ stageIDs) with invalid resource (field +:+ ".id") ;;
      check validateIdentifier resource (field +:+ ".kind") (Binding_Kind binding) ;;
      check validateResourceSelector resource (field +:+ ".resource") (Binding_Resource binding) ;;
      reject_if blank (Binding_Location binding) || contains_nul (Binding_Location binding)
        with invalid resource (field +:+ ".location") ;;
      reject_if blank (Binding_BaseRevision binding) with invalid resource (field +:+ ".base_revision") ;;
      reject_if IsZero (Binding_CreatedAt binding) with invalid resource (field +:+ ".created_at") ;;
      Ok ({[Binding_ID binding]} ∪ stageIDs)) ∅ (indexed bindings) in
  Ok tt.

Definition validate_task_binding (resource : string) (transaction : AgentTransaction) : result unit :=
  match Tx_Task transaction with
  | None => Ok tt
  | Some task =>
    check AgentTask_Validate task ;;
    reject_if (Task_TransactionID task !=? Tx_ID transaction) ||
              (Task_Namespace task !=? Tx_Namespace transaction) ||
              (Task_IntentDigest task !=? Tx_IntentDigest transaction) ||
              negb (Equal (Task_CreatedAt task) (Tx_CreatedAt transaction))
      with invalid resource "task" ;;
    reject_if negb (bool_decide (Task_RunID task ∈ elems (Tx_AgentRunIDs transaction)))
      with invalid resource "task.run_id" ;;
    Ok tt
  end.

Definition validate_admission (resource : string) (transaction : AgentTransaction) : result unit :=
  match Tx_Admission transaction with
  | None => Ok tt
  | Some admission =>
    reject_if (Admission_RuntimeID admission !=? "") && negb (IsRuntimeID (Admission_RuntimeID admission))
      with invalid resource "admission.runtime_id" ;;
    reject_if xorb (Admission_RuntimeID admission ==? "") (Admission_EnforcementProfile admission ==? "") ||
              ((Admission_EnforcementProfile admission !=? "") &&
               negb (IsEnforcementProfile (Admission_EnforcementProfile admission)))
      with invalid resource "admission.enforcement_profile" ;;
    check validateDigest resource "admission.task_digest" (Admission_TaskDigest admission) ;;
    check validateIdentifier resource "admission.run_id" (Admission_RunID admission) ;;
    check validateDigest resource "admission.contract_digest" (Admission_ContractDigest admission) ;;
    match Tx_Task transaction with
    | None => Err (invalid resource "admission.task_digest")
    | Some task =>
      reject_if Admission_TaskDigest admission !=? Task_Digest task
        with invalid resource "admission.task_digest" ;;
      reject_if Admission_RunID admission !=? Task_RunID task with invalid resource "admission.run_id" ;;
      reject_if negb (bool_decide (Admission_RunID admission ∈ elems (Tx_AgentRunIDs transaction)))
        with invalid resource "admission.run_id" ;;
      Ok tt
    end
  end.

(** Completion time against state and creation time. *)
Definition validate_completion (resource : string) (transaction : AgentTransaction) : result unit :=
  if TransactionState_Terminal (Tx_State transaction) then
    match Tx_CompletedAt transaction with
    | None => Err (invalid resource "completed_at")
    | Some completed =>
      reject_if IsZero completed with invalid resource "completed_at" ;;
      reject_if Before completed (Tx_CreatedAt transaction) with invalid resource "completed_at" ;;
      Ok tt
    end
  else
    reject_if bool_decide (is_Some (Tx_CompletedAt transaction)) with invalid resource "completed_at" ;;
    Ok tt.

Definition AgentTransaction_Validate (transaction : AgentTransaction) : result unit :=
  let resource := "AgentTransaction" in
  check validateVersion resource (Tx_Version transaction) AgentTransactionVersion ;;
  reject_if Tx_Attempt transaction <? 0 with invalid resource "attempt" ;;
  check validate_fields validateIdentifier resource
    [("id", Tx_ID transaction); ("namespace", Tx_Namespace transaction)] ;;
  check validate_stage_bindings resource (Tx_StageBindings transaction) ;;
  check validateDigest resource "intent_digest" (Tx_IntentDigest transaction) ;;
  check validate_task_binding resource transaction ;;
  check validate_admission resource transaction ;;
  check validatePrincipal resource "sponsor" (Tx_Sponsor transaction) ;;
  reject_if (Principal_Kind (Tx_Sponsor transaction) ==? PrincipalAgent) ||
            (Principal_Kind (Tx_Sponsor transaction) ==? PrincipalRun)
    with identityInvalid resource "sponsor.kind" ;;
  check each (fun '(field, values) => validateUniqueIdentifiers resource field values)
    [("agent_run_ids", elems (Tx_AgentRunIDs transaction));
     ("effect_ids", elems (Tx_EffectIDs transaction));
     ("verification_result_ids", elems (Tx_VerificationResultIDs transaction));
     ("outstanding_approval_ids", elems (Tx_OutstandingApprovalIDs transaction))] ;;
  reject_if negb (validTransactionState (Tx_State transaction)) with invalid resource "state" ;;
  reject_if transactionStateRequiresReason (Tx_State transaction) && blank (Tx_StateReason transaction)
    with invalid resource "state_reason" ;;
  check validate_optional_fields validateDigest resource
    [("staged_state_digest", Tx_StagedStateDigest transaction);
     ("effect_set_digest", Tx_EffectSetDigest transaction);
     ("approval_package_digest", Tx_ApprovalPackageDigest transaction);
     ("commit_plan_digest", Tx_CommitPlanDigest transaction)] ;;
  reject_if transactionStateRequiresFrozenEffects (Tx_State transaction) &&
            ((Tx_StagedStateDigest transaction ==? "") || (Tx_EffectSetDigest transaction ==? ""))
    with invalid resource "effect_set_digest" ;;
  reject_if (Tx_State transaction ==? TransactionPendingApproval) &&
            ((Tx_ApprovalPackageDigest transaction ==? "") ||
             (length (Tx_OutstandingApprovalIDs transaction) =? 0)%nat)
    with invalid resource "approval_package_digest" ;;
  reject_if transactionStateRequiresCommitPlan (Tx_State transaction) && (Tx_CommitPlanDigest transaction ==? "")
    with invalid resource "commit_plan_digest" ;;
  reject_if Tx_EventSequence transaction <? 1 with invalid resource "event_sequence" ;;
  reject_if IsZero (Tx_CreatedAt transaction) || IsZero (Tx_UpdatedAt transaction)
    with invalid resource "created_at" ;;
  reject_if Before (Tx_UpdatedAt transaction) (Tx_CreatedAt transaction) with invalid resource "updated_at" ;;
  validate_completion resource transaction.

(** ** AgentExecution *)

Definition validate_model_broker (resource : string) (execution : AgentExecution) : result unit :=
  match Exec_ModelBroker execution with
  | None => Ok tt
  | Some broker =>
    reject_if (Exec_RuntimeClass execution !=? "oci") || negb (IsIdentifier (MBroker_Provider broker))
      with invalid resource "model_broker" ;;
    check validate_fields validateDigest resource
      [("model_broker.image_digest", MBroker_ImageDigest broker);
       ("model_broker.policy_digest", MBroker_PolicyDigest broker)] ;;
    reject_if (MBroker_Calls broker <? 0) || (MBroker_CompletedCalls broker <? 0) ||
              (MBroker_FailedCalls broker <? 0) || (MBroker_UnknownCalls broker <? 0) ||
              (MBroker_InputTokens broker <? 0) || (MBroker_OutputTokens broker <? 0)
      with invalid resource "model_broker" ;;
    reject_if negb (wrap64 (wrap64 (MBroker_CompletedCalls broker + MBroker_FailedCalls broker) +
                            MBroker_UnknownCalls broker) =? MBroker_Calls broker)
      with invalid resource "model_broker" ;;
    validate_optional_fields validateDigest resource
      [("model_broker.receipt_ledger_digest", MBroker_ReceiptLedgerDigest broker)]
  end.

(** A running execution carries no completion field. *)
Definition validate_running (resource : string) (execution : AgentExecution) : result unit :=
  reject_if bool_decide (is_Some (Exec_ExitCode execution)) || bool_decide (is_Some (Exec_CompletedAt execution)) ||
            (Exec_StdoutDigest execution !=? "") || (Exec_StderrDigest execution !=? "")
    with invalid resource "status" ;;
  reject_if match Exec_ModelBroker execution with
            | None => false
            | Some broker =>
              (MBroker_ReceiptLedgerDigest broker !=? "") || negb (MBroker_Calls broker =? 0) ||
              negb (MBroker_CompletedCalls broker =? 0) || negb (MBroker_FailedCalls broker =? 0) ||
              negb (MBroker_UnknownCalls broker =? 0) || negb (MBroker_InputTokens broker =? 0) ||
              negb (MBroker_OutputTokens broker =? 0)
            end
    with invalid resource "model_broker" ;;
  Ok tt.

(** A finished execution carries its completion time, digests and exit code. *)
Definition validate_finished (resource : string) (execution : AgentExecution) : result unit :=
  match Exec_CompletedAt execution with
  | None => Err (invalid resource "completed_at")
  | Some completed =>
    reject_if IsZero completed with invalid resource "completed_at" ;;
    reject_if Before completed (Exec_StartedAt execution) with invalid resource "completed_at" ;;
    check validate_fields validateDigest resource
      [("stdout_digest", Exec_StdoutDigest execution); ("stderr_digest", Exec_StderrDigest execution)] ;;
    reject_if match Exec_Status execution, Exec_ExitCode execution with
              | AgentExecutionSucceeded, None => true
              | AgentExecutionSucceeded, Some code => negb (code =? 0)
              | AgentExecutionFailed, None => true
              | AgentExecutionFailed, Some code => code =? 0
              | (AgentExecutionInterrupted | AgentExecutionStartFailed), Some _ => true
              | _, _ => false
              end
      with invalid resource "exit_code" ;;
    reject_if match Exec_ModelBroker execution with
              | None => false
              | Some broker => (Exec_Status execution !=? AgentExecutionInterrupted) &&
                               (MBroker_ReceiptLedgerDigest broker ==? "")
              end
      with invalid resource "model_broker.receipt_ledger_digest" ;;
    Ok tt
  end.

Definition AgentExecution_Validate (execution : AgentExecution) : result unit :=
  let resource := "AgentExecution" in
  check validateVersion resource (Exec_Version execution) AgentExecutionVersion ;;
  reject_if Exec_Attempt execution <? 0 with invalid resource "attempt" ;;
  check validate_fields validateIdentifier resource
    [("id", Exec_ID execution); ("transaction_id", Exec_TransactionID execution);
     ("run_id", Exec_RunID execution); ("stage_binding_id", Exec_StageBindingID execution)] ;;
  reject_if blank (Exec_Program execution) || contains_nul (Exec_Program execution)
    with invalid resource "program" ;;
  reject_if 4096 <? string_len (Exec_Program execution) with invalid resource "program" ;;
  check validateDigest resource "command_digest" (Exec_CommandDigest execution) ;;
  reject_if (Exec_RuntimeClass execution !=? "oci") && (Exec_RuntimeClass execution !=? "host")
    with invalid resource "runtime_class" ;;
  check validateDigest resource "runtime_config_digest" (Exec_RuntimeConfigDigest execution) ;;
  check (if Exec_RuntimeClass execution ==? "oci"
         then validateDigest resource "image_digest" (Exec_ImageDigest execution)
         else reject_if Exec_ImageDigest execution !=? "" with invalid resource "image_digest" ;; Ok tt) ;;
  check validate_optional_fields validateDigest resource [("task_digest", Exec_TaskDigest execution)] ;;
  check validate_model_broker resource execution ;;
  reject_if negb (validAgentExecutionStatus (Exec_Status execution)) with invalid resource "status" ;;
  reject_if IsZero (Exec_StartedAt execution) with invalid resource "started_at" ;;
  if Exec_Status execution ==? AgentExecutionRunning then validate_running resource execution
  else validate_finished resource execution.

(** ** Effect *)

Definition validateEffectReceipt (resource field : string) (receipt : EffectReceipt) : result unit :=
  check validateIdentifier resource (field +:+ ".driver") (Receipt_Driver receipt) ;;
  check validateIdentifier resource (field +:+ ".operation_id") (Receipt_OperationID receipt) ;;
  check validateDigest resource (field +:+ ".result_digest") (Receipt_ResultDigest receipt) ;;
  reject_if blank (Receipt_ResourceVersion receipt) && (Receipt_ResourceVersion receipt !=? "")
    with invalid resource (field +:+ ".resource_version") ;;
  reject_if IsZero (Receipt_CommittedAt receipt) with invalid resource (field +:+ ".committed_at") ;;
  Ok tt.

(** A check on the target of a pointer that may be nil. *)
Definition validate_pointer {A} (validator : A -> result unit) (pointer : option A) : result unit :=
  match pointer with Some x => validator x | None => Ok tt end.

Definition validate_compensation (resource : string) (effect : Effect) : result unit :=
  match Effect_Compensation effect with
  | Some compensation =>
    reject_if Effect_RecoveryClass effect !=? RecoveryCompensatable with invalid resource "compensation" ;;
    check validateIdentifier resource "compensation.operation" (CompSpec_Operation compensation) ;;
    check validateJSONObject resource "compensation.arguments" (CompSpec_Arguments compensation) ;;
    check validateDigest resource "compensation.arguments_digest" (CompSpec_ArgumentsDigest compensation) ;;
    validate_pointer (validateArtifactRef resource "compensation.plan_ref") (CompSpec_PlanRef compensation)
  | None =>
    reject_if (Effect_RecoveryClass effect ==? RecoveryCompensatable) &&
              effectStatusRequiresReleaseMetadata (Effect_Status effect)
      with invalid resource "compensation" ;;
    Ok tt
  end.

Definition Effect_Validate (effect : Effect) : result unit :=
  let resource := "Effect" in
  let class := Effect_RecoveryClass effect in
  let status := Effect_Status effect in
  check validateVersion resource (Effect_Version effect) EffectVersion ;;
  reject_if Effect_Attempt effect <? 0 with invalid resource "attempt" ;;
  check validate_fields validateIdentifier resource
    [("id", Effect_ID effect); ("transaction_id", Effect_TransactionID effect);
     ("system", Effect_System effect); ("operation", Effect_Operation effect)] ;;
  check validate_optional_fields validateIdentifier resource
    [("run_id", Effect_RunID effect); ("origin_execution_id", Effect_OriginExecutionID effect);
     ("origin_action_id", Effect_OriginActionID effect); ("idempotency_key", Effect_IdempotencyKey effect)] ;;
  reject_if Effect_Sequence effect <? 1 with newError ErrorEffectSequence "validate" resource "sequence" ;;
  check validateResourceSelector resource "resource" (Effect_Resource effect) ;;
  check validateJSONObject resource "arguments" (Effect_Arguments effect) ;;
  check validateDigest resource "arguments_digest" (Effect_ArgumentsDigest effect) ;;
  check validateUniqueIdentifiers resource "dependencies" (Effect_Dependencies effect) ;;
  check each (fun dependency =>
      reject_if dependency ==? Effect_ID effect with invalid resource "dependencies" ;; Ok tt)
    (Effect_Dependencies effect) ;;
  check each (fun '(field, value) => validateOptionalNonnegative resource field value)
    [("estimated_scope.rows", Scope_Rows (Effect_EstimatedScope effect));
     ("estimated_scope.bytes", Scope_Bytes (Effect_EstimatedScope effect));
     ("estimated_scope.objects", Scope_Objects (Effect_EstimatedScope effect))] ;;
  reject_if negb (validRecoveryClass class) with invalid resource "recovery_class" ;;
  reject_if negb (validEffectStatus status) with invalid resource "status" ;;
  check each (fun '(field, value) => validate_pointer (validateArtifactRef resource field) value)
    [("stage_ref", Effect_StageRef effect); ("before_state_ref", Effect_BeforeStateRef effect)] ;;
  reject_if effectStatusRequiresStage status && (class !=? RecoveryReadOnly) &&
            negb (bool_decide (is_Some (Effect_StageRef effect)))
    with invalid resource "stage_ref" ;;
  reject_if effectStatusRequiresReleaseMetadata status && (class !=? RecoveryReadOnly) &&
            (Effect_IdempotencyKey effect ==? "")
    with invalid resource "idempotency_key" ;;
  reject_if (class ==? RecoveryReversible) && effectStatusRequiresReleaseMetadata status &&
            negb (bool_decide (is_Some (Effect_BeforeStateRef effect)))
    with invalid resource "before_state_ref" ;;
  check validate_compensation resource effect ;;
  reject_if (class ==? RecoveryIrreversible) && bool_decide (is_Some (Effect_Compensation effect))
    with invalid resource "compensation" ;;
  check validate_pointer (validateEffectReceipt resource "receipt") (Effect_Receipt effect) ;;
  check validate_pointer (validateEffectReceipt resource "compensation_receipt") (Effect_CompensationReceipt effect) ;;
  reject_if effectStatusRequiresReceipt status && negb (bool_decide (is_Some (Effect_Receipt effect)))
    with invalid resource "receipt" ;;
  reject_if (status ==? EffectCompensated) && negb (bool_decide (is_Some (Effect_CompensationReceipt effect)))
    with invalid resource "compensation_receipt" ;;
  reject_if IsZero (Effect_CreatedAt effect) || IsZero (Effect_UpdatedAt effect) with invalid resource "created_at" ;;
  reject_if Before (Effect_UpdatedAt effect) (Effect_CreatedAt effect) with invalid resource "updated_at" ;;
  Ok tt.

(** ** VerificationResult *)

Definition VerificationResult_Validate (res : VerificationResult) : result unit :=
  let resource := "VerificationResult" in
  check validateVersion resource (Ver_Version res) VerificationResultVersion ;;
  reject_if Ver_Attempt res <? 0 with invalid resource "attempt" ;;
  check validate_fields validateIdentifier resource
    [("id", Ver_ID res); ("transaction_id", Ver_TransactionID res); ("name", Ver_Name res)] ;;
  reject_if negb (validVerificationKind (Ver_Kind res)) with invalid resource "kind" ;;
  reject_if negb (validVerificationStatus (Ver_Status res)) with invalid resource "status" ;;
  check validate_fields validateDigest resource
    [("effect_set_digest", Ver_EffectSetDigest res); ("staged_state_digest", Ver_StagedStateDigest res);
     ("verifier_digest", Ver_VerifierDigest res); ("inputs_digest", Ver_InputsDigest res)] ;;
  check validatePrincipal resource "verifier" (Ver_Verifier res) ;;
  reject_if negb (validVerificationIndependence (Ver_Independence res)) with invalid resource "independence" ;;
  reject_if (length (Ver_Evidence res) =? 0)%nat with invalid resource "evidence" ;;
  check each (fun '(i, evidence) => validateArtifactRef resource (at_index "evidence" i) evidence)
    (indexed (Ver_Evidence res)) ;;
  reject_if blank (Ver_Summary res) with invalid resource "summary" ;;
  reject_if IsZero (Ver_EvaluatedAt res) with invalid resource "evaluated_at" ;;
  reject_if match Ver_ExpiresAt res with Some t => negb (After t (Ver_EvaluatedAt res)) | None => false end
    with invalid resource "expires_at" ;;
  Ok tt.

(** ** ApprovalPackage and ApprovalDecision *)

Definition ApprovalPackage_Validate (approval : ApprovalPackage) : result unit :=
  let resource := "ApprovalPackage" in
  check validateVersion resource (Pkg_Version approval) ApprovalPackageVersion ;;
  reject_if Pkg_Attempt approval <? 0 with invalid resource "attempt" ;;
  check validate_fields validateIdentifier resource
    [("id", Pkg_ID approval); ("transaction_id", Pkg_TransactionID approval)] ;;
  check validate_fields validateDigest resource
    [("intent_digest", Pkg_IntentDigest approval); ("effect_set_digest", Pkg_EffectSetDigest approval);
     ("staged_state_digest", Pkg_StagedStateDigest approval); ("policy_digest", Pkg_PolicyDigest approval);
     ("commit_plan_digest", Pkg_CommitPlanDigest approval); ("digest", Pkg_Digest approval)] ;;
  reject_if (length (Pkg_VerificationResultIDs approval) =? 0)%nat with invalid resource "verification_result_ids" ;;
  check validateUniqueIdentifiers resource "verification_result_ids" (Pkg_VerificationResultIDs approval) ;;
  check validateUniqueIdentifiers resource "required_approval_classes" (Pkg_RequiredApprovalClasses approval) ;;
  check each (fun '(i, finding) =>
      let field := at_index "risk_findings" i in
      check validateIdentifier resource (field +:+ ".code") (Risk_Code finding) ;;
      reject_if negb (validRiskSeverity (Risk_Severity finding)) with invalid resource (field +:+ ".severity") ;;
      reject_if blank (Risk_Summary finding) with invalid resource (field +:+ ".summary") ;;
      validateUniqueIdentifiers resource (field +:+ ".effect_ids") (Risk_EffectIDs finding))
    (indexed (Pkg_RiskFindings approval)) ;;
  reject_if blank (Pkg_Summary approval) with invalid resource "summary" ;;
  reject_if IsZero (Pkg_CreatedAt approval) || IsZero (Pkg_ExpiresAt approval) ||
            negb (After (Pkg_ExpiresAt approval) (Pkg_CreatedAt approval))
    with invalid resource "expires_at" ;;
  Ok tt.

Definition ApprovalDecision_Validate (decision : ApprovalDecision) : result unit :=
  let resource := "ApprovalDecision" in
  check validateVersion resource (Dec_Version decision) ApprovalDecisionVersion ;;
  check validate_fields validateIdentifier resource
    [("id", Dec_ID decision); ("transaction_id", Dec_TransactionID decision);
     ("approval_id", Dec_ApprovalID decision); ("approval_class", Dec_ApprovalClass decision);
     ("key_id", Dec_KeyID decision); ("nonce", Dec_Nonce decision)] ;;
  check validate_fields validateDigest resource
    [("package_digest", Dec_PackageDigest decision); ("digest", Dec_Digest decision)] ;;
  check match Dec_Decision decision with
        | ApprovalApprove => reject_if negb (blank (Dec_Reason decision)) with invalid resource "reason" ;; Ok tt
        | ApprovalReject | ApprovalRevise =>
          reject_if blank (Dec_Reason decision) with invalid resource "reason" ;; Ok tt
        | ApprovalDecisionKindOther _ => Err (invalid resource "decision")
        end ;;
  check validatePrincipal resource "approver" (Dec_Approver decision) ;;
  reject_if Principal_Kind (Dec_Approver decision) !=? PrincipalHuman
    with identityInvalid resource "approver.kind" ;;
  reject_if IsZero (Dec_IssuedAt decision) || IsZero (Dec_ExpiresAt decision) ||
            negb (After (Dec_ExpiresAt decision) (Dec_IssuedAt decision))
    with invalid resource "expires_at" ;;
  match base64_decode (Dec_SignatureBase64 decision) with
  | None => Err (invalid resource "signature_base64")
  | Some signature =>
    reject_if negb (length signature =? 64)%nat with invalid resource "signature_base64" ;; Ok tt
  end.

(** ** CommitPlan *)

(** [stepIndex] and [stepDependencies] of the step loop. *)
Definition step_maps : Type := gmap string nat * gmap string (list string).

Definition validate_commit_step (resource : string) (maps : step_maps) (item : nat * CommitStep) : result step_maps :=
  let '(i, step) := item in
  let '(stepIndex, stepDependencies) := maps in
  let field := at_index "steps" i in
  reject_if negb (CStep_Sequence step =? Z.of_nat (i + 1))
    with newError ErrorEffectSequence "validate" resource (field +:+ ".sequence") ;;
  check validateIdentifier resource (field +:+ ".effect_id") (CStep_EffectID step) ;;
  reject_if bool_decide (is_Some (stepIndex !! CStep_EffectID step)) with invalid resource (field +:+ ".effect_id") ;;
  check validateUniqueIdentifiers resource (field +:+ ".depends_on") (CStep_DependsOn step) ;;
  check each (fun dependency =>
      reject_if negb (bool_decide (is_Some (stepIndex !! dependency)))
        with newError ErrorEffectSequence "validate" resource (field +:+ ".depends_on") ;; Ok tt)
    (CStep_DependsOn step) ;;
  check validateUniqueIdentifiers resource (field +:+ ".precondition_ids") (CStep_PreconditionIDs step) ;;
  check validate_optional_fields validateIdentifier resource
    [(field +:+ ".idempotency_key", CStep_IdempotencyKey step)] ;;
  reject_if CStep_TimeoutSeconds step <? 1 with invalid resource (field +:+ ".timeout_seconds") ;;
  reject_if negb (CStep_RequiresReceipt step) with invalid resource (field +:+ ".requires_receipt") ;;
  Ok (<[CStep_EffectID step := i]> stepIndex,
      <[CStep_EffectID step := elems (CStep_DependsOn step)]> stepDependencies).

Definition validate_compensation_step (resource : string) (stepIndex : gmap string nat)
    (compensationIndex : gmap string nat) (item : nat * CompensationStep) : result (gmap string nat) :=
  let '(i, step) := item in
  let field := at_index "compensation_steps" i in
  reject_if negb (KStep_Sequence step =? Z.of_nat (i + 1))
    with newError ErrorEffectSequence "validate" resource (field +:+ ".sequence") ;;
  reject_if negb (bool_decide (is_Some (stepIndex !! KStep_EffectID step)))
    with invalid resource (field +:+ ".effect_id") ;;
  reject_if bool_decide (is_Some (compensationIndex !! KStep_EffectID step))
    with invalid resource (field +:+ ".effect_id") ;;
  check validateUniqueIdentifiers resource (field +:+ ".precondition_ids") (KStep_PreconditionIDs step) ;;
  check validate_pointer (validateArtifactRef resource (field +:+ ".plan_ref")) (KStep_PlanRef step) ;;
  Ok (<[KStep_EffectID step := i]> compensationIndex).

(** The body of the loop over [stepDependencies]; Go visits the entries in an
    unspecified order. *)
Definition compensation_order (resource : string) (compensationIndex : gmap string nat)
    (entry : string * list string) : result unit :=
  let '(effectID, dependencies) := entry in
  each (fun dependency =>
      reject_if match compensationIndex !! effectID, compensationIndex !! dependency with
                | Some effectPosition, Some dependencyPosition => (dependencyPosition <=? effectPosition)%nat
                | _, _ => false
                end
        with newError ErrorEffectSequence "validate" resource "compensation_steps" ;; Ok tt)
    dependencies.

(** [CommitPlan.Validate] when the loop over [stepDependencies] visits the
    entries of the map in the order [visit]. *)
Definition CommitPlan_Validate_visiting (visit : gmap string (list string) -> list (string * list string))
    (plan : CommitPlan) : result unit :=
  let resource := "CommitPlan" in
  check validateVersion resource (Plan_Version plan) CommitPlanVersion ;;
  reject_if Plan_Attempt plan <? 0 with invalid resource "attempt" ;;
  check validate_fields validateIdentifier resource
    [("id", Plan_ID plan); ("transaction_id", Plan_TransactionID plan); ("connector", Plan_Connector plan)] ;;
  check validateResourceSelector resource "target" (Plan_Target plan) ;;
  reject_if blank (Plan_ExpectedResourceVersion plan) || contains_nul (Plan_ExpectedResourceVersion plan)
    with invalid resource "expected_resource_version" ;;
  check validate_fields validateDigest resource
    [("intent_digest", Plan_IntentDigest plan); ("effect_set_digest", Plan_EffectSetDigest plan);
     ("staged_state_digest", Plan_StagedStateDigest plan); ("policy_digest", Plan_PolicyDigest plan);
     ("digest", Plan_Digest plan)] ;;
  reject_if (length (Plan_Steps plan) =? 0)%nat with invalid resource "steps" ;;
  let? maps := fold_res (validate_commit_step resource) (∅, ∅) (indexed (Plan_Steps plan)) in
  let? compensationIndex :=
    fold_res (validate_compensation_step resource (fst maps)) ∅ (indexed (Plan_CompensationSteps plan)) in
  check each (compensation_order resource compensationIndex) (visit (snd maps)) ;;
  check validateUniqueIdentifiers resource "irreversible_effect_ids" (Plan_IrreversibleEffectIDs plan) ;;
  check each (fun effectID =>
      reject_if negb (bool_decide (is_Some (fst maps !! effectID))) with invalid resource "irreversible_effect_ids" ;;
      reject_if bool_decide (is_Some (compensationIndex !! effectID)) with invalid resource "compensation_steps" ;;
      Ok tt) (Plan_IrreversibleEffectIDs plan) ;;
  check match Plan_ManualRecoveryRef plan with
        | Some ref => validateArtifactRef resource "manual_recovery_ref" ref
        | None => reject_if (0 <? length (Plan_IrreversibleEffectIDs plan))%nat
                    with invalid resource "manual_recovery_ref" ;; Ok tt
        end ;;
  reject_if IsZero (Plan_CreatedAt plan) with invalid resource "created_at" ;;
  Ok tt.

(** Some order has to be chosen; [PlanSafety] shows that it does not matter. *)
Definition CommitPlan_Validate (plan : CommitPlan) : result unit := CommitPlan_Validate_visiting map_to_list plan.

(** ** TransactionEvent *)

Definition TransactionEvent_Validate (event : TransactionEvent) : result unit :=
  let resource := "TransactionEvent" in
  check validateVersion resource (Event_Version event) TransactionEventVersion ;;
  check validate_fields validateIdentifier resource
    [("id", Event_ID event); ("transaction_id", Event_TransactionID event); ("type", Event_Type event)] ;;
  reject_if Event_Sequence event <? 1 with newError ErrorEventSequence "validate" resource "sequence" ;;
  check validatePrincipal resource "actor" (Event_Actor event) ;;
  reject_if IsZero (Event_OccurredAt event) with invalid resource "occurred_at" ;;
  check validateJSONObject resource "payload" (Event_Payload event) ;;
  check each (fun '(i, ref) => validateArtifactRef resource (at_index "artifacts" i) ref)
    (indexed (Event_Artifacts event)) ;;
  reject_if (Event_Sequence event =? 1) && (Event_PreviousDigest event !=? "")
    with newError ErrorEventChain "validate" resource "previous_digest" ;;
  check (if 1 <? Event_Sequence event then
      reject_if Event_PreviousDigest event ==? "" with newError ErrorEventChain "validate" resource "previous_digest" ;;
      validateDigest resource "previous_digest" (Event_PreviousDigest event)
    else Ok tt) ;;
  validateDigest resource "digest" (Event_Digest event).
