(* ===== verification/TransactionProjection.v ===== *)
(** * The transaction projection and its event payloads

    The types of internal/kernel/transaction/reducer.go. *)
From S2P Require Import Prelude GoBase Json ModelTypes TransactionTypes.

Definition EventTransactionCreated : string := "transaction.created".
Definition EventTransactionStateChanged : string := "transaction.state_changed".
Definition EventEffectAdded : string := "effect.added".
Definition EventStageBindingCreated : string := "stage_binding.created".
Definition EventEffectStateChanged : string := "effect.state_changed".
Definition EventTransactionStaged : string := "transaction.staged".
Definition EventVerificationRecorded : string := "verification.recorded".
Definition EventVerificationSuperseded : string := "verification.superseded".
Definition EventCommitPlanFrozen : string := "commit_plan.frozen".
Definition EventApprovalPackageFrozen : string := "approval_package.frozen".
Definition EventAuthorityRenewed : string := "authority.renewed".
Definition EventApprovalResolved : string := "approval.resolved".
Definition EventAgentExecutionStarted : string := "agent_execution.started".
Definition EventAgentExecutionFinished : string := "agent_execution.finished".

Record AuthoritySnapshot := mkAuthoritySnapshot {
  Auth_Attempt : Z;
  Auth_State : TransactionState;
  Auth_Reason : string;
  Auth_SupersededAt : Time;
  Auth_OutstandingApprovalIDs : slice string;
  Auth_CommitPlan : option CommitPlan;
  Auth_ApprovalPackage : option ApprovalPackage;
  Auth_ApprovalDigests : slice string;
}.

#[export] Instance AuthoritySnapshot_eta : RecordEta AuthoritySnapshot := fun r =>
  mkAuthoritySnapshot (Auth_Attempt r) (Auth_State r) (Auth_Reason r) (Auth_SupersededAt r)
    (Auth_OutstandingApprovalIDs r) (Auth_CommitPlan r) (Auth_ApprovalPackage r)
    (Auth_ApprovalDigests r).

Record AttemptSnapshot := mkAttemptSnapshot {
  Attempt_Attempt : Z;
  Attempt_State : TransactionState;
  Attempt_Reason : string;
  Attempt_SupersededAt : Time;
  Attempt_ExecutionIDs : slice string;
  Attempt_EffectIDs : slice string;
  Attempt_Effects : slice Effect;
  Attempt_StagedStateDigest : string;
  Attempt_EffectSetDigest : string;
  Attempt_VerificationResultIDs : slice string;
  Attempt_Verifications : slice VerificationResult;
  Attempt_SupersededVerifications : slice VerificationResult;
  Attempt_CommitPlan : option CommitPlan;
  Attempt_CommitPlanDigest : string;
  Attempt_ApprovalPackage : option ApprovalPackage;
  Attempt_ApprovalPackageDigest : string;
  Attempt_OutstandingApprovalIDs : slice string;
  Attempt_ApprovalDigests : slice string;
  Attempt_SupersededAuthorities : slice AuthoritySnapshot;
}.

#[export] Instance AttemptSnapshot_eta : RecordEta AttemptSnapshot := fun r =>
  mkAttemptSnapshot (Attempt_Attempt r) (Attempt_State r) (Attempt_Reason r) (Attempt_SupersededAt r)
    (Attempt_ExecutionIDs r) (Attempt_EffectIDs r) (Attempt_Effects r) (Attempt_StagedStateDigest r)
    (Attempt_EffectSetDigest r) (Attempt_VerificationResultIDs r) (Attempt_Verifications r)
    (Attempt_SupersededVerifications r) (Attempt_CommitPlan r) (Attempt_CommitPlanDigest r)
    (Attempt_ApprovalPackage r) (Attempt_ApprovalPackageDigest r) (Attempt_OutstandingApprovalIDs r)
    (Attempt_ApprovalDigests r) (Attempt_SupersededAuthorities r).

Record Projection := mkProjection {
  P_Transaction : AgentTransaction;
  P_Executions : slice AgentExecution;
  P_Effects : slice Effect;
  P_Verifications : slice VerificationResult;
  P_SupersededVerifications : slice VerificationResult;
  P_CommitPlan : option CommitPlan;
  P_ApprovalPackage : option ApprovalPackage;
  P_ApprovalDigests : slice string;
  P_SupersededAuthorities : slice AuthoritySnapshot;
  P_SupersededAttempts : slice AttemptSnapshot;
  P_LastEventDigest : string;
}.

#[export] Instance Projection_eta : RecordEta Projection := fun r =>
  mkProjection (P_Transaction r) (P_Executions r) (P_Effects r) (P_Verifications r)
    (P_SupersededVerifications r) (P_CommitPlan r) (P_ApprovalPackage r) (P_ApprovalDigests r)
    (P_SupersededAuthorities r) (P_SupersededAttempts r) (P_LastEventDigest r).

Record TransactionCreatedPayload := mkTransactionCreatedPayload {
  TransactionCreated_Transaction : AgentTransaction;
}.

#[export] Instance TransactionCreatedPayload_eta : RecordEta TransactionCreatedPayload := fun r =>
  mkTransactionCreatedPayload (TransactionCreated_Transaction r).

Definition zero_TransactionCreatedPayload : TransactionCreatedPayload :=
  mkTransactionCreatedPayload zero_AgentTransaction.

Definition TransactionCreatedPayload_fields : list (Field TransactionCreatedPayload) := [
  "transaction" :- AgentTransaction_codec at TransactionCreated_Transaction].

Definition TransactionCreatedPayload_codec : Codec TransactionCreatedPayload := struct_codec TransactionCreatedPayload_fields zero_TransactionCreatedPayload.

Record TransactionStateChangedPayload := mkTransactionStateChangedPayload {
  TransactionStateChanged_From : TransactionState;
  TransactionStateChanged_To : TransactionState;
  TransactionStateChanged_Reason : string;
  TransactionStateChanged_OutstandingApprovalIDs : slice string;
}.

#[export] Instance TransactionStateChangedPayload_eta : RecordEta TransactionStateChangedPayload := fun r =>
  mkTransactionStateChangedPayload (TransactionStateChanged_From r) (TransactionStateChanged_To r)
    (TransactionStateChanged_Reason r) (TransactionStateChanged_OutstandingApprovalIDs r).

Definition zero_TransactionStateChangedPayload : TransactionStateChangedPayload :=
  mkTransactionStateChangedPayload (TransactionStateOther "") (TransactionStateOther "") "" SNil.

Definition TransactionStateChangedPayload_fields : list (Field TransactionStateChangedPayload) := [
  "from" :- TransactionState_codec at TransactionStateChanged_From;
  "to" :- TransactionState_codec at TransactionStateChanged_To;
  "reason" :-? string_codec at TransactionStateChanged_Reason;
  "outstanding_approval_ids" :-? (slice_codec string_codec) at TransactionStateChanged_OutstandingApprovalIDs].

Definition TransactionStateChangedPayload_codec : Codec TransactionStateChangedPayload := struct_codec TransactionStateChangedPayload_fields zero_TransactionStateChangedPayload.

Record EffectAddedPayload := mkEffectAddedPayload {
  EffectAdded_Effect : Effect;
}.

#[export] Instance EffectAddedPayload_eta : RecordEta EffectAddedPayload := fun r =>
  mkEffectAddedPayload (EffectAdded_Effect r).

Definition zero_EffectAddedPayload : EffectAddedPayload :=
  mkEffectAddedPayload zero_Effect.

Definition EffectAddedPayload_fields : list (Field EffectAddedPayload) := [
  "effect" :- Effect_codec at EffectAdded_Effect].

Definition EffectAddedPayload_codec : Codec EffectAddedPayload := struct_codec EffectAddedPayload_fields zero_EffectAddedPayload.

Record StageBindingCreatedPayload := mkStageBindingCreatedPayload {
  StageBindingCreated_Binding : StageBinding;
}.

#[export] Instance StageBindingCreatedPayload_eta : RecordEta StageBindingCreatedPayload := fun r =>
  mkStageBindingCreatedPayload (StageBindingCreated_Binding r).

Definition zero_StageBindingCreatedPayload : StageBindingCreatedPayload :=
  mkStageBindingCreatedPayload zero_StageBinding.

Definition StageBindingCreatedPayload_fields : list (Field StageBindingCreatedPayload) := [
  "binding" :- StageBinding_codec at StageBindingCreated_Binding].

Definition StageBindingCreatedPayload_codec : Codec StageBindingCreatedPayload := struct_codec StageBindingCreatedPayload_fields zero_StageBindingCreatedPayload.

Record EffectStateChangedPayload := mkEffectStateChangedPayload {
  EffectStateChanged_EffectID : string;
  EffectStateChanged_From : EffectStatus;
  EffectStateChanged_To : EffectStatus;
  EffectStateChanged_Receipt : option EffectReceipt;
  EffectStateChanged_CompensationReceipt : option EffectReceipt;
}.

#[export] Instance EffectStateChangedPayload_eta : RecordEta EffectStateChangedPayload := fun r =>
  mkEffectStateChangedPayload (EffectStateChanged_EffectID r) (EffectStateChanged_From r) (EffectStateChanged_To r)
    (EffectStateChanged_Receipt r) (EffectStateChanged_CompensationReceipt r).

Definition zero_EffectStateChangedPayload : EffectStateChangedPayload :=
  mkEffectStateChangedPayload "" (EffectStatusOther "") (EffectStatusOther "") None None.

Definition EffectStateChangedPayload_fields : list (Field EffectStateChangedPayload) := [
  "effect_id" :- string_codec at EffectStateChanged_EffectID;
  "from" :- EffectStatus_codec at EffectStateChanged_From;
  "to" :- EffectStatus_codec at EffectStateChanged_To;
  "receipt" :-? (pointer_codec EffectReceipt_codec) at EffectStateChanged_Receipt;
  "compensation_receipt" :-? (pointer_codec EffectReceipt_codec) at EffectStateChanged_CompensationReceipt].

Definition EffectStateChangedPayload_codec : Codec EffectStateChangedPayload := struct_codec EffectStateChangedPayload_fields zero_EffectStateChangedPayload.

Record TransactionStagedPayload := mkTransactionStagedPayload {
  TransactionStaged_StagedStateDigest : string;
  TransactionStaged_EffectSetDigest : string;
}.

#[export] Instance TransactionStagedPayload_eta : RecordEta TransactionStagedPayload := fun r =>
  mkTransactionStagedPayload (TransactionStaged_StagedStateDigest r) (TransactionStaged_EffectSetDigest r).

Definition zero_TransactionStagedPayload : TransactionStagedPayload :=
  mkTransactionStagedPayload "" "".

Definition TransactionStagedPayload_fields : list (Field TransactionStagedPayload) := [
  "staged_state_digest" :- string_codec at TransactionStaged_StagedStateDigest;
  "effect_set_digest" :- string_codec at TransactionStaged_EffectSetDigest].

Definition TransactionStagedPayload_codec : Codec TransactionStagedPayload := struct_codec TransactionStagedPayload_fields zero_TransactionStagedPayload.

Record VerificationRecordedPayload := mkVerificationRecordedPayload {
  VerificationRecorded_Result : VerificationResult;
}.

#[export] Instance VerificationRecordedPayload_eta : RecordEta VerificationRecordedPayload := fun r =>
  mkVerificationRecordedPayload (VerificationRecorded_Result r).

Definition zero_VerificationRecordedPayload : VerificationRecordedPayload :=
  mkVerificationRecordedPayload zero_VerificationResult.

Definition VerificationRecordedPayload_fields : list (Field VerificationRecordedPayload) := [
  "result" :- VerificationResult_codec at VerificationRecorded_Result].

Definition VerificationRecordedPayload_codec : Codec VerificationRecordedPayload := struct_codec VerificationRecordedPayload_fields zero_VerificationRecordedPayload.

Record VerificationSupersededPayload := mkVerificationSupersededPayload {
  VerificationSuperseded_VerificationID : string;
  VerificationSuperseded_Reason : string;
}.

#[export] Instance VerificationSupersededPayload_eta : RecordEta VerificationSupersededPayload := fun r =>
  mkVerificationSupersededPayload (VerificationSuperseded_VerificationID r) (VerificationSuperseded_Reason r).

Definition zero_VerificationSupersededPayload : VerificationSupersededPayload :=
  mkVerificationSupersededPayload "" "".

Definition VerificationSupersededPayload_fields : list (Field VerificationSupersededPayload) := [
  "verification_id" :- string_codec at VerificationSuperseded_VerificationID;
  "reason" :- string_codec at VerificationSuperseded_Reason].

Definition VerificationSupersededPayload_codec : Codec VerificationSupersededPayload := struct_codec VerificationSupersededPayload_fields zero_VerificationSupersededPayload.

Record CommitPlanFrozenPayload := mkCommitPlanFrozenPayload {
  CommitPlanFrozen_Plan : CommitPlan;
}.

#[export] Instance CommitPlanFrozenPayload_eta : RecordEta CommitPlanFrozenPayload := fun r =>
  mkCommitPlanFrozenPayload (CommitPlanFrozen_Plan r).

Definition zero_CommitPlanFrozenPayload : CommitPlanFrozenPayload :=
  mkCommitPlanFrozenPayload zero_CommitPlan.

Definition CommitPlanFrozenPayload_fields : list (Field CommitPlanFrozenPayload) := [
  "plan" :- CommitPlan_codec at CommitPlanFrozen_Plan].

Definition CommitPlanFrozenPayload_codec : Codec CommitPlanFrozenPayload := struct_codec CommitPlanFrozenPayload_fields zero_CommitPlanFrozenPayload.

Record ApprovalPackageFrozenPayload := mkApprovalPackageFrozenPayload {
  ApprovalPackageFrozen_Package : ApprovalPackage;
}.

#[export] Instance ApprovalPackageFrozenPayload_eta : RecordEta ApprovalPackageFrozenPayload := fun r =>
  mkApprovalPackageFrozenPayload (ApprovalPackageFrozen_Package r).

Definition zero_ApprovalPackageFrozenPayload : ApprovalPackageFrozenPayload :=
  mkApprovalPackageFrozenPayload zero_ApprovalPackage.

Definition ApprovalPackageFrozenPayload_fields : list (Field ApprovalPackageFrozenPayload) := [
  "package" :- ApprovalPackage_codec at ApprovalPackageFrozen_Package].

Definition ApprovalPackageFrozenPayload_codec : Codec ApprovalPackageFrozenPayload := struct_codec ApprovalPackageFrozenPayload_fields zero_ApprovalPackageFrozenPayload.

Record AuthorityRenewedPayload := mkAuthorityRenewedPayload {
  AuthorityRenewed_Reason : string;
}.

#[export] Instance AuthorityRenewedPayload_eta : RecordEta AuthorityRenewedPayload := fun r =>
  mkAuthorityRenewedPayload (AuthorityRenewed_Reason r).

Definition zero_AuthorityRenewedPayload : AuthorityRenewedPayload :=
  mkAuthorityRenewedPayload "".

Definition AuthorityRenewedPayload_fields : list (Field AuthorityRenewedPayload) := [
  "reason" :- string_codec at AuthorityRenewed_Reason].

Definition AuthorityRenewedPayload_codec : Codec AuthorityRenewedPayload := struct_codec AuthorityRenewedPayload_fields zero_AuthorityRenewedPayload.

Record ApprovalResolvedPayload := mkApprovalResolvedPayload {
  ApprovalResolved_Decision : ApprovalDecision;
}.

#[export] Instance ApprovalResolvedPayload_eta : RecordEta ApprovalResolvedPayload := fun r =>
  mkApprovalResolvedPayload (ApprovalResolved_Decision r).

Definition zero_ApprovalResolvedPayload : ApprovalResolvedPayload :=
  mkApprovalResolvedPayload zero_ApprovalDecision.

Definition ApprovalResolvedPayload_fields : list (Field ApprovalResolvedPayload) := [
  "decision" :- ApprovalDecision_codec at ApprovalResolved_Decision].

Definition ApprovalResolvedPayload_codec : Codec ApprovalResolvedPayload := struct_codec ApprovalResolvedPayload_fields zero_ApprovalResolvedPayload.

Record AgentExecutionStartedPayload := mkAgentExecutionStartedPayload {
  AgentExecutionStarted_Execution : AgentExecution;
}.

#[export] Instance AgentExecutionStartedPayload_eta : RecordEta AgentExecutionStartedPayload := fun r =>
  mkAgentExecutionStartedPayload (AgentExecutionStarted_Execution r).

Definition zero_AgentExecutionStartedPayload : AgentExecutionStartedPayload :=
  mkAgentExecutionStartedPayload zero_AgentExecution.

Definition AgentExecutionStartedPayload_fields : list (Field AgentExecutionStartedPayload) := [
  "execution" :- AgentExecution_codec at AgentExecutionStarted_Execution].

Definition AgentExecutionStartedPayload_codec : Codec AgentExecutionStartedPayload := struct_codec AgentExecutionStartedPayload_fields zero_AgentExecutionStartedPayload.

Record AgentExecutionFinishedPayload := mkAgentExecutionFinishedPayload {
  AgentExecutionFinished_ExecutionID : string;
  AgentExecutionFinished_Status : AgentExecutionStatus;
  AgentExecutionFinished_ExitCode : option Z;
  AgentExecutionFinished_StdoutDigest : string;
  AgentExecutionFinished_StderrDigest : string;
  AgentExecutionFinished_ModelBroker : option ModelBrokerExecution;
}.

#[export] Instance AgentExecutionFinishedPayload_eta : RecordEta AgentExecutionFinishedPayload := fun r =>
  mkAgentExecutionFinishedPayload (AgentExecutionFinished_ExecutionID r) (AgentExecutionFinished_Status r)
    (AgentExecutionFinished_ExitCode r) (AgentExecutionFinished_StdoutDigest r)
    (AgentExecutionFinished_StderrDigest r) (AgentExecutionFinished_ModelBroker r).

Definition zero_AgentExecutionFinishedPayload : AgentExecutionFinishedPayload :=
  mkAgentExecutionFinishedPayload "" (AgentExecutionStatusOther "") None "" "" None.

Definition AgentExecutionFinishedPayload_fields : list (Field AgentExecutionFinishedPayload) := [
  "execution_id" :- string_codec at AgentExecutionFinished_ExecutionID;
  "status" :- AgentExecutionStatus_codec at AgentExecutionFinished_Status;
  "exit_code" :-? (pointer_codec int64_codec) at AgentExecutionFinished_ExitCode;
  "stdout_digest" :- string_codec at AgentExecutionFinished_StdoutDigest;
  "stderr_digest" :- string_codec at AgentExecutionFinished_StderrDigest;
  "model_broker" :-? (pointer_codec ModelBrokerExecution_codec) at AgentExecutionFinished_ModelBroker].

Definition AgentExecutionFinishedPayload_codec : Codec AgentExecutionFinishedPayload := struct_codec AgentExecutionFinishedPayload_fields zero_AgentExecutionFinishedPayload.

