(* ===== verification/TransactionReducer.v ===== *)
(** * The transaction reducer (internal/kernel/transaction/reducer.go)

    [Apply] and every event handler it dispatches to.  A handler that mutates
    [*Projection] and returns an error is a function to [result Projection]; the
    caller drops the half-updated value on an error, so nothing is lost.  An
    index the source looks up as [-1] is [None]. *)
From S2P Require Import Prelude GoBase Json ModelTypes ModelValidate TransactionTypes TransactionDigest TransactionValidate TransactionProjection.

Definition transactionError (code : ErrorCode) : KernelError := newError code "transaction" "" "".
Definition transitionError : KernelError := transactionError ErrorTransitionInvalid.

(** A plain Go error: the event cannot be encoded as JSON. *)
Definition encoding_error : KernelError := newError ErrorInternal "encode" "" "".

(** A Go run-time panic (an index out of range). *)
Definition index_panic : KernelError := newError ErrorInternal "panic" "index out of range" "".

(** ** Small helpers *)

Definition activeExecutionIndex (executions : list AgentExecution) : option nat :=
  fst <$> last (List.filter (fun '(_, execution) => Exec_Status execution ==? AgentExecutionRunning) (indexed executions)).

Definition executionIndex (executions : list AgentExecution) (executionID : string) : option nat :=
  index_where (fun execution => Exec_ID execution ==? executionID) executions.

Definition latestExecutionForAttempt (executions : list AgentExecution) (attempt : Z) : option AgentExecution :=
  last (List.filter (fun execution => Exec_Attempt execution =? attempt) executions).

Definition verificationIndex (verifications : list VerificationResult) (verificationID : string) : option nat :=
  index_where (fun verification => Ver_ID verification ==? verificationID) verifications.

Definition stageBindingIndex (bindings : list StageBinding) (bindingID : string) : option nat :=
  index_where (fun binding => Binding_ID binding ==? bindingID) bindings.

Definition effectIndex (effects : list Effect) (id : string) : option nat :=
  index_where (fun effect => Effect_ID effect ==? id) effects.

Definition stringIndex (values : list string) (want : string) : option nat :=
  index_where (fun value => value ==? want) values.

Definition stringContains (values : list string) (want : string) : bool := bool_decide (want ∈ values).

(** [removeVerification] and [removeString]: a fresh slice without one index. *)
Definition remove_at {A} (values : slice A) (index : nat) : slice A :=
  append (append SNil (take index values)) (drop (S index) values).

(** [s[:0]] refilled in place. *)
Definition refill {A} (s : slice A) (l : list A) : slice A :=
  match s with SNil => SNil | SList _ => SList l end.

Definition releaseEffectIDs (effects : list Effect) : list string :=
  map Effect_ID (List.filter (fun effect => Effect_RecoveryClass effect !=? RecoveryReadOnly) effects).

Definition hasAnyEffectStatus (effects : list Effect) (statuses : list EffectStatus) : bool :=
  existsb (fun effect => bool_decide (Effect_Status effect ∈ statuses)) effects.

Definition hasEffectStatus (effects : list Effect) (status : EffectStatus) : bool :=
  hasAnyEffectStatus effects [status].

Definition equalStrings (left right : list string) : bool := left ==? right.

(** The rune loop of [isDigest]. *)
Definition isDigest (value : string) : bool :=
  (String.length value =? 71)%nat && (String.substring 0 7 value ==? "sha256:") &&
  forallb (fun '(char, _) => between 48 char 57 || between 97 char 102) (runes (String.substring 7 64 value)).

Definition stateRequiresReason (state : TransactionState) : bool :=
  match state with
  | TransactionValidationFailed | TransactionReviseRequired
  | TransactionBlocked | TransactionReleaseFailed
  | TransactionPartiallyCommitted
  | TransactionManualRecoveryRequired | TransactionAborted => true
  | _ => false
  end.

(** [decodePayload]: a decoding error is relabelled with the event. *)
Definition decodePayload {T} (c : Codec T) (event : TransactionEvent) : result T :=
  match DecodeStrict c (Event_Payload event) with
  | Ok value => Ok value
  | Err e => Err (newError (KernelError_Code e) "decode_transaction_event_payload" (Event_ID event) (KernelError_Field e))
  end.

(** ** Transition tables *)

Definition transactionTransitions (from : TransactionState) : list TransactionState :=
  match from with
  | TransactionCreated => [TransactionRunning; TransactionBlocked; TransactionAborted]
  | TransactionRunning => [TransactionCompletedNoEffect; TransactionStaged; TransactionBlocked; TransactionAborted]
  | TransactionStaged => [TransactionRunning; TransactionValidating; TransactionBlocked; TransactionAborted]
  | TransactionValidating =>
    [TransactionValidationFailed; TransactionReviseRequired; TransactionBlocked;
     TransactionPendingApproval; TransactionReadyToCommit; TransactionAborted]
  | TransactionValidationFailed => [TransactionRunning; TransactionValidating; TransactionAborted]
  | TransactionReviseRequired => [TransactionRunning; TransactionAborted]
  | TransactionPendingApproval =>
    [TransactionReadyToCommit; TransactionReviseRequired; TransactionBlocked; TransactionAborted]
  | TransactionReadyToCommit =>
    [TransactionCommitting; TransactionReviseRequired; TransactionBlocked; TransactionAborted]
  | TransactionCommitting =>
    [TransactionCommitted; TransactionReleaseFailed; TransactionCompensating;
     TransactionPartiallyCommitted; TransactionManualRecoveryRequired]
  | TransactionCompensating =>
    [TransactionRolledBack; TransactionPartiallyCommitted; TransactionManualRecoveryRequired]
  | _ => []
  end.

Definition effectTransitions (from : EffectStatus) : list EffectStatus :=
  match from with
  | EffectProposed => [EffectStaged; EffectBlocked; EffectRejected; EffectFailed]
  | EffectStaged => [EffectValidated; EffectBlocked; EffectRejected; EffectFailed]
  | EffectValidated => [EffectReleaseReady; EffectBlocked; EffectRejected]
  | EffectReleaseReady => [EffectCommitting; EffectRejected]
  | EffectCommitting => [EffectCommitted; EffectFailed; EffectUnknown; EffectManualRecoveryRequired]
  | EffectCommitted => [EffectCompensating; EffectManualRecoveryRequired]
  | EffectUnknown => [EffectCommitted; EffectFailed; EffectManualRecoveryRequired]
  | EffectCompensating => [EffectCompensated; EffectFailed; EffectUnknown; EffectManualRecoveryRequired]
  | _ => []
  end.

Definition CanTransition (from to : TransactionState) : bool := bool_decide (to ∈ transactionTransitions from).
Definition CanTransitionEffect (from to : EffectStatus) : bool := bool_decide (to ∈ effectTransitions from).

(** ** Preconditions *)

Definition validateEffectTransitionContext (state : TransactionState) (from target : EffectStatus) : result unit :=
  let releasing := (state ==? TransactionCommitting) || (state ==? TransactionCompensating) in
  match target with
  | EffectValidated => reject_if state !=? TransactionValidating with transitionError ;; Ok tt
  | EffectReleaseReady => reject_if state !=? TransactionReadyToCommit with transitionError ;; Ok tt
  | EffectCommitting | EffectCommitted | EffectUnknown => reject_if negb releasing with transitionError ;; Ok tt
  | EffectFailed =>
    reject_if ((from ==? EffectCommitting) || (from ==? EffectCompensating)) && negb releasing
      with transitionError ;; Ok tt
  | EffectCompensating | EffectCompensated =>
    reject_if state !=? TransactionCompensating with transitionError ;; Ok tt
  | _ => Ok tt
  end.

Definition requireNoFailedVerification (projection : Projection) : result unit :=
  reject_if (length (P_Verifications projection) =? 0)%nat with transactionError ErrorVerificationFailed ;;
  each (fun res => reject_if Ver_Status res ==? VerificationFailed with transactionError ErrorVerificationFailed ;; Ok tt)
    (P_Verifications projection).

Definition requirePassingVerification (projection : Projection) : result unit :=
  check requireNoFailedVerification projection ;;
  each (fun res =>
      reject_if Ver_Status res !=? VerificationPassed with transactionError ErrorVerificationFailed ;;
      reject_if Ver_Independence res !=? VerificationPlatformRun with transactionError ErrorVerificationFailed ;;
      Ok tt)
    (P_Verifications projection).

Definition requireAllEffectsStatus (effects : list Effect) (status : EffectStatus) : result unit :=
  each (fun effect =>
      if Effect_RecoveryClass effect ==? RecoveryReadOnly then Ok tt
      else reject_if Effect_Status effect !=? status with transitionError ;; Ok tt)
    effects.

Definition is_nil_pointer {A} (pointer : option A) : bool :=
  match pointer with None => true | Some _ => false end.

Definition validateStatePreconditions (projection : Projection) (payload : TransactionStateChangedPayload) : result unit :=
  let outstanding := elems (TransactionStateChanged_OutstandingApprovalIDs payload) in
  match TransactionStateChanged_To payload with
  | TransactionCompletedNoEffect =>
    reject_if negb (length (P_Effects projection) =? 0)%nat ||
              negb (is_nil_pointer (activeExecutionIndex (P_Executions projection)))
      with transitionError ;;
    match latestExecutionForAttempt (P_Executions projection) (Tx_Attempt (P_Transaction projection)) with
    | None => Err transitionError
    | Some execution =>
      reject_if Exec_Status execution !=? AgentExecutionSucceeded with transitionError ;; Ok tt
    end
  | TransactionValidating =>
    reject_if (Tx_EffectSetDigest (P_Transaction projection) ==? "") ||
              (Tx_StagedStateDigest (P_Transaction projection) ==? "")
      with transitionError ;; Ok tt
  | TransactionPendingApproval =>
    reject_if is_nil_pointer (P_CommitPlan projection) || is_nil_pointer (P_ApprovalPackage projection) ||
              (length outstanding =? 0)%nat
      with transitionError ;;
    requireNoFailedVerification projection
  | TransactionReadyToCommit =>
    match P_CommitPlan projection, P_ApprovalPackage projection with
    | Some _, Some package =>
      reject_if negb (length (Pkg_RequiredApprovalClasses package) =? 0)%nat
        with transactionError ErrorApprovalRequired ;;
      reject_if negb (length outstanding =? 0)%nat with transitionError ;;
      requirePassingVerification projection
    | _, _ => Err transitionError
    end
  | TransactionCommitting => requireAllEffectsStatus (P_Effects projection) EffectReleaseReady
  | TransactionCommitted => requireAllEffectsStatus (P_Effects projection) EffectCommitted
  | TransactionCompensating =>
    reject_if negb (hasEffectStatus (P_Effects projection) EffectCommitted) with transitionError ;; Ok tt
  | TransactionRolledBack =>
    each (fun effect =>
        if Effect_RecoveryClass effect ==? RecoveryReadOnly then Ok tt
        else
          reject_if bool_decide (Effect_Status effect ∈
              [EffectCommitted; EffectCompensating; EffectUnknown; EffectManualRecoveryRequired])
            with transactionError ErrorPartialCommit ;; Ok tt)
      (P_Effects projection)
  | TransactionReleaseFailed =>
    reject_if negb (hasEffectStatus (P_Effects projection) EffectFailed) with transitionError ;; Ok tt
  | TransactionPartiallyCommitted =>
    reject_if negb (hasAnyEffectStatus (P_Effects projection)
                      [EffectCommitted; EffectUnknown; EffectManualRecoveryRequired; EffectFailed])
      with transactionError ErrorPartialCommit ;; Ok tt
  | TransactionManualRecoveryRequired =>
    reject_if negb (hasAnyEffectStatus (P_Effects projection)
                      [EffectUnknown; EffectManualRecoveryRequired; EffectCommitted])
      with transactionError ErrorPartialCommit ;; Ok tt
  | _ => Ok tt
  end.

(** ** Attempt bookkeeping *)

Definition cloneCommitPlan (source : option CommitPlan) : option CommitPlan := source.
Definition cloneApprovalPackage (source : option ApprovalPackage) : option ApprovalPackage := source.

(** [cloneProjection]: every slice is copied, which turns an empty one into
    nil; the other fields are shared. *)
Definition cloneProjection (source : Projection) : Projection :=
  source
    <| P_Transaction; Tx_AgentRunIDs := clone (Tx_AgentRunIDs (P_Transaction source)) |>
    <| P_Transaction; Tx_StageBindings := clone (Tx_StageBindings (P_Transaction source)) |>
    <| P_Transaction; Tx_EffectIDs := clone (Tx_EffectIDs (P_Transaction source)) |>
    <| P_Transaction; Tx_VerificationResultIDs := clone (Tx_VerificationResultIDs (P_Transaction source)) |>
    <| P_Transaction; Tx_OutstandingApprovalIDs := clone (Tx_OutstandingApprovalIDs (P_Transaction source)) |>
    <| P_Executions := clone (P_Executions source) |>
    <| P_Effects := clone (P_Effects source) |>
    <| P_Verifications := clone (P_Verifications source) |>
    <| P_SupersededVerifications := clone (P_SupersededVerifications source) |>
    <| P_ApprovalDigests := clone (P_ApprovalDigests source) |>
    <| P_CommitPlan := cloneCommitPlan (P_CommitPlan source) |>
    <| P_ApprovalPackage := cloneApprovalPackage (P_ApprovalPackage source) |>
    <| P_SupersededAuthorities := clone (P_SupersededAuthorities source) |>
    <| P_SupersededAttempts := clone (P_SupersededAttempts source) |>.

Definition invalidateFrozenState (projection : Projection) : Projection :=
  projection
    <| P_Transaction; Tx_EffectIDs := SNil |>
    <| P_Transaction; Tx_StagedStateDigest := "" |>
    <| P_Transaction; Tx_EffectSetDigest := "" |>
    <| P_Transaction; Tx_VerificationResultIDs := SNil |>
    <| P_Transaction; Tx_OutstandingApprovalIDs := SNil |>
    <| P_Transaction; Tx_ApprovalPackageDigest := "" |>
    <| P_Transaction; Tx_CommitPlanDigest := "" |>
    <| P_Effects := SNil |>
    <| P_Verifications := SNil |>
    <| P_SupersededVerifications := SNil |>
    <| P_CommitPlan := None |>
    <| P_ApprovalPackage := None |>
    <| P_ApprovalDigests := SNil |>
    <| P_SupersededAuthorities := SNil |>.

(** The history entry [beginNextAttempt] appends. *)
Definition attempt_snapshot (projection : Projection) (supersededAt : Time) : AttemptSnapshot :=
  let transaction := P_Transaction projection in {|
    Attempt_Attempt := Tx_Attempt transaction;
    Attempt_State := Tx_State transaction;
    Attempt_Reason := if Tx_StateReason transaction ==? "" then "transaction work revised"
                      else Tx_StateReason transaction;
    Attempt_SupersededAt := supersededAt;
    Attempt_ExecutionIDs := SList (map Exec_ID
      (List.filter (fun execution => Exec_Attempt execution =? Tx_Attempt transaction) (P_Executions projection)));
    Attempt_EffectIDs := clone (Tx_EffectIDs transaction);
    Attempt_Effects := clone (P_Effects projection);
    Attempt_StagedStateDigest := Tx_StagedStateDigest transaction;
    Attempt_EffectSetDigest := Tx_EffectSetDigest transaction;
    Attempt_VerificationResultIDs := clone (Tx_VerificationResultIDs transaction);
    Attempt_Verifications := clone (P_Verifications projection);
    Attempt_SupersededVerifications := clone (P_SupersededVerifications projection);
    Attempt_CommitPlan := cloneCommitPlan (P_CommitPlan projection);
    Attempt_CommitPlanDigest := Tx_CommitPlanDigest transaction;
    Attempt_ApprovalPackage := cloneApprovalPackage (P_ApprovalPackage projection);
    Attempt_ApprovalPackageDigest := Tx_ApprovalPackageDigest transaction;
    Attempt_OutstandingApprovalIDs := clone (Tx_OutstandingApprovalIDs transaction);
    Attempt_ApprovalDigests := clone (P_ApprovalDigests projection);
    Attempt_SupersededAuthorities := clone (P_SupersededAuthorities projection);
  |}.

Definition beginNextAttempt (projection : Projection) (supersededAt : Time) : result Projection :=
  reject_if negb (is_nil_pointer (activeExecutionIndex (P_Executions projection))) with transitionError ;;
  Ok (invalidateFrozenState (projection
    <| P_SupersededAttempts := append (P_SupersededAttempts projection) [attempt_snapshot projection supersededAt] |>
    <| P_Transaction; Tx_Attempt := wrap64 (Tx_Attempt (P_Transaction projection) + 1) |>)).

Definition applyCompletionTime (transaction : AgentTransaction) (occurredAt : Time) : AgentTransaction :=
  transaction <| Tx_CompletedAt :=
    if TransactionState_Terminal (Tx_State transaction) then Some occurredAt else None |>.

(** ** Event handlers *)

Definition applyStageBindingCreated (projection : Projection) (event : TransactionEvent) : result Projection :=
  let transaction := P_Transaction projection in
  reject_if Tx_State transaction !=? TransactionRunning with transitionError ;;
  let? payload := decodePayload StageBindingCreatedPayload_codec event in
  let binding := StageBindingCreated_Binding payload in
  check each (fun existing =>
      reject_if (Binding_ID existing ==? Binding_ID binding) ||
                ((Binding_Kind existing ==? Binding_Kind binding) &&
                 (Binding_Resource existing ==? Binding_Resource binding))
        with transactionError ErrorConflict ;; Ok tt)
    (Tx_StageBindings transaction) ;;
  Ok (projection <| P_Transaction; Tx_StageBindings := append (Tx_StageBindings transaction) [binding] |>).

Definition applyCreation (event : TransactionEvent) : result Projection :=
  reject_if negb (Event_Sequence event =? 1) || (Event_Type event !=? EventTransactionCreated) with transitionError ;;
  let? payload := decodePayload TransactionCreatedPayload_codec event in
  let transaction := TransactionCreated_Transaction payload in
  check AgentTransaction_Validate transaction ;;
  reject_if (Tx_ID transaction !=? Event_TransactionID event) ||
            (Tx_State transaction !=? TransactionCreated) ||
            (negb (Tx_Attempt transaction =? 0) && negb (Tx_Attempt transaction =? 1))
    with transitionError ;;
  reject_if negb (Tx_EventSequence transaction =? 1) ||
            negb (Equal (Tx_CreatedAt transaction) (Event_OccurredAt event)) ||
            negb (Equal (Tx_UpdatedAt transaction) (Event_OccurredAt event))
    with transitionError ;;
  Ok {|
    P_Transaction := transaction;
    P_Executions := SList [];
    P_Effects := SList [];
    P_Verifications := SList [];
    P_SupersededVerifications := SNil;
    P_CommitPlan := None;
    P_ApprovalPackage := None;
    P_ApprovalDigests := SList [];
    P_SupersededAuthorities := SNil;
    P_SupersededAttempts := SNil;
    P_LastEventDigest := Event_Digest event;
  |}.

Definition applyAgentExecutionStarted (projection : Projection) (event : TransactionEvent) : result Projection :=
  let transaction := P_Transaction projection in
  reject_if Tx_State transaction !=? TransactionRunning with transitionError ;;
  reject_if negb (is_nil_pointer (activeExecutionIndex (P_Executions projection))) with transactionError ErrorConflict ;;
  let? payload := decodePayload AgentExecutionStartedPayload_codec event in
  let execution := AgentExecutionStarted_Execution payload in
  check AgentExecution_Validate execution ;;
  reject_if (Exec_TransactionID execution !=? Tx_ID transaction) ||
            negb (Exec_Attempt execution =? Tx_Attempt transaction) ||
            (Exec_Status execution !=? AgentExecutionRunning) ||
            negb (Equal (Exec_StartedAt execution) (Event_OccurredAt event))
    with transitionError ;;
  reject_if negb (stringContains (Tx_AgentRunIDs transaction) (Exec_RunID execution))
    with transactionError ErrorIdentityInvalid ;;
  check match Tx_Task transaction with
        | Some task =>
          reject_if (Exec_TaskDigest execution !=? Task_Digest task) ||
                    (Exec_RunID execution !=? Task_RunID task) ||
                    (Exec_RuntimeClass execution !=? Profile_RuntimeClass (Task_AgentProfile task)) ||
                    (Exec_ImageDigest execution !=? Profile_ImageDigest (Task_AgentProfile task)) ||
                    (Exec_CommandDigest execution !=? Profile_CommandDigest (Task_AgentProfile task))
            with transactionError ErrorIdentityInvalid ;; Ok tt
        | None => reject_if Exec_TaskDigest execution !=? "" with transactionError ErrorEventChain ;; Ok tt
        end ;;
  reject_if is_nil_pointer (stageBindingIndex (Tx_StageBindings transaction) (Exec_StageBindingID execution))
    with transactionError ErrorNotFound ;;
  check each (fun existing =>
      reject_if Exec_ID existing ==? Exec_ID execution with transactionError ErrorConflict ;; Ok tt)
    (P_Executions projection) ;;
  Ok (projection <| P_Executions := append (P_Executions projection) [execution] |>).

(** The settled broker record of a finishing execution. *)
Definition settle_model_broker (started finished : option ModelBrokerExecution) : result (option ModelBrokerExecution) :=
  match started, finished with
  | None, Some _ => Err (transactionError ErrorEventChain)
  | None, None => Ok None
  | Some _, None => Err (transactionError ErrorEventChain)
  | Some s, Some f =>
    reject_if (MBroker_Provider s !=? MBroker_Provider f) ||
              (MBroker_ImageDigest s !=? MBroker_ImageDigest f) ||
              (MBroker_PolicyDigest s !=? MBroker_PolicyDigest f)
      with transactionError ErrorEventChain ;;
    Ok (Some f)
  end.

Definition applyAgentExecutionFinished (projection : Projection) (event : TransactionEvent) : result Projection :=
  reject_if Tx_State (P_Transaction projection) !=? TransactionRunning with transitionError ;;
  let? payload := decodePayload AgentExecutionFinishedPayload_codec event in
  match executionIndex (P_Executions projection) (AgentExecutionFinished_ExecutionID payload) with
  | None => Err (transactionError ErrorNotFound)
  | Some index =>
    match elems (P_Executions projection) !! index with
    | None => Err index_panic
    | Some execution =>
      reject_if (Exec_Status execution !=? AgentExecutionRunning) ||
                negb (AgentExecutionStatus_Terminal (AgentExecutionFinished_Status payload))
        with transitionError ;;
      let? broker := settle_model_broker (Exec_ModelBroker execution) (AgentExecutionFinished_ModelBroker payload) in
      let finished := execution
        <| Exec_Status := AgentExecutionFinished_Status payload |>
        <| Exec_ExitCode := AgentExecutionFinished_ExitCode payload |>
        <| Exec_StdoutDigest := AgentExecutionFinished_StdoutDigest payload |>
        <| Exec_StderrDigest := AgentExecutionFinished_StderrDigest payload |>
        <| Exec_ModelBroker := broker |>
        <| Exec_CompletedAt := Some (Event_OccurredAt event) |> in
      check AgentExecution_Validate finished ;;
      Ok (projection <| P_Executions := refill (P_Executions projection)
            (<[index := finished]> (elems (P_Executions projection))) |>)
    end
  end.

(** The part of [applyStateChange] after the guards and the new attempt. *)
Definition enter_state (projection : Projection) (payload : TransactionStateChangedPayload) (now : Time) : Projection :=
  let from := TransactionStateChanged_From payload in
  let to := TransactionStateChanged_To payload in
  let projection := projection
    <| P_Transaction; Tx_State := to |>
    <| P_Transaction; Tx_StateReason := TransactionStateChanged_Reason payload |> in
  let projection :=
    if to ==? TransactionPendingApproval
    then projection <| P_Transaction; Tx_OutstandingApprovalIDs :=
                         clone (TransactionStateChanged_OutstandingApprovalIDs payload) |>
    else projection in
  let projection :=
    if (to ==? TransactionRunning) && (from ==? TransactionCreated)
    then invalidateFrozenState projection else projection in
  projection <| P_Transaction := applyCompletionTime (P_Transaction projection) now |>.

Definition applyStateChange (projection : Projection) (event : TransactionEvent) : result Projection :=
  let? payload := decodePayload TransactionStateChangedPayload_codec event in
  let from := TransactionStateChanged_From payload in
  let to := TransactionStateChanged_To payload in
  reject_if from !=? Tx_State (P_Transaction projection) with transitionError ;;
  reject_if negb (CanTransition from to) with transitionError ;;
  reject_if to ==? TransactionStaged with transitionError ;;
  reject_if from ==? TransactionPendingApproval with transitionError ;;
  reject_if stateRequiresReason to && (TransactionStateChanged_Reason payload ==? "") with transitionError ;;
  check validateStatePreconditions projection payload ;;
  let? projection :=
    if (to ==? TransactionRunning) && (from !=? TransactionCreated)
    then beginNextAttempt projection (Event_OccurredAt event) else Ok projection in
  Ok (enter_state projection payload (Event_OccurredAt event)).

Definition applyEffectAdded (projection : Projection) (event : TransactionEvent) : result Projection :=
  let transaction := P_Transaction projection in
  reject_if Tx_State transaction !=? TransactionRunning with transitionError ;;
  let? payload := decodePayload EffectAddedPayload_codec event in
  let effect := EffectAdded_Effect payload in
  check Effect_Validate effect ;;
  reject_if (Effect_TransactionID effect !=? Tx_ID transaction) ||
            negb (Effect_Attempt effect =? Tx_Attempt transaction) ||
            negb (Effect_Sequence effect =? len (P_Effects projection) + 1)
    with transactionError ErrorEffectSequence ;;
  let known := map Effect_ID (P_Effects projection) in
  reject_if bool_decide (Effect_ID effect ∈ known) with transactionError ErrorConflict ;;
  check each (fun dependency =>
      reject_if negb (bool_decide (dependency ∈ known)) with transactionError ErrorEffectSequence ;; Ok tt)
    (Effect_Dependencies effect) ;;
  Ok (projection
    <| P_Effects := append (P_Effects projection) [effect] |>
    <| P_Transaction; Tx_EffectIDs := append (Tx_EffectIDs transaction) [Effect_ID effect] |>).

(** [if payload.Receipt != nil { effect.Receipt = payload.Receipt }]. *)
Definition or_existing {A} (update existing : option A) : option A :=
  match update with Some _ => update | None => existing end.

Definition applyEffectStateChange (projection : Projection) (event : TransactionEvent) : result Projection :=
  let? payload := decodePayload EffectStateChangedPayload_codec event in
  let from := EffectStateChanged_From payload in
  let to := EffectStateChanged_To payload in
  match effectIndex (P_Effects projection) (EffectStateChanged_EffectID payload) with
  | None => Err (transactionError ErrorNotFound)
  | Some index =>
    match elems (P_Effects projection) !! index with
    | None => Err index_panic
    | Some effect =>
      reject_if (Effect_Status effect !=? from) || negb (CanTransitionEffect from to) with transitionError ;;
      check validateEffectTransitionContext (Tx_State (P_Transaction projection)) from to ;;
      let effect := effect
        <| Effect_Status := to |>
        <| Effect_Receipt := or_existing (EffectStateChanged_Receipt payload) (Effect_Receipt effect) |>
        <| Effect_CompensationReceipt :=
             or_existing (EffectStateChanged_CompensationReceipt payload) (Effect_CompensationReceipt effect) |>
        <| Effect_UpdatedAt := Event_OccurredAt event |> in
      check Effect_Validate effect ;;
      Ok (projection <| P_Effects := refill (P_Effects projection) (<[index := effect]> (elems (P_Effects projection))) |>)
    end
  end.

Definition applyStaged (projection : Projection) (event : TransactionEvent) : result Projection :=
  reject_if (Tx_State (P_Transaction projection) !=? TransactionRunning) ||
            (length (P_Effects projection) =? 0)%nat
    with transitionError ;;
  reject_if negb (is_nil_pointer (activeExecutionIndex (P_Executions projection))) with transitionError ;;
  let? payload := decodePayload TransactionStagedPayload_codec event in
  match ComputeEffectSetDigest (P_Effects projection) with
  | None => Err (transactionError ErrorSchemaInvalid)
  | Some want =>
    reject_if TransactionStaged_EffectSetDigest payload !=? want with transactionError ErrorTransactionConflict ;;
    reject_if negb (isDigest (TransactionStaged_StagedStateDigest payload)) with transactionError ErrorSchemaInvalid ;;
    Ok (projection
      <| P_Transaction; Tx_State := TransactionStaged |>
      <| P_Transaction; Tx_StagedStateDigest := TransactionStaged_StagedStateDigest payload |>
      <| P_Transaction; Tx_EffectSetDigest := TransactionStaged_EffectSetDigest payload |>
      <| P_Transaction; Tx_StateReason := "" |>)
  end.

Definition applyVerification (projection : Projection) (event : TransactionEvent) : result Projection :=
  let transaction := P_Transaction projection in
  reject_if Tx_State transaction !=? TransactionValidating with transitionError ;;
  let? payload := decodePayload VerificationRecordedPayload_codec event in
  let res := VerificationRecorded_Result payload in
  check VerificationResult_Validate res ;;
  reject_if (Ver_TransactionID res !=? Tx_ID transaction) ||
            negb (Ver_Attempt res =? Tx_Attempt transaction) ||
            (Ver_EffectSetDigest res !=? Tx_EffectSetDigest transaction) ||
            (Ver_StagedStateDigest res !=? Tx_StagedStateDigest transaction)
    with transactionError ErrorTransactionConflict ;;
  check each (fun existing =>
      reject_if Ver_ID existing ==? Ver_ID res with transactionError ErrorConflict ;;
      reject_if Ver_Name existing ==? Ver_Name res with transactionError ErrorConflict ;; Ok tt)
    (P_Verifications projection) ;;
  check each (fun existing =>
      reject_if Ver_ID existing ==? Ver_ID res with transactionError ErrorConflict ;; Ok tt)
    (P_SupersededVerifications projection) ;;
  Ok (projection
    <| P_Verifications := append (P_Verifications projection) [res] |>
    <| P_Transaction; Tx_VerificationResultIDs := append (Tx_VerificationResultIDs transaction) [Ver_ID res] |>).

Definition applyVerificationSuperseded (projection : Projection) (event : TransactionEvent) : result Projection :=
  let transaction := P_Transaction projection in
  reject_if Tx_State transaction !=? TransactionValidating with transitionError ;;
  let? payload := decodePayload VerificationSupersededPayload_codec event in
  reject_if VerificationSuperseded_Reason payload ==? "" with transactionError ErrorSchemaInvalid ;;
  match verificationIndex (P_Verifications projection) (VerificationSuperseded_VerificationID payload) with
  | None => Err (transactionError ErrorNotFound)
  | Some index =>
    match elems (P_Verifications projection) !! index with
    | None => Err index_panic
    | Some res =>
      reject_if (Ver_Status res ==? VerificationPassed) &&
                match Ver_ExpiresAt res with None => true | Some t => After t (Event_OccurredAt event) end
        with transitionError ;;
      reject_if (length (Tx_VerificationResultIDs transaction) <=? index)%nat with index_panic ;;
      Ok (projection
        <| P_SupersededVerifications := append (P_SupersededVerifications projection) [res] |>
        <| P_Verifications := remove_at (P_Verifications projection) index |>
        <| P_Transaction; Tx_VerificationResultIDs := remove_at (Tx_VerificationResultIDs transaction) index |>)
    end
  end.

Definition applyCommitPlan (projection : Projection) (event : TransactionEvent) : result Projection :=
  let transaction := P_Transaction projection in
  reject_if Tx_State transaction !=? TransactionValidating with transitionError ;;
  let? payload := decodePayload CommitPlanFrozenPayload_codec event in
  let plan := CommitPlanFrozen_Plan payload in
  check CommitPlan_Validate plan ;;
  match ComputeCommitPlanDigest plan with
  | None => Err (transactionError ErrorSchemaInvalid)
  | Some planDigest =>
    reject_if Plan_Digest plan !=? planDigest with transactionError ErrorTransactionConflict ;;
    reject_if (Plan_TransactionID plan !=? Tx_ID transaction) ||
              negb (Plan_Attempt plan =? Tx_Attempt transaction) ||
              (Plan_IntentDigest plan !=? Tx_IntentDigest transaction) ||
              (Plan_EffectSetDigest plan !=? Tx_EffectSetDigest transaction) ||
              (Plan_StagedStateDigest plan !=? Tx_StagedStateDigest transaction)
      with transactionError ErrorTransactionConflict ;;
    let want := releaseEffectIDs (P_Effects projection) in
    let got := map CStep_EffectID (Plan_Steps plan) in
    reject_if negb (equalStrings want got) with transactionError ErrorTransactionConflict ;;
    Ok (projection
      <| P_CommitPlan := Some plan |>
      <| P_Transaction; Tx_CommitPlanDigest := Plan_Digest plan |>)
  end.

Definition applyApprovalPackage (projection : Projection) (event : TransactionEvent) : result Projection :=
  let transaction := P_Transaction projection in
  reject_if (Tx_State transaction !=? TransactionValidating) || is_nil_pointer (P_CommitPlan projection)
    with transitionError ;;
  let? payload := decodePayload ApprovalPackageFrozenPayload_codec event in
  let approval := ApprovalPackageFrozen_Package payload in
  check ApprovalPackage_Validate approval ;;
  match ComputeApprovalPackageDigest approval with
  | None => Err (transactionError ErrorSchemaInvalid)
  | Some approvalDigest =>
    reject_if Pkg_Digest approval !=? approvalDigest with transactionError ErrorTransactionConflict ;;
    reject_if (Pkg_TransactionID approval !=? Tx_ID transaction) ||
              negb (Pkg_Attempt approval =? Tx_Attempt transaction) ||
              (Pkg_IntentDigest approval !=? Tx_IntentDigest transaction) ||
              (Pkg_EffectSetDigest approval !=? Tx_EffectSetDigest transaction) ||
              (Pkg_StagedStateDigest approval !=? Tx_StagedStateDigest transaction) ||
              (Pkg_CommitPlanDigest approval !=? Tx_CommitPlanDigest transaction) ||
              negb (equalStrings (Pkg_VerificationResultIDs approval) (Tx_VerificationResultIDs transaction))
      with transactionError ErrorTransactionConflict ;;
    Ok (projection
      <| P_ApprovalPackage := Some approval |>
      <| P_Transaction; Tx_ApprovalPackageDigest := Pkg_Digest approval |>)
  end.

Definition authority_snapshot (projection : Projection) (reason : string) (supersededAt : Time) : AuthoritySnapshot :=
  let transaction := P_Transaction projection in {|
    Auth_Attempt := Tx_Attempt transaction;
    Auth_State := Tx_State transaction;
    Auth_Reason := reason;
    Auth_SupersededAt := supersededAt;
    Auth_OutstandingApprovalIDs := clone (Tx_OutstandingApprovalIDs transaction);
    Auth_CommitPlan := cloneCommitPlan (P_CommitPlan projection);
    Auth_ApprovalPackage := cloneApprovalPackage (P_ApprovalPackage projection);
    Auth_ApprovalDigests := clone (P_ApprovalDigests projection);
  |}.

(** Evidence that does not outlive the instant. *)
Definition expired_at (now : Time) (res : VerificationResult) : bool :=
  match Ver_ExpiresAt res with Some t => negb (After t now) | None => false end.

(** The renewal loop: the result IDs kept beside the verifications kept. *)
Fixpoint current_result_ids (now : Time) (verifications : list VerificationResult) (ids : list string)
    : result (list string) :=
  match verifications with
  | [] => Ok []
  | res :: verifications' =>
    if expired_at now res then current_result_ids now verifications' (tail ids)
    else match ids with
         | [] => Err index_panic
         | id :: ids' => let? kept := current_result_ids now verifications' ids' in Ok (id :: kept)
         end
  end.

Definition applyAuthorityRenewed (projection : Projection) (event : TransactionEvent) : result Projection :=
  let transaction := P_Transaction projection in
  let now := Event_OccurredAt event in
  reject_if (Tx_State transaction !=? TransactionPendingApproval) &&
            (Tx_State transaction !=? TransactionReadyToCommit)
    with transitionError ;;
  let? payload := decodePayload AuthorityRenewedPayload_codec event in
  reject_if AuthorityRenewed_Reason payload ==? "" with transactionError ErrorSchemaInvalid ;;
  reject_if is_nil_pointer (P_CommitPlan projection) || is_nil_pointer (P_ApprovalPackage projection)
    with transitionError ;;
  let verifications := elems (P_Verifications projection) in
  let? currentIDs := current_result_ids now verifications (Tx_VerificationResultIDs transaction) in
  let projection := projection
    <| P_SupersededAuthorities := append (P_SupersededAuthorities projection)
         [authority_snapshot projection (AuthorityRenewed_Reason payload) now] |>
    <| P_SupersededVerifications := append (P_SupersededVerifications projection)
         (List.filter (expired_at now) verifications) |>
    <| P_Verifications := refill (P_Verifications projection)
         (List.filter (fun res => negb (expired_at now res)) verifications) |>
    <| P_Transaction; Tx_VerificationResultIDs := refill (Tx_VerificationResultIDs transaction) currentIDs |>
    <| P_Transaction; Tx_State := TransactionValidating |>
    <| P_Transaction; Tx_StateReason := "" |>
    <| P_Transaction; Tx_OutstandingApprovalIDs := SNil |>
    <| P_Transaction; Tx_ApprovalPackageDigest := "" |>
    <| P_Transaction; Tx_CommitPlanDigest := "" |>
    <| P_CommitPlan := None |>
    <| P_ApprovalPackage := None |>
    <| P_ApprovalDigests := SNil |> in
  Ok (projection <| P_Transaction := applyCompletionTime (P_Transaction projection) now |>).

(** The effect of one decision on the projection, before the completion time. *)
Definition resolve_decision (projection : Projection) (decision : ApprovalDecision) (index : nat) : result Projection :=
  match Dec_Decision decision with
  | ApprovalApprove =>
    let projection := projection
      <| P_Transaction; Tx_OutstandingApprovalIDs :=
           remove_at (Tx_OutstandingApprovalIDs (P_Transaction projection)) index |>
      <| P_ApprovalDigests := append (P_ApprovalDigests projection) [Dec_Digest decision] |> in
    if (length (Tx_OutstandingApprovalIDs (P_Transaction projection)) =? 0)%nat then
      check requirePassingVerification projection ;;
      Ok (projection <| P_Transaction; Tx_State := TransactionReadyToCommit |>)
    else Ok projection
  | ApprovalReject => Ok (projection
      <| P_Transaction; Tx_State := TransactionBlocked |>
      <| P_Transaction; Tx_StateReason := Dec_Reason decision |>
      <| P_Transaction; Tx_OutstandingApprovalIDs := SNil |>)
  | ApprovalRevise => Ok (projection
      <| P_Transaction; Tx_State := TransactionReviseRequired |>
      <| P_Transaction; Tx_StateReason := Dec_Reason decision |>
      <| P_Transaction; Tx_OutstandingApprovalIDs := SNil |>)
  | ApprovalDecisionKindOther _ => Err (transactionError ErrorApprovalInvalid)
  end.

Definition applyApprovalResolution (projection : Projection) (event : TransactionEvent) : result Projection :=
  let transaction := P_Transaction projection in
  let now := Event_OccurredAt event in
  match (if Tx_State transaction !=? TransactionPendingApproval then None else P_ApprovalPackage projection) with
  | None => Err transitionError
  | Some package =>
    let? payload := decodePayload ApprovalResolvedPayload_codec event in
    let decision := ApprovalResolved_Decision payload in
    check ApprovalDecision_Validate decision ;;
    match ComputeApprovalDecisionDigest decision with
    | None => Err (transactionError ErrorApprovalInvalid)
    | Some decisionDigest =>
      reject_if (Dec_Digest decision !=? decisionDigest) ||
                (Dec_TransactionID decision !=? Tx_ID transaction) ||
                (Dec_PackageDigest decision !=? Tx_ApprovalPackageDigest transaction) ||
                (Dec_Approver decision !=? Event_Actor event) ||
                Before now (Add (Dec_IssuedAt decision) (- 2 * Minute)) ||
                negb (After (Dec_ExpiresAt decision) now) ||
                negb (After (Pkg_ExpiresAt package) now) ||
                negb (stringContains (Pkg_RequiredApprovalClasses package) (Dec_ApprovalClass decision))
        with transactionError ErrorApprovalInvalid ;;
      match stringIndex (Tx_OutstandingApprovalIDs transaction) (Dec_ApprovalID decision) with
      | None => Err (transactionError ErrorApprovalInvalid)
      | Some index =>
        let? resolved := resolve_decision projection decision index in
        Ok (resolved <| P_Transaction := applyCompletionTime (P_Transaction resolved) now |>)
      end
    end
  end.

(** ** Apply and Replay *)

(** The switch on the event type, after the cursor checks. *)
Definition apply_handler (next : Projection) (event : TransactionEvent) : result Projection :=
  let type := Event_Type event in
  if type ==? EventTransactionStateChanged then applyStateChange next event
  else if type ==? EventEffectAdded then applyEffectAdded next event
  else if type ==? EventStageBindingCreated then applyStageBindingCreated next event
  else if type ==? EventEffectStateChanged then applyEffectStateChange next event
  else if type ==? EventTransactionStaged then applyStaged next event
  else if type ==? EventVerificationRecorded then applyVerification next event
  else if type ==? EventVerificationSuperseded then applyVerificationSuperseded next event
  else if type ==? EventCommitPlanFrozen then applyCommitPlan next event
  else if type ==? EventApprovalPackageFrozen then applyApprovalPackage next event
  else if type ==? EventAuthorityRenewed then applyAuthorityRenewed next event
  else if type ==? EventApprovalResolved then applyApprovalResolution next event
  else if type ==? EventAgentExecutionStarted then applyAgentExecutionStarted next event
  else if type ==? EventAgentExecutionFinished then applyAgentExecutionFinished next event
  else Err transitionError.

(** Cursor and head updates. *)
Definition advanced (next : Projection) (event : TransactionEvent) : Projection :=
  next
    <| P_Transaction; Tx_EventSequence := Event_Sequence event |>
    <| P_Transaction; Tx_UpdatedAt := Event_OccurredAt event |>
    <| P_LastEventDigest := Event_Digest event |>.

Definition Apply (current : option Projection) (event : TransactionEvent) : result Projection :=
  check TransactionEvent_Validate event ;;
  match VerifyTransactionEventDigest event with
  | None => Err encoding_error
  | Some validDigest =>
    reject_if negb validDigest with transactionError ErrorEventChain ;;
    match current with
    | None => applyCreation event
    | Some current =>
      let transaction := P_Transaction current in
      reject_if Event_TransactionID event !=? Tx_ID transaction with transactionError ErrorEventSequence ;;
      reject_if negb (Event_Sequence event =? wrap64 (Tx_EventSequence transaction + 1))
        with transactionError ErrorEventSequence ;;
      reject_if Event_PreviousDigest event !=? P_LastEventDigest current with transactionError ErrorEventChain ;;
      reject_if Before (Event_OccurredAt event) (Tx_UpdatedAt transaction) with transactionError ErrorSchemaInvalid ;;
      reject_if Event_Type event ==? EventTransactionCreated with transitionError ;;
      let? next := apply_handler (cloneProjection current) event in
      check AgentTransaction_Validate (P_Transaction (advanced next event)) ;;
      Ok (advanced next event)
    end
  end.

(** The loop of [Replay] from a projection reached so far. *)
Fixpoint replay_from (projection : option Projection) (events : list TransactionEvent) : result (option Projection) :=
  match events with
  | [] => Ok projection
  | event :: events' =>
    let? next := Apply projection event in replay_from (Some next) events'
  end.

Definition Replay (events : list TransactionEvent) : result Projection :=
  let? projection := replay_from None events in
  match projection with
  | None => Err (transactionError ErrorEventSequence)
  | Some projection => Ok projection
  end.
