(* ===== verification/TransactionEvents.v ===== *)
(** * Building the next event (internal/kernel/transaction/event.go)

    [CreationEvent], [NextEvent] and the derived identifiers.  The payload
    argument is an [any] the source marshals by its type: here a codec comes
    with it. *)
From S2P Require Import Prelude GoBase Sha256 Json ModelTypes ModelValidate TransactionTypes TransactionDigest TransactionValidate TransactionProjection TransactionReducer.

(** The first sixteen bytes of a SHA-256, in hexadecimal. *)
Definition short_hash (s : string) : string := hex_encode (take 16 (sha256_sum s)).

Definition EventID (transactionID : string) (sequence : Z) : string :=
  "tx-event:" +:+ short_hash transactionID +:+ ":" +:+ decimal sequence.

Definition ExecutionID (transactionID : string) (sequence : Z) : string :=
  "execution:" +:+ short_hash (transactionID +:+ ":" +:+ decimal sequence).

Definition VerificationID (transactionID name : string) (sequence : Z) : string :=
  "verification:" +:+ short_hash (transactionID +:+ ":" +:+ name +:+ ":" +:+ decimal sequence).

(** Fill in the digest of an event built without one. *)
Definition sealed (event : TransactionEvent) : result TransactionEvent :=
  match ComputeTransactionEventDigest event with
  | None => Err encoding_error
  | Some digest => Ok (event <| Event_Digest := digest |>)
  end.

Definition CreationEvent (transaction : AgentTransaction) (actor : Principal) : result TransactionEvent :=
  match Marshal TransactionCreatedPayload_codec (mkTransactionCreatedPayload transaction) with
  | None => Err encoding_error
  | Some payload => sealed {|
      Event_Version := TransactionEventVersion;
      Event_ID := EventID (Tx_ID transaction) 1;
      Event_TransactionID := Tx_ID transaction;
      Event_Sequence := 1;
      Event_Type := EventTransactionCreated;
      Event_Actor := actor;
      Event_OccurredAt := UTC (Tx_CreatedAt transaction);
      Event_Payload := payload;
      Event_Artifacts := SNil;
      Event_PreviousDigest := "";
      Event_Digest := "" |}
  end.

(** An event never predates the projection it extends. *)
Definition event_time (projection : Projection) (occurredAt : Time) : Time :=
  if Before (UTC occurredAt) (Tx_UpdatedAt (P_Transaction projection))
  then Tx_UpdatedAt (P_Transaction projection) else UTC occurredAt.

Definition NextEvent {T} (payload_codec : Codec T) (projection : Projection) (eventType : string)
    (actor : Principal) (occurredAt : Time) (payload : T) : result TransactionEvent :=
  let transaction := P_Transaction projection in
  match Marshal payload_codec payload with
  | None => Err encoding_error
  | Some data =>
    let sequence := wrap64 (Tx_EventSequence transaction + 1) in
    sealed {|
      Event_Version := TransactionEventVersion;
      Event_ID := EventID (Tx_ID transaction) sequence;
      Event_TransactionID := Tx_ID transaction;
      Event_Sequence := sequence;
      Event_Type := eventType;
      Event_Actor := actor;
      Event_OccurredAt := event_time projection occurredAt;
      Event_Payload := data;
      Event_Artifacts := SNil;
      Event_PreviousDigest := P_LastEventDigest projection;
      Event_Digest := "" |}
  end.

(** ** What a built event satisfies *)

Lemma sealed_ok event event' :
  sealed event = Ok event' ->
  exists digest, ComputeTransactionEventDigest event = Some digest /\ event' = event <| Event_Digest := digest |>.
Proof. unfold sealed. destruct (ComputeTransactionEventDigest event); [|done]. intros ?%ok_inj. eauto. Qed.

(** The digest field is blanked before it is computed. *)
Lemma sealed_verifies event event' :
  sealed event = Ok event' -> VerifyTransactionEventDigest event' = Some true.
Proof.
  intros (digest & Hd & ->)%sealed_ok. unfold VerifyTransactionEventDigest.
  assert (ComputeTransactionEventDigest (event <| Event_Digest := digest |>) = Some digest) as -> by exact Hd.
  simpl. by rewrite bool_decide_true.
Qed.

Lemma NextEvent_fields {T} (c : Codec T) projection eventType actor occurredAt payload event :
  NextEvent c projection eventType actor occurredAt payload = Ok event ->
  Event_TransactionID event = Tx_ID (P_Transaction projection) /\
  Event_Sequence event = wrap64 (Tx_EventSequence (P_Transaction projection) + 1) /\
  Event_Type event = eventType /\ Event_Actor event = actor /\
  Event_OccurredAt event = event_time projection occurredAt /\
  Marshal c payload = Some (Event_Payload event) /\
  Event_PreviousDigest event = P_LastEventDigest projection /\
  VerifyTransactionEventDigest event = Some true.
Proof.
  unfold NextEvent. destruct (Marshal c payload) as [data|] eqn:Hdata; [|done].
  intros H. pose proof (sealed_verifies _ _ H) as Hv. apply sealed_ok in H as (digest & _ & ->).
  repeat split; done.
Qed.

Lemma event_time_after projection occurredAt :
  Before (event_time projection occurredAt) (Tx_UpdatedAt (P_Transaction projection)) = false.
Proof.
  unfold event_time. destruct (Before (UTC occurredAt) _) eqn:E; [|done].
  unfold Before. apply Z.ltb_irrefl.
Qed.
