(* ===== verification/ProjectionValidate.v ===== *)
(** * Consistency of a stored projection

    [Projection.Validate], [validateProjectionHistory] and
    [validateAuthoritySnapshot] of internal/kernel/transaction/reducer.go.  The
    store calls it on every projection it writes or reads. *)
From S2P Require Import Prelude GoBase Json ModelTypes ModelValidate TransactionTypes TransactionDigest TransactionValidate TransactionProjection TransactionReducer.

Definition chain_error : KernelError := transactionError ErrorEventChain.

(** ** Executions *)

Definition validate_projected_execution (projection : Projection) (executionIDs : gset string)
    (item : nat * AgentExecution) : result (gset string) :=
  let '(i, execution) := item in
  let transaction := P_Transaction projection in
  check AgentExecution_Validate execution ;;
  reject_if Exec_TransactionID execution !=? Tx_ID transaction with chain_error ;;
  reject_if Tx_Attempt transaction <? Exec_Attempt execution with chain_error ;;
  reject_if bool_decide (Exec_ID execution ∈ executionIDs) with chain_error ;;
  reject_if negb (stringContains (Tx_AgentRunIDs transaction) (Exec_RunID execution)) with chain_error ;;
  reject_if is_nil_pointer (stageBindingIndex (Tx_StageBindings transaction) (Exec_StageBindingID execution))
    with chain_error ;;
  reject_if (Exec_Status execution ==? AgentExecutionRunning) &&
            negb (i =? length (P_Executions projection) - 1)%nat
    with chain_error ;;
  Ok ({[Exec_ID execution]} ∪ executionIDs).

Definition active_executions (executions : list AgentExecution) : nat :=
  length (List.filter (fun execution => Exec_Status execution ==? AgentExecutionRunning) executions).

(** ** Effects *)

Definition validate_effect_origin (projection : Projection) (effect : Effect) : result unit :=
  let transaction := P_Transaction projection in
  if Effect_OriginExecutionID effect !=? "" then
    match executionIndex (P_Executions projection) (Effect_OriginExecutionID effect) with
    | None => Err chain_error
    | Some index =>
      match elems (P_Executions projection) !! index with
      | None => Err index_panic
      | Some execution =>
        reject_if negb (Exec_Attempt execution =? Effect_Attempt effect) ||
                  (Exec_Status execution !=? AgentExecutionSucceeded) ||
                  ((Effect_RunID effect !=? "") && (Exec_RunID execution !=? Effect_RunID effect))
          with chain_error ;;
        Ok tt
      end
    end
  else
    reject_if bool_decide (is_Some (Tx_Task transaction)) && (0 <? Tx_Attempt transaction) with chain_error ;;
    Ok tt.

Definition validate_projected_effect (projection : Projection) (item : nat * Effect) : result unit :=
  let '(i, effect) := item in
  let transaction := P_Transaction projection in
  check Effect_Validate effect ;;
  reject_if (Effect_TransactionID effect !=? Tx_ID transaction) ||
            negb (Effect_Attempt effect =? Tx_Attempt transaction) ||
            negb (bool_decide (elems (Tx_EffectIDs transaction) !! i = Some (Effect_ID effect))) ||
            negb (Effect_Sequence effect =? Z.of_nat (i + 1))
    with chain_error ;;
  validate_effect_origin projection effect.

Definition validate_effect_digest (projection : Projection) : result unit :=
  if Tx_EffectSetDigest (P_Transaction projection) !=? "" then
    match ComputeEffectSetDigest (P_Effects projection) with
    | None => Err chain_error
    | Some computed =>
      reject_if computed !=? Tx_EffectSetDigest (P_Transaction projection) with chain_error ;; Ok tt
    end
  else Ok tt.

(** ** Verifications *)

(** The identity checks shared by current and superseded results. *)
Definition bound_to_transaction (transaction : AgentTransaction) (res : VerificationResult) : bool :=
  (Ver_TransactionID res ==? Tx_ID transaction) &&
  (Ver_Attempt res =? Tx_Attempt transaction) &&
  (Ver_EffectSetDigest res ==? Tx_EffectSetDigest transaction) &&
  (Ver_StagedStateDigest res ==? Tx_StagedStateDigest transaction).

Definition validate_projected_verification (projection : Projection) (seen : gset string * gset string)
    (item : nat * VerificationResult) : result (gset string * gset string) :=
  let '(i, res) := item in
  let '(verificationIDs, verificationNames) := seen in
  let transaction := P_Transaction projection in
  check VerificationResult_Validate res ;;
  reject_if negb (bound_to_transaction transaction res) ||
            negb (bool_decide (elems (Tx_VerificationResultIDs transaction) !! i = Some (Ver_ID res)))
    with chain_error ;;
  reject_if bool_decide (Ver_ID res ∈ verificationIDs) with chain_error ;;
  reject_if bool_decide (Ver_Name res ∈ verificationNames) with chain_error ;;
  Ok ({[Ver_ID res]} ∪ verificationIDs, {[Ver_Name res]} ∪ verificationNames).

Definition validate_superseded_verification (projection : Projection) (verificationIDs : gset string)
    (res : VerificationResult) : result (gset string) :=
  check VerificationResult_Validate res ;;
  reject_if negb (bound_to_transaction (P_Transaction projection) res) with chain_error ;;
  reject_if bool_decide (Ver_ID res ∈ verificationIDs) with chain_error ;;
  Ok ({[Ver_ID res]} ∪ verificationIDs).

(** ** Frozen authority *)

Definition validate_projected_plan (projection : Projection) : result unit :=
  let transaction := P_Transaction projection in
  match P_CommitPlan projection with
  | Some plan =>
    check CommitPlan_Validate plan ;;
    match ComputeCommitPlanDigest plan with
    | None => Err chain_error
    | Some computed =>
      reject_if (Plan_TransactionID plan !=? Tx_ID transaction) ||
                negb (Plan_Attempt plan =? Tx_Attempt transaction) ||
                (Plan_IntentDigest plan !=? Tx_IntentDigest transaction) ||
                (Plan_EffectSetDigest plan !=? Tx_EffectSetDigest transaction) ||
                (Plan_StagedStateDigest plan !=? Tx_StagedStateDigest transaction) ||
                (Plan_Digest plan !=? Tx_CommitPlanDigest transaction) ||
                (Plan_Digest plan !=? computed)
        with chain_error ;;
      reject_if negb (equalStrings (releaseEffectIDs (P_Effects projection)) (map CStep_EffectID (Plan_Steps plan)))
        with chain_error ;;
      Ok tt
    end
  | None => reject_if Tx_CommitPlanDigest transaction !=? "" with chain_error ;; Ok tt
  end.

Definition validate_projected_package (projection : Projection) : result unit :=
  let transaction := P_Transaction projection in
  match P_ApprovalPackage projection with
  | Some package =>
    check ApprovalPackage_Validate package ;;
    match ComputeApprovalPackageDigest package with
    | None => Err chain_error
    | Some computed =>
      match P_CommitPlan projection with
      | None => Err chain_error
      | Some plan =>
        reject_if (Pkg_TransactionID package !=? Tx_ID transaction) ||
                  negb (Pkg_Attempt package =? Tx_Attempt transaction) ||
                  (Pkg_IntentDigest package !=? Tx_IntentDigest transaction) ||
                  (Pkg_EffectSetDigest package !=? Tx_EffectSetDigest transaction) ||
                  (Pkg_StagedStateDigest package !=? Tx_StagedStateDigest transaction) ||
                  (Pkg_CommitPlanDigest package !=? Tx_CommitPlanDigest transaction) ||
                  (Pkg_PolicyDigest package !=? Plan_PolicyDigest plan) ||
                  negb (equalStrings (Pkg_VerificationResultIDs package) (Tx_VerificationResultIDs transaction)) ||
                  (Pkg_Digest package !=? Tx_ApprovalPackageDigest transaction) ||
                  (Pkg_Digest package !=? computed)
          with chain_error ;;
        Ok tt
      end
    end
  | None => reject_if Tx_ApprovalPackageDigest transaction !=? "" with chain_error ;; Ok tt
  end.

(** ** History *)

Definition validateAuthoritySnapshot (authority : AuthoritySnapshot) (transactionID : string) (attempt : Z) : result unit :=
  reject_if negb (Auth_Attempt authority =? attempt) ||
            ((Auth_State authority !=? TransactionPendingApproval) &&
             (Auth_State authority !=? TransactionReadyToCommit)) ||
            (Auth_Reason authority ==? "") || IsZero (Auth_SupersededAt authority)
    with chain_error ;;
  match Auth_CommitPlan authority, Auth_ApprovalPackage authority with
  | Some plan, Some package =>
    check CommitPlan_Validate plan ;;
    check ApprovalPackage_Validate package ;;
    match ComputeCommitPlanDigest plan, ComputeApprovalPackageDigest package with
    | Some planDigest, Some approvalDigest =>
      reject_if (planDigest !=? Plan_Digest plan) || (approvalDigest !=? Pkg_Digest package) with chain_error ;;
      reject_if (Plan_TransactionID plan !=? transactionID) || negb (Plan_Attempt plan =? attempt) ||
                (Pkg_TransactionID package !=? transactionID) || negb (Pkg_Attempt package =? attempt) ||
                (Pkg_CommitPlanDigest package !=? Plan_Digest plan)
        with chain_error ;;
      Ok tt
    | _, _ => Err chain_error
    end
  | _, _ => Err chain_error
  end.

Definition validate_attempt_executions (projection : Projection) (attempt : AttemptSnapshot) : result unit :=
  let? _ := fold_res (fun (seenExecutions : gset string) executionID =>
      reject_if bool_decide (executionID ∈ seenExecutions) with chain_error ;;
      reject_if match executionIndex (P_Executions projection) executionID with
                | None => true
                | Some index =>
                  match elems (P_Executions projection) !! index with
                  | None => true
                  | Some execution => negb (Exec_Attempt execution =? Attempt_Attempt attempt)
                  end
                end
        with chain_error ;;
      Ok ({[executionID]} ∪ seenExecutions)) ∅ (Attempt_ExecutionIDs attempt) in
  Ok tt.

Definition validate_attempt_effects (transactionID : string) (attempt : AttemptSnapshot) : result unit :=
  reject_if negb (length (Attempt_EffectIDs attempt) =? length (Attempt_Effects attempt))%nat ||
            negb (isDigest (Attempt_StagedStateDigest attempt)) ||
            negb (isDigest (Attempt_EffectSetDigest attempt))
    with chain_error ;;
  check each (fun '(index, effect) =>
      check Effect_Validate effect ;;
      reject_if (Effect_TransactionID effect !=? transactionID) ||
                negb (Effect_Attempt effect =? Attempt_Attempt attempt) ||
                negb (bool_decide (elems (Attempt_EffectIDs attempt) !! index = Some (Effect_ID effect))) ||
                negb (Effect_Sequence effect =? Z.of_nat (index + 1))
        with chain_error ;; Ok tt)
    (indexed (Attempt_Effects attempt)) ;;
  reject_if ComputeEffectSetDigest (Attempt_Effects attempt) !=? Some (Attempt_EffectSetDigest attempt)
    with chain_error ;;
  Ok tt.

(** A verification of a superseded attempt. *)
Definition bound_to_attempt (transactionID : string) (attempt : AttemptSnapshot) (res : VerificationResult) : bool :=
  (Ver_TransactionID res ==? transactionID) &&
  (Ver_Attempt res =? Attempt_Attempt attempt) &&
  (Ver_EffectSetDigest res ==? Attempt_EffectSetDigest attempt) &&
  (Ver_StagedStateDigest res ==? Attempt_StagedStateDigest attempt).

Definition validate_attempt_verifications (transactionID : string) (attempt : AttemptSnapshot) : result unit :=
  reject_if negb (length (Attempt_VerificationResultIDs attempt) =? length (Attempt_Verifications attempt))%nat
    with chain_error ;;
  check each (fun '(index, res) =>
      check VerificationResult_Validate res ;;
      reject_if negb (bound_to_attempt transactionID attempt res) ||
                negb (bool_decide (elems (Attempt_VerificationResultIDs attempt) !! index = Some (Ver_ID res)))
        with chain_error ;; Ok tt)
    (indexed (Attempt_Verifications attempt)) ;;
  each (fun res =>
      check VerificationResult_Validate res ;;
      reject_if negb (bound_to_attempt transactionID attempt res) with chain_error ;; Ok tt)
    (Attempt_SupersededVerifications attempt).

Definition validate_attempt_authority (transactionID : string) (attempt : AttemptSnapshot) : result unit :=
  check match Attempt_CommitPlan attempt with
        | Some plan =>
          check CommitPlan_Validate plan ;;
          reject_if ComputeCommitPlanDigest plan !=? Some (Plan_Digest plan) with chain_error ;;
          reject_if (Plan_TransactionID plan !=? transactionID) ||
                    negb (Plan_Attempt plan =? Attempt_Attempt attempt) ||
                    (Plan_Digest plan !=? Attempt_CommitPlanDigest attempt) ||
                    (Plan_EffectSetDigest plan !=? Attempt_EffectSetDigest attempt) ||
                    (Plan_StagedStateDigest plan !=? Attempt_StagedStateDigest attempt)
            with chain_error ;; Ok tt
        | None => reject_if Attempt_CommitPlanDigest attempt !=? "" with chain_error ;; Ok tt
        end ;;
  check match Attempt_ApprovalPackage attempt with
        | Some package =>
          check ApprovalPackage_Validate package ;;
          reject_if ComputeApprovalPackageDigest package !=? Some (Pkg_Digest package) with chain_error ;;
          reject_if (Pkg_TransactionID package !=? transactionID) ||
                    negb (Pkg_Attempt package =? Attempt_Attempt attempt) ||
                    (Pkg_Digest package !=? Attempt_ApprovalPackageDigest attempt) ||
                    (Pkg_EffectSetDigest package !=? Attempt_EffectSetDigest attempt) ||
                    (Pkg_StagedStateDigest package !=? Attempt_StagedStateDigest attempt) ||
                    (Pkg_CommitPlanDigest package !=? Attempt_CommitPlanDigest attempt)
            with chain_error ;; Ok tt
        | None => reject_if Attempt_ApprovalPackageDigest attempt !=? "" with chain_error ;; Ok tt
        end ;;
  each (fun authority => validateAuthoritySnapshot authority transactionID (Attempt_Attempt attempt))
    (Attempt_SupersededAuthorities attempt).

(** One superseded attempt, after the attempt [previousAttempt]; the result is
    its own number. *)
Definition validate_attempt (projection : Projection) (previousAttempt : Z) (attempt : AttemptSnapshot) : result Z :=
  let transaction := P_Transaction projection in
  reject_if negb (Attempt_Attempt attempt =? wrap64 (previousAttempt + 1)) ||
            (Tx_Attempt transaction <=? Attempt_Attempt attempt)
    with chain_error ;;
  reject_if IsZero (Attempt_SupersededAt attempt) || (Attempt_Reason attempt ==? "") ||
            ((Attempt_State attempt !=? TransactionStaged) &&
             (Attempt_State attempt !=? TransactionValidationFailed) &&
             (Attempt_State attempt !=? TransactionReviseRequired))
    with chain_error ;;
  check validate_attempt_executions projection attempt ;;
  check validate_attempt_effects (Tx_ID transaction) attempt ;;
  check validate_attempt_verifications (Tx_ID transaction) attempt ;;
  check validate_attempt_authority (Tx_ID transaction) attempt ;;
  Ok (Attempt_Attempt attempt).

Definition validateProjectionHistory (projection : Projection) : result unit :=
  let transaction := P_Transaction projection in
  check each (fun authority => validateAuthoritySnapshot authority (Tx_ID transaction) (Tx_Attempt transaction))
    (P_SupersededAuthorities projection) ;;
  match elems (P_SupersededAttempts projection) with
  | [] => reject_if 1 <? Tx_Attempt transaction with chain_error ;; Ok tt
  | first :: _ =>
    let firstAttempt := Attempt_Attempt first in
    reject_if negb (firstAttempt =? 0) && negb (firstAttempt =? 1) with chain_error ;;
    let? previousAttempt :=
      fold_res (validate_attempt projection) (firstAttempt - 1) (P_SupersededAttempts projection) in
    reject_if negb (wrap64 (previousAttempt + 1) =? Tx_Attempt transaction) with chain_error ;;
    Ok tt
  end.

(** ** Projection.Validate *)

Definition Projection_Validate (projection : Projection) : result unit :=
  let transaction := P_Transaction projection in
  check AgentTransaction_Validate transaction ;;
  reject_if negb (length (Tx_EffectIDs transaction) =? length (P_Effects projection))%nat with chain_error ;;
  let? _ := fold_res (validate_projected_execution projection) ∅ (indexed (P_Executions projection)) in
  reject_if (1 <? active_executions (P_Executions projection))%nat with chain_error ;;
  check each (validate_projected_effect projection) (indexed (P_Effects projection)) ;;
  check validate_effect_digest projection ;;
  reject_if negb (length (Tx_VerificationResultIDs transaction) =? length (P_Verifications projection))%nat
    with chain_error ;;
  let? seen := fold_res (validate_projected_verification projection) (∅, ∅) (indexed (P_Verifications projection)) in
  let? _ := fold_res (validate_superseded_verification projection) (fst seen) (P_SupersededVerifications projection) in
  check validate_projected_plan projection ;;
  check validate_projected_package projection ;;
  check validateProjectionHistory projection ;;
  reject_if negb (isDigest (P_LastEventDigest projection)) with chain_error ;;
  Ok tt.
