(* ===== verification/EventLedger.v ===== *)
(** * Event ledgers

    Both reducers of the kernel, the one of transactions
    (internal/kernel/transaction/reducer.go) and the one of runs
    (internal/kernel/reducer/reducer.go), are folds of an [Apply] over a list of
    events that carry a sequence number, a digest and the digest of the event
    before.  [EventLedger] is what they have in common, [LedgerLaws] what each
    of them promises about one event, and the rest of the file is what follows
    for whole histories. *)
From S2P Require Import Prelude GoBase.

(** ** The interface *)

Class EventLedger (P E : Type) := {
  ledger_apply : option P -> E -> result P;
  ledger_owner : P -> string;
  ledger_sequence : P -> Z;
  ledger_head : P -> string;
  ledger_updated : P -> Time;
  event_owner : E -> string;
  event_sequence : E -> Z;
  event_previous : E -> string;
  event_digest : E -> string;
  event_at : E -> Time;
  event_accepted : E -> Prop;
}.

(** The projection an event leaves points at that event. *)
Definition points_at `{EventLedger P E} (p : P) (e : E) : Prop :=
  ledger_owner p = event_owner e /\ ledger_sequence p = event_sequence e /\
  ledger_head p = event_digest e /\ Time_ns (ledger_updated p) = Time_ns (event_at e).

Class LedgerLaws (P E : Type) `{EventLedger P E} := {
  ledger_first e p : ledger_apply None e = Ok p ->
    event_sequence e = 1 /\ event_accepted e /\ points_at p e;
  ledger_next p e q : ledger_apply (Some p) e = Ok q ->
    event_owner e = ledger_owner p /\ event_previous e = ledger_head p /\
    event_sequence e = wrap64 (ledger_sequence p + 1) /\ 1 <= event_sequence e /\
    Time_ns (ledger_updated p) <= Time_ns (event_at e) /\
    event_accepted e /\ points_at q e;
}.

(** ** Histories *)

Section Histories.
Context {P E : Type} `{EventLedger P E}.

Fixpoint ledger_from (p : option P) (es : list E) : result (option P) :=
  match es with
  | [] => Ok p
  | e :: es' => let? q := ledger_apply p e in ledger_from (Some q) es'
  end.

(** The nonempty history [es] is accepted and leaves [p]. *)
Definition reaches (es : list E) (p : P) : Prop := ledger_from None es = Ok (Some p).

Lemma ledger_from_app p es es' :
  ledger_from p (es ++ es') = rbind (ledger_from p es) (fun q => ledger_from q es').
Proof. revert p. induction es as [|e es IH]; intros p; simpl; [done|]. destruct (ledger_apply p e); simpl; auto. Qed.

Lemma reaches_snoc es p e q : reaches es p -> ledger_apply (Some p) e = Ok q -> reaches (es ++ [e]) q.
Proof. unfold reaches. intros Hp HA. by rewrite ledger_from_app, Hp; simpl; rewrite HA. Qed.

(** Induction over the events of an accepted history, with the events so far. *)
Lemma reaches_history_ind (I : list E -> P -> Prop) :
  (forall e p, ledger_apply None e = Ok p -> I [e] p) ->
  (forall es p e q, I es p -> ledger_apply (Some p) e = Ok q -> I (es ++ [e]) q) ->
  forall es p, reaches es p -> I es p.
Proof.
  intros Hnew Hstep es p Hes. unfold reaches in Hes.
  destruct es as [|e es]; simpl in Hes; [simplify_eq|].
  apply rbind_ok in Hes as (p0 & H0 & Hrest). apply Hnew in H0.
  change (e :: es) with ([e] ++ es). revert H0 Hrest. generalize [e] as done_. intros done_.
  revert done_ p0. induction es as [|e' es IH]; simpl; intros done_ p0 H0 Hrest.
  - rewrite app_nil_r. naive_solver.
  - apply rbind_ok in Hrest as (p1 & H1 & Hrest).
    replace (done_ ++ e' :: es) with ((done_ ++ [e']) ++ es) by by rewrite <- app_assoc.
    eapply IH; eauto.
Qed.

Lemma ledger_from_ind (R : P -> P -> Prop) :
  (forall p, R p p) ->
  (forall p e q r, ledger_apply (Some p) e = Ok q -> R q r -> R p r) ->
  forall es p q, ledger_from (Some p) es = Ok (Some q) -> R p q.
Proof.
  intros Hrefl Hstep es. induction es as [|e es IH]; simpl; intros p q Hes; [naive_solver|].
  apply rbind_ok in Hes as (r & Hr & Hes). eauto.
Qed.

(** ** The chain *)

(** What an accepted history looks like, event by event. *)
Record chained (es : list E) (p : P) : Prop := {
  chained_last : exists e, last es = Some e /\ points_at p e /\ ledger_sequence p = len es;
  chained_range : len es <= MaxInt64;
  chained_each : forall i e, es !! i = Some e ->
    event_sequence e = Z.of_nat i + 1 /\ event_owner e = ledger_owner p /\ event_accepted e;
  chained_links : forall i e e', es !! i = Some e -> es !! S i = Some e' ->
    event_previous e' = event_digest e /\ Time_ns (event_at e) <= Time_ns (event_at e');
}.

Context `{!LedgerLaws P E}.

Lemma chained_first e p : ledger_apply None e = Ok p -> chained [e] p.
Proof.
  intros (Hs & Hacc & Hp)%ledger_first. pose proof Hp as (Ho & Hseq & _ & _). constructor.
  - exists e. unfold len. simpl. split_and!; [done..|]. by rewrite Hseq.
  - unfold len, MaxInt64. simpl. lia.
  - intros [|i] e' He; simplify_eq/=. by rewrite Ho.
  - intros [|i] ? ? ? ?; simplify_eq/=.
Qed.

(** The next event of a chained history: its number does not wrap. *)
Lemma chained_next es p e q :
  chained es p -> ledger_apply (Some p) e = Ok q -> event_sequence e = len es + 1 /\ len es + 1 <= MaxInt64.
Proof.
  intros [(_ & _ & _ & Hseq) Hrange _ _] (_ & _ & Hsq & Hpos & _)%ledger_next. rewrite Hseq in Hsq.
  assert (event_sequence e = len es + 1) as Hn.
  { rewrite Hsq. apply wrap64_succ; [unfold int64_range, len, MaxInt64 in *; lia|by rewrite <- Hsq|unfold len; lia]. }
  split; [done|]. rewrite <- Hn, Hsq. apply wrap64_range.
Qed.

Lemma chained_snoc es p e q : chained es p -> ledger_apply (Some p) e = Ok q -> chained (es ++ [e]) q.
Proof.
  intros Hes HA. destruct (chained_next _ _ _ _ Hes HA) as [Hnext Hmax].
  destruct Hes as [(e0 & Hlast & Hat & Hseq) Hrange Heach Hlinks].
  apply ledger_next in HA as (Hown & Hprev & _ & _ & Hle & Hacc & Hq).
  pose proof Hq as (Hoq & Hsq & _ & _). destruct Hat as (_ & _ & Hhead & Hup).
  assert (len (es ++ [e]) = len es + 1) as Hlen by (unfold len; rewrite length_app; simpl; lia).
  constructor.
  - exists e. rewrite last_snoc, Hlen, Hsq. done.
  - by rewrite Hlen.
  - intros i e' [He|[Hi He]]%lookup_app_Some.
    + rewrite Hoq, Hown. by apply Heach.
    + apply list_lookup_singleton_Some in He as [Hz ->]. split_and!; [|done..].
      rewrite Hnext. unfold len. lia.
  - intros i a b Ha [Hb|[Hi Hb]]%lookup_app_Some.
    + apply (Hlinks i); [|done]. apply lookup_app_Some in Ha as [?|[Hge _]]; [done|].
      apply lookup_lt_Some in Hb. lia.
    + apply list_lookup_singleton_Some in Hb as [Hz ->].
      assert (es !! i = Some e0) as Ha' by (rewrite <- Hlast, last_lookup; f_equal; lia).
      rewrite lookup_app_l in Ha by (apply lookup_lt_Some in Ha'; lia). simplify_eq.
      split; [congruence|]. by rewrite <- Hup.
Qed.

Lemma reaches_chained es p : reaches es p -> chained es p.
Proof. apply reaches_history_ind; eauto using chained_first, chained_snoc. Qed.

(** The owner is fixed by the first event. *)
Lemma ledger_owner_kept p e q : ledger_apply (Some p) e = Ok q -> ledger_owner q = ledger_owner p.
Proof. intros (Hown & _ & _ & _ & _ & _ & (Hq & _))%ledger_next. by rewrite Hq. Qed.
End Histories.
