(* ===== verification/SequencePolicy.v ===== *)
(** * Sequence policy (internal/kernel/transaction/policy.go)

    The baseline composition policy over the ordered effects of a transaction.
    Lower-casing of non-ASCII runes depends on the Unicode tables, which are a
    parameter here. *)
From S2P Require Import Prelude GoBase Sha256 Json ModelTypes TransactionTypes TransactionDigest.

(** ** Text helpers *)

(** [unicode.ToLower] on runes from U+0080. *)
Class UnicodeTables := unicode_lower : N -> N.

Definition lower_rune `{UnicodeTables} (r : N) : N :=
  if (r <? 0x80)%N then (if between 65 r 90 then (r + 32)%N else r) else unicode_lower r.

(** [strings.ToLower], as bytes. *)
Definition ToLower `{UnicodeTables} (s : string) : list N :=
  concat (map (fun '(r, _) => encode_rune (lower_rune r)) (runes s)).

Fixpoint has_prefix (prefix bs : list N) : bool :=
  match prefix, bs with
  | [], _ => true
  | p :: prefix', b :: bs' => (p =? b)%N && has_prefix prefix' bs'
  | _ :: _, [] => false
  end.

(** [strings.Contains]. *)
Fixpoint contains_bytes (bs sub : list N) : bool :=
  has_prefix sub bs || match bs with [] => false | _ :: bs' => contains_bytes bs' sub end.

Definition contains (bs : list N) (sub : string) : bool := contains_bytes bs (bytes_of sub).

Fixpoint drop_slashes (bs : list N) : list N :=
  match bs with b :: bs' => if (b =? 47)%N then drop_slashes bs' else bs | [] => [] end.

Fixpoint take_segment (bs : list N) : list N :=
  match bs with b :: bs' => if (b =? 47)%N then [] else b :: take_segment bs' | [] => [] end.

(** [filepath.Base] on a slash-separated path. *)
Definition path_base (path : list N) : list N :=
  match path with
  | [] => bytes_of "."
  | _ => match drop_slashes (reverse path) with
         | [] => bytes_of "/"
         | trimmed => reverse (take_segment trimmed)
         end
  end.

(** ** Outcomes and findings *)

Inductive SequenceOutcome :=
  | SequenceAllow | SequenceRequireApproval | SequenceRevise | SequenceBlock
  | SequenceOutcomeOther (text : string).

#[export] Instance SequenceOutcome_eq_dec : EqDecision SequenceOutcome.
Proof. solve_decision. Defined.

Definition SequenceOutcome_text (x : SequenceOutcome) : string :=
  match x with
  | SequenceAllow => "allow"
  | SequenceRequireApproval => "require_approval"
  | SequenceRevise => "revise"
  | SequenceBlock => "block"
  | SequenceOutcomeOther s => s
  end.

Record SequenceFinding := mkSequenceFinding {
  Finding_RuleID : string;
  Finding_Outcome : SequenceOutcome;
  Finding_Summary : string;
  Finding_EffectIDs : slice string;
}.

Record SequenceDecision := mkSequenceDecision {
  Decision_Outcome : SequenceOutcome;
  Decision_Findings : slice SequenceFinding;
}.

Definition sequenceOutcomeRank (outcome : SequenceOutcome) : Z :=
  match outcome with
  | SequenceAllow => 0
  | SequenceRequireApproval => 1
  | SequenceRevise => 2
  | SequenceBlock => 3
  | SequenceOutcomeOther _ => 4
  end.

(** ** The policy interface and the baseline policy *)

(** A policy evaluates an ordered effect list; only some expose a digest. *)
Record SequencePolicy := mkSequencePolicy {
  Evaluate : list Effect -> SequenceDecision;
  policy_digest_method : option (option string);
}.

Definition PolicyDigest (policy : SequencePolicy) : option string :=
  match policy_digest_method policy with Some digest => digest | None => None end.

Record BaselinePolicy := mkBaselinePolicy { DatabaseDeleteApprovalRows : Z }.

(** The anonymous struct [BaselinePolicy.Digest] hashes. *)
Record BaselineDigestInput := mkBaselineDigestInput {
  BaselineInput_Version : string;
  BaselineInput_DatabaseDeleteApprovalRows : Z;
}.

#[export] Instance BaselineDigestInput_eta : RecordEta BaselineDigestInput := fun r =>
  mkBaselineDigestInput (BaselineInput_Version r) (BaselineInput_DatabaseDeleteApprovalRows r).

Definition BaselineDigestInput_fields : list (Field BaselineDigestInput) := [
  "version" :- string_codec at BaselineInput_Version;
  "database_delete_approval_rows" :- int64_codec at BaselineInput_DatabaseDeleteApprovalRows].

Definition BaselinePolicy_Digest (policy : BaselinePolicy) : option string :=
  let threshold := DatabaseDeleteApprovalRows policy in
  let threshold := if threshold <=? 0 then 100 else threshold in
  digestJSON (struct_codec BaselineDigestInput_fields (mkBaselineDigestInput "" 0))
    (mkBaselineDigestInput "gatemole.sequence_policy.baseline.v0" threshold).

(** ** Effect classification *)

Section Baseline.
Context `{UnicodeTables}.

Definition isProtectedControl (effect : Effect) : bool :=
  let value := ToLower (Selector_Pattern (Effect_Resource effect) +:+ " " +:+ Effect_Operation effect) in
  existsb (contains value) ["auth"; "permission"; "security"; "access-control"; "policy"].

Definition isVerificationResource (effect : Effect) : bool :=
  let path := ToLower (Selector_Pattern (Effect_Resource effect)) in
  let base := path_base path in
  contains path "/test/" || contains path "/tests/" ||
  contains base "_test." || contains base ".test." ||
  contains base ".spec." || contains path "/fixtures/".

Definition isLargeDatabaseDelete (effect : Effect) (threshold : Z) : bool :=
  if negb (contains (ToLower (Effect_System effect)) "postgres") &&
     negb (contains (ToLower (Effect_System effect)) "database") then false
  else match Scope_Rows (Effect_EstimatedScope effect) with
       | None => false
       | Some rows => contains (ToLower (Effect_Operation effect)) "delete" && (threshold <? rows)
       end.

Definition is_grant (effect : Effect) : bool :=
  let operation := ToLower (Effect_Operation effect) in
  contains operation "grant" || contains operation "permission.create".

(** The loop of [delegatedAuthoritySelfUse], [grants] seen so far. *)
Fixpoint self_use (grants : list string) (effects : list Effect) : option SequenceFinding :=
  match effects with
  | [] => None
  | effect :: effects' =>
    if is_grant effect then self_use (Effect_ID effect :: grants) effects'
    else match List.find (fun dependency => bool_decide (dependency ∈ grants)) (Effect_Dependencies effect) with
         | Some dependency => Some {|
             Finding_RuleID := "gatemole.sequence.grant-then-self-use";
             Finding_Outcome := SequenceBlock;
             Finding_Summary := "The transaction attempts to consume authority it granted to itself.";
             Finding_EffectIDs := SList [dependency; Effect_ID effect] |}
         | None => self_use grants effects'
         end
  end.

Definition delegatedAuthoritySelfUse (effects : list Effect) : option SequenceFinding := self_use [] effects.

(** The findings one effect contributes on its own. *)
Definition effect_findings (threshold : Z) (effect : Effect) : list SequenceFinding :=
  (if Effect_RecoveryClass effect ==? RecoveryIrreversible then [{|
      Finding_RuleID := "gatemole.sequence.irreversible-release";
      Finding_Outcome := SequenceRequireApproval;
      Finding_Summary := "Irreversible effects require approval before release.";
      Finding_EffectIDs := SList [Effect_ID effect] |}] else []) ++
  (if isLargeDatabaseDelete effect threshold then [{|
      Finding_RuleID := "gatemole.sequence.large-database-delete";
      Finding_Outcome := SequenceRequireApproval;
      Finding_Summary := "Database deletion exceeds " +:+ decimal threshold +:+ " estimated rows.";
      Finding_EffectIDs := SList [Effect_ID effect] |}] else []).

Definition evidence_effects (effects : list Effect) : list Effect :=
  List.filter (fun effect => isProtectedControl effect && isVerificationResource effect) effects.
Definition control_effects (effects : list Effect) : list Effect :=
  List.filter (fun effect => isProtectedControl effect && negb (isVerificationResource effect)) effects.

Definition coupling_findings (effects : list Effect) : list SequenceFinding :=
  match control_effects effects, evidence_effects effects with
  | _ :: _, _ :: _ => [{|
      Finding_RuleID := "gatemole.sequence.control-and-evidence-coupling";
      Finding_Outcome := SequenceRequireApproval;
      Finding_Summary := "A protected control and its verification changed in the same transaction.";
      Finding_EffectIDs := SList (map Effect_ID (control_effects effects) ++ map Effect_ID (evidence_effects effects)) |}]
  | _, _ => []
  end.

(** The fold that keeps the highest-ranked outcome. *)
Definition worst_outcome (findings : list SequenceFinding) : SequenceOutcome :=
  fold_left (fun outcome finding =>
      if sequenceOutcomeRank outcome <? sequenceOutcomeRank (Finding_Outcome finding)
      then Finding_Outcome finding else outcome)
    findings SequenceAllow.

Definition BaselinePolicy_Evaluate (policy : BaselinePolicy) (effects : list Effect) : SequenceDecision :=
  let threshold := DatabaseDeleteApprovalRows policy in
  let threshold := if threshold =? 0 then 100 else threshold in
  let findings :=
    concat (map (effect_findings threshold) effects) ++ coupling_findings effects ++
    match delegatedAuthoritySelfUse effects with Some finding => [finding] | None => [] end in
  {| Decision_Outcome := worst_outcome findings; Decision_Findings := SList findings |}.

Definition baseline_sequence_policy (policy : BaselinePolicy) : SequencePolicy := {|
  Evaluate := BaselinePolicy_Evaluate policy;
  policy_digest_method := Some (BaselinePolicy_Digest policy);
|}.
End Baseline.
