(* ===== verification/PrepareAuthority.v ===== *)
(** * Authority preparation (internal/kernel/transaction/prepare.go)

    [PrepareAuthority] turns a validated transaction and a policy decision into
    the commit plan and the approval package that freeze its release. *)
From S2P Require Import Prelude GoBase Sha256 Json ModelTypes ModelValidate TransactionTypes TransactionDigest TransactionValidate TransactionProjection TransactionReducer TransactionEvents SequencePolicy.

Record PreparedAuthority := mkPreparedAuthority {
  Prepared_Plan : CommitPlan;
  Prepared_Approval : ApprovalPackage;
  Prepared_TargetState : TransactionState;
  Prepared_OutstandingApprovalIDs : slice string;
}.

Record ReleaseBinding := mkReleaseBinding {
  Release_Connector : string;
  Release_Target : ResourceSelector;
  Release_ExpectedResourceVersion : string;
}.

Definition nul : string := String (char_of 0) EmptyString.

(** Outside the years Format and MarshalJSON agree on, the digest of the plan
    fails before the identifier is observable. *)
Definition authorityID (prefix transactionID : string) (attempt : Z) (now : Time) : string :=
  prefix +:+ ":" +:+ short_hash (prefix +:+ nul +:+ transactionID +:+ nul +:+ decimal attempt +:+ nul +:+
                                 default "" (format_rfc3339 (UTC now))).

(** The commit steps: every effect but the read-only ones, numbered from 1. *)
Definition commit_steps (projection : Projection) : list CommitStep :=
  imap (fun i effect => {|
      CStep_Sequence := Z.of_nat (i + 1);
      CStep_EffectID := Effect_ID effect;
      CStep_DependsOn := clone (Effect_Dependencies effect);
      CStep_PreconditionIDs := clone (Tx_VerificationResultIDs (P_Transaction projection));
      CStep_IdempotencyKey := Effect_IdempotencyKey effect;
      CStep_TimeoutSeconds := 60;
      CStep_RequiresReceipt := true |})
    (List.filter (fun effect => Effect_RecoveryClass effect !=? RecoveryReadOnly) (P_Effects projection)).

(** The backwards loop over the effects that collects compensation steps. *)
Fixpoint compensation_steps (preconditions : slice string) (effects : list Effect) (acc : list CompensationStep)
    : result (list CompensationStep) :=
  match effects with
  | [] => Ok acc
  | effect :: effects' =>
    let step plan_ref := {|
      KStep_Sequence := Z.of_nat (length acc + 1);
      KStep_EffectID := Effect_ID effect;
      KStep_PreconditionIDs := clone preconditions;
      KStep_PlanRef := plan_ref |} in
    match Effect_RecoveryClass effect with
    | RecoveryReversible =>
      compensation_steps preconditions effects' (acc ++ [step (Effect_BeforeStateRef effect)])
    | RecoveryCompensatable =>
      match Effect_Compensation effect with
      | None => Err transitionError
      | Some compensation =>
        compensation_steps preconditions effects' (acc ++ [step (CompSpec_PlanRef compensation)])
      end
    | _ => compensation_steps preconditions effects' acc
    end
  end.

Definition risk_findings (decision : SequenceDecision) : list RiskFinding :=
  map (fun finding => {|
      Risk_Code := Finding_RuleID finding;
      Risk_Severity := if Finding_Outcome finding ==? SequenceRequireApproval then "high" else "medium";
      Risk_Summary := Finding_Summary finding;
      Risk_EffectIDs := clone (Finding_EffectIDs finding) |})
    (Decision_Findings decision).

Definition unsigned_plan (projection : Projection) (policyDigest : string) (release : ReleaseBinding) (now : Time)
    (compensation : list CompensationStep) : CommitPlan :=
  let transaction := P_Transaction projection in {|
    Plan_Version := CommitPlanVersion;
    Plan_ID := authorityID "commit-plan" (Tx_ID transaction) (Tx_Attempt transaction) now;
    Plan_TransactionID := Tx_ID transaction;
    Plan_Attempt := Tx_Attempt transaction;
    Plan_IntentDigest := Tx_IntentDigest transaction;
    Plan_EffectSetDigest := Tx_EffectSetDigest transaction;
    Plan_StagedStateDigest := Tx_StagedStateDigest transaction;
    Plan_PolicyDigest := policyDigest;
    Plan_Connector := Release_Connector release;
    Plan_Target := Release_Target release;
    Plan_ExpectedResourceVersion := Release_ExpectedResourceVersion release;
    Plan_Steps := SList (commit_steps projection);
    Plan_CompensationSteps := SList compensation;
    Plan_IrreversibleEffectIDs := SList [];
    Plan_ManualRecoveryRef := None;
    Plan_Digest := "";
    Plan_CreatedAt := now;
  |}.

Definition unsigned_package (projection : Projection) (decision : SequenceDecision) (policyDigest : string)
    (release : ReleaseBinding) (now : Time) (planDigest : string) (classes : list string) : ApprovalPackage :=
  let transaction := P_Transaction projection in {|
    Pkg_Version := ApprovalPackageVersion;
    Pkg_ID := authorityID "approval-package" (Tx_ID transaction) (Tx_Attempt transaction) now;
    Pkg_TransactionID := Tx_ID transaction;
    Pkg_Attempt := Tx_Attempt transaction;
    Pkg_IntentDigest := Tx_IntentDigest transaction;
    Pkg_EffectSetDigest := Tx_EffectSetDigest transaction;
    Pkg_StagedStateDigest := Tx_StagedStateDigest transaction;
    Pkg_PolicyDigest := policyDigest;
    Pkg_CommitPlanDigest := planDigest;
    Pkg_VerificationResultIDs := clone (Tx_VerificationResultIDs transaction);
    Pkg_RiskFindings := SList (risk_findings decision);
    Pkg_RequiredApprovalClasses := SList classes;
    Pkg_Summary := decimal (len (P_Effects projection)) +:+ " verified effect(s); sequence decision " +:+
      SequenceOutcome_text (Decision_Outcome decision) +:+ "; release " +:+
      Release_Connector release +:+ " to " +:+ Selector_Pattern (Release_Target release);
    Pkg_Digest := "";
    Pkg_CreatedAt := now;
    Pkg_ExpiresAt := Add now Hour;
  |}.

Definition PrepareAuthority (projection : Projection) (decision : SequenceDecision) (policyDigest : string)
    (release : ReleaseBinding) (now : Time) : result PreparedAuthority :=
  let transaction := P_Transaction projection in
  reject_if Tx_State transaction !=? TransactionValidating with transitionError ;;
  reject_if negb (IsSHA256Digest policyDigest) with transactionError ErrorSchemaInvalid ;;
  reject_if negb (IsIdentifier (Release_Connector release)) ||
            negb (IsIdentifier (Selector_Kind (Release_Target release))) ||
            (Selector_Pattern (Release_Target release) ==? "") ||
            (Release_ExpectedResourceVersion release ==? "")
    with transactionError ErrorSchemaInvalid ;;
  check requirePassingVerification projection ;;
  let now := UTC now in
  check each (fun res => reject_if expired_at now res with transactionError ErrorVerificationFailed ;; Ok tt)
    (P_Verifications projection) ;;
  check each (fun effect =>
      reject_if (Effect_RecoveryClass effect !=? RecoveryReadOnly) && (Effect_Status effect !=? EffectValidated)
        with transitionError ;;
      reject_if Effect_RecoveryClass effect ==? RecoveryIrreversible with transitionError ;;
      Ok tt)
    (P_Effects projection) ;;
  reject_if (Decision_Outcome decision !=? SequenceAllow) && (Decision_Outcome decision !=? SequenceRequireApproval)
    with transitionError ;;
  let? compensation := compensation_steps (Tx_VerificationResultIDs transaction) (reverse (P_Effects projection)) [] in
  let plan := unsigned_plan projection policyDigest release now compensation in
  match ComputeCommitPlanDigest plan with
  | None => Err encoding_error
  | Some planDigest =>
    let plan := plan <| Plan_Digest := planDigest |> in
    check CommitPlan_Validate plan ;;
    let requires_approval := Decision_Outcome decision ==? SequenceRequireApproval in
    let classes := if requires_approval then ["security-reviewer"] else [] in
    let target := if requires_approval then TransactionPendingApproval else TransactionReadyToCommit in
    let outstanding :=
      if requires_approval then [authorityID "approval" (Tx_ID transaction) (Tx_Attempt transaction) now] else [] in
    let approval := unsigned_package projection decision policyDigest release now planDigest classes in
    match ComputeApprovalPackageDigest approval with
    | None => Err encoding_error
    | Some approvalDigest =>
      let approval := approval <| Pkg_Digest := approvalDigest |> in
      check ApprovalPackage_Validate approval ;;
      Ok {| Prepared_Plan := plan;
            Prepared_Approval := approval;
            Prepared_TargetState := target;
            Prepared_OutstandingApprovalIDs := SList outstanding |}
    end
  end.
