(* ===== verification/RunTypes.v ===== *)
(** * Run event payloads (internal/kernel/model/types.go)

    The payload struct of each event of the run ledger, with its codec. *)
From S2P Require Import Prelude GoBase Json ModelTypes TransactionTypes.

Record RunCreatedPayload := mkRunCreatedPayload {
  RunCreated_Run : AgentRun;
}.

#[export] Instance RunCreatedPayload_eta : RecordEta RunCreatedPayload := fun r =>
  mkRunCreatedPayload (RunCreated_Run r).

Definition zero_RunCreatedPayload : RunCreatedPayload :=
  mkRunCreatedPayload zero_AgentRun.

Definition RunCreatedPayload_fields : list (Field RunCreatedPayload) := [
  "run" :- AgentRun_codec at RunCreated_Run].

Definition RunCreatedPayload_codec : Codec RunCreatedPayload := struct_codec RunCreatedPayload_fields zero_RunCreatedPayload.

Record RunStateChangedPayload := mkRunStateChangedPayload {
  RunStateChanged_From : RunState;
  RunStateChanged_To : RunState;
  RunStateChanged_Reason : string;
}.

#[export] Instance RunStateChangedPayload_eta : RecordEta RunStateChangedPayload := fun r =>
  mkRunStateChangedPayload (RunStateChanged_From r) (RunStateChanged_To r) (RunStateChanged_Reason r).

Definition zero_RunStateChangedPayload : RunStateChangedPayload :=
  mkRunStateChangedPayload (RunStateOther "") (RunStateOther "") "".

Definition RunStateChangedPayload_fields : list (Field RunStateChangedPayload) := [
  "from" :- RunState_codec at RunStateChanged_From;
  "to" :- RunState_codec at RunStateChanged_To;
  "reason" :-? string_codec at RunStateChanged_Reason].

Definition RunStateChangedPayload_codec : Codec RunStateChangedPayload := struct_codec RunStateChangedPayload_fields zero_RunStateChangedPayload.

Record RunExecutionStartedPayload := mkRunExecutionStartedPayload {
  RunExecStarted_TransactionID : string;
  RunExecStarted_ExecutionID : string;
  RunExecStarted_Attempt : Z;
}.

#[export] Instance RunExecutionStartedPayload_eta : RecordEta RunExecutionStartedPayload := fun r =>
  mkRunExecutionStartedPayload (RunExecStarted_TransactionID r) (RunExecStarted_ExecutionID r) (RunExecStarted_Attempt r).

Definition zero_RunExecutionStartedPayload : RunExecutionStartedPayload :=
  mkRunExecutionStartedPayload "" "" 0.

Definition RunExecutionStartedPayload_fields : list (Field RunExecutionStartedPayload) := [
  "transaction_id" :- string_codec at RunExecStarted_TransactionID;
  "execution_id" :- string_codec at RunExecStarted_ExecutionID;
  "attempt" :- int64_codec at RunExecStarted_Attempt].

Definition RunExecutionStartedPayload_codec : Codec RunExecutionStartedPayload := struct_codec RunExecutionStartedPayload_fields zero_RunExecutionStartedPayload.

Record RunExecutionFinishedPayload := mkRunExecutionFinishedPayload {
  RunExecFinished_TransactionID : string;
  RunExecFinished_ExecutionID : string;
  RunExecFinished_Attempt : Z;
  RunExecFinished_Status : AgentExecutionStatus;
  RunExecFinished_Usage : BudgetUsage;
}.

#[export] Instance RunExecutionFinishedPayload_eta : RecordEta RunExecutionFinishedPayload := fun r =>
  mkRunExecutionFinishedPayload (RunExecFinished_TransactionID r) (RunExecFinished_ExecutionID r) (RunExecFinished_Attempt r)
    (RunExecFinished_Status r) (RunExecFinished_Usage r).

Definition zero_RunExecutionFinishedPayload : RunExecutionFinishedPayload :=
  mkRunExecutionFinishedPayload "" "" 0 (AgentExecutionStatusOther "") zero_BudgetUsage.

Definition RunExecutionFinishedPayload_fields : list (Field RunExecutionFinishedPayload) := [
  "transaction_id" :- string_codec at RunExecFinished_TransactionID;
  "execution_id" :- string_codec at RunExecFinished_ExecutionID;
  "attempt" :- int64_codec at RunExecFinished_Attempt;
  "status" :- AgentExecutionStatus_codec at RunExecFinished_Status;
  "usage" :- BudgetUsage_codec at RunExecFinished_Usage].

Definition RunExecutionFinishedPayload_codec : Codec RunExecutionFinishedPayload := struct_codec RunExecutionFinishedPayload_fields zero_RunExecutionFinishedPayload.

Record CapabilitiesGrantedPayload := mkCapabilitiesGrantedPayload {
  CapsGranted_ContractDigest : string;
  CapsGranted_Grants : slice CapabilityGrant;
}.

#[export] Instance CapabilitiesGrantedPayload_eta : RecordEta CapabilitiesGrantedPayload := fun r =>
  mkCapabilitiesGrantedPayload (CapsGranted_ContractDigest r) (CapsGranted_Grants r).

Definition zero_CapabilitiesGrantedPayload : CapabilitiesGrantedPayload :=
  mkCapabilitiesGrantedPayload "" SNil.

Definition CapabilitiesGrantedPayload_fields : list (Field CapabilitiesGrantedPayload) := [
  "contract_digest" :- string_codec at CapsGranted_ContractDigest;
  "grants" :- (slice_codec CapabilityGrant_codec) at CapsGranted_Grants].

Definition CapabilitiesGrantedPayload_codec : Codec CapabilitiesGrantedPayload := struct_codec CapabilitiesGrantedPayload_fields zero_CapabilitiesGrantedPayload.

Record ActionRequestedPayload := mkActionRequestedPayload {
  ActionRequested_Request : ActionRequest;
}.

#[export] Instance ActionRequestedPayload_eta : RecordEta ActionRequestedPayload := fun r =>
  mkActionRequestedPayload (ActionRequested_Request r).

Definition zero_ActionRequestedPayload : ActionRequestedPayload :=
  mkActionRequestedPayload zero_ActionRequest.

Definition ActionRequestedPayload_fields : list (Field ActionRequestedPayload) := [
  "request" :- ActionRequest_codec at ActionRequested_Request].

Definition ActionRequestedPayload_codec : Codec ActionRequestedPayload := struct_codec ActionRequestedPayload_fields zero_ActionRequestedPayload.

Record ActionDecisionPayload := mkActionDecisionPayload {
  ActionDecision_ActionID : string;
  ActionDecision_Decision : PolicyDecisionKind;
  ActionDecision_CapabilityID : string;
  ActionDecision_Reason : string;
  ActionDecision_ErrorCode : string;
}.

#[export] Instance ActionDecisionPayload_eta : RecordEta ActionDecisionPayload := fun r =>
  mkActionDecisionPayload (ActionDecision_ActionID r) (ActionDecision_Decision r) (ActionDecision_CapabilityID r)
    (ActionDecision_Reason r) (ActionDecision_ErrorCode r).

Definition zero_ActionDecisionPayload : ActionDecisionPayload :=
  mkActionDecisionPayload "" (PolicyDecisionKindOther "") "" "" "".

Definition ActionDecisionPayload_fields : list (Field ActionDecisionPayload) := [
  "action_id" :- string_codec at ActionDecision_ActionID;
  "decision" :- PolicyDecisionKind_codec at ActionDecision_Decision;
  "capability_id" :-? string_codec at ActionDecision_CapabilityID;
  "reason" :- string_codec at ActionDecision_Reason;
  "error_code" :-? string_codec at ActionDecision_ErrorCode].

Definition ActionDecisionPayload_codec : Codec ActionDecisionPayload := struct_codec ActionDecisionPayload_fields zero_ActionDecisionPayload.

Record ActionExecutingPayload := mkActionExecutingPayload {
  ActionExecuting_ActionID : string;
  ActionExecuting_CapabilityID : string;
}.

#[export] Instance ActionExecutingPayload_eta : RecordEta ActionExecutingPayload := fun r =>
  mkActionExecutingPayload (ActionExecuting_ActionID r) (ActionExecuting_CapabilityID r).

Definition zero_ActionExecutingPayload : ActionExecutingPayload :=
  mkActionExecutingPayload "" "".

Definition ActionExecutingPayload_fields : list (Field ActionExecutingPayload) := [
  "action_id" :- string_codec at ActionExecuting_ActionID;
  "capability_id" :- string_codec at ActionExecuting_CapabilityID].

Definition ActionExecutingPayload_codec : Codec ActionExecutingPayload := struct_codec ActionExecutingPayload_fields zero_ActionExecutingPayload.

Record ActionResultPayload := mkActionResultPayload {
  ActionResult_ActionID : string;
  ActionResult_CapabilityID : string;
  ActionResult_Status : string;
  ActionResult_ResultDigest : string;
  ActionResult_OutputBytes : Z;
  ActionResult_ErrorCode : string;
  ActionResult_Reason : string;
}.

#[export] Instance ActionResultPayload_eta : RecordEta ActionResultPayload := fun r =>
  mkActionResultPayload (ActionResult_ActionID r) (ActionResult_CapabilityID r) (ActionResult_Status r)
    (ActionResult_ResultDigest r) (ActionResult_OutputBytes r) (ActionResult_ErrorCode r)
    (ActionResult_Reason r).

Definition zero_ActionResultPayload : ActionResultPayload :=
  mkActionResultPayload "" "" "" "" 0 "" "".

Definition ActionResultPayload_fields : list (Field ActionResultPayload) := [
  "action_id" :- string_codec at ActionResult_ActionID;
  "capability_id" :- string_codec at ActionResult_CapabilityID;
  "status" :- string_codec at ActionResult_Status;
  "result_digest" :-? string_codec at ActionResult_ResultDigest;
  "output_bytes" :-? int64_codec at ActionResult_OutputBytes;
  "error_code" :-? string_codec at ActionResult_ErrorCode;
  "reason" :-? string_codec at ActionResult_Reason].

Definition ActionResultPayload_codec : Codec ActionResultPayload := struct_codec ActionResultPayload_fields zero_ActionResultPayload.

