(* ===== verification/RunValidate.v ===== *)
(** * Validation of run resources (internal/kernel/model/validate.go)

    The [Validate] methods of capability grants, action requests, runs and run
    events, the run event digest (event_digest.go) and the strict payload
    decoder (decode.go). *)
From S2P Require Import Prelude GoBase Sha256 Json ModelTypes ModelValidate TransactionValidate.

Definition CapabilityGrant_Validate (grant : CapabilityGrant) : result unit :=
  let resource := "CapabilityGrant" in
  check validateVersion resource (Grant_Version grant) CapabilityGrantVersion ;;
  check validateIdentifier resource "id" (Grant_ID grant) ;;
  check validateIdentifier resource "subject_run_id" (Grant_SubjectRunID grant) ;;
  check validatePrincipal resource "issuer" (Grant_Issuer grant) ;;
  check validateResourceSelector resource "resource" (Grant_Resource grant) ;;
  check validateOperations resource "operations" (Grant_Operations grant) ;;
  check validateConditions resource "conditions" (Grant_Conditions grant) ;;
  check validate_optional_fields validateIdentifier resource [("delegation_parent_id", Grant_DelegationParentID grant)] ;;
  reject_if IsZero (Grant_IssuedAt grant) || IsZero (Grant_ExpiresAt grant) with invalid resource "issued_at" ;;
  reject_if negb (After (Grant_ExpiresAt grant) (Grant_IssuedAt grant)) with invalid resource "expires_at" ;;
  reject_if match Grant_RevokedAt grant with Some t => Before t (Grant_IssuedAt grant) | None => false end
    with invalid resource "revoked_at" ;;
  reject_if Grant_Uses grant <? 0 with invalid resource "uses" ;;
  check match Grant_MaxUses grant with
        | Some max_uses =>
          reject_if max_uses <? 1 with invalid resource "max_uses" ;;
          reject_if max_uses <? Grant_Uses grant with invalid resource "uses" ;; Ok tt
        | None => Ok tt
        end ;;
  validateIdentifier resource "policy_decision_id" (Grant_PolicyDecisionID grant).

Definition ActionRequest_Validate (request : ActionRequest) : result unit :=
  let resource := "ActionRequest" in
  check validateVersion resource (Request_Version request) ActionRequestVersion ;;
  check validate_fields validateIdentifier resource
    [("id", Request_ID request); ("run_id", Request_RunID request); ("operation", Request_Operation request);
     ("idempotency_key", Request_IdempotencyKey request)] ;;
  check validateResourceSelector resource "resource" (Request_Resource request) ;;
  check validateJSONObject resource "arguments" (Request_Arguments request) ;;
  check validateDigest resource "arguments_digest" (Request_ArgumentsDigest request) ;;
  reject_if blank (Request_Intent request) with invalid resource "intent" ;;
  check validate_optional_fields validateIdentifier resource [("capability_hint", Request_CapabilityHint request)] ;;
  reject_if IsZero (Request_RequestedAt request) with invalid resource "requested_at" ;;
  check validate_optional_fields validateIdentifier resource [("parent_action_id", Request_ParentActionID request)] ;;
  reject_if Request_Attempt request <? 0 with invalid resource "attempt" ;;
  Ok tt.

Definition validRunState (state : RunState) : bool :=
  match state with RunStateOther _ => false | _ => true end.

(** [stateRequiresReason] of model/validate.go. *)
Definition run_state_requires_reason (state : RunState) : bool :=
  match state with RunBlocked | RunFailed | RunCancelled => true | _ => false end.

Definition AgentRun_Validate (run : AgentRun) : result unit :=
  let resource := "AgentRun" in
  check validateVersion resource (Run_Version run) AgentRunVersion ;;
  check validateIdentifier resource "id" (Run_ID run) ;;
  check validateIdentifier resource "namespace" (Run_Namespace run) ;;
  check validateDigest resource "image_digest" (Run_ImageDigest run) ;;
  check validateDigest resource "contract_digest" (Run_ContractDigest run) ;;
  check validatePrincipal resource "principal" (Run_Principal run) ;;
  reject_if (Principal_Kind (Run_Principal run) !=? PrincipalRun) || (Principal_ID (Run_Principal run) !=? Run_ID run)
    with identityInvalid resource "principal" ;;
  check each (fun '(i, principal) => validatePrincipal resource (at_index "delegation_chain" i) principal)
    (indexed (Run_DelegationChain run)) ;;
  check validate_optional_fields validateIdentifier resource [("parent_run_id", Run_ParentRunID run)] ;;
  reject_if negb (validRunState (Run_State run)) with invalid resource "state" ;;
  reject_if run_state_requires_reason (Run_State run) && blank (Run_StateReason run)
    with invalid resource "state_reason" ;;
  reject_if Run_Priority run <? 0 with invalid resource "priority" ;;
  reject_if match Run_Deadline run with Some t => IsZero t | None => false end with invalid resource "deadline" ;;
  check validateBudgetLimits resource "budget_limits" (Run_BudgetLimits run) ;;
  check validateBudgetUsage resource "budget_usage" (Run_BudgetUsage run) (Run_BudgetLimits run) ;;
  check validate_pointer (validateRuntimeBinding resource "runtime") (Run_Runtime run) ;;
  check (if Run_ActiveExecutionID run !=? "" then
           check validateIdentifier resource "active_execution_id" (Run_ActiveExecutionID run) ;;
           reject_if Run_State run !=? RunRunning with invalid resource "active_execution_id" ;; Ok tt
         else Ok tt) ;;
  check validateUniqueIdentifiers resource "capability_ids" (Run_CapabilityIDs run) ;;
  check validate_optional_fields validateIdentifier resource [("checkpoint_id", Run_CheckpointID run)] ;;
  check validateUniqueIdentifiers resource "outstanding_approval_ids" (Run_OutstandingApprovalIDs run) ;;
  reject_if Run_EventSequence run <? 1 with invalid resource "event_sequence" ;;
  reject_if IsZero (Run_CreatedAt run) || IsZero (Run_UpdatedAt run) with invalid resource "created_at" ;;
  reject_if Before (Run_UpdatedAt run) (Run_CreatedAt run) with invalid resource "updated_at" ;;
  match Run_CompletedAt run with
  | Some completedAt =>
    reject_if negb (RunState_Terminal (Run_State run)) with invalid resource "completed_at" ;;
    reject_if IsZero completedAt with invalid resource "completed_at" ;;
    reject_if Before completedAt (Run_CreatedAt run) with invalid resource "completed_at" ;;
    Ok tt
  | None => reject_if RunState_Terminal (Run_State run) with invalid resource "completed_at" ;; Ok tt
  end.

Definition RunEvent_Validate (event : RunEvent) : result unit :=
  let resource := "RunEvent" in
  check validateVersion resource (RunEvent_Version event) RunEventVersion ;;
  check validate_fields validateIdentifier resource
    [("id", RunEvent_ID event); ("run_id", RunEvent_RunID event); ("type", RunEvent_Type event)] ;;
  reject_if RunEvent_Sequence event <? 1 with newError ErrorEventSequence "validate" resource "sequence" ;;
  check validatePrincipal resource "actor" (RunEvent_Actor event) ;;
  reject_if IsZero (RunEvent_OccurredAt event) with invalid resource "occurred_at" ;;
  check validateJSONObject resource "payload" (RunEvent_Payload event) ;;
  check each (fun '(i, ref) => validateArtifactRef resource (at_index "artifacts" i) ref)
    (indexed (RunEvent_Artifacts event)) ;;
  check validate_optional_fields validateIdentifier resource [("policy_decision_id", RunEvent_PolicyDecisionID event)] ;;
  reject_if (RunEvent_Sequence event =? 1) && (RunEvent_PreviousDigest event !=? "")
    with newError ErrorEventChain "validate" resource "previous_digest" ;;
  check (if 1 <? RunEvent_Sequence event then
           reject_if RunEvent_PreviousDigest event ==? ""
             with newError ErrorEventChain "validate" resource "previous_digest" ;;
           validateDigest resource "previous_digest" (RunEvent_PreviousDigest event)
         else Ok tt) ;;
  validateDigest resource "digest" (RunEvent_Digest event).

(** ** Digest and payload *)

Definition ComputeEventDigest (event : RunEvent) : option string :=
  digestJSON RunEvent_codec (event <| RunEvent_Digest := "" |>).

Definition VerifyEventDigest (event : RunEvent) : option bool :=
  want ← ComputeEventDigest event; Some (RunEvent_Digest event ==? want).

Definition DecodePayloadStrict {T} (c : Codec T) (event : RunEvent) : result T :=
  match DecodeStrict c (RunEvent_Payload event) with
  | Ok value => Ok value
  | Err e => Err (newError (KernelError_Code e) "decode_event_payload" (RunEvent_ID event) (KernelError_Field e))
  end.
