(* ===== verification/RunReducer.v ===== *)
(** * The run reducer (internal/kernel/reducer/reducer.go, internal/kernel/eventlog/event.go)

    The ledger of a run: its states, the execution that owns it, the budget it
    has used, the capabilities installed on it.  The names carry [Run] where the
    transaction reducer has the same one.  A run is copied by value but its
    slices are not cloned; [append] on the capability list is the only mutation
    of one, and a history never forks, so values are enough. *)
From S2P Require Import Prelude GoBase Sha256 Json ModelTypes ModelValidate TransactionTypes TransactionValidate RunTypes RunValidate.

Definition EventRunCreated : string := "run.created".
Definition EventRunStateChanged : string := "run.state_changed".
Definition EventRunExecutionStarted : string := "run.execution_started".
Definition EventRunExecutionFinished : string := "run.execution_finished".
Definition EventCapabilitiesGranted : string := "capabilities.granted".
Definition EventActionRequested : string := "action.requested".
Definition EventActionDenied : string := "action.denied".
Definition EventActionApprovalRequired : string := "action.approval_required".
Definition EventActionAuthorized : string := "action.authorized".
Definition EventActionExecuting : string := "action.executing".
Definition EventActionCommitted : string := "action.committed".
Definition EventActionFailed : string := "action.failed".
Definition EventActionUnknown : string := "action.unknown".

Record RunProjection := mkRunProjection {
  RP_Run : AgentRun;
  RP_LastEventDigest : string;
}.

#[export] Instance RunProjection_eta : RecordEta RunProjection := fun r =>
  mkRunProjection (RP_Run r) (RP_LastEventDigest r).

Definition runTransitionError : KernelError := newError ErrorTransitionInvalid "transition" "" "".

(** The errors of the cursor checks. *)
Definition reduce_error (code : ErrorCode) (event : RunEvent) (field : string) : KernelError :=
  newError code "reduce" (RunEvent_ID event) field.

(** ** Transitions *)

Definition allowedTransitions (from : RunState) : list RunState :=
  match from with
  | RunCreated => [RunAdmitted; RunFailed; RunCancelled]
  | RunAdmitted => [RunRunning; RunBlocked; RunFailed; RunCancelled]
  | RunRunning =>
    [RunWaitingForEvent; RunWaitingForAgent; RunWaitingForApproval; RunBlocked; RunFailed; RunCancelled; RunCompleted]
  | RunWaitingForEvent | RunWaitingForAgent | RunWaitingForApproval => [RunRunning; RunBlocked; RunFailed; RunCancelled]
  | RunBlocked => [RunAdmitted; RunRunning; RunFailed; RunCancelled]
  | RunFailed | RunCancelled | RunCompleted | RunStateOther _ => []
  end.

Definition CanTransitionRun (from to : RunState) : bool := bool_decide (to ∈ allowedTransitions from).

Definition requiresReason (state : RunState) : bool :=
  (state ==? RunBlocked) || (state ==? RunFailed) || (state ==? RunCancelled).

Definition ValidateTransition (from to : RunState) (reason : string) : result unit :=
  reject_if negb (CanTransitionRun from to) with runTransitionError ;;
  reject_if requiresReason to && (reason ==? "") with runTransitionError ;;
  Ok tt.

(** ** Handlers *)

Definition applyRunStateChanged (run : AgentRun) (event : RunEvent) : result AgentRun :=
  let? payload := DecodePayloadStrict RunStateChangedPayload_codec event in
  let to := RunStateChanged_To payload in
  reject_if RunStateChanged_From payload !=? Run_State run with runTransitionError ;;
  check ValidateTransition (RunStateChanged_From payload) to (RunStateChanged_Reason payload) ;;
  reject_if (Run_ActiveExecutionID run !=? "") && (to !=? RunRunning) with runTransitionError ;;
  Ok (run
    <| Run_State := to |>
    <| Run_StateReason := RunStateChanged_Reason payload |>
    <| Run_CompletedAt := if RunState_Terminal to then Some (RunEvent_OccurredAt event) else None |>).

Definition applyExecutionStarted (run : AgentRun) (payload : RunExecutionStartedPayload) : result AgentRun :=
  reject_if negb (IsIdentifier (RunExecStarted_TransactionID payload)) ||
            negb (IsIdentifier (RunExecStarted_ExecutionID payload)) ||
            (RunExecStarted_Attempt payload <? 1)
    with runTransitionError ;;
  reject_if Run_ActiveExecutionID run !=? "" with runTransitionError ;;
  reject_if negb (bool_decide (Run_State run ∈ [RunAdmitted; RunWaitingForAgent; RunWaitingForEvent]))
    with runTransitionError ;;
  check ValidateTransition (Run_State run) RunRunning "" ;;
  Ok (run
    <| Run_State := RunRunning |>
    <| Run_StateReason := "" |>
    <| Run_ActiveExecutionID := RunExecStarted_ExecutionID payload |>
    <| Run_CompletedAt := None |>).

(** One counter of the [addBudgetUsage] loop. *)
Definition charge (name : string) (current delta : Z) : result Z :=
  reject_if (delta <? 0) || (wrap64 (MaxInt64 - current) <? delta)
    with newError ErrorBudgetExceeded "reduce" "" ("budget_usage." +:+ name) ;;
  Ok (wrap64 (current + delta)).

Definition addBudgetUsage (current delta : BudgetUsage) : result BudgetUsage :=
  let? input := charge "input_tokens" (Usage_InputTokens current) (Usage_InputTokens delta) in
  let? output := charge "output_tokens" (Usage_OutputTokens current) (Usage_OutputTokens delta) in
  let? models := charge "model_calls" (Usage_ModelCalls current) (Usage_ModelCalls delta) in
  let? tools := charge "tool_calls" (Usage_ToolCalls current) (Usage_ToolCalls delta) in
  let? cost := charge "cost_micros" (Usage_CostMicros current) (Usage_CostMicros delta) in
  let? wall := charge "wall_time_seconds" (Usage_WallTimeSeconds current) (Usage_WallTimeSeconds delta) in
  Ok {| Usage_InputTokens := input; Usage_OutputTokens := output; Usage_ModelCalls := models;
        Usage_ToolCalls := tools; Usage_CostMicros := cost; Usage_WallTimeSeconds := wall |}.

Definition applyExecutionFinished (run : AgentRun) (payload : RunExecutionFinishedPayload) : result AgentRun :=
  reject_if negb (IsIdentifier (RunExecFinished_TransactionID payload)) ||
            negb (IsIdentifier (RunExecFinished_ExecutionID payload)) ||
            (RunExecFinished_Attempt payload <? 1) ||
            negb (AgentExecutionStatus_Terminal (RunExecFinished_Status payload))
    with runTransitionError ;;
  reject_if (Run_State run !=? RunRunning) || (Run_ActiveExecutionID run !=? RunExecFinished_ExecutionID payload)
    with runTransitionError ;;
  let? usage := addBudgetUsage (Run_BudgetUsage run) (RunExecFinished_Usage payload) in
  Ok (run
    <| Run_BudgetUsage := usage |>
    <| Run_ActiveExecutionID := "" |>
    <| Run_StateReason := "" |>
    <| Run_State := if RunExecFinished_Status payload ==? AgentExecutionSucceeded
                    then RunWaitingForEvent else RunWaitingForAgent |>).

(** One grant of the installation loop: the identifiers seen and the list. *)
Definition install_grant (run : AgentRun) (state : gset string * slice string) (grant : CapabilityGrant)
    : result (gset string * slice string) :=
  let '(seen, ids) := state in
  check CapabilityGrant_Validate grant ;;
  reject_if Grant_SubjectRunID grant !=? Run_ID run with runTransitionError ;;
  reject_if bool_decide (Grant_ID grant ∈ seen) with runTransitionError ;;
  Ok ({[Grant_ID grant]} ∪ seen, append ids [Grant_ID grant]).

Definition applyCapabilitiesGranted (run : AgentRun) (event : RunEvent) : result AgentRun :=
  let? payload := DecodePayloadStrict CapabilitiesGrantedPayload_codec event in
  reject_if CapsGranted_ContractDigest payload !=? Run_ContractDigest run with runTransitionError ;;
  reject_if (length (CapsGranted_Grants payload) =? 0)%nat with runTransitionError ;;
  let? installed := fold_res (install_grant run)
    (list_to_set (Run_CapabilityIDs run), Run_CapabilityIDs run) (CapsGranted_Grants payload) in
  Ok (run <| Run_CapabilityIDs := snd installed |>).

Definition applyActionRequested (run : AgentRun) (event : RunEvent) : result AgentRun :=
  let? payload := DecodePayloadStrict ActionRequestedPayload_codec event in
  check ActionRequest_Validate (ActionRequested_Request payload) ;;
  reject_if Request_RunID (ActionRequested_Request payload) !=? Run_ID run with runTransitionError ;;
  reject_if Run_State run !=? RunRunning with runTransitionError ;;
  Ok run.

Definition applyActionDecision (run : AgentRun) (event : RunEvent) : result AgentRun :=
  let? payload := DecodePayloadStrict ActionDecisionPayload_codec event in
  let decision := ActionDecision_Decision payload in
  reject_if (ActionDecision_ActionID payload ==? "") || (ActionDecision_Reason payload ==? "")
    with runTransitionError ;;
  reject_if (RunEvent_Type event ==? EventActionDenied) && (decision !=? DecisionDeny) with runTransitionError ;;
  reject_if (RunEvent_Type event ==? EventActionApprovalRequired) && (decision !=? DecisionRequireApproval)
    with runTransitionError ;;
  reject_if (RunEvent_Type event ==? EventActionAuthorized) && (decision !=? DecisionAllow) &&
            (decision !=? DecisionConstrain)
    with runTransitionError ;;
  Ok run.

Definition applyActionExecuting (run : AgentRun) (event : RunEvent) : result AgentRun :=
  let? payload := DecodePayloadStrict ActionExecutingPayload_codec event in
  reject_if (ActionExecuting_ActionID payload ==? "") || (ActionExecuting_CapabilityID payload ==? "")
    with runTransitionError ;;
  Ok run.

Definition result_status (eventType : string) : string :=
  if eventType ==? EventActionCommitted then "committed"
  else if eventType ==? EventActionFailed then "failed"
  else if eventType ==? EventActionUnknown then "unknown" else "".

Definition applyActionResult (run : AgentRun) (event : RunEvent) : result AgentRun :=
  let? payload := DecodePayloadStrict ActionResultPayload_codec event in
  reject_if (ActionResult_ActionID payload ==? "") || (ActionResult_CapabilityID payload ==? "") ||
            (ActionResult_Status payload !=? result_status (RunEvent_Type event))
    with runTransitionError ;;
  Ok run.

(** ** Apply and Replay *)

(** The switch on the event type. *)
Definition apply_run_handler (run : AgentRun) (event : RunEvent) : result AgentRun :=
  let type := RunEvent_Type event in
  if type ==? EventRunStateChanged then applyRunStateChanged run event
  else if type ==? EventRunExecutionStarted then
    let? payload := DecodePayloadStrict RunExecutionStartedPayload_codec event in applyExecutionStarted run payload
  else if type ==? EventRunExecutionFinished then
    let? payload := DecodePayloadStrict RunExecutionFinishedPayload_codec event in applyExecutionFinished run payload
  else if type ==? EventCapabilitiesGranted then applyCapabilitiesGranted run event
  else if type ==? EventActionRequested then applyActionRequested run event
  else if bool_decide (type ∈ [EventActionDenied; EventActionApprovalRequired; EventActionAuthorized])
  then applyActionDecision run event
  else if type ==? EventActionExecuting then applyActionExecuting run event
  else if bool_decide (type ∈ [EventActionCommitted; EventActionFailed; EventActionUnknown])
  then applyActionResult run event
  else Err runTransitionError.

Definition applyRunCreation (event : RunEvent) : result RunProjection :=
  reject_if negb (RunEvent_Sequence event =? 1) with reduce_error ErrorEventSequence event "sequence" ;;
  reject_if RunEvent_Type event !=? EventRunCreated with runTransitionError ;;
  let? payload := DecodePayloadStrict RunCreatedPayload_codec event in
  let run := RunCreated_Run payload in
  check AgentRun_Validate run ;;
  reject_if Run_ID run !=? RunEvent_RunID event with reduce_error ErrorEventSequence event "run_id" ;;
  reject_if Run_State run !=? RunCreated with runTransitionError ;;
  reject_if negb (Run_EventSequence run =? 1) with reduce_error ErrorEventSequence event "payload.run.event_sequence" ;;
  reject_if negb (Equal (Run_CreatedAt run) (RunEvent_OccurredAt event)) ||
            negb (Equal (Run_UpdatedAt run) (RunEvent_OccurredAt event))
    with reduce_error ErrorSchemaInvalid event "occurred_at" ;;
  Ok {| RP_Run := run; RP_LastEventDigest := RunEvent_Digest event |}.

Definition ApplyRun (current : option RunProjection) (event : RunEvent) : result RunProjection :=
  check RunEvent_Validate event ;;
  match current with
  | None => applyRunCreation event
  | Some current =>
    reject_if RunEvent_RunID event !=? Run_ID (RP_Run current) with reduce_error ErrorEventSequence event "run_id" ;;
    reject_if negb (RunEvent_Sequence event =? wrap64 (Run_EventSequence (RP_Run current) + 1))
      with reduce_error ErrorEventSequence event "sequence" ;;
    reject_if RunEvent_PreviousDigest event !=? RP_LastEventDigest current
      with reduce_error ErrorEventChain event "previous_digest" ;;
    reject_if Before (RunEvent_OccurredAt event) (Run_UpdatedAt (RP_Run current))
      with reduce_error ErrorSchemaInvalid event "occurred_at" ;;
    reject_if RunEvent_Type event ==? EventRunCreated with runTransitionError ;;
    let? run := apply_run_handler (RP_Run current) event in
    let run := run
      <| Run_EventSequence := RunEvent_Sequence event |>
      <| Run_UpdatedAt := RunEvent_OccurredAt event |> in
    check AgentRun_Validate run ;;
    Ok {| RP_Run := run; RP_LastEventDigest := RunEvent_Digest event |}
  end.

(** The loop of [Replay]. *)
Fixpoint replay_run_from (projection : option RunProjection) (events : list RunEvent) : result (option RunProjection) :=
  match events with
  | [] => Ok projection
  | event :: events' => let? next := ApplyRun projection event in replay_run_from (Some next) events'
  end.

Definition ReplayRun (events : list RunEvent) : result RunProjection :=
  let? projection := replay_run_from None events in
  match projection with
  | None => Err (newError ErrorEventSequence "replay" "" "")
  | Some projection => Ok projection
  end.

(** ** Building the next event *)

Definition RunEventID (runID : string) (sequence : Z) : string :=
  "event:" +:+ hex_encode (take 16 (sha256_sum runID)) +:+ ":" +:+ decimal sequence.

(** A plain Go error: the payload or the event cannot be encoded. *)
Definition run_encoding_error : KernelError := newError ErrorInternal "encode" "" "".

Definition run_event_time (projection : RunProjection) (occurredAt : Time) : Time :=
  if Before (UTC occurredAt) (Run_UpdatedAt (RP_Run projection)) then Run_UpdatedAt (RP_Run projection) else UTC occurredAt.

Definition NextRunEvent {T} (payload_codec : Codec T) (projection : RunProjection) (eventType : string)
    (actor : Principal) (occurredAt : Time) (payload : T) : result RunEvent :=
  match Marshal payload_codec payload with
  | None => Err run_encoding_error
  | Some data =>
    let sequence := wrap64 (Run_EventSequence (RP_Run projection) + 1) in
    let event := {|
      RunEvent_Version := RunEventVersion;
      RunEvent_ID := RunEventID (Run_ID (RP_Run projection)) sequence;
      RunEvent_RunID := Run_ID (RP_Run projection);
      RunEvent_Sequence := sequence;
      RunEvent_Type := eventType;
      RunEvent_Actor := actor;
      RunEvent_OccurredAt := run_event_time projection occurredAt;
      RunEvent_Payload := data;
      RunEvent_Artifacts := SNil;
      RunEvent_PolicyDecisionID := "";
      RunEvent_PreviousDigest := RP_LastEventDigest projection;
      RunEvent_Digest := "" |} in
    match ComputeEventDigest event with
    | None => Err run_encoding_error
    | Some digest => Ok (event <| RunEvent_Digest := digest |>)
    end
  end.
