(* ===== verification/TransactionInvariants.v ===== *)
(** * The reducer as a transition system

    Inversion of [Apply] into its guards, one handler and the cursor update;
    the reducer as an instance of the event ledger, with the induction
    principles and the hash chain that follow; and the properties of single steps and
    of reachable projections. *)
From S2P Require Import Prelude GoBase EventLedger Json ModelTypes ModelValidate TransactionTypes TransactionDigest TransactionValidate TransactionProjection TransactionReducer.

(** ** Inversion *)

(** The thirteen handlers behind one dispatched event. *)
Ltac handler_cases H :=
  unfold apply_handler in H;
  repeat lazymatch type of H with
  | (if ?b then _ else _) = Ok _ =>
    let E := fresh "Htype" in destruct b eqn:E
  end;
  [.. | discriminate H].

(** Invert one handler down to its guards and its result. *)
Ltac handler_inv H :=
  lazymatch type of H with ?f _ _ = Ok _ => unfold f in H end; res_inv H.

(** The guards every event after the first one passes. *)
Definition cursor_ok (p : Projection) (e : TransactionEvent) : Prop :=
  TransactionEvent_Validate e = Ok tt /\ VerifyTransactionEventDigest e = Some true /\
  Event_TransactionID e = Tx_ID (P_Transaction p) /\
  Event_Sequence e = wrap64 (Tx_EventSequence (P_Transaction p) + 1) /\
  Event_PreviousDigest e = P_LastEventDigest p /\
  Time_ns (Tx_UpdatedAt (P_Transaction p)) <= Time_ns (Event_OccurredAt e) /\
  Event_Type e <> EventTransactionCreated.

Lemma Apply_inv p e p' :
  Apply (Some p) e = Ok p' ->
  cursor_ok p e /\ exists q, apply_handler (cloneProjection p) e = Ok q /\ p' = advanced q e /\
  AgentTransaction_Validate (P_Transaction p') = Ok tt.
Proof.
  intros H. unfold Apply in H. res_inv H. unfold Before in *. bool_hyps.
  unfold cursor_ok. split; [naive_solver|]. eauto.
Qed.

Lemma Apply_none e p :
  Apply None e = Ok p ->
  TransactionEvent_Validate e = Ok tt /\ VerifyTransactionEventDigest e = Some true /\ applyCreation e = Ok p.
Proof. intros H. unfold Apply in H. res_inv H. bool_hyps. naive_solver. Qed.

(** ** Histories *)

(** The transaction reducer as an event ledger; what an accepted event
    satisfies is that its digest is the digest of its content. *)
#[export] Instance transaction_ledger : EventLedger Projection TransactionEvent := {|
  ledger_apply := Apply;
  ledger_owner p := Tx_ID (P_Transaction p);
  ledger_sequence p := Tx_EventSequence (P_Transaction p);
  ledger_head := P_LastEventDigest;
  ledger_updated p := Tx_UpdatedAt (P_Transaction p);
  event_owner := Event_TransactionID;
  event_sequence := Event_Sequence;
  event_previous := Event_PreviousDigest;
  event_digest := Event_Digest;
  event_at := Event_OccurredAt;
  event_accepted e := VerifyTransactionEventDigest e = Some true;
|}.

Lemma replay_from_ledger p es : replay_from p es = ledger_from p es.
Proof. revert p. induction es as [|e es IH]; intros p; simpl; [done|]. destruct (Apply p e); simpl; auto. Qed.

Lemma Replay_reaches es p : Replay es = Ok p <-> reaches es p.
Proof.
  unfold Replay, reaches. rewrite replay_from_ledger. destruct (ledger_from None es) as [[q|]|e]; simpl; naive_solver.
Qed.

Lemma replay_from_app p es es' :
  replay_from p (es ++ es') = rbind (replay_from p es) (fun q => replay_from q es').
Proof.
  rewrite (replay_from_ledger p (es ++ es')), (replay_from_ledger p es). etransitivity; [apply ledger_from_app|].
  destruct (ledger_from p es) as [q|]; [|reflexivity]. symmetry. apply replay_from_ledger.
Qed.

Lemma Replay_snoc es p e q : Replay es = Ok p -> Apply (Some p) e = Ok q -> Replay (es ++ [e]) = Ok q.
Proof. intros Hp%Replay_reaches HA. apply Replay_reaches. exact (reaches_snoc es p e q Hp HA). Qed.

Lemma Replay_history_ind (I : list TransactionEvent -> Projection -> Prop) :
  (forall e p, Apply None e = Ok p -> I [e] p) ->
  (forall es p e p', I es p -> Apply (Some p) e = Ok p' -> I (es ++ [e]) p') ->
  forall es p, Replay es = Ok p -> I es p.
Proof. intros Hnew Hstep es p H%Replay_reaches. exact (reaches_history_ind I Hnew Hstep es p H). Qed.

Lemma Replay_ind (I : Projection -> Prop) :
  (forall e p, Apply None e = Ok p -> I p) ->
  (forall p e p', I p -> Apply (Some p) e = Ok p' -> I p') ->
  forall es p, Replay es = Ok p -> I p.
Proof. intros Hnew Hstep. apply (Replay_history_ind (fun _ => I)); eauto. Qed.

Lemma replay_from_ind (R : Projection -> Projection -> Prop) :
  (forall p, R p p) ->
  (forall p e q r, Apply (Some p) e = Ok q -> R q r -> R p r) ->
  forall es p q, replay_from (Some p) es = Ok (Some q) -> R p q.
Proof. intros Hrefl Hstep es p q. rewrite replay_from_ledger. exact (ledger_from_ind R Hrefl Hstep es p q). Qed.

(** ** Slices *)

Lemma elems_refill {A} (s : slice A) l : (elems s = [] -> l = []) -> elems (refill s l) = l.
Proof. destruct s; simpl; [|done]. intros H. by rewrite H. Qed.

Lemma elems_remove_at {A} (s : slice A) i : elems (remove_at s i) = delete i (elems s).
Proof. unfold remove_at. rewrite !elems_append. simpl. by rewrite delete_take_drop. Qed.

(** ** Cloning keeps the content *)

Lemma clone_state p : Tx_State (P_Transaction (cloneProjection p)) = Tx_State (P_Transaction p).
Proof. reflexivity. Qed.

(** ** Identity *)

(** The fields no event may change. *)
Definition identity (transaction : AgentTransaction) :=
  (Tx_Version transaction, Tx_ID transaction, Tx_Namespace transaction, Tx_IntentDigest transaction,
   Tx_Task transaction, Tx_Admission transaction, Tx_Sponsor transaction,
   elems (Tx_AgentRunIDs transaction), Tx_CreatedAt transaction).

Lemma clone_identity p : identity (P_Transaction (cloneProjection p)) = identity (P_Transaction p).
Proof.
  unfold identity, cloneProjection. cbn.
  change (elems (clone ?s)) with (elems (clone s)). by rewrite elems_clone.
Qed.

Lemma enter_state_identity p payload now :
  identity (P_Transaction (enter_state p payload now)) = identity (P_Transaction p).
Proof. unfold enter_state. cbv zeta. by repeat case_match. Qed.

Lemma apply_handler_identity p e p' :
  apply_handler p e = Ok p' -> identity (P_Transaction p') = identity (P_Transaction p).
Proof.
  intros H. handler_cases H; handler_inv H; try reflexivity.
  - rewrite enter_state_identity. case_match; [|naive_solver].
    unfold beginNextAttempt in *. res_inv Hok1. reflexivity.
  - unfold resolve_decision in *. res_inv Hok1; reflexivity.
Qed.

Lemma advanced_identity q e : identity (P_Transaction (advanced q e)) = identity (P_Transaction q).
Proof. reflexivity. Qed.

Lemma Apply_identity p e p' :
  Apply (Some p) e = Ok p' -> identity (P_Transaction p') = identity (P_Transaction p).
Proof.
  intros (_ & q & Hq & -> & _)%Apply_inv.
  by rewrite advanced_identity, (apply_handler_identity _ _ _ Hq), clone_identity.
Qed.

(** ** The event chain *)

Lemma applyCreation_cursor e p :
  applyCreation e = Ok p ->
  Event_Sequence e = 1 /\ Event_Type e = EventTransactionCreated /\ Tx_EventSequence (P_Transaction p) = 1 /\
  Tx_ID (P_Transaction p) = Event_TransactionID e /\ P_LastEventDigest p = Event_Digest e /\
  Time_ns (Tx_UpdatedAt (P_Transaction p)) = Time_ns (Event_OccurredAt e) /\
  Tx_State (P_Transaction p) = TransactionCreated /\
  (Tx_Attempt (P_Transaction p) = 0 \/ Tx_Attempt (P_Transaction p) = 1) /\
  AgentTransaction_Validate (P_Transaction p) = Ok tt.
Proof.
  intros H. unfold applyCreation in H. res_inv H. unfold Equal in *. bool_hyps. simpl.
  repeat split; try done.
  match goal with H : negb (_ =? 0) && _ = false |- _ => apply andb_false_iff in H as [?|?] end; bool_hyps; auto.
Qed.

#[export] Instance transaction_ledger_laws : LedgerLaws Projection TransactionEvent.
Proof.
  split.
  - intros e p (_ & Hdig & H)%Apply_none.
    pose proof (applyCreation_cursor _ _ H) as (Hs & _ & Hp & Hid & Hlast & Hup & _).
    split; [exact Hs|]. split; [exact Hdig|]. split; [exact Hid|]. split; [by cbn; rewrite Hs|]. done.
  - intros p e q HA. pose proof (Apply_identity _ _ _ HA) as Hid. unfold identity in Hid.
    assert (Tx_ID (P_Transaction q) = Tx_ID (P_Transaction p)) as HID by congruence. clear Hid.
    apply Apply_inv in HA as ((Hval & Hver & Htx & Hsq & Hprev & Hle & _) & r & _ & -> & _).
    split; [exact Htx|]. split; [exact Hprev|]. split; [exact Hsq|]. split.
    { unfold TransactionEvent_Validate in Hval. res_inv Hval. bool_hyps. cbn. lia. }
    split; [exact Hle|]. split; [exact Hver|]. split; [exact (eq_trans HID (eq_sym Htx))|done].
Qed.

(** ** State changes *)

Lemma enter_state_state p payload now :
  Tx_State (P_Transaction (enter_state p payload now)) = TransactionStateChanged_To payload.
Proof. unfold enter_state. cbv zeta. by repeat case_match. Qed.

(** Everything but the state, its reason, the approval list and the completion
    time survives, unless the transaction is being started. *)
Lemma enter_state_frame p payload now :
  ~ (TransactionStateChanged_To payload = TransactionRunning /\ TransactionStateChanged_From payload = TransactionCreated) ->
  exists outstanding completed,
  enter_state p payload now = p
    <| P_Transaction := P_Transaction p
         <| Tx_State := TransactionStateChanged_To payload |>
         <| Tx_StateReason := TransactionStateChanged_Reason payload |>
         <| Tx_OutstandingApprovalIDs := outstanding |>
         <| Tx_CompletedAt := completed |> |> /\
  (TransactionStateChanged_To payload <> TransactionPendingApproval ->
   outstanding = Tx_OutstandingApprovalIDs (P_Transaction p)) /\
  (TransactionStateChanged_To payload = TransactionPendingApproval ->
   outstanding = clone (TransactionStateChanged_OutstandingApprovalIDs payload)).
Proof.
  intros Hnot. unfold enter_state. cbv zeta.
  destruct (_ && _) eqn:E; [bool_hyps; naive_solver|].
  exists (if TransactionStateChanged_To payload ==? TransactionPendingApproval
     then clone (TransactionStateChanged_OutstandingApprovalIDs payload)
     else Tx_OutstandingApprovalIDs (P_Transaction p)),
    (if TransactionState_Terminal (TransactionStateChanged_To payload) then Some now else None).
  destruct (bool_decide_reflect (TransactionStateChanged_To payload = TransactionPendingApproval));
    (split; [reflexivity|split; congruence]).
Qed.

(** Starting: the frozen fields are cleared. *)
Lemma enter_state_start p payload now :
  TransactionStateChanged_To payload = TransactionRunning -> TransactionStateChanged_From payload = TransactionCreated ->
  Tx_EffectSetDigest (P_Transaction (enter_state p payload now)) = "" /\
  elems (P_Effects (enter_state p payload now)) = [] /\
  P_SupersededAttempts (enter_state p payload now) = P_SupersededAttempts p /\
  P_Executions (enter_state p payload now) = P_Executions p /\
  Tx_Attempt (P_Transaction (enter_state p payload now)) = Tx_Attempt (P_Transaction p).
Proof. intros Hto Hfrom. unfold enter_state. rewrite Hto, Hfrom. cbv zeta. by repeat case_match. Qed.

(** ** Which handler may move the state *)

Definition stutters (p q : Projection) : Prop := Tx_State (P_Transaction q) = Tx_State (P_Transaction p).

Definition renews (p : Projection) (e : TransactionEvent) (q : Projection) : Prop :=
  Event_Type e = EventAuthorityRenewed /\ Tx_State (P_Transaction q) = TransactionValidating /\
  (Tx_State (P_Transaction p) = TransactionPendingApproval \/ Tx_State (P_Transaction p) = TransactionReadyToCommit).

Lemma CanTransition_in from to : CanTransition from to = true <-> to ∈ transactionTransitions from.
Proof. apply bool_decide_eq_true. Qed.

Lemma transitions_from_terminal from : TransactionState_Terminal from = true -> transactionTransitions from = [].
Proof. by destruct from. Qed.

Lemma apply_handler_moves p e q :
  apply_handler p e = Ok q ->
  stutters p q \/ CanTransition (Tx_State (P_Transaction p)) (Tx_State (P_Transaction q)) = true \/ renews p e q.
Proof.
  intros H. handler_cases H; handler_inv H; try by left.
  - right; left. rewrite enter_state_state. bool_hyps. congruence.
  - right; left. bool_hyps. simpl. by match goal with H : Tx_State _ = _ |- _ => rewrite H end.
  - right; right. bool_hyps. unfold renews. simpl. split; [done|]. split; [done|].
    match goal with H : _ && _ = false |- _ => apply andb_false_iff in H as [?|?] end; bool_hyps; auto.
  - assert (Tx_State (P_Transaction p) = TransactionPendingApproval) as Hp.
    { destruct (_ !=? _) eqn:E in Hcase; [done|]. by bool_hyps. }
    unfold resolve_decision in Hok1. unfold stutters. rewrite Hp.
    res_inv Hok1; simpl; auto.
Qed.

Lemma Apply_moves p e q :
  Apply (Some p) e = Ok q ->
  stutters p q \/ CanTransition (Tx_State (P_Transaction p)) (Tx_State (P_Transaction q)) = true \/ renews p e q.
Proof. intros (_ & r & Hr & -> & _)%Apply_inv. exact (apply_handler_moves _ _ _ Hr). Qed.

(** A finished transaction accepts nothing but effect bookkeeping. *)
Lemma apply_handler_terminal p e q :
  apply_handler p e = Ok q -> TransactionState_Terminal (Tx_State (P_Transaction p)) = true ->
  Event_Type e = EventEffectStateChanged /\ exists effects, q = p <| P_Effects := effects |>.
Proof.
  intros H Ht.
  assert (forall s, Tx_State (P_Transaction p) = s -> TransactionState_Terminal s = true) as Hs by congruence.
  handler_cases H; handler_inv H; bool_hyps; try (by specialize (Hs _ ltac:(eassumption))).
  - exfalso. apply CanTransition_in in Hguard0. rewrite Hguard, (transitions_from_terminal _ Ht) in Hguard0.
    by apply elem_of_nil in Hguard0.
  - eauto.
  - match goal with H : _ && _ = false |- _ => apply andb_false_iff in H as [?|?] end; bool_hyps;
      by specialize (Hs _ ltac:(eassumption)).
  - destruct (_ !=? _) eqn:E in Hcase; [done|]. bool_hyps. by specialize (Hs _ E).
Qed.

(** ** Attempts *)

Lemma apply_handler_attempt p e q :
  apply_handler p e = Ok q ->
  (Tx_Attempt (P_Transaction q) = Tx_Attempt (P_Transaction p) /\
   P_SupersededAttempts q = P_SupersededAttempts p) \/
  (Tx_State (P_Transaction p) <> TransactionCreated /\ Tx_State (P_Transaction q) = TransactionRunning /\
   Tx_Attempt (P_Transaction q) = wrap64 (Tx_Attempt (P_Transaction p) + 1) /\
   P_SupersededAttempts q = append (P_SupersededAttempts p) [attempt_snapshot p (Event_OccurredAt e)]).
Proof.
  intros H. handler_cases H; handler_inv H; try by left.
  - destruct (_ && _) eqn:E in Hok1; bool_hyps.
    + right. unfold beginNextAttempt in Hok1. res_inv Hok1. rewrite enter_state_state.
      edestruct (enter_state_frame) as (? & ? & -> & _); [intros [? ?]; congruence|].
      split_and!; [congruence|done..].
    + left. apply ok_inj in Hok1 as ->.
      unfold enter_state. cbv zeta. by repeat case_match.
  - left. unfold resolve_decision in *. by res_inv Hok1.
Qed.

(** Attempt numbers never wrap. *)
Definition attempt_in_range (p : Projection) : Prop := 0 <= Tx_Attempt (P_Transaction p) <= MaxInt64.

Lemma validated_attempt transaction : AgentTransaction_Validate transaction = Ok tt -> 0 <= Tx_Attempt transaction.
Proof. intros H. unfold AgentTransaction_Validate in H. res_step H. res_step H. by bool_hyps. Qed.

Lemma Apply_attempt p e q :
  attempt_in_range p -> Apply (Some p) e = Ok q ->
  (Tx_Attempt (P_Transaction q) = Tx_Attempt (P_Transaction p) /\
   elems (P_SupersededAttempts q) = elems (P_SupersededAttempts p)) \/
  (Tx_State (P_Transaction p) <> TransactionCreated /\ Tx_State (P_Transaction q) = TransactionRunning /\
   Tx_Attempt (P_Transaction q) = Tx_Attempt (P_Transaction p) + 1 /\
   elems (P_SupersededAttempts q) =
     elems (P_SupersededAttempts p) ++ [attempt_snapshot (cloneProjection p) (Event_OccurredAt e)]).
Proof.
  intros Hrange (_ & r & Hr & -> & Hv)%Apply_inv. apply validated_attempt in Hv.
  apply apply_handler_attempt in Hr as [[Ha Hs]|(Hp & Hq & Ha & Hs)]; [left|right]; simpl in *.
  - rewrite Hs. simpl. by rewrite elems_clone.
  - split_and!; [done..| |].
    + rewrite Ha in Hv. rewrite Ha. by apply wrap64_succ_nonneg.
    + rewrite Hs. simpl. by rewrite elems_clone.
Qed.

Lemma Apply_attempt_range p e q : attempt_in_range p -> Apply (Some p) e = Ok q -> attempt_in_range q.
Proof.
  intros Hrange HA. pose proof (Apply_inv _ _ _ HA) as (_ & r & Hr & -> & _).
  destruct (Apply_attempt _ _ _ Hrange HA) as [[Ha _]|(_ & _ & Ha & _)];
    unfold attempt_in_range in *; simpl in *; [lia|].
  apply apply_handler_attempt in Hr as [[Hn _]|(_ & _ & Hn & _)]; simpl in *; [lia|].
  pose proof (wrap64_range (Tx_Attempt (P_Transaction p) + 1)). unfold int64_range in *. lia.
Qed.

Lemma Apply_none_attempt e p : Apply None e = Ok p -> attempt_in_range p.
Proof.
  intros (_ & _ & H)%Apply_none. apply applyCreation_cursor in H. unfold attempt_in_range, MaxInt64. lia.
Qed.

Lemma Replay_attempt_range es p : Replay es = Ok p -> attempt_in_range p.
Proof. apply (Replay_ind attempt_in_range); eauto using Apply_none_attempt, Apply_attempt_range. Qed.

(** Every replayed projection carries a valid transaction. *)
Lemma Replay_valid es p : Replay es = Ok p -> AgentTransaction_Validate (P_Transaction p) = Ok tt.
Proof.
  apply (Replay_ind (fun p => AgentTransaction_Validate (P_Transaction p) = Ok tt)).
  - intros e q (_ & _ & H)%Apply_none. apply applyCreation_cursor in H. tauto.
  - intros ? ? ? _ (_ & ? & _ & _ & ?)%Apply_inv. done.
Qed.

Lemma validated_state transaction :
  AgentTransaction_Validate transaction = Ok tt -> validTransactionState (Tx_State transaction) = true.
Proof. intros H. unfold AgentTransaction_Validate in H. res_inv H. by bool_hyps. Qed.

(** The identifier lists of a valid transaction are free of duplicates. *)
Lemma validated_identifier_lists transaction :
  AgentTransaction_Validate transaction = Ok tt ->
  NoDup (elems (Tx_AgentRunIDs transaction)) /\ NoDup (elems (Tx_EffectIDs transaction)) /\
  NoDup (elems (Tx_VerificationResultIDs transaction)) /\ NoDup (elems (Tx_OutstandingApprovalIDs transaction)).
Proof.
  intros H. unfold AgentTransaction_Validate in H. repeat res_step H.
  match goal with Heach : each _ [("agent_run_ids", _); _; _; _] = Ok tt |- _ => rename Heach into Hlists end.
  apply each_ok in Hlists. rewrite !Forall_cons in Hlists. destruct Hlists as (H1 & H2 & H3 & H4 & _).
  split_and!; by eapply validateUniqueIdentifiers_nodup.
Qed.
