(* ===== verification/TransactionBinding.v ===== *)
(** * What the evidence of a transaction is bound to

    The invariant that ties effects, verification results, commit plan and
    approval package to the transaction they are recorded in, kept by every
    handler. *)
From S2P Require Import Prelude GoBase Json ModelTypes ModelValidate TransactionTypes TransactionDigest TransactionValidate TransactionProjection TransactionReducer TransactionInvariants.

(** ** The digest of an effect list ignores its lifecycle *)

Lemma immutable_effects_map (l : list Effect) :
  immutable_effects l =
  if forallb (fun '(i, ie) => IEffect_Sequence ie =? Z.of_nat (i + 1)) (indexed (map immutable_effect l))
  then Some (map immutable_effect l) else None.
Proof.
  unfold immutable_effects.
  assert (indexed (map immutable_effect l) = map (fun '(i, e) => (i, immutable_effect e)) (indexed l)) as ->.
  { apply list_eq. intros i. rewrite indexed_lookup, !list_lookup_fmap, indexed_lookup. by destruct (l !! i). }
  enough (forall k, forallb (fun '(i, effect) => Effect_Sequence effect =? Z.of_nat (i + 1)) k =
    forallb (fun '(i, ie) => IEffect_Sequence ie =? Z.of_nat (i + 1)) (map (fun '(i, e) => (i, immutable_effect e)) k))
    as -> by done.
  induction k as [|[i e] k IH]; simpl; [done|]. by rewrite IH.
Qed.

Lemma releaseEffectIDs_map (l : list Effect) :
  releaseEffectIDs l =
  map IEffect_ID (List.filter (fun ie => IEffect_RecoveryClass ie !=? RecoveryReadOnly) (map immutable_effect l)).
Proof.
  unfold releaseEffectIDs. induction l as [|e l IH]; simpl; [done|].
  destruct (_ !=? _); simpl; by rewrite IH.
Qed.

Lemma immutable_insert (l : list Effect) i e e' :
  l !! i = Some e -> immutable_effect e' = immutable_effect e ->
  map immutable_effect (<[i := e']> l) = map immutable_effect l.
Proof.
  intros Hi He. rewrite <- (list_insert_id l i e) at 2 by done.
  change (fmap immutable_effect (<[i:=e']> l) = fmap immutable_effect (<[i:=e]> l)).
  by rewrite !list_fmap_insert, He.
Qed.

Lemma ComputeEffectSetDigest_insert (l : list Effect) i e e' :
  l !! i = Some e -> immutable_effect e' = immutable_effect e ->
  ComputeEffectSetDigest (<[i := e']> l) = ComputeEffectSetDigest l.
Proof.
  intros Hi He. unfold ComputeEffectSetDigest. by rewrite !immutable_effects_map, (immutable_insert _ _ _ _ Hi He).
Qed.

(** ** The invariant *)

(** One effect in its place. *)
Definition effect_bound (transaction : AgentTransaction) (i : nat) (effect : Effect) : Prop :=
  Effect_Validate effect = Ok tt /\ Effect_TransactionID effect = Tx_ID transaction /\
  Effect_Attempt effect = Tx_Attempt transaction /\ Effect_Sequence effect = Z.of_nat i + 1.

Definition result_bound (transaction : AgentTransaction) (res : VerificationResult) : Prop :=
  VerificationResult_Validate res = Ok tt /\ Ver_TransactionID res = Tx_ID transaction /\
  Ver_Attempt res = Tx_Attempt transaction /\ Ver_EffectSetDigest res = Tx_EffectSetDigest transaction /\
  Ver_StagedStateDigest res = Tx_StagedStateDigest transaction.

Definition plan_bound (transaction : AgentTransaction) (effects : list Effect) (plan : CommitPlan) : Prop :=
  CommitPlan_Validate plan = Ok tt /\ ComputeCommitPlanDigest plan = Some (Plan_Digest plan) /\
  Plan_Digest plan = Tx_CommitPlanDigest transaction /\
  (Plan_TransactionID plan = Tx_ID transaction /\ Plan_Attempt plan = Tx_Attempt transaction /\
   Plan_IntentDigest plan = Tx_IntentDigest transaction /\ Plan_EffectSetDigest plan = Tx_EffectSetDigest transaction /\
   Plan_StagedStateDigest plan = Tx_StagedStateDigest transaction) /\
  map CStep_EffectID (Plan_Steps plan) = releaseEffectIDs effects.

Definition package_bound (transaction : AgentTransaction) (package : ApprovalPackage) : Prop :=
  ApprovalPackage_Validate package = Ok tt /\ ComputeApprovalPackageDigest package = Some (Pkg_Digest package) /\
  Pkg_Digest package = Tx_ApprovalPackageDigest transaction /\
  Pkg_TransactionID package = Tx_ID transaction /\ Pkg_Attempt package = Tx_Attempt transaction /\
  Pkg_IntentDigest package = Tx_IntentDigest transaction /\ Pkg_EffectSetDigest package = Tx_EffectSetDigest transaction /\
  Pkg_StagedStateDigest package = Tx_StagedStateDigest transaction.

(** Earlier effects a later one may depend on. *)
Definition depends_backwards (effects : list Effect) : Prop :=
  forall i e d, effects !! i = Some e -> d ∈ elems (Effect_Dependencies e) ->
  exists j e', (j < i)%nat /\ effects !! j = Some e' /\ Effect_ID e' = d.

Record bound (p : Projection) : Prop := {
  bound_effects : forall i e, elems (P_Effects p) !! i = Some e -> effect_bound (P_Transaction p) i e;
  bound_ids : map Effect_ID (P_Effects p) = elems (Tx_EffectIDs (P_Transaction p));
  bound_nodup : NoDup (map Effect_ID (P_Effects p));
  bound_deps : depends_backwards (P_Effects p);
  bound_frozen : Tx_EffectSetDigest (P_Transaction p) <> "" ->
    ComputeEffectSetDigest (P_Effects p) = Some (Tx_EffectSetDigest (P_Transaction p));
  bound_open : Tx_State (P_Transaction p) = TransactionRunning ->
    Tx_EffectSetDigest (P_Transaction p) = "" /\ elems (P_Verifications p) = [] /\
    elems (P_SupersededVerifications p) = [] /\ elems (Tx_VerificationResultIDs (P_Transaction p)) = [] /\
    P_CommitPlan p = None /\ P_ApprovalPackage p = None;
  bound_results : Forall (result_bound (P_Transaction p)) (P_Verifications p);
  bound_superseded : Forall (result_bound (P_Transaction p)) (P_SupersededVerifications p);
  bound_result_ids : map Ver_ID (P_Verifications p) = elems (Tx_VerificationResultIDs (P_Transaction p));
  bound_plan : forall plan, P_CommitPlan p = Some plan -> plan_bound (P_Transaction p) (P_Effects p) plan;
  bound_package : forall package, P_ApprovalPackage p = Some package -> package_bound (P_Transaction p) package;
}.

Lemma immutable_lookup (l l' : list Effect) i e :
  map immutable_effect l = map immutable_effect l' -> l !! i = Some e ->
  exists e', l' !! i = Some e' /\ immutable_effect e' = immutable_effect e.
Proof.
  intros Hmap Hi. assert (map immutable_effect l' !! i = Some (immutable_effect e)) as H.
  { rewrite <- Hmap, list_lookup_fmap, Hi. done. }
  rewrite list_lookup_fmap in H. destruct (l' !! i) as [e'|]; [|discriminate H].
  exists e'. split; [done|]. by apply (inj Some) in H.
Qed.

Lemma depends_backwards_immutable (l l' : list Effect) :
  map immutable_effect l = map immutable_effect l' -> depends_backwards l -> depends_backwards l'.
Proof.
  intros Hmap Hdeps i e d Hi Hd. destruct (immutable_lookup _ _ _ _ (eq_sym Hmap) Hi) as (y & Hy & Hiy).
  assert (Effect_Dependencies y = Effect_Dependencies e) as E
    by (change (IEffect_Dependencies (immutable_effect y) = IEffect_Dependencies (immutable_effect e)); by rewrite Hiy).
  rewrite <- E in Hd. destruct (Hdeps _ _ _ Hy Hd) as (j & z & Hj & Hz & Hid).
  destruct (immutable_lookup _ _ _ _ Hmap Hz) as (z' & Hz' & Hiz).
  exists j, z'. split_and!; [done..|].
  change (IEffect_ID (immutable_effect z') = d). by rewrite Hiz.
Qed.

(** What the invariant reads. *)
Definition evidence (p : Projection) :=
  let t := P_Transaction p in
  ((Tx_ID t, Tx_Attempt t, Tx_IntentDigest t, Tx_EffectSetDigest t, Tx_StagedStateDigest t),
   (Tx_CommitPlanDigest t, Tx_ApprovalPackageDigest t),
   (elems (Tx_EffectIDs t), elems (Tx_VerificationResultIDs t)),
   (elems (P_Effects p), elems (P_Verifications p), elems (P_SupersededVerifications p)),
   (P_CommitPlan p, P_ApprovalPackage p)).

Lemma bound_ext p q :
  evidence q = evidence p ->
  (Tx_State (P_Transaction q) = TransactionRunning -> Tx_State (P_Transaction p) = TransactionRunning) ->
  bound p -> bound q.
Proof.
  intros E Hrun [Heff Hids Hnd Hdeps Hfr Hop Hres Hsup Hrid Hplan Hpkg]. unfold evidence in E. injection E as E1 E2 E3 E4 E5 E6 E7 E8 E9 E10 E11 E12 E13 E14.
  constructor; unfold effect_bound, result_bound, plan_bound, package_bound in *;
    rewrite ?E1, ?E2, ?E3, ?E4, ?E5, ?E6, ?E7, ?E8, ?E9, ?E10, ?E11, ?E12, ?E13, ?E14; auto.
Qed.

(** Nothing recorded yet. *)
Lemma bound_fresh p :
  elems (P_Effects p) = [] -> elems (Tx_EffectIDs (P_Transaction p)) = [] ->
  elems (P_Verifications p) = [] -> elems (P_SupersededVerifications p) = [] ->
  elems (Tx_VerificationResultIDs (P_Transaction p)) = [] -> Tx_EffectSetDigest (P_Transaction p) = "" ->
  P_CommitPlan p = None -> P_ApprovalPackage p = None -> bound p.
Proof.
  intros He Hids Hv Hs Hrids Hd Hplan Hpkg.
  constructor; rewrite ?He, ?Hids, ?Hv, ?Hs, ?Hrids, ?Hplan, ?Hpkg; try done.
  constructor.
Qed.

Lemma clone_evidence p : evidence (cloneProjection p) = evidence p.
Proof. unfold evidence, cloneProjection, cloneCommitPlan, cloneApprovalPackage. simpl. by rewrite !elems_clone. Qed.

Lemma clone_bound p : bound p -> bound (cloneProjection p).
Proof. apply bound_ext; [apply clone_evidence|done]. Qed.

Lemma advanced_evidence p e : evidence (advanced p e) = evidence p.
Proof. reflexivity. Qed.

(** ** Handlers that record evidence *)

(** Guards [x !=? y || ... = false] of the binding checks, as equations. *)
Ltac binding_guards := unfold equalStrings in *; bool_hyps; subst.

Lemma applyEffectAdded_bound p e q : bound p -> applyEffectAdded p e = Ok q -> bound q.
Proof.
  intros [Heff Hids Hnd Hdeps Hfr Hop Hres Hsup Hrid Hplan Hpkg] H. unfold applyEffectAdded in H. res_inv H. binding_guards.
  match goal with H : Tx_State _ = _ |- _ => destruct (Hop H) as (Hd & Hv & Hsv & Hvi & Hnp & Hnk) end.
  constructor; simpl; try done.
  - intros i eff [Hi|[Hi Hl]]%lookup_app_Some; [by apply Heff|].
    apply list_lookup_singleton_Some in Hl as [Hz <-]. unfold effect_bound, len in *. simpl. split_and!; [done..|lia].
  - rewrite map_app, Hids. done.
  - rewrite map_app. apply NoDup_app. split_and!; [done| |apply NoDup_singleton].
    intros x' Hx' ->%list_elem_of_singleton. done.
  - intros i eff d Hi Hdep. apply lookup_app_Some in Hi as [Hi|[Hi Hl]].
    + destruct (Hdeps _ _ _ Hi Hdep) as (j & e' & Hj & He' & Hid). exists j, e'. split_and!; [done| |done].
      by apply lookup_app_l_Some.
    + apply list_lookup_singleton_Some in Hl as [Hz <-]. apply each_ok in Hok1. rewrite Forall_forall in Hok1.
      specialize (Hok1 _ Hdep). res_inv Hok1. bool_hyps.
      match goal with H : _ ∈ map _ _ |- _ => apply list_elem_of_lookup in H as (j & Hj) end.
      rewrite list_lookup_fmap in Hj. destruct (elems (P_Effects p) !! j) as [e'|] eqn:Ej; simplify_eq/=.
      exists j, e'. pose proof (lookup_lt_Some _ _ _ Ej). split_and!; [lia| |done]. by apply lookup_app_l_Some.
  - intros plan Hp. congruence.
Qed.

Lemma applyEffectStateChange_bound p e q : bound p -> applyEffectStateChange p e = Ok q -> bound q.
Proof.
  intros [Heff Hids Hnd Hdeps Hfr Hop Hres Hsup Hrid Hplan Hpkg] H. unfold applyEffectStateChange in H. res_inv H. bool_hyps.
  match type of Hcase0 with _ !! ?i = Some ?eff => set (l := elems (P_Effects p)) in *; set (idx := i) in *; set (old := eff) in * end.
  match goal with |- context [<[idx := ?new_]> l] => set (new := new_) in * end.
  assert (immutable_effect new = immutable_effect old) as Himm by reflexivity.
  assert (map immutable_effect (<[idx := new]> l) = map immutable_effect l) as Hmap by by eapply immutable_insert.
  assert (elems (refill (P_Effects p) (<[idx := new]> l)) = <[idx := new]> l) as Hel.
  { apply elems_refill. fold l. intros ->. done. }
  assert (map Effect_ID (<[idx := new]> l) = map Effect_ID l) as Hmid.
  { change Effect_ID with (fun x => IEffect_ID (immutable_effect x)).
    rewrite <- !(map_map immutable_effect IEffect_ID). by rewrite Hmap. }
  constructor; cbn [P_Effects P_Transaction P_Verifications P_SupersededVerifications P_CommitPlan P_ApprovalPackage
    field_update] in *; simpl; try rewrite Hel; try done.
  - intros i eff. destruct (decide (i = idx)) as [->|Hne].
    + rewrite list_lookup_insert_eq by by eapply lookup_lt_Some. intros [= <-].
      destruct (Heff _ _ Hcase0) as (_ & ? & ? & ?). by split_and!.
    + rewrite list_lookup_insert_ne by done. apply Heff.
  - by rewrite Hmid.
  - by rewrite Hmid.
  - by eapply depends_backwards_immutable.
  - intros Hd. rewrite (ComputeEffectSetDigest_insert _ _ _ _ Hcase0 Himm). by apply Hfr.
  - intros plan Hp. destruct (Hplan _ Hp) as (? & ? & ? & ? & Hsteps). split_and!; try done; try tauto.
    simpl. rewrite releaseEffectIDs_map, Hmap, <- releaseEffectIDs_map. done.
Qed.

Lemma applyStaged_bound p e q : bound p -> applyStaged p e = Ok q -> bound q.
Proof.
  intros [Heff Hids Hnd Hdeps Hfr Hop Hres Hsup Hrid Hplan Hpkg] H. unfold applyStaged in H. res_inv H. binding_guards.
  match goal with H : Tx_State _ = _ |- _ => destruct (Hop H) as (Hd & Hv & Hsv & Hvi & Hnp & Hnk) end.
  constructor; simpl; rewrite ?Hv, ?Hsv, ?Hvi, ?Hnp, ?Hnk; try done.
Qed.

Lemma applyVerification_bound p e q : bound p -> applyVerification p e = Ok q -> bound q.
Proof.
  intros [Heff Hids Hnd Hdeps Hfr Hop Hres Hsup Hrid Hplan Hpkg] H. unfold applyVerification in H. res_inv H. binding_guards.
  constructor; simpl; try done.
  - intros Hrun. congruence.
  - apply Forall_app. split; [exact Hres|]. constructor; [|done].
    unfold result_bound. simpl. by split_and!.
  - by rewrite map_app, Hrid.
Qed.

Lemma map_delete {A B} (f : A -> B) (l : list A) i : map f (delete i l) = delete i (map f l).
Proof. rewrite !delete_take_drop, map_app. by rewrite firstn_map, skipn_map. Qed.

Lemma applyVerificationSuperseded_bound p e q : bound p -> applyVerificationSuperseded p e = Ok q -> bound q.
Proof.
  intros [Heff Hids Hnd Hdeps Hfr Hop Hres Hsup Hrid Hplan Hpkg] H. unfold applyVerificationSuperseded in H.
  res_inv H. binding_guards.
  constructor; simpl; try done.
  - intros Hrun. congruence.
  - rewrite elems_remove_at. by apply Forall_delete.
  - apply Forall_app. split; [exact Hsup|]. constructor; [|done].
    rewrite Forall_lookup in Hres. by eapply Hres.
  - by rewrite !elems_remove_at, map_delete, Hrid.
Qed.

Lemma applyCommitPlan_bound p e q : bound p -> applyCommitPlan p e = Ok q -> bound q.
Proof.
  intros [Heff Hids Hnd Hdeps Hfr Hop Hres Hsup Hrid Hplan Hpkg] H. unfold applyCommitPlan in H. res_inv H. binding_guards.
  constructor; simpl; try done.
  - intros Hrun. congruence.
  - intros plan [= <-]. unfold plan_bound. simpl. split_and!; congruence.
Qed.

Lemma applyApprovalPackage_bound p e q : bound p -> applyApprovalPackage p e = Ok q -> bound q.
Proof.
  intros [Heff Hids Hnd Hdeps Hfr Hop Hres Hsup Hrid Hplan Hpkg] H. unfold applyApprovalPackage in H. res_inv H. binding_guards.
  constructor; simpl; try done.
  - intros Hrun. congruence.
  - intros package [= <-]. unfold package_bound. simpl. split_and!; congruence.
Qed.

(** The renewal loop keeps the identifier of every result it keeps. *)
Lemma current_result_ids_aligned now verifications ids kept :
  map Ver_ID verifications = ids -> current_result_ids now verifications ids = Ok kept ->
  map Ver_ID (List.filter (fun res => negb (expired_at now res)) verifications) = kept.
Proof.
  revert ids kept. induction verifications as [|v vs IH]; simpl; intros ids kept Hids H; [by apply ok_inj in H|].
  subst ids. destruct (expired_at now v); simpl in *; [by eapply IH|].
  res_inv H. f_equal. by eapply IH.
Qed.

Lemma Forall_filter_elem {A} (P : A -> Prop) (f : A -> bool) l : Forall P l -> Forall P (List.filter f l).
Proof. induction 1; simpl; [constructor|]. destruct (f x); auto. Qed.

Lemma applyAuthorityRenewed_bound p e q : bound p -> applyAuthorityRenewed p e = Ok q -> bound q.
Proof.
  intros [Heff Hids Hnd Hdeps Hfr Hop Hres Hsup Hrid Hplan Hpkg] H. unfold applyAuthorityRenewed in H. res_inv H.
  pose proof (current_result_ids_aligned _ _ _ _ Hrid Hok0) as Hkept.
  assert (elems (refill (P_Verifications p) (List.filter (fun res => negb (expired_at (Event_OccurredAt e) res))
    (elems (P_Verifications p)))) = List.filter (fun res => negb (expired_at (Event_OccurredAt e) res)) (elems (P_Verifications p))) as Hver
    by (apply elems_refill; by intros ->).
  assert (elems (refill (Tx_VerificationResultIDs (P_Transaction p)) x0) = x0) as Hrids.
  { apply elems_refill. intros Hnil. rewrite Hnil in Hrid. destruct (elems (P_Verifications p)); [|done]. by simpl in Hkept. }
  constructor; simpl; try done.
  - rewrite Hver. by apply Forall_filter_elem.
  - rewrite elems_append. apply Forall_app. split; [exact Hsup|]. by apply Forall_filter_elem.
  - by rewrite Hver, Hrids.
Qed.

(** ** Every handler *)

(** State changes without a new attempt keep the evidence. *)
Lemma enter_state_evidence p payload now :
  ~ (TransactionStateChanged_To payload = TransactionRunning /\ TransactionStateChanged_From payload = TransactionCreated) ->
  evidence (enter_state p payload now) = evidence p.
Proof. intros (? & ? & -> & _)%(enter_state_frame p payload now). reflexivity. Qed.

Lemma enter_state_fresh p payload now :
  TransactionStateChanged_To payload = TransactionRunning -> TransactionStateChanged_From payload = TransactionCreated ->
  bound (enter_state p payload now).
Proof.
  intros Hto Hfrom. unfold enter_state. rewrite Hto, Hfrom. cbv zeta. apply bound_fresh; reflexivity.
Qed.

Lemma applyStateChange_bound p e q : bound p -> applyStateChange p e = Ok q -> bound q.
Proof.
  intros Hb H. unfold applyStateChange in H. res_inv H.
  destruct (decide (TransactionStateChanged_To x = TransactionRunning)) as [Eto|Eto].
  - destruct (decide (TransactionStateChanged_From x = TransactionCreated)) as [Efrom|Efrom]; [by apply enter_state_fresh|].
    rewrite Eto in Hok1. rewrite (bool_decide_true (TransactionRunning = _)) in Hok1 by done.
    rewrite bool_decide_false in Hok1 by done. simpl in Hok1. unfold beginNextAttempt in Hok1. res_inv Hok1.
    edestruct (enter_state_frame) as (? & ? & Hq & _); [|rewrite Hq]; [intros [_ Hf]; exact (Efrom Hf)|].
    apply bound_fresh; reflexivity.
  - rewrite (bool_decide_false (TransactionStateChanged_To x = _)) in Hok1 by done. apply ok_inj in Hok1 as <-.
    apply (bound_ext p); [apply enter_state_evidence; intros [Ht _]; exact (Eto Ht)| |done].
    rewrite enter_state_state. congruence.
Qed.

Lemma applyApprovalResolution_evidence p e q :
  applyApprovalResolution p e = Ok q ->
  evidence q = evidence p /\ Tx_State (P_Transaction q) <> TransactionRunning.
Proof.
  intros H. unfold applyApprovalResolution in H. res_inv H.
  destruct (_ !=? _) eqn:Est in Hcase; [done|]. bool_hyps.
  unfold resolve_decision in Hok1. res_inv Hok1; (split; [reflexivity|simpl; congruence]).
Qed.

Lemma apply_handler_bound p e q : bound p -> apply_handler p e = Ok q -> bound q.
Proof.
  intros Hb H. handler_cases H.
  - by eapply applyStateChange_bound.
  - by eapply applyEffectAdded_bound.
  - handler_inv H. by apply (bound_ext p).
  - by eapply applyEffectStateChange_bound.
  - by eapply applyStaged_bound.
  - by eapply applyVerification_bound.
  - by eapply applyVerificationSuperseded_bound.
  - by eapply applyCommitPlan_bound.
  - by eapply applyApprovalPackage_bound.
  - by eapply applyAuthorityRenewed_bound.
  - apply applyApprovalResolution_evidence in H as [He Hs]. by apply (bound_ext p).
  - handler_inv H. by apply (bound_ext p).
  - handler_inv H. by apply (bound_ext p).
Qed.

(** ** Before the work starts

    A created transaction may carry any digests; they are dropped when it
    starts, and matter to nothing when it is closed unstarted. *)
Record pristine (p : Projection) : Prop := {
  pristine_effects : elems (P_Effects p) = [];
  pristine_verifications : elems (P_Verifications p) = [];
  pristine_plan : P_CommitPlan p = None;
  pristine_package : P_ApprovalPackage p = None;
  pristine_approvals : elems (P_ApprovalDigests p) = [];
  pristine_state : Tx_State (P_Transaction p) = TransactionCreated \/
    Tx_State (P_Transaction p) = TransactionBlocked \/ Tx_State (P_Transaction p) = TransactionAborted;
}.

Lemma applyCreation_pristine e p : applyCreation e = Ok p -> pristine p.
Proof.
  intros H. pose proof (applyCreation_cursor _ _ H) as (_ & _ & _ & _ & _ & _ & Hs & _).
  unfold applyCreation in H. res_inv H. constructor; simpl; auto.
Qed.

Lemma clone_pristine p : pristine p -> pristine (cloneProjection p).
Proof. intros [He Hv Hp Hk Ha Hs]. constructor; simpl; rewrite ?elems_clone; done. Qed.

Lemma applyStateChange_pristine p e q :
  Tx_State (P_Transaction p) = TransactionCreated -> pristine p -> applyStateChange p e = Ok q -> bound q \/ pristine q.
Proof.
  intros Hc [He Hv Hp Hk Ha _] H. unfold applyStateChange in H. res_inv H. bool_hyps.
  rewrite Hc in *. rewrite Hguard in *. rewrite (bool_decide_true (TransactionCreated = _)), andb_false_r in Hok1 by done.
  apply ok_inj in Hok1 as <-. apply CanTransition_in in Hguard0. cbn in Hguard0.
  repeat (apply elem_of_cons in Hguard0 as [Hto|Hguard0]); [..|by apply elem_of_nil in Hguard0].
  - left. by apply enter_state_fresh.
  - right. edestruct (enter_state_frame) as (? & ? & Hq & _); [|rewrite Hq]; [intros [? _]; congruence|].
    constructor; simpl; auto.
  - right. edestruct (enter_state_frame) as (? & ? & Hq & _); [|rewrite Hq]; [intros [? _]; congruence|].
    constructor; simpl; auto.
Qed.

Lemma apply_handler_pristine p e q : pristine p -> apply_handler p e = Ok q -> bound q \/ pristine q.
Proof.
  intros Hp H. destruct (decide (Tx_State (P_Transaction p) = TransactionCreated)) as [Hc|Hc].
  - assert (forall s, Tx_State (P_Transaction p) = s -> s = TransactionCreated) as Hs by congruence.
    destruct (decide (Event_Type e = EventTransactionStateChanged)) as [Et|Et].
    { unfold apply_handler in H. rewrite bool_decide_true in H by done. by eapply applyStateChange_pristine. }
    exfalso. destruct Hp as [He _ _ _ _ _].
    handler_cases H; handler_inv H; bool_hyps; try congruence.
    + rewrite He in Hcase. done.
    + match goal with H : _ && _ = false |- _ => apply andb_false_iff in H as [?|?] end; bool_hyps; congruence.
    + destruct (_ !=? _) eqn:E in Hcase; [done|]. bool_hyps. congruence.
  - exfalso. destruct (apply_handler_terminal _ _ _ H) as [Ht _].
    { destruct Hp as [_ _ _ _ _ [?|[Hs|Hs]]]; [done|by rewrite Hs..]. }
    unfold apply_handler in H. rewrite Ht in H. simpl in H. unfold applyEffectStateChange in H.
    destruct Hp as [He _ _ _ _ _]. res_inv H. by rewrite He in Hcase.
Qed.

Lemma Apply_bound p e q : bound p \/ pristine p -> Apply (Some p) e = Ok q -> bound q \/ pristine q.
Proof.
  intros Hp (_ & r & Hr & -> & _)%Apply_inv.
  assert (bound r \/ pristine r) as [[]|[]]; [|left; by constructor|right; by constructor].
  destruct Hp as [Hb|Hp]; [left; eapply apply_handler_bound; [by apply clone_bound|done]|].
  eapply apply_handler_pristine; [by apply clone_pristine|done].
Qed.

(** Every replayed projection is bound, or was closed before it started. *)
Lemma Replay_bound es p : Replay es = Ok p -> bound p \/ pristine p.
Proof.
  apply (Replay_ind (fun p => bound p \/ pristine p)).
  - intros e q (_ & _ & H)%Apply_none. right. by eapply applyCreation_pristine.
  - intros p0 e q Hp. by apply Apply_bound.
Qed.

Lemma Replay_package_bound es p package :
  Replay es = Ok p -> P_ApprovalPackage p = Some package -> package_bound (P_Transaction p) package.
Proof. intros [Hb|Hp]%Replay_bound Hk; [by apply (bound_package _ Hb)|by rewrite (pristine_package _ Hp) in Hk]. Qed.
