(* ===== verification/Demo.v ===== *)
(** * A concrete transaction

    A small release, from its creation to the committed state through an
    approval, built with the model's own [CreationEvent], [NextEvent] and
    [PrepareAuthority] and replayed by [Apply].  The witnesses of the theorems
    on replayed histories instantiate them here.  The events and projections
    are evaluated once, in [demo_log]. *)
From S2P Require Import Prelude GoBase Sha256 Json ModelTypes ModelValidate TransactionTypes TransactionDigest TransactionValidate TransactionProjection TransactionReducer TransactionEvents SequencePolicy PrepareAuthority TransactionInvariants.
From Stdlib Require Import Ascii.

(** One builder after the other, each event applied before the next is built;
    the log pairs every event with the projection after it. *)
Definition builder : Type := Projection -> result TransactionEvent.

Fixpoint build_log (current : Projection) (builders : list builder) : result (list (TransactionEvent * Projection)) :=
  match builders with
  | [] => Ok []
  | build :: builders' =>
    let? event := build current in
    let? next := Apply (Some current) event in
    let? log := build_log next builders' in
    Ok ((event, next) :: log)
  end.

Definition start_log (creation : result TransactionEvent) (builders : list builder)
    : result (list (TransactionEvent * Projection)) :=
  let? event := creation in
  let? first := Apply None event in
  let? log := build_log first builders in
  Ok ((event, first) :: log).

(** ** Documents *)

Definition demo_now : Time := default zero_time (parse_rfc3339 "2026-01-01T00:00:00Z").
Definition demo_digest (c : ascii) : string := "sha256:" +:+ string_of_bytes (repeat (byte_of c) 64).
Definition demo_ref : ArtifactRef := mkArtifactRef "a" (demo_digest "a") "".
Definition demo_alice : Principal := mkPrincipal "alice" PrincipalHuman "" "".
Definition demo_service : Principal := mkPrincipal "svc" PrincipalService "" "".

Definition demo_transaction : AgentTransaction := zero_AgentTransaction
  <| Tx_Version := AgentTransactionVersion |> <| Tx_ID := "t" |> <| Tx_Namespace := "n" |>
  <| Tx_Attempt := 1 |> <| Tx_IntentDigest := demo_digest "1" |> <| Tx_Sponsor := demo_alice |>
  <| Tx_State := TransactionCreated |> <| Tx_EventSequence := 1 |>
  <| Tx_CreatedAt := demo_now |> <| Tx_UpdatedAt := demo_now |>.

Definition demo_effect : Effect := zero_Effect
  <| Effect_Version := EffectVersion |> <| Effect_ID := "e" |> <| Effect_TransactionID := "t" |>
  <| Effect_Attempt := 1 |> <| Effect_Sequence := 1 |> <| Effect_System := "git" |>
  <| Effect_Resource := mkResourceSelector "f" "x" |> <| Effect_Operation := "w" |>
  <| Effect_Arguments := RawJSON (JObject []) |> <| Effect_ArgumentsDigest := demo_digest "2" |>
  <| Effect_RecoveryClass := RecoveryReversible |> <| Effect_Status := EffectStaged |>
  <| Effect_IdempotencyKey := "k" |> <| Effect_StageRef := Some demo_ref |>
  <| Effect_BeforeStateRef := Some demo_ref |> <| Effect_CreatedAt := demo_now |> <| Effect_UpdatedAt := demo_now |>.

Definition demo_staged_digest : string := demo_digest "3".

Definition demo_result (effect_set : string) : VerificationResult := zero_VerificationResult
  <| Ver_Version := VerificationResultVersion |> <| Ver_ID := "v" |> <| Ver_TransactionID := "t" |>
  <| Ver_Attempt := 1 |> <| Ver_Name := "tests" |> <| Ver_Kind := VerificationPostcondition |>
  <| Ver_Status := VerificationPassed |> <| Ver_EffectSetDigest := effect_set |>
  <| Ver_StagedStateDigest := demo_staged_digest |> <| Ver_Verifier := demo_service |>
  <| Ver_Independence := VerificationPlatformRun |> <| Ver_VerifierDigest := demo_digest "4" |>
  <| Ver_InputsDigest := demo_digest "5" |> <| Ver_Evidence := SList [demo_ref] |>
  <| Ver_Summary := "ok" |> <| Ver_EvaluatedAt := demo_now |>.

Definition demo_receipt : EffectReceipt := mkEffectReceipt "git" "op" (demo_digest "6") "" demo_now.

Definition demo_signature : string := string_of_bytes (repeat 65%N 86) +:+ "==".

Definition demo_prepared (p : Projection) : result PreparedAuthority :=
  PrepareAuthority p (mkSequenceDecision SequenceRequireApproval (SList [])) (demo_digest "7")
    (mkReleaseBinding "git" (mkResourceSelector "branch" "main") "r1") demo_now.

(** An approval of the frozen package, by the only human around. *)
Definition demo_decision (p : Projection) : ApprovalDecision :=
  let decision := zero_ApprovalDecision
    <| Dec_Version := ApprovalDecisionVersion |> <| Dec_ID := "d" |> <| Dec_TransactionID := "t" |>
    <| Dec_ApprovalID := default "" (head (Tx_OutstandingApprovalIDs (P_Transaction p))) |>
    <| Dec_PackageDigest := Tx_ApprovalPackageDigest (P_Transaction p) |>
    <| Dec_ApprovalClass := "security-reviewer" |> <| Dec_Decision := ApprovalApprove |>
    <| Dec_Approver := demo_alice |> <| Dec_KeyID := "key" |> <| Dec_IssuedAt := demo_now |>
    <| Dec_ExpiresAt := Add demo_now Minute |> <| Dec_Nonce := "n" |>
    <| Dec_SignatureBase64 := demo_signature |> in
  decision <| Dec_Digest := default "" (ComputeApprovalDecisionDigest decision) |>.

(** ** Builders *)

Definition demo_event {T} (c : Codec T) (type : string) (actor : Principal) (payload : T) : builder :=
  fun p => NextEvent c p type actor demo_now payload.

Definition change_state (from to : TransactionState) (reason : string) (outstanding : list string) : builder :=
  demo_event TransactionStateChangedPayload_codec EventTransactionStateChanged demo_service
    (mkTransactionStateChangedPayload from to reason (SList outstanding)).

Definition change_effect (from to : EffectStatus) (receipt : option EffectReceipt) : builder :=
  demo_event EffectStateChangedPayload_codec EventEffectStateChanged demo_service
    (mkEffectStateChangedPayload "e" from to receipt None).

Definition stage_all : builder := fun p =>
  demo_event TransactionStagedPayload_codec EventTransactionStaged demo_service
    (mkTransactionStagedPayload demo_staged_digest (default "" (ComputeEffectSetDigest (P_Effects p)))) p.

Definition record_verification : builder := fun p =>
  demo_event VerificationRecordedPayload_codec EventVerificationRecorded demo_service
    (mkVerificationRecordedPayload (demo_result (Tx_EffectSetDigest (P_Transaction p)))) p.

Definition freeze_plan : builder := fun p =>
  let? prepared := demo_prepared p in
  demo_event CommitPlanFrozenPayload_codec EventCommitPlanFrozen demo_service
    (mkCommitPlanFrozenPayload (Prepared_Plan prepared)) p.

Definition freeze_package : builder := fun p =>
  let? prepared := demo_prepared p in
  demo_event ApprovalPackageFrozenPayload_codec EventApprovalPackageFrozen demo_service
    (mkApprovalPackageFrozenPayload (Prepared_Approval prepared)) p.

Definition resolve_approval : builder := fun p =>
  demo_event ApprovalResolvedPayload_codec EventApprovalResolved demo_alice
    (mkApprovalResolvedPayload (demo_decision p)) p.

Definition add_effect : builder :=
  demo_event EffectAddedPayload_codec EventEffectAdded demo_service (mkEffectAddedPayload demo_effect).

Definition demo_builders : list builder := [
  change_state TransactionCreated TransactionRunning "" [];
  add_effect;
  stage_all;
  change_state TransactionStaged TransactionValidating "" [];
  change_effect EffectStaged EffectValidated None;
  record_verification;
  freeze_plan;
  freeze_package;
  change_state TransactionValidating TransactionPendingApproval "" ["approval:1"];
  resolve_approval;
  change_effect EffectValidated EffectReleaseReady None;
  change_state TransactionReadyToCommit TransactionCommitting "" [];
  change_effect EffectReleaseReady EffectCommitting None;
  change_effect EffectCommitting EffectCommitted (Some demo_receipt);
  change_state TransactionCommitting TransactionCommitted "" []].

(** ** The evaluated log *)

(** Every projection on the way of a replay. *)
Fixpoint replay_trace (current : option Projection) (events : list TransactionEvent) : result (list Projection) :=
  match events with
  | [] => Ok []
  | event :: events' =>
    let? next := Apply current event in
    let? rest := replay_trace (Some next) events' in
    Ok (next :: rest)
  end.

Definition log_of (log : result (list (TransactionEvent * Projection))) : list (TransactionEvent * Projection) :=
  match log with Ok log => log | Err _ => [] end.

Definition demo_log :=
  Eval vm_compute in log_of (start_log (CreationEvent demo_transaction demo_service) demo_builders).

Definition demo_events : list TransactionEvent := Eval cbv [demo_log map fst] in map fst demo_log.
Definition demo_projections : list Projection := Eval cbv [demo_log map snd] in map snd demo_log.

(** The event that leads to step [n] and the projection there. *)
Definition demo_at (n : nat) : Projection := nth n demo_projections (mkProjection zero_AgentTransaction SNil SNil SNil SNil None None SNil SNil SNil "").
Definition demo_ev (n : nat) : TransactionEvent := nth n demo_events zero_TransactionEvent.

(** The one evaluation of [Apply] over the whole history. *)
Lemma demo_replay_trace : replay_trace None demo_events = Ok demo_projections.
Proof. vm_compute. reflexivity. Qed.

Lemma replay_trace_nth current events projections n e p q :
  replay_trace current events = Ok projections ->
  projections !! n = Some p -> events !! S n = Some e -> projections !! S n = Some q -> Apply (Some p) e = Ok q.
Proof.
  revert current projections n. induction events as [|e0 events IH]; simpl; intros current projections n H; [done|].
  apply rbind_ok in H as (next & Hnext & H). apply rbind_ok in H as (rest & Hrest & H). apply ok_inj in H as <-.
  destruct n as [|n]; simpl.
  - intros [= <-] He Hq. destruct events as [|e1 events]; [done|]. simpl in Hrest.
    apply rbind_ok in Hrest as (next' & Hnext' & H'). apply rbind_ok in H' as (rest' & _ & H'). apply ok_inj in H' as <-.
    simpl in *. congruence.
  - intros Hp He Hq. eauto.
Qed.

Lemma replay_trace_from current events projections :
  replay_trace current events = Ok projections ->
  replay_from current events = Ok (match last projections with Some p => Some p | None => current end).
Proof.
  revert current projections. induction events as [|e events IH]; simpl; intros current projections H.
  - apply ok_inj in H as <-. done.
  - apply rbind_ok in H as (next & Hnext & H). apply rbind_ok in H as (rest & Hrest & H). apply ok_inj in H as <-.
    rewrite Hnext. simpl. rewrite (IH _ _ Hrest), last_cons. by destruct (last rest).
Qed.

Lemma replay_trace_take current events projections n :
  replay_trace current events = Ok projections -> replay_trace current (take n events) = Ok (take n projections).
Proof.
  revert current projections n. induction events as [|e events IH]; simpl; intros current projections n H.
  - apply ok_inj in H as <-. by destruct n.
  - apply rbind_ok in H as (next & Hnext & H). apply rbind_ok in H as (rest & Hrest & H). apply ok_inj in H as <-.
    destruct n; simpl; [done|]. rewrite Hnext. simpl. by rewrite (IH _ _ n Hrest).
Qed.

(** The replay of a prefix of the history. *)
Lemma demo_replay n :
  (n < 16)%nat -> Replay (take (S n) demo_events) = Ok (demo_at n).
Proof.
  intros Hn. unfold Replay.
  rewrite (replay_trace_from _ _ _ (replay_trace_take _ _ _ (S n) demo_replay_trace)).
  do 16 (destruct n as [|n]; [reflexivity|]). lia.
Qed.

Lemma demo_step n : (n < 15)%nat -> Apply (Some (demo_at n)) (demo_ev (S n)) = Ok (demo_at (S n)).
Proof.
  intros Hn. apply (replay_trace_nth _ _ _ n _ _ _ demo_replay_trace);
    do 15 (destruct n as [|n]; [reflexivity|]); lia.
Qed.

(** ** Detours off the same history *)

(** The event a builder produces at step [n] and the projection after it. *)
Definition detour (n : nat) (build : builder) : option (TransactionEvent * Projection) :=
  match rbind (build (demo_at n)) (fun event => let? next := Apply (Some (demo_at n)) event in Ok (event, next)) with
  | Ok step => Some step
  | Err _ => None
  end.

Lemma detour_step n build event next :
  detour n build = Some (event, next) -> Apply (Some (demo_at n)) event = Ok next.
Proof.
  unfold detour. destruct (build (demo_at n)) as [event'|]; simpl; [|done].
  destruct (Apply _ event') as [next'|] eqn:E; simpl; [|done]. by intros [= <- <-].
Qed.

Lemma detour_replay n build event next :
  (n < 16)%nat -> detour n build = Some (event, next) -> Replay (take (S n) demo_events ++ [event]) = Ok next.
Proof.
  intros Hn Hd%detour_step. exact (Replay_snoc _ _ _ _ (demo_replay n Hn) Hd).
Qed.

(** Revising the staged work opens the second attempt. *)
Definition demo_revision := Eval vm_compute in
  detour 3 (change_state TransactionStaged TransactionRunning "redo" []).
(** Renewing the authority of a transaction that is ready to commit. *)
Definition demo_renewal := Eval vm_compute in
  detour 10 (demo_event AuthorityRenewedPayload_codec EventAuthorityRenewed demo_service
    (mkAuthorityRenewedPayload "expired")).
(** Bookkeeping after the end. *)
Definition demo_afterthought := Eval vm_compute in
  detour 15 (change_effect EffectCommitted EffectManualRecoveryRequired None).

(** An effect recorded as already committed. *)
Definition demo_shortcut := Eval vm_compute in
  detour 1 (demo_event EffectAddedPayload_codec EventEffectAdded demo_service (mkEffectAddedPayload
    (demo_effect <| Effect_Status := EffectCommitted |> <| Effect_Receipt := Some demo_receipt |>))).

Definition detour_event (d : option (TransactionEvent * Projection)) : TransactionEvent :=
  match d with Some (event, _) => event | None => zero_TransactionEvent end.
Definition detour_end (d : option (TransactionEvent * Projection)) : Projection :=
  match d with Some (_, next) => next | None => demo_at 0 end.

Lemma demo_revision_step :
  detour 3 (change_state TransactionStaged TransactionRunning "redo" []) =
  Some (detour_event demo_revision, detour_end demo_revision).
Proof. vm_compute. reflexivity. Qed.

Lemma demo_revision_replay :
  Replay (take 4 demo_events ++ [detour_event demo_revision]) = Ok (detour_end demo_revision).
Proof. exact (detour_replay 3 _ _ _ ltac:(lia) demo_revision_step). Qed.

Lemma demo_renewal_step :
  detour 10 (demo_event AuthorityRenewedPayload_codec EventAuthorityRenewed demo_service
    (mkAuthorityRenewedPayload "expired")) = Some (detour_event demo_renewal, detour_end demo_renewal).
Proof. vm_compute. reflexivity. Qed.

Lemma demo_renewal_replay :
  Replay (take 11 demo_events ++ [detour_event demo_renewal]) = Ok (detour_end demo_renewal).
Proof. exact (detour_replay 10 _ _ _ ltac:(lia) demo_renewal_step). Qed.

Lemma demo_afterthought_step :
  Apply (Some (demo_at 15)) (detour_event demo_afterthought) = Ok (detour_end demo_afterthought).
Proof.
  apply (detour_step 15 (change_effect EffectCommitted EffectManualRecoveryRequired None)). vm_compute. reflexivity.
Qed.

Lemma demo_shortcut_step :
  detour 1 (demo_event EffectAddedPayload_codec EventEffectAdded demo_service (mkEffectAddedPayload
    (demo_effect <| Effect_Status := EffectCommitted |> <| Effect_Receipt := Some demo_receipt |>))) =
  Some (detour_event demo_shortcut, detour_end demo_shortcut).
Proof. vm_compute. reflexivity. Qed.
