(* ===== verification/TransactionLifecycle.v ===== *)
(** * The lifecycle of a transaction

    The state machine of [CanTransition] as the reducer really runs it, an
    abstract release protocol it implements, and what every history keeps:
    identity, the hash chain and the superseded attempts. *)
From S2P Require Import Prelude GoBase EventLedger Json ModelTypes ModelValidate TransactionTypes TransactionDigest TransactionValidate TransactionProjection TransactionReducer TransactionInvariants Demo.

(** ** The abstract release protocol

    One proposal at a time is drafted, frozen, authorised as one package, and
    released under exactly that package. *)

Inductive phase :=
  | Drafting (attempt : Z)
  | Frozen (attempt : Z) (effects : string)
  | Awaiting (attempt : Z) (effects package : string)
  | Authorized (attempt : Z) (effects package : string)
  | Releasing (attempt : Z) (effects package : string)
  | Settled (outcome : TransactionState).

(** The outcomes of a proposal nothing was released of. *)
Definition abandoned (outcome : TransactionState) : Prop :=
  outcome = TransactionBlocked \/ outcome = TransactionAborted.

(** The outcomes of a release that started. *)
Definition release_outcome (outcome : TransactionState) : Prop :=
  outcome ∈ [TransactionCommitted; TransactionReleaseFailed; TransactionRolledBack;
             TransactionPartiallyCommitted; TransactionManualRecoveryRequired].

(** One step of the protocol, labelled with the type of the event that makes it.
    A proposal is frozen only by the staging event, and what awaits approval is
    authorised, sent back or rejected only by a decision (or by a renewal, which
    sends it back); there is no step that authorises without a frozen proposal
    and none that releases without an authorised one. *)
Inductive phase_step : string -> phase -> phase -> Prop :=
  | step_freeze a d : phase_step EventTransactionStaged (Drafting a) (Frozen a d)
  | step_no_effect a :
      phase_step EventTransactionStateChanged (Drafting a) (Settled TransactionCompletedNoEffect)
  | step_revise a d : phase_step EventTransactionStateChanged (Frozen a d) (Drafting (a + 1))
  | step_await a d k : phase_step EventTransactionStateChanged (Frozen a d) (Awaiting a d k)
  | step_authorize a d k : phase_step EventTransactionStateChanged (Frozen a d) (Authorized a d k)
  | step_approve a d k : phase_step EventApprovalResolved (Awaiting a d k) (Authorized a d k)
  | step_send_back a d k : phase_step EventApprovalResolved (Awaiting a d k) (Frozen a d)
  | step_reject a d k : phase_step EventApprovalResolved (Awaiting a d k) (Settled TransactionBlocked)
  | step_renew_awaiting a d k : phase_step EventAuthorityRenewed (Awaiting a d k) (Frozen a d)
  | step_renew_authorized a d k : phase_step EventAuthorityRenewed (Authorized a d k) (Frozen a d)
  | step_withdraw a d k : phase_step EventTransactionStateChanged (Authorized a d k) (Frozen a d)
  | step_release a d k : phase_step EventTransactionStateChanged (Authorized a d k) (Releasing a d k)
  | step_settle a d k o : release_outcome o ->
      phase_step EventTransactionStateChanged (Releasing a d k) (Settled o)
  | step_abandon_draft a o : abandoned o -> phase_step EventTransactionStateChanged (Drafting a) (Settled o)
  | step_abandon_frozen a d o : abandoned o -> phase_step EventTransactionStateChanged (Frozen a d) (Settled o)
  | step_abandon_authorized a d k o : abandoned o ->
      phase_step EventTransactionStateChanged (Authorized a d k) (Settled o).

(** The phase a transaction state stands for. *)
Definition phase_at (state : TransactionState) (attempt : Z) (effects package : string) : phase :=
  match state with
  | TransactionCreated | TransactionRunning => Drafting attempt
  | TransactionStaged | TransactionValidating | TransactionValidationFailed | TransactionReviseRequired =>
    Frozen attempt effects
  | TransactionPendingApproval => Awaiting attempt effects package
  | TransactionReadyToCommit => Authorized attempt effects package
  | TransactionCommitting | TransactionCompensating => Releasing attempt effects package
  | outcome => Settled outcome
  end.

Definition phase_of (p : Projection) : phase :=
  phase_at (Tx_State (P_Transaction p)) (Tx_Attempt (P_Transaction p))
    (Tx_EffectSetDigest (P_Transaction p)) (Tx_ApprovalPackageDigest (P_Transaction p)).

(** Every edge of the transition table a state change may take is a protocol step
    or none at all. *)
Lemma transition_phase from to a d k :
  CanTransition from to = true -> to <> TransactionStaged -> from <> TransactionPendingApproval ->
  (to = TransactionRunning -> from = TransactionCreated) ->
  phase_at to a d k = phase_at from a d k \/
  phase_step EventTransactionStateChanged (phase_at from a d k) (phase_at to a d k).
Proof.
  intros Hin%CanTransition_in Hns Hnp Hrun. destruct from; cbn in Hin; repeat (apply elem_of_cons in Hin as [->|Hin]);
    try (by apply elem_of_nil in Hin); try done; try (by specialize (Hrun eq_refl));
    first [by left | right; cbn; constructor; unfold abandoned, release_outcome; try set_solver].
Qed.

(** Leaving a frozen proposal for a new attempt. *)
Lemma transition_running from a d k :
  CanTransition from TransactionRunning = true -> from <> TransactionCreated -> phase_at from a d k = Frozen a d.
Proof. by destruct from. Qed.

Lemma handler_phase p e q :
  attempt_in_range p -> 0 <= Tx_Attempt (P_Transaction q) -> apply_handler p e = Ok q ->
  phase_of q = phase_of p \/ phase_step (Event_Type e) (phase_of p) (phase_of q).
Proof.
  intros Hrange Hpos H. handler_cases H; handler_inv H; try by left.
  - bool_hyps. destruct ((_ ==? TransactionRunning) && _) eqn:Erun; bool_hyps.
    + right. unfold beginNextAttempt in Hok1. res_inv Hok1.
      assert (Tx_State (P_Transaction p) <> TransactionCreated) as Hnew by congruence.
      match goal with H : TransactionStateChanged_From _ = _ |- _ => rewrite H in * end.
      match goal with H : TransactionStateChanged_To _ = _ |- _ => rewrite H in * end.
      unfold phase_of at 1. rewrite (transition_running _ _ _ _ Hguard0 Hnew).
      edestruct enter_state_frame as (? & ? & Hq & _); [|rewrite Hq in *].
      { intros [? ?]. congruence. }
      unfold phase_of. simpl in *.
      match goal with H : TransactionStateChanged_To _ = _ |- _ => rewrite H end.
      simpl. rewrite wrap64_succ_nonneg, Htype by done. constructor.
    + apply ok_inj in Hok1 as <-.
      match goal with H : TransactionStateChanged_From _ = _ |- _ => rewrite H in * end.
      assert (TransactionStateChanged_To x = TransactionRunning -> Tx_State (P_Transaction p) = TransactionCreated)
        as Hstart by (intros E; rewrite E in Erun; simpl in Erun; bool_hyps; congruence).
      destruct (decide (TransactionStateChanged_To x = TransactionRunning)) as [Eto|Eto].
      * left. pose proof (Hstart Eto) as Ep.
        pose proof (enter_state_start p x (Event_OccurredAt e) Eto ltac:(congruence)) as (_ & _ & _ & _ & Ha).
        unfold phase_of. rewrite enter_state_state, Ha, Eto, Ep. done.
      * edestruct enter_state_frame as (? & ? & Hq & _); [|rewrite Hq in *].
        { intros [? _]. congruence. }
        unfold phase_of. simpl. rewrite Htype. by apply transition_phase.
  - bool_hyps. right. unfold phase_of. simpl.
    match goal with H : Tx_State _ = _ |- _ => rewrite H end. match goal with H : Event_Type e = _ |- _ => rewrite H end. constructor.
  - bool_hyps. left. unfold phase_of. simpl.
    match goal with H : Tx_State _ = _ |- _ => rewrite H end. done.
  - right. unfold phase_of. simpl. bool_hyps. match goal with H : Event_Type e = _ |- _ => rewrite H end.
    match goal with H : _ && _ = false |- _ => apply andb_false_iff in H as [E|E] end; bool_hyps; rewrite E; constructor.
  - assert (Tx_State (P_Transaction p) = TransactionPendingApproval) as Hp.
    { destruct (_ !=? _) eqn:E in Hcase; [done|]. by bool_hyps. }
    unfold resolve_decision in Hok1. unfold phase_of. bool_hyps.
    match goal with H : Event_Type e = _ |- _ => rewrite H end.
    res_inv Hok1; simpl; rewrite Hp; simpl; auto; right; constructor.
Qed.

(** One event makes at most one protocol step, of its own kind. *)
Lemma Apply_phase p e q :
  attempt_in_range p -> Apply (Some p) e = Ok q ->
  phase_of q = phase_of p \/ phase_step (Event_Type e) (phase_of p) (phase_of q).
Proof.
  intros Hrange HA. pose proof (Apply_attempt_range _ _ _ Hrange HA) as Hq.
  apply Apply_inv in HA as (_ & r & Hr & -> & _).
  apply (handler_phase (cloneProjection p) e r); [exact Hrange| |exact Hr]. unfold attempt_in_range in Hq. simpl in Hq. lia.
Qed.

(** *** The phases of a history *)

(** The phase the first [n] events replay to. *)
Definition phase_after (es : list TransactionEvent) (n : nat) (x : phase) : Prop :=
  exists p, Replay (take n es) = Ok p /\ phase_of p = x.

(** Some shorter, nonempty part of the history was in phase [x]. *)
Definition came_through (es : list TransactionEvent) (x : phase) : Prop :=
  exists n, (0 < n < length es)%nat /\ phase_after es n x.

(** What had to come before a phase. *)
Definition prepared (es : list TransactionEvent) (x : phase) : Prop :=
  match x with
  | Drafting _ | Settled _ => True
  | Frozen a _ => came_through es (Drafting a)
  | Awaiting a d _ | Authorized a d _ => came_through es (Drafting a) /\ came_through es (Frozen a d)
  | Releasing a d k =>
    came_through es (Drafting a) /\ came_through es (Frozen a d) /\ came_through es (Authorized a d k)
  end.

Lemma phase_after_snoc es e n x : (n <= length es)%nat -> phase_after es n x -> phase_after (es ++ [e]) n x.
Proof. unfold phase_after. intros Hn. by rewrite take_app_le. Qed.

Lemma came_through_snoc es e x : came_through es x -> came_through (es ++ [e]) x.
Proof.
  intros (n & Hn & Hx). exists n. rewrite length_app. simpl. split; [lia|]. apply phase_after_snoc; [lia|done].
Qed.

Lemma came_through_last es e p : Replay es = Ok p -> came_through (es ++ [e]) (phase_of p).
Proof.
  intros Hes. exists (length es). rewrite length_app. simpl. split.
  - destruct es; [done|]. simpl. lia.
  - exists p. by rewrite take_app_length.
Qed.

#[local] Hint Resolve came_through_snoc came_through_last : core.

Lemma prepared_snoc es e x : prepared es x -> prepared (es ++ [e]) x.
Proof. destruct x; simpl; naive_solver. Qed.

(** Each step needs only the phase it starts in and what that phase needed. *)
Lemma prepared_step label es e x y :
  phase_step label x y -> came_through (es ++ [e]) x -> prepared es x -> prepared (es ++ [e]) y.
Proof. intros Hs Hx Hp. destruct Hs; simpl in *; naive_solver. Qed.

(** What the protocol says of a history that replays to [p]. *)
Record simulated (es : list TransactionEvent) (p : Projection) : Prop := {
  sim_replay : Replay es = Ok p;
  sim_first : (0 < length es)%nat /\ exists a, (a = 0 \/ a = 1) /\ phase_after es 1 (Drafting a);
  sim_steps : forall n e, es !! S n = Some e ->
    exists x y, phase_after es (S n) x /\ phase_after es (S (S n)) y /\ (y = x \/ phase_step (Event_Type e) x y);
  sim_prepared : prepared es (phase_of p);
}.

Lemma phase_after_all es p : Replay es = Ok p -> phase_after es (length es) (phase_of p).
Proof. intros Hes. exists p. by rewrite firstn_all. Qed.

Lemma simulated_first e p : Apply None e = Ok p -> simulated [e] p.
Proof.
  intros HA. assert (Replay [e] = Ok p) as Hes by (unfold Replay; simpl; by rewrite HA).
  apply Apply_none in HA as (_ & _ & H). apply applyCreation_cursor in H as (_ & _ & _ & _ & _ & _ & Hs & Ha & _).
  assert (phase_of p = Drafting (Tx_Attempt (P_Transaction p))) as Hphase by (unfold phase_of; by rewrite Hs).
  constructor; [done| |by intros n e' Hn|by rewrite Hphase].
  split; [simpl; lia|]. eexists. split; [exact Ha|]. rewrite <- Hphase. exact (phase_after_all _ _ Hes).
Qed.

Lemma simulated_snoc es p e q : simulated es p -> Apply (Some p) e = Ok q -> simulated (es ++ [e]) q.
Proof.
  intros [Hes (Hne & a & Ha & Hfirst) Hsteps Hprep] HA.
  pose proof (Replay_snoc _ _ _ _ Hes HA) as Hq. pose proof (phase_after_all _ _ Hes) as Hlast.
  pose proof (Apply_phase _ _ _ (Replay_attempt_range _ _ Hes) HA) as Hstep.
  constructor; [done| | |].
  - rewrite length_app. split; [simpl; lia|]. exists a. split; [done|]. by apply phase_after_snoc.
  - intros n e' [Hn|[Hlen Hn]]%lookup_app_Some.
    + apply lookup_lt_Some in Hn as Hlt. destruct (Hsteps _ _ Hn) as (x & y & Hx & Hy & Hxy).
      exists x, y. split_and!; [apply phase_after_snoc; [lia|done]..|done].
    + apply list_lookup_singleton_Some in Hn as [Hz <-]. assert (S n = length es) as -> by lia.
      exists (phase_of p), (phase_of q). split; [by apply phase_after_snoc|]. split; [|done].
      replace (S (length es)) with (length (es ++ [e])) by (rewrite length_app; simpl; lia).
      by apply phase_after_all.
  - destruct Hstep as [->|Hs]; [by apply prepared_snoc|]. eapply prepared_step; eauto.
Qed.

Lemma Replay_simulated es p : Replay es = Ok p -> simulated es p.
Proof. apply Replay_history_ind; eauto using simulated_first, simulated_snoc. Qed.

(** C3: the reducer implements the abstract release protocol, event by event.
    Take any accepted history.  The first event puts it in the drafting phase of
    attempt 0 or 1.  Every later event, at whatever place, either leaves the
    phase of the history before it unchanged or makes one protocol step labelled
    with that event's type, on the attempt and digests of that very history.
    Hence a proposal that is being released was drafted, frozen with exactly its
    effect digest, and authorised under exactly its package digest, by shorter
    parts of the same history; likewise what is authorised or awaiting was
    frozen. *)
Theorem replay_refines_protocol es p :
  Replay es = Ok p ->
  (exists a, (a = 0 \/ a = 1) /\ phase_after es 1 (Drafting a)) /\
  (forall n e, es !! S n = Some e ->
     exists x y, phase_after es (S n) x /\ phase_after es (S (S n)) y /\
     (y = x \/ phase_step (Event_Type e) x y)) /\
  phase_after es (length es) (phase_of p) /\
  prepared es (phase_of p).
Proof. intros Hes. destruct (Replay_simulated _ _ Hes) as [_ [_ Hfirst] Hsteps Hprep]. auto using phase_after_all. Qed.

(** The release of the demonstration: event 12 starts it, and its proposal was
    frozen and authorised before. *)
Example replay_refines_protocol_witness :
  (exists x y, phase_after (take 16 demo_events) 11 x /\ phase_after (take 16 demo_events) 12 y /\
     (y = x \/ phase_step (Event_Type (demo_ev 11)) x y)) /\
  prepared (take 16 demo_events) (phase_of (demo_at 15)).
Proof.
  destruct (replay_refines_protocol (take 16 demo_events) (demo_at 15)) as (_ & Hsim & _ & Hprep);
    [apply demo_replay; lia|].
  split; [exact (Hsim 10%nat (demo_ev 11) eq_refl)|exact Hprep].
Defined.

(** ** Transitions *)

(** C23: the state machine is closed: an accepted event leaves the state where
    it is, follows an edge of the transition table, or is an authority renewal
    that takes a pending or ready transaction back to validation. *)
Theorem apply_follows_transitions p e q :
  Apply (Some p) e = Ok q ->
  Tx_State (P_Transaction q) = Tx_State (P_Transaction p) \/
  CanTransition (Tx_State (P_Transaction p)) (Tx_State (P_Transaction q)) = true \/
  (Event_Type e = EventAuthorityRenewed /\ Tx_State (P_Transaction q) = TransactionValidating /\
   (Tx_State (P_Transaction p) = TransactionPendingApproval \/ Tx_State (P_Transaction p) = TransactionReadyToCommit)).
Proof. apply Apply_moves. Qed.

Example apply_follows_transitions_witness :
  Tx_State (P_Transaction (demo_at 12)) = Tx_State (P_Transaction (demo_at 11)) \/
  CanTransition (Tx_State (P_Transaction (demo_at 11))) (Tx_State (P_Transaction (demo_at 12))) = true \/
  (Event_Type (demo_ev 12) = EventAuthorityRenewed /\ Tx_State (P_Transaction (demo_at 12)) = TransactionValidating /\
   (Tx_State (P_Transaction (demo_at 11)) = TransactionPendingApproval \/
    Tx_State (P_Transaction (demo_at 11)) = TransactionReadyToCommit)).
Proof. apply (apply_follows_transitions (demo_at 11) (demo_ev 12) (demo_at 12)). apply demo_step. lia. Defined.

(** What the end of a transaction fixes: everything but the effect records, the
    cursor and the last update. *)
Definition sealed_content (p : Projection) :=
  (identity (P_Transaction p),
   (Tx_State (P_Transaction p), Tx_StateReason (P_Transaction p), Tx_Attempt (P_Transaction p),
    Tx_CompletedAt (P_Transaction p)),
   (Tx_StagedStateDigest (P_Transaction p), Tx_EffectSetDigest (P_Transaction p),
    Tx_ApprovalPackageDigest (P_Transaction p), Tx_CommitPlanDigest (P_Transaction p)),
   (elems (Tx_EffectIDs (P_Transaction p)), elems (Tx_VerificationResultIDs (P_Transaction p)),
    elems (Tx_OutstandingApprovalIDs (P_Transaction p)), elems (Tx_StageBindings (P_Transaction p))),
   (elems (P_Executions p), elems (P_Verifications p), elems (P_SupersededVerifications p)),
   (P_CommitPlan p, P_ApprovalPackage p, elems (P_ApprovalDigests p),
    elems (P_SupersededAuthorities p), elems (P_SupersededAttempts p))).

Lemma clone_sealed_content p : sealed_content (cloneProjection p) = sealed_content p.
Proof.
  unfold sealed_content. rewrite clone_identity. unfold cloneProjection, cloneCommitPlan, cloneApprovalPackage. simpl.
  by rewrite !elems_clone.
Qed.

Lemma advanced_sealed_content p e : sealed_content (advanced p e) = sealed_content p.
Proof. reflexivity. Qed.

Lemma effects_sealed_content p effects : sealed_content (p <| P_Effects := effects |>) = sealed_content p.
Proof. reflexivity. Qed.

Lemma Apply_terminal p e q :
  TransactionState_Terminal (Tx_State (P_Transaction p)) = true -> Apply (Some p) e = Ok q ->
  Event_Type e = EventEffectStateChanged /\ sealed_content q = sealed_content p.
Proof.
  intros Ht (_ & r & Hr & -> & _)%Apply_inv.
  apply apply_handler_terminal in Hr as [He (effects & ->)]; [|exact Ht].
  split; [done|]. by rewrite advanced_sealed_content, effects_sealed_content, clone_sealed_content.
Qed.

(** C7: a terminal state is final: every event accepted after it is bookkeeping
    on one effect record, and the state, its reason, the digests, the evidence,
    the plan, the package and the approvals are what they were at the end. *)
Theorem terminal_is_final p es q :
  TransactionState_Terminal (Tx_State (P_Transaction p)) = true ->
  replay_from (Some p) es = Ok (Some q) ->
  sealed_content q = sealed_content p /\ Forall (fun e => Event_Type e = EventEffectStateChanged) es.
Proof.
  revert p. induction es as [|e es IH]; simpl; intros p Ht H; [by simplify_eq|].
  apply rbind_ok in H as (r & Hr & H).
  pose proof (Apply_terminal _ _ _ Ht Hr) as [He Hc].
  destruct (IH r) as [Hq Hes]; [|done|].
  - assert (Tx_State (P_Transaction r) = Tx_State (P_Transaction p)) as -> by (unfold sealed_content in Hc; congruence).
    done.
  - split; [congruence|by constructor].
Qed.

Example terminal_is_final_witness :
  sealed_content (detour_end demo_afterthought) = sealed_content (demo_at 15) /\
  Forall (fun e => Event_Type e = EventEffectStateChanged) [detour_event demo_afterthought].
Proof.
  apply (terminal_is_final (demo_at 15)); [reflexivity|].
  cbn [replay_from]. rewrite demo_afterthought_step. reflexivity.
Defined.

(** ** Identity *)

Lemma replay_identity_from p es q :
  replay_from (Some p) es = Ok (Some q) -> identity (P_Transaction q) = identity (P_Transaction p).
Proof.
  revert es p q. apply (replay_from_ind (fun p q => identity (P_Transaction q) = identity (P_Transaction p))); [done|].
  intros p e q r HA%Apply_identity ->. done.
Qed.

(** C17: the identity of a transaction is settled by its creation event: version,
    identifier, namespace, intent, task, admission, sponsor, runs and creation
    time of the replayed projection are those of the first payload, whatever
    events follow. *)
Theorem replay_keeps_identity e es p :
  Replay (e :: es) = Ok p ->
  exists payload, decodePayload TransactionCreatedPayload_codec e = Ok payload /\
    identity (P_Transaction p) = identity (TransactionCreated_Transaction payload) /\
    Tx_ID (P_Transaction p) = Event_TransactionID e.
Proof.
  unfold Replay. simpl. intros H. apply rbind_ok in H as (r & Hr & H). simplify_option_eq.
  apply rbind_ok in Hr as (p0 & Hp0 & Hrest). destruct r as [q|]; simplify_eq.
  apply replay_identity_from in Hrest. apply Apply_none in Hp0 as (_ & _ & Hp0).
  pose proof (applyCreation_cursor _ _ Hp0) as (_ & _ & _ & Hid & _).
  unfold applyCreation in Hp0. res_inv Hp0. exists x. split; [done|]. simpl in *.
  split; [done|]. unfold identity in Hrest. congruence.
Qed.

Example replay_keeps_identity_witness :
  exists payload, decodePayload TransactionCreatedPayload_codec (demo_ev 0) = Ok payload /\
    identity (P_Transaction (demo_at 15)) = identity (TransactionCreated_Transaction payload) /\
    Tx_ID (P_Transaction (demo_at 15)) = Event_TransactionID (demo_ev 0).
Proof. apply (replay_keeps_identity (demo_ev 0) (tail demo_events)). exact (demo_replay 15 ltac:(lia)). Defined.

(** ** The hash chain *)

(** C8: a replayed history is one unbroken chain: event [i] has sequence number
    [i + 1], belongs to the transaction, carries the digest of its own content,
    and names the digest of the event before it; times never go back; and the
    projection's head is the last event. *)
Theorem replay_is_chained es p :
  Replay es = Ok p ->
  (exists e, last es = Some e /\ P_LastEventDigest p = Event_Digest e /\ Tx_EventSequence (P_Transaction p) = len es) /\
  len es <= MaxInt64 /\
  (forall i e, es !! i = Some e ->
    Event_Sequence e = Z.of_nat i + 1 /\ Event_TransactionID e = Tx_ID (P_Transaction p) /\
    ComputeTransactionEventDigest e = Some (Event_Digest e)) /\
  (forall i e e', es !! i = Some e -> es !! S i = Some e' ->
    Event_PreviousDigest e' = Event_Digest e /\ Time_ns (Event_OccurredAt e) <= Time_ns (Event_OccurredAt e')).
Proof.
  intros H%Replay_reaches%reaches_chained. destruct H as [(e & Hlast & (_ & _ & Hdig & _) & Hseq) Hlen Heach Hlinks].
  split_and!; [by exists e|done| |exact Hlinks].
  intros i e' He'. destruct (Heach _ _ He') as (Hs & Ht & Hv). split_and!; [done..|].
  change (VerifyTransactionEventDigest e' = Some true) in Hv. unfold VerifyTransactionEventDigest in Hv. destruct (ComputeTransactionEventDigest e'); simpl in Hv; [|done].
  simplify_eq. by case_bool_decide; simplify_eq.
Qed.

Example replay_is_chained_witness : len (take 16 demo_events) <= MaxInt64 /\
  Event_PreviousDigest (demo_ev 5) = Event_Digest (demo_ev 4).
Proof.
  pose proof (replay_is_chained (take 16 demo_events) (demo_at 15) (demo_replay 15 ltac:(lia))) as (_ & Hlen & _ & Hlinks).
  split; [exact Hlen|]. exact (proj1 (Hlinks 4%nat (demo_ev 4) (demo_ev 5) eq_refl eq_refl)).
Defined.

(** ** Attempts *)

Definition numbered (first : Z) (p : Projection) : Prop :=
  Tx_Attempt (P_Transaction p) = first + len (P_SupersededAttempts p) /\
  forall i s, elems (P_SupersededAttempts p) !! i = Some s -> Attempt_Attempt s = first + Z.of_nat i.

Lemma Apply_numbered first p e q :
  attempt_in_range p -> numbered first p -> Apply (Some p) e = Ok q -> numbered first q.
Proof.
  intros Hrange [Hcount Hnum] HA. destruct (Apply_attempt _ _ _ Hrange HA) as [[Ha Hs]|(_ & _ & Ha & Hs)].
  - unfold numbered, len in *. by rewrite Ha, Hs.
  - unfold numbered, len in *. rewrite Ha, Hs, length_app. simpl. split; [lia|].
    intros i s [Hi|[Hi Hl]]%lookup_app_Some; [by apply Hnum|].
    apply list_lookup_singleton_Some in Hl as [Hz <-]. simpl. lia.
Qed.

(** C18: attempts are counted without gaps or reuse: the superseded attempts are
    numbered consecutively from the first attempt (0 or 1) and the current
    attempt is the next number, in particular it never wraps. *)
Theorem attempts_are_numbered es p :
  Replay es = Ok p ->
  exists first, (first = 0 \/ first = 1) /\
    Tx_Attempt (P_Transaction p) = first + len (P_SupersededAttempts p) /\
    forall i s, elems (P_SupersededAttempts p) !! i = Some s -> Attempt_Attempt s = first + Z.of_nat i.
Proof.
  intros H. enough (attempt_in_range p /\ exists first, (first = 0 \/ first = 1) /\ numbered first p) as (_ & first & ? & ?) by (exists first; done).
  revert es p H. apply (Replay_ind (fun p => attempt_in_range p /\ exists first, (first = 0 \/ first = 1) /\ numbered first p)).
  - intros e p HA. split; [by eapply Apply_none_attempt|]. apply Apply_none in HA as (_ & _ & H).
    pose proof (applyCreation_cursor _ _ H) as (_ & _ & _ & _ & _ & _ & _ & Ha & _).
    exists (Tx_Attempt (P_Transaction p)). split; [done|]. unfold applyCreation in H. res_inv H.
    split; [unfold len; simpl; lia|]. intros i s. simpl. by rewrite lookup_nil.
  - intros p e q (Hrange & first & Hf & Hn) HA. split; [by eapply Apply_attempt_range|].
    exists first. split; [done|]. by eapply Apply_numbered.
Qed.

Example attempts_are_numbered_witness :
  exists first, (first = 0 \/ first = 1) /\
    Tx_Attempt (P_Transaction (detour_end demo_revision)) = first + len (P_SupersededAttempts (detour_end demo_revision)) /\
    forall i s, elems (P_SupersededAttempts (detour_end demo_revision)) !! i = Some s -> Attempt_Attempt s = first + Z.of_nat i.
Proof. exact (attempts_are_numbered _ _ demo_revision_replay). Defined.

(** C19: the history of superseded attempts is append-only: no event removes or
    rewrites an earlier attempt's record, and each record added is the snapshot
    of the projection some prefix of the events had reached, effects, evidence,
    plan, package and approvals included. *)
Theorem superseded_attempts_append_only p es q :
  attempt_in_range p -> replay_from (Some p) es = Ok (Some q) ->
  exists added, elems (P_SupersededAttempts q) = elems (P_SupersededAttempts p) ++ added /\
    Forall (fun s => exists es' r now, es' `prefix_of` es /\ replay_from (Some p) es' = Ok (Some r) /\
                       s = attempt_snapshot (cloneProjection r) now) added.
Proof.
  revert p. induction es as [|e es IH]; simpl; intros p Hrange H.
  { simplify_eq. exists []. by rewrite app_nil_r. }
  apply rbind_ok in H as (r & Hr & H). pose proof (Apply_attempt_range _ _ _ Hrange Hr) as Hr'.
  destruct (IH r Hr' H) as (added & Hadded & Hall).
  assert (Forall (fun s => exists es' r' now, es' `prefix_of` e :: es /\ replay_from (Some p) es' = Ok (Some r') /\
                       s = attempt_snapshot (cloneProjection r') now) added) as Hlater.
  { eapply Forall_impl; [exact Hall|]. intros s (es' & r' & now & Hpre & Hes' & ->).
    exists (e :: es'), r', now. split_and!; [by apply prefix_cons| |done]. simpl. by rewrite Hr. }
  destruct (Apply_attempt _ _ _ Hrange Hr) as [[_ Hs]|(_ & _ & _ & Hs)]; rewrite Hadded, Hs; [eauto|].
  exists (attempt_snapshot (cloneProjection p) (Event_OccurredAt e) :: added). rewrite <- app_assoc. split; [done|].
  constructor; [|done]. exists [], p, (Event_OccurredAt e). split_and!; [apply prefix_nil|done..].
Qed.

Example superseded_attempts_append_only_witness :
  exists added, elems (P_SupersededAttempts (detour_end demo_revision)) = elems (P_SupersededAttempts (demo_at 3)) ++ added /\
    Forall (fun s => exists es' r now, es' `prefix_of` [detour_event demo_revision] /\
                       replay_from (Some (demo_at 3)) es' = Ok (Some r) /\
                       s = attempt_snapshot (cloneProjection r) now) added.
Proof.
  apply (superseded_attempts_append_only (demo_at 3) [detour_event demo_revision]).
  - unfold attempt_in_range, MaxInt64. simpl. lia.
  - cbn [replay_from]. rewrite (detour_step 3 _ _ _ demo_revision_step). reflexivity.
Defined.
