(* ===== verification/TransactionAuthority.v ===== *)
(** * Who may release what

    The evidence behind every released effect: passing platform verification,
    a frozen plan and package, and, where the package asks for approval, a
    human's decision under every identifier that was put outstanding. *)
From S2P Require Import Prelude GoBase Json ModelTypes ModelValidate TransactionTypes TransactionDigest TransactionValidate TransactionProjection TransactionReducer TransactionInvariants TransactionBinding Demo.

Lemma elem_of_delete_or {A} (l : list A) i x y : l !! i = Some x -> y ∈ l -> y = x \/ y ∈ delete i l.
Proof.
  intros Hi (j & Hj)%list_elem_of_lookup. destruct (decide (j = i)) as [->|Hne]; [left; congruence|right].
  apply list_elem_of_lookup. destruct (decide (j < i)%nat).
  - exists j. by rewrite list_lookup_delete_lt.
  - exists (pred j). rewrite list_lookup_delete_ge by lia. by replace (S (pred j)) with j by lia.
Qed.

(** ** An approval event for a package *)

(** [e] carries an approving decision with identifier [id] and content digest [d]
    that a human made on exactly this package, for a class the package requires,
    inside its time window and before the package expired. *)
Definition human_approval (package : ApprovalPackage) (e : TransactionEvent) (id d : string) : Prop :=
  Event_Type e = EventApprovalResolved /\
  exists payload, decodePayload ApprovalResolvedPayload_codec e = Ok payload /\
  let decision := ApprovalResolved_Decision payload in
  Dec_Decision decision = ApprovalApprove /\ Dec_ApprovalID decision = id /\ Dec_Digest decision = d /\
  ComputeApprovalDecisionDigest decision = Some d /\
  Dec_PackageDigest decision = Pkg_Digest package /\ Dec_TransactionID decision = Pkg_TransactionID package /\
  Dec_ApprovalClass decision ∈ elems (Pkg_RequiredApprovalClasses package) /\
  Dec_Approver decision = Event_Actor e /\ Principal_Kind (Event_Actor e) = PrincipalHuman /\
  Time_ns (Dec_IssuedAt decision) - 2 * Minute <= Time_ns (Event_OccurredAt e) /\
  Time_ns (Event_OccurredAt e) < Time_ns (Dec_ExpiresAt decision) /\
  Time_ns (Event_OccurredAt e) < Time_ns (Pkg_ExpiresAt package).

(** Current results, all of them passed by the platform itself. *)
Definition verified (p : Projection) : Prop :=
  elems (P_Verifications p) <> [] /\
  Forall (fun res => Ver_Status res = VerificationPassed /\ Ver_Independence res = VerificationPlatformRun)
    (P_Verifications p).

(** [e] puts the approvals [ids] outstanding. *)
Definition opens_approval (e : TransactionEvent) (ids : list string) : Prop :=
  Event_Type e = EventTransactionStateChanged /\
  exists payload, decodePayload TransactionStateChangedPayload_codec e = Ok payload /\
  TransactionStateChanged_To payload = TransactionPendingApproval /\
  elems (TransactionStateChanged_OutstandingApprovalIDs payload) = ids.

(** The last time [es] asked for approval it asked for the identifiers [ids];
    since then each of them, unless still [pending], was approved for this
    package by a decision of its own, which is among the recorded [digests]. *)
Definition approval_round (es : list TransactionEvent) (package : ApprovalPackage)
    (ids pending digests : list string) : Prop :=
  ids <> [] /\ NoDup ids /\
  exists before opening after, es = before ++ opening :: after /\ opens_approval opening ids /\
  Forall (fun e => forall ids', ~ opens_approval e ids') after /\
  forall id, id ∈ ids -> id ∈ pending \/ exists e d, e ∈ after /\ human_approval package e id d /\ d ∈ digests.

(** A package that requires approval was approved under every identifier of the
    last round, with none left. *)
Definition approved (es : list TransactionEvent) (p : Projection) (package : ApprovalPackage) : Prop :=
  elems (Pkg_RequiredApprovalClasses package) = [] \/
  exists ids, approval_round es package ids [] (elems (P_ApprovalDigests p)).

Definition authority_held (es : list TransactionEvent) (p : Projection) : Prop :=
  verified p /\ exists plan package, P_CommitPlan p = Some plan /\ P_ApprovalPackage p = Some package /\
  approved es p package.

(** One more event that does not ask for approval leaves a round as it is. *)
Lemma approval_round_snoc es e package ids pending digests :
  (forall ids', ~ opens_approval e ids') -> approval_round es package ids pending digests ->
  approval_round (es ++ [e]) package ids pending digests.
Proof.
  intros Hno (Hne & Hnd & before & opening & after & -> & Hopen & Hafter & Heach). split; [done|]. split; [done|].
  exists before, opening, (after ++ [e]). rewrite <- app_assoc. split_and!; [done|done|by apply Forall_app; auto|].
  intros id [?|(e' & d & He & ?)]%Heach; [by left|]. right. exists e', d. split; [|done]. apply elem_of_app. by left.
Qed.

(** An approval consumes one pending identifier. *)
Lemma approval_round_consume es e package ids pending digests index id d :
  (forall ids', ~ opens_approval e ids') -> approval_round es package ids pending digests ->
  pending !! index = Some id -> human_approval package e id d ->
  approval_round (es ++ [e]) package ids (delete index pending) (digests ++ [d]).
Proof.
  intros Hno (Hne & Hnd & before & opening & after & -> & Hopen & Hafter & Heach) Hi Hh. split; [done|]. split; [done|].
  exists before, opening, (after ++ [e]). rewrite <- app_assoc. split_and!; [done|done|by apply Forall_app; auto|].
  intros id' [Hp|(e' & d' & He & Hh' & Hd)]%Heach.
  - destruct (elem_of_delete_or _ _ _ _ Hi Hp) as [->|?]; [|by left].
    right. exists e, d. rewrite !elem_of_app, !list_elem_of_singleton. auto.
  - right. exists e', d'. rewrite !elem_of_app. auto.
Qed.

Definition authority (p : Projection) :=
  (elems (P_Verifications p), P_CommitPlan p, P_ApprovalPackage p, elems (P_ApprovalDigests p)).

Lemma authority_documents p q :
  authority q = authority p -> P_CommitPlan q = P_CommitPlan p /\ P_ApprovalPackage q = P_ApprovalPackage p.
Proof. unfold authority. by intros [= _ -> -> _]. Qed.

Lemma authority_held_ext es e p q :
  (forall ids, ~ opens_approval e ids) -> authority q = authority p ->
  authority_held es p -> authority_held (es ++ [e]) q.
Proof.
  intros Hno E. unfold authority in E. injection E as E1 E2 E3 E4. unfold authority_held, verified, approved.
  rewrite E1, E2, E3, E4. intros (Hv & plan & package & Hp & Hk & Ha). split; [done|].
  exists plan, package. split_and!; [done..|]. destruct Ha as [?|(ids & Ha)]; [by left|right].
  exists ids. by apply approval_round_snoc.
Qed.

Lemma requirePassing_verified p : requirePassingVerification p = Ok tt -> verified p.
Proof.
  unfold requirePassingVerification, requireNoFailedVerification, verified. intros H. res_inv H. bool_hyps.
  split; [by destruct (elems (P_Verifications p))|].
  eapply each_forall; [|exact H]. intros res Hr. simpl in Hr. res_inv Hr. by bool_hyps.
Qed.

Record authority_inv (es : list TransactionEvent) (p : Projection) : Prop := {
  inv_pending : Tx_State (P_Transaction p) = TransactionPendingApproval ->
    is_Some (P_CommitPlan p) /\ exists package ids, P_ApprovalPackage p = Some package /\
    approval_round es package ids (elems (Tx_OutstandingApprovalIDs (P_Transaction p))) (elems (P_ApprovalDigests p));
  inv_held : transactionStateRequiresCommitPlan (Tx_State (P_Transaction p)) = true -> authority_held es p;
}.

(** A handler that ends in a state without release authority. *)
Lemma inv_vacuous es p :
  Tx_State (P_Transaction p) <> TransactionPendingApproval ->
  transactionStateRequiresCommitPlan (Tx_State (P_Transaction p)) = false -> authority_inv es p.
Proof. intros ? Hr. constructor; [done|]. by rewrite Hr. Qed.

Lemma opens_approval_type e ids : Event_Type e <> EventTransactionStateChanged -> ~ opens_approval e ids.
Proof. by intros Hne [? _]. Qed.

(** A handler that keeps state, authority and what is outstanding. *)
Lemma inv_kept es e p q :
  Event_Type e <> EventTransactionStateChanged ->
  Tx_State (P_Transaction q) = Tx_State (P_Transaction p) -> authority q = authority p ->
  Tx_OutstandingApprovalIDs (P_Transaction q) = Tx_OutstandingApprovalIDs (P_Transaction p) ->
  authority_inv es p -> authority_inv (es ++ [e]) q.
Proof.
  intros Ht Hs Ha Ho [Hpend Hheld].
  assert (forall ids, ~ opens_approval e ids) as Hno by (intros ids; by apply opens_approval_type).
  constructor; rewrite Hs.
  - intros (Hplan & package & ids & Hk & Hround)%Hpend. unfold authority in Ha. injection Ha as _ Hp' Hk' Hd.
    rewrite Hp', Ho, Hd. split; [done|]. exists package, ids. split; [congruence|]. by apply approval_round_snoc.
  - intros Hr. eapply authority_held_ext; eauto.
Qed.

(** ** State changes *)

(** A transition into a state with release authority starts in one, or is the
    direct authorisation of a package that needs no approval. *)
Lemma transition_requires_plan from to :
  CanTransition from to = true -> transactionStateRequiresCommitPlan to = true -> from <> TransactionPendingApproval ->
  to = TransactionReadyToCommit \/ transactionStateRequiresCommitPlan from = true.
Proof.
  intros Hin%CanTransition_in Hto Hnp. destruct from; cbn in Hin;
    repeat (apply elem_of_cons in Hin as [->|Hin]); try (by apply elem_of_nil in Hin); try discriminate Hto; auto; done.
Qed.

Lemma enter_state_authority p payload now :
  ~ (TransactionStateChanged_To payload = TransactionRunning /\ TransactionStateChanged_From payload = TransactionCreated) ->
  authority (enter_state p payload now) = authority p.
Proof. intros (? & ? & -> & _)%(enter_state_frame p payload now). reflexivity. Qed.

(** Entering the pending state starts a round with everything outstanding. *)
Lemma state_change_opens es e p payload now :
  NoDup (elems (Tx_OutstandingApprovalIDs (P_Transaction (enter_state p payload now)))) ->
  Event_Type e = EventTransactionStateChanged ->
  decodePayload TransactionStateChangedPayload_codec e = Ok payload ->
  TransactionStateChanged_To payload = TransactionPendingApproval ->
  validateStatePreconditions p payload = Ok tt -> authority (enter_state p payload now) = authority p ->
  is_Some (P_CommitPlan (enter_state p payload now)) /\
  exists package ids, P_ApprovalPackage (enter_state p payload now) = Some package /\
  approval_round (es ++ [e]) package ids (elems (Tx_OutstandingApprovalIDs (P_Transaction (enter_state p payload now))))
    (elems (P_ApprovalDigests (enter_state p payload now))).
Proof.
  intros Hnd Htype Hpay Hto Hpre Hauth. apply authority_documents in Hauth as [-> ->].
  assert (elems (Tx_OutstandingApprovalIDs (P_Transaction (enter_state p payload now))) =
    elems (TransactionStateChanged_OutstandingApprovalIDs payload)) as Hout.
  { unfold enter_state. cbv zeta. rewrite Hto. simpl. by rewrite elems_clone. }
  unfold validateStatePreconditions in Hpre. rewrite Hto in Hpre. res_inv Hpre. bool_hyps.
  destruct (P_CommitPlan p), (P_ApprovalPackage p) as [package|]; try discriminate. split; [eauto|].
  exists package, (elems (TransactionStateChanged_OutstandingApprovalIDs payload)). split; [done|].
  rewrite Hout in *. split; [|split; [done|]].
  { intros Hnil. rewrite Hnil in *. done. }
  exists es, e, []. split; [done|]. split; [by split; [done|exists payload]|]. split; [done|]. by left.
Qed.

Lemma applyStateChange_authority es e p q :
  NoDup (elems (Tx_OutstandingApprovalIDs (P_Transaction q))) -> Event_Type e = EventTransactionStateChanged ->
  authority_inv es p -> applyStateChange p e = Ok q -> authority_inv (es ++ [e]) q.
Proof.
  intros Hnd Htype Hinv H. unfold applyStateChange in H. res_inv H. bool_hyps.
  destruct (decide (TransactionStateChanged_To x = TransactionRunning)) as [Eto|Eto].
  { apply inv_vacuous; rewrite enter_state_state, Eto; done. }
  rewrite (bool_decide_false (TransactionStateChanged_To x = TransactionRunning)) in Hok1 by done.
  apply ok_inj in Hok1 as <-.
  assert (authority (enter_state p x (Event_OccurredAt e)) = authority p) as Hauth
    by (apply enter_state_authority; intros [Ht _]; exact (Eto Ht)).
  constructor; rewrite enter_state_state.
  - intros Epend. apply (state_change_opens es e p x); done.
  - intros Hreq.
    assert (forall ids, ~ opens_approval e ids) as Hno.
    { intros ids (_ & payload & Hpay & Hto & _). assert (payload = x) as -> by congruence. by rewrite Hto in Hreq. }
    destruct (transition_requires_plan _ _ Hguard0 Hreq Hguard2) as [Eready|Hfrom].
    + unfold validateStatePreconditions in Hok0. rewrite Eready in Hok0. res_inv Hok0. bool_hyps.
      apply (authority_held_ext es e p); [done|done|]. split; [by apply requirePassing_verified|].
      eexists _, _. split_and!; [done..|]. left. by apply nil_length_inv.
    + eapply authority_held_ext; [done|done|]. apply Hinv. congruence.
Qed.

(** ** Approvals *)

Lemma ApprovalDecision_human decision :
  ApprovalDecision_Validate decision = Ok tt -> Principal_Kind (Dec_Approver decision) = PrincipalHuman.
Proof. intros H. unfold ApprovalDecision_Validate in H. res_inv H; by bool_hyps. Qed.

(** What an accepted decision was checked for. *)
Lemma applyApprovalResolution_inv p e q :
  applyApprovalResolution p e = Ok q ->
  Tx_State (P_Transaction p) = TransactionPendingApproval /\
  exists package payload index resolved, P_ApprovalPackage p = Some package /\
  decodePayload ApprovalResolvedPayload_codec e = Ok payload /\
  let decision := ApprovalResolved_Decision payload in
  ApprovalDecision_Validate decision = Ok tt /\ ComputeApprovalDecisionDigest decision = Some (Dec_Digest decision) /\
  Dec_TransactionID decision = Tx_ID (P_Transaction p) /\
  Dec_PackageDigest decision = Tx_ApprovalPackageDigest (P_Transaction p) /\
  Dec_Approver decision = Event_Actor e /\
  (Time_ns (Dec_IssuedAt decision) - 2 * Minute <= Time_ns (Event_OccurredAt e) /\
   Time_ns (Event_OccurredAt e) < Time_ns (Dec_ExpiresAt decision) /\
   Time_ns (Event_OccurredAt e) < Time_ns (Pkg_ExpiresAt package)) /\
  Dec_ApprovalClass decision ∈ elems (Pkg_RequiredApprovalClasses package) /\
  stringIndex (Tx_OutstandingApprovalIDs (P_Transaction p)) (Dec_ApprovalID decision) = Some index /\
  resolve_decision p decision index = Ok resolved /\
  q = resolved <| P_Transaction := applyCompletionTime (P_Transaction resolved) (Event_OccurredAt e) |>.
Proof.
  intros H. unfold applyApprovalResolution in H. res_inv H.
  destruct (_ !=? _) eqn:Est in Hcase; [done|]. unfold Before, After, stringContains, Add in *. bool_hyps. simpl in *.
  split; [done|]. exists a, x, n, x0. split_and!; try done; try lia. congruence.
Qed.

(** What a resolution does to the projection, decision by decision. *)
Lemma resolve_decision_ok p decision index q :
  resolve_decision p decision index = Ok q ->
  (Dec_Decision decision = ApprovalApprove /\
   P_CommitPlan q = P_CommitPlan p /\ P_ApprovalPackage q = P_ApprovalPackage p /\
   P_Verifications q = P_Verifications p /\
   elems (P_ApprovalDigests q) = elems (P_ApprovalDigests p) ++ [Dec_Digest decision] /\
   elems (Tx_OutstandingApprovalIDs (P_Transaction q)) = delete index (elems (Tx_OutstandingApprovalIDs (P_Transaction p))) /\
   ((elems (Tx_OutstandingApprovalIDs (P_Transaction q)) = [] /\
     Tx_State (P_Transaction q) = TransactionReadyToCommit /\ verified p) \/
    (elems (Tx_OutstandingApprovalIDs (P_Transaction q)) <> [] /\
     Tx_State (P_Transaction q) = Tx_State (P_Transaction p)))) \/
  (Dec_Decision decision = ApprovalReject /\ Tx_State (P_Transaction q) = TransactionBlocked /\
   Tx_StateReason (P_Transaction q) = Dec_Reason decision /\ elems (Tx_OutstandingApprovalIDs (P_Transaction q)) = [] /\
   authority q = authority p) \/
  (Dec_Decision decision = ApprovalRevise /\ Tx_State (P_Transaction q) = TransactionReviseRequired /\
   Tx_StateReason (P_Transaction q) = Dec_Reason decision /\ elems (Tx_OutstandingApprovalIDs (P_Transaction q)) = [] /\
   authority q = authority p).
Proof.
  unfold resolve_decision. destruct (Dec_Decision decision); intros H; [left|right; left|right; right|done].
  - split; [done|]. cbv zeta in H. destruct (_ =? _)%nat eqn:E in H; bool_hyps.
    + apply rbind_ok in H as ([] & Hv & H). apply ok_inj in H as <-.
      apply requirePassing_verified in Hv.
      split_and!; [done..|simpl; by rewrite elems_remove_at|]. left. split_and!; [by apply nil_length_inv|done|exact Hv].
    + apply ok_inj in H as <-. split_and!; [done..|simpl; by rewrite elems_remove_at|]. right.
      split; [|done]. intros Hnil. rewrite Hnil in E. done.
  - apply ok_inj in H as <-. done.
  - apply ok_inj in H as <-. done.
Qed.

Lemma applyApprovalResolution_authority es p e q :
  (forall package, P_ApprovalPackage p = Some package -> package_bound (P_Transaction p) package) ->
  Event_Type e = EventApprovalResolved ->
  authority_inv es p -> applyApprovalResolution p e = Ok q -> authority_inv (es ++ [e]) q.
Proof.
  intros Hbound Htype Hinv H. pose proof H as (Hpend & package & payload & index & resolved & Hk & Hpay & Hval & Hdig &
    Htx & Hpkg & Hact & Hwin & Hclass & Hindex & Hres & ->)%applyApprovalResolution_inv.
  destruct (inv_pending _ _ Hinv Hpend) as ([plan Hplan] & package' & ids & Hk' & Hround).
  assert (package' = package) as -> by congruence.
  destruct (Hbound _ Hk) as (_ & _ & Hkd & Hkt & _).
  apply index_where_some in Hindex as (id & Hid & Heq). bool_hyps. subst id.
  apply resolve_decision_ok in Hres as [(Hap & Hcp & Hap' & Hv & Had & Hout & Hs)|[(_ & Hs & _)|(_ & Hs & _)]];
    [|apply inv_vacuous; simpl; by rewrite Hs..].
  assert (human_approval package e (Dec_ApprovalID (ApprovalResolved_Decision payload))
    (Dec_Digest (ApprovalResolved_Decision payload))) as Hh.
  { split; [done|]. exists payload. split; [done|]. cbv zeta.
    pose proof (ApprovalDecision_human _ Hval) as Hhuman. rewrite Hact in Hhuman.
    split_and!; try done; try congruence; apply Hwin. }
  assert (approval_round (es ++ [e]) package ids (elems (Tx_OutstandingApprovalIDs (P_Transaction resolved)))
    (elems (P_ApprovalDigests resolved))) as Hround'.
  { rewrite Hout, Had. eapply approval_round_consume; [|done..]. intros ids'. apply opens_approval_type. by rewrite Htype. }
  destruct Hs as [(Hnil & Hs & Hver)|(_ & Hs)]; constructor; simpl; rewrite Hs; try done.
  - intros _. split; [unfold verified in *; simpl; by rewrite Hv|]. simpl.
    exists plan, package. rewrite Hcp, Hap'. split_and!; [done..|]. right. exists ids. by rewrite Hnil in Hround'.
  - intros _. rewrite Hcp, Hap', Hplan, Hk. split; [eauto|]. by exists package, ids.
  - intros Hr. by rewrite Hpend in Hr.
Qed.

(** ** Every handler *)

Lemma apply_handler_authority es p e q :
  (forall package, P_ApprovalPackage p = Some package -> package_bound (P_Transaction p) package) ->
  NoDup (elems (Tx_OutstandingApprovalIDs (P_Transaction q))) ->
  authority_inv es p -> apply_handler p e = Ok q -> authority_inv (es ++ [e]) q.
Proof.
  intros Hbound Hnd Hinv H.
  handler_cases H.
  1: { bool_hyps. by eapply applyStateChange_authority. }
  10: { bool_hyps. by eapply applyApprovalResolution_authority. }
  all: handler_inv H; bool_hyps; try by apply (inv_kept es e p); [congruence|..].
  all: apply inv_vacuous; simpl; try match goal with H : Tx_State _ = _ |- _ => rewrite H end; done.
Qed.

Lemma clone_authority_inv es p : authority_inv es p -> authority_inv es (cloneProjection p).
Proof.
  intros [Hp Hh]. constructor; intros Hs; [specialize (Hp Hs)|specialize (Hh Hs)];
    unfold authority_held, verified, approved in *; simpl; by rewrite !elems_clone.
Qed.

Lemma Replay_authority es p : Replay es = Ok p -> authority_inv es p.
Proof.
  intros H. enough ((bound p \/ pristine p) /\ authority_inv es p) by tauto. revert es p H.
  apply (Replay_history_ind (fun es p => (bound p \/ pristine p) /\ authority_inv es p)).
  - intros e p (_ & _ & H)%Apply_none. split; [right; by eapply applyCreation_pristine|].
    apply applyCreation_cursor in H as (_ & _ & _ & _ & _ & _ & Hs & _). apply inv_vacuous; by rewrite Hs.
  - intros es p e q [Hb Hinv] HA. split; [by eapply Apply_bound|].
    apply Apply_inv in HA as (_ & r & Hr & -> & Hvalid).
    apply validated_identifier_lists in Hvalid as (_ & _ & _ & Hnd).
    assert (authority_inv (es ++ [e]) r) as [Hpend Hheld].
    { eapply apply_handler_authority; [|exact Hnd|by apply clone_authority_inv|exact Hr].
      intros package Hk. destruct Hb as [Hb|Hp]; [by apply (bound_package _ (clone_bound _ Hb))|].
      by rewrite (pristine_package _ (clone_pristine _ Hp)) in Hk. }
    constructor; [exact Hpend|exact Hheld].
Qed.

(** ** Release *)

(** C1: nothing is released without authority.  In every state from
    ready-to-commit on, whatever history led there, all current verification
    results exist, passed and were run by the platform; a commit plan and an
    approval package are frozen; and either the package requires no approval
    class, or every approval that was asked for was given.  That is: the history
    splits at the last event that put approvals outstanding, this event named a
    nonempty list of distinct identifiers, and for every one of them a later
    event carries a decision with that identifier, by which a human approved
    exactly that package for one of its required classes and within its time
    window, and whose digest is recorded.  (The reducer counts identifiers, not
    classes: that the decisions together cover every required class is checked
    by the release handler of kernel/api/authority.go.) *)
Theorem release_requires_authority es p :
  Replay es = Ok p -> transactionStateRequiresCommitPlan (Tx_State (P_Transaction p)) = true ->
  elems (P_Verifications p) <> [] /\
  Forall (fun res => Ver_Status res = VerificationPassed /\ Ver_Independence res = VerificationPlatformRun)
    (P_Verifications p) /\
  exists plan package, P_CommitPlan p = Some plan /\ P_ApprovalPackage p = Some package /\
  (elems (Pkg_RequiredApprovalClasses package) = [] \/
   exists before opening after ids,
     es = before ++ opening :: after /\ opens_approval opening ids /\ ids <> [] /\ NoDup ids /\
     Forall (fun e => forall ids', ~ opens_approval e ids') after /\
     forall id, id ∈ ids ->
       exists e d, e ∈ after /\ human_approval package e id d /\ d ∈ elems (P_ApprovalDigests p)).
Proof.
  intros H%Replay_authority Hs. destruct (inv_held _ _ H Hs) as ([Hne Hall] & plan & package & Hp & Hk & Ha).
  split; [done|]. split; [done|]. exists plan, package. split_and!; [done..|].
  destruct Ha as [?|(ids & Hids & Hnd & before & opening & after & Hes & Hopen & Hafter & Heach)]; [by left|right].
  exists before, opening, after, ids. split_and!; [done..|].
  intros id [[]%elem_of_nil|?]%Heach. done.
Qed.

Example release_requires_authority_witness :
  exists plan package, P_CommitPlan (demo_at 15) = Some plan /\ P_ApprovalPackage (demo_at 15) = Some package /\
  (elems (Pkg_RequiredApprovalClasses package) = [] \/
   exists before opening after ids,
     take 16 demo_events = before ++ opening :: after /\ opens_approval opening ids /\ ids <> [] /\ NoDup ids /\
     Forall (fun e => forall ids', ~ opens_approval e ids') after /\
     forall id, id ∈ ids ->
       exists e d, e ∈ after /\ human_approval package e id d /\ d ∈ elems (P_ApprovalDigests (demo_at 15))).
Proof. exact (proj2 (proj2 (release_requires_authority _ _ (demo_replay 15 ltac:(lia)) eq_refl))). Defined.

(** Which effect an accepted lifecycle event moves, and where to. *)
Lemma applyEffectStateChange_inv p e q :
  applyEffectStateChange p e = Ok q ->
  exists payload index effect effect', decodePayload EffectStateChangedPayload_codec e = Ok payload /\
  elems (P_Effects p) !! index = Some effect /\ elems (P_Effects q) = <[index := effect']> (elems (P_Effects p)) /\
  Effect_ID effect = EffectStateChanged_EffectID payload /\
  CanTransitionEffect (Effect_Status effect) (Effect_Status effect') = true /\
  Effect_Status effect' = EffectStateChanged_To payload /\
  immutable_effect effect' = immutable_effect effect /\ Effect_Validate effect' = Ok tt /\
  validateEffectTransitionContext (Tx_State (P_Transaction p)) (Effect_Status effect) (Effect_Status effect') = Ok tt /\
  P_Transaction q = P_Transaction p.
Proof.
  intros H. unfold applyEffectStateChange in H. res_inv H. bool_hyps.
  unfold effectIndex in Hcase. apply index_where_some in Hcase as (eff & He & Hid). bool_hyps.
  rewrite He in Hcase0. apply (inj Some) in Hcase0 as <-. eexists x, n, eff, _. split; [done|]. split; [done|]. split.
  { simpl. apply elems_refill. intros Hnil. by rewrite Hnil in He. }
  simpl. split_and!; try done; congruence.
Qed.

(** ** The lifecycle of one effect *)

Definition effect_step (state : TransactionState) (before after : Effect) : Prop :=
  CanTransitionEffect (Effect_Status before) (Effect_Status after) = true /\
  validateEffectTransitionContext state (Effect_Status before) (Effect_Status after) = Ok tt /\
  immutable_effect after = immutable_effect before /\ Effect_Validate after = Ok tt.

Lemma enter_state_effects p payload now :
  elems (P_Effects (enter_state p payload now)) = [] \/ P_Effects (enter_state p payload now) = P_Effects p.
Proof. unfold enter_state. cbv zeta. repeat case_match; auto. Qed.

Lemma apply_handler_effect p e q i before after :
  apply_handler p e = Ok q -> elems (P_Effects p) !! i = Some before -> elems (P_Effects q) !! i = Some after ->
  after = before \/ effect_step (Tx_State (P_Transaction p)) before after.
Proof.
  intros H Hb Ha. handler_cases H.
  1: { handler_inv H. left.
       destruct (enter_state_effects x0 x (Event_OccurredAt e)) as [Hn|Hs]; [by rewrite Hn, lookup_nil in Ha|].
       rewrite Hs in Ha. destruct (_ && _) in Hok1; [|apply ok_inj in Hok1; congruence].
       unfold beginNextAttempt in Hok1. res_inv Hok1. simpl in Ha; by rewrite lookup_nil in Ha. }
  1: { handler_inv H. left. simpl in Ha. apply lookup_app_Some in Ha as [Ha|[Hi _]]; [congruence|].
       apply lookup_lt_Some in Hb. lia. }
  2: { apply applyEffectStateChange_inv in H as (payload & index & eff & eff' & _ & Heff & Hq & _ & Hcan & _ & Him & Hval & Hctx & _).
       rewrite Hq in Ha. destruct (decide (i = index)) as [->|Hne].
       - rewrite list_lookup_insert_eq in Ha by by eapply lookup_lt_Some. right.
         rewrite Heff in Hb. apply (inj Some) in Hb as <-. apply (inj Some) in Ha as <-. by unfold effect_step.
       - rewrite list_lookup_insert_ne in Ha by done. left. congruence. }
  all: left.
  8: { apply applyApprovalResolution_evidence in H as [He _]. unfold evidence in He. congruence. }
  all: handler_inv H; simpl in Ha; congruence.
Qed.

Lemma Apply_effect p e q i before after :
  Apply (Some p) e = Ok q -> elems (P_Effects p) !! i = Some before -> elems (P_Effects q) !! i = Some after ->
  after = before \/ effect_step (Tx_State (P_Transaction p)) before after.
Proof.
  intros (_ & r & Hr & -> & _)%Apply_inv Hb Ha.
  apply (apply_handler_effect _ _ _ i _ _ Hr); [simpl; by rewrite elems_clone|exact Ha].
Qed.

(** C15: one effect's lifecycle is the transition table's: when an accepted event
    changes a recorded effect, the status moves along an edge of
    [effectTransitions] allowed in the transaction's state, the new record is
    valid, and every proposal field (resource, operation, arguments digest,
    dependencies, recovery class, compensation and the rest of the digested
    fields) stays what it was. *)
Theorem effect_follows_lifecycle p e q i before after :
  Apply (Some p) e = Ok q -> elems (P_Effects p) !! i = Some before -> elems (P_Effects q) !! i = Some after ->
  after <> before ->
  CanTransitionEffect (Effect_Status before) (Effect_Status after) = true /\
  validateEffectTransitionContext (Tx_State (P_Transaction p)) (Effect_Status before) (Effect_Status after) = Ok tt /\
  immutable_effect after = immutable_effect before /\ Effect_Validate after = Ok tt.
Proof. intros HA Hb Ha Hne. by destruct (Apply_effect _ _ _ _ _ _ HA Hb Ha). Qed.

Definition demo_effect_at (n : nat) : Effect := default zero_Effect (elems (P_Effects (demo_at n)) !! 0%nat).

Example effect_follows_lifecycle_witness :
  CanTransitionEffect (Effect_Status (demo_effect_at 12)) (Effect_Status (demo_effect_at 13)) = true /\
  validateEffectTransitionContext (Tx_State (P_Transaction (demo_at 12)))
    (Effect_Status (demo_effect_at 12)) (Effect_Status (demo_effect_at 13)) = Ok tt /\
  immutable_effect (demo_effect_at 13) = immutable_effect (demo_effect_at 12) /\
  Effect_Validate (demo_effect_at 13) = Ok tt.
Proof.
  apply (effect_follows_lifecycle (demo_at 12) (demo_ev 13) (demo_at 13) 0); [apply demo_step; lia|reflexivity..|].
  intros H. apply (f_equal Effect_Status) in H. vm_compute in H. discriminate H.
Defined.

(** Statuses only a running release produces. *)
Definition release_status (status : EffectStatus) : bool :=
  match status with
  | EffectCommitting | EffectCommitted | EffectUnknown | EffectCompensating | EffectCompensated => true
  | _ => false
  end.

Lemma release_context state from to :
  release_status to = true -> validateEffectTransitionContext state from to = Ok tt ->
  state = TransactionCommitting \/ state = TransactionCompensating.
Proof.
  intros Hr H. destruct to; try discriminate Hr; cbn in H; res_inv H;
    try match goal with H : negb (_ || _) = false |- _ => apply negb_false_iff, orb_prop in H as [H|H] end;
    bool_hyps; auto.
Qed.

(** C2: no effect is released outside an authorised release: when an accepted
    event moves a recorded effect to committing, committed, unknown,
    compensating or compensated, the transaction is committing or compensating,
    and the release authority of the frozen package was held before the event. *)
Theorem effects_released_with_authority es e p q i before after :
  Replay es = Ok p -> Apply (Some p) e = Ok q ->
  elems (P_Effects p) !! i = Some before -> elems (P_Effects q) !! i = Some after ->
  Effect_Status after <> Effect_Status before -> release_status (Effect_Status after) = true ->
  (Tx_State (P_Transaction p) = TransactionCommitting \/ Tx_State (P_Transaction p) = TransactionCompensating) /\
  authority_held es p.
Proof.
  intros Hes%Replay_authority HA Hb Ha Hne Hr.
  destruct (Apply_effect _ _ _ _ _ _ HA Hb Ha) as [->|(_ & Hctx & _)]; [done|].
  pose proof (release_context _ _ _ Hr Hctx) as Hstate. split; [done|].
  apply (inv_held _ _ Hes). by destruct Hstate as [-> | ->].
Qed.

Example effects_released_with_authority_witness :
  (Tx_State (P_Transaction (demo_at 12)) = TransactionCommitting \/
   Tx_State (P_Transaction (demo_at 12)) = TransactionCompensating) /\ authority_held (take 13 demo_events) (demo_at 12).
Proof.
  apply (effects_released_with_authority (take 13 demo_events) (demo_ev 13) (demo_at 12) (demo_at 13) 0
    (demo_effect_at 12) (demo_effect_at 13)); [apply demo_replay; lia|apply demo_step; lia|reflexivity..| |reflexivity].
  vm_compute. discriminate.
Defined.

(** ** Approvals *)

Lemma NoDup_delete_not_in {A} (l : list A) i x : NoDup l -> l !! i = Some x -> x ∉ delete i l.
Proof.
  intros Hnd Hi Hin. apply list_elem_of_lookup in Hin as (j & Hj).
  destruct (decide (j < i)%nat).
  - rewrite list_lookup_delete_lt in Hj by done. pose proof (NoDup_lookup _ _ _ _ Hnd Hi Hj). lia.
  - rewrite list_lookup_delete_ge in Hj by lia. pose proof (NoDup_lookup _ _ _ _ Hnd Hi Hj). lia.
Qed.

(** The state a resolution leads to. *)
Definition resolution_outcome (p q : Projection) (decision : ApprovalDecision) : Prop :=
  match Dec_Decision decision with
  | ApprovalApprove =>
    elems (P_ApprovalDigests q) = elems (P_ApprovalDigests p) ++ [Dec_Digest decision] /\
    (exists index, elems (Tx_OutstandingApprovalIDs (P_Transaction p)) !! index = Some (Dec_ApprovalID decision) /\
       elems (Tx_OutstandingApprovalIDs (P_Transaction q)) = delete index (elems (Tx_OutstandingApprovalIDs (P_Transaction p)))) /\
    Tx_State (P_Transaction q) =
      if (length (Tx_OutstandingApprovalIDs (P_Transaction p)) =? 1)%nat then TransactionReadyToCommit
      else TransactionPendingApproval
  | ApprovalReject =>
    Tx_State (P_Transaction q) = TransactionBlocked /\ Tx_StateReason (P_Transaction q) = Dec_Reason decision /\
    elems (Tx_OutstandingApprovalIDs (P_Transaction q)) = []
  | ApprovalRevise =>
    Tx_State (P_Transaction q) = TransactionReviseRequired /\ Tx_StateReason (P_Transaction q) = Dec_Reason decision /\
    elems (Tx_OutstandingApprovalIDs (P_Transaction q)) = []
  | ApprovalDecisionKindOther _ => False
  end.

Lemma applyApprovalResolution_outcome p e q payload :
  applyApprovalResolution p e = Ok q -> decodePayload ApprovalResolvedPayload_codec e = Ok payload ->
  resolution_outcome p q (ApprovalResolved_Decision payload).
Proof.
  intros (Hpend & package & payload' & index & resolved & _ & Hpay & _ & _ & _ & _ & _ & _ & _ & Hindex & Hres & ->)%applyApprovalResolution_inv Hpay'.
  assert (payload' = payload) as -> by congruence.
  apply index_where_some in Hindex as (id & Hid & Heq). bool_hyps.
  unfold resolution_outcome.
  apply resolve_decision_ok in Hres as [(-> & _ & _ & _ & Had & Hout & Hs)|[(-> & Hs & Hr & Ho & _)|(-> & Hs & Hr & Ho & _)]]; simpl.
  - split; [done|]. split; [exists index; split; [congruence|done]|].
    pose proof (lookup_lt_Some _ _ _ Hid) as Hlt.
    pose proof (length_delete _ _ (mk_is_Some _ _ Hid)) as Hlen. rewrite <- Hout in Hlen.
    destruct Hs as [(Hnil & Hs & _)|(Hne & Hs)]; rewrite Hs.
    + rewrite Hnil in Hlen. simpl in Hlen. by rewrite (proj2 (Nat.eqb_eq _ _)) by lia.
    + rewrite (proj2 (Nat.eqb_neq _ _)); [done|]. intros Hone. rewrite Hone in Hlen. simpl in Hlen.
      by apply Hne, nil_length_inv.
  - done.
  - done.
Qed.

Lemma apply_handler_resolved p e :
  Event_Type e = EventApprovalResolved -> apply_handler p e = applyApprovalResolution p e.
Proof.
  intros Ht. unfold apply_handler. rewrite Ht. do 10 (rewrite bool_decide_false by discriminate).
  by rewrite bool_decide_true.
Qed.

(** C5: what an accepted approval decision does, on every branch.  It is taken
    only while approval is pending, by the human who signed the event, on the
    frozen package of this transaction, for a class the package requires and
    inside its window.  An approval consumes exactly its own outstanding
    identifier, which cannot be used again, records the decision, and makes the
    transaction ready only when nothing else is outstanding; a rejection blocks
    it; a revision request sends it back. *)
Theorem approval_resolution_spec es p e q :
  Replay es = Ok p -> Apply (Some p) e = Ok q -> Event_Type e = EventApprovalResolved ->
  Tx_State (P_Transaction p) = TransactionPendingApproval /\
  exists package payload, P_ApprovalPackage p = Some package /\
  decodePayload ApprovalResolvedPayload_codec e = Ok payload /\
  let decision := ApprovalResolved_Decision payload in
  (Dec_PackageDigest decision = Pkg_Digest package /\ Dec_TransactionID decision = Pkg_TransactionID package /\
   Dec_ApprovalClass decision ∈ elems (Pkg_RequiredApprovalClasses package)) /\
  (Dec_Approver decision = Event_Actor e /\ Principal_Kind (Event_Actor e) = PrincipalHuman) /\
  (Time_ns (Dec_IssuedAt decision) - 2 * Minute <= Time_ns (Event_OccurredAt e) /\
   Time_ns (Event_OccurredAt e) < Time_ns (Dec_ExpiresAt decision) /\
   Time_ns (Event_OccurredAt e) < Time_ns (Pkg_ExpiresAt package)) /\
  (Dec_ApprovalID decision ∉ elems (Tx_OutstandingApprovalIDs (P_Transaction q))) /\
  resolution_outcome p q decision.
Proof.
  intros Hes HA Ht. pose proof (Replay_valid _ _ Hes) as (_ & _ & _ & Hnd)%validated_identifier_lists.
  apply Apply_inv in HA as (_ & r & Hr & -> & _).
  rewrite (apply_handler_resolved _ _ Ht) in Hr.
  pose proof Hr as (Hpend & package & payload & _ & _ & Hk & Hpay & Hval & _ & Htx & Hpd & Hact & Hwin & Hclass & _)%applyApprovalResolution_inv.
  pose proof (applyApprovalResolution_outcome _ _ _ _ Hr Hpay) as Hout.
  destruct (Replay_package_bound _ _ _ Hes Hk) as (_ & _ & Hkd & Hkt & _).
  split; [exact Hpend|]. exists package, payload. split; [exact Hk|]. split; [done|]. cbv zeta.
  pose proof (ApprovalDecision_human _ Hval) as Hhuman.
  split; [split_and!; [by rewrite Hkd, Hpd|by rewrite Hkt, Htx|done]|]. split; [by rewrite <- Hact|]. split; [done|].
  assert (resolution_outcome p (advanced r e) (ApprovalResolved_Decision payload)) as Hq.
  { revert Hout. unfold resolution_outcome. destruct (Dec_Decision _); simpl; rewrite ?elems_clone; done. }
  split; [|done]. revert Hq. unfold resolution_outcome. destruct (Dec_Decision _); [..|done].
  - intros (_ & (index & Hi & ->) & _). by apply NoDup_delete_not_in.
  - intros (_ & _ & ->). apply not_elem_of_nil.
  - intros (_ & _ & ->). apply not_elem_of_nil.
Qed.

Example approval_resolution_spec_witness :
  exists package payload, P_ApprovalPackage (demo_at 9) = Some package /\
  decodePayload ApprovalResolvedPayload_codec (demo_ev 10) = Ok payload /\
  resolution_outcome (demo_at 9) (demo_at 10) (ApprovalResolved_Decision payload).
Proof.
  destruct (approval_resolution_spec (take 10 demo_events) (demo_at 9) (demo_ev 10) (demo_at 10))
    as (_ & package & payload & Hk & Hp & H); [apply demo_replay; lia|apply demo_step; lia|reflexivity|].
  exists package, payload. split; [exact Hk|]. split; [exact Hp|]. apply H.
Defined.
