(* ===== verification/TransactionEvidence.v ===== *)
(** * What a frozen proposal and a release are made of

    The effects a digest covers, the evidence bound to them, the package and
    plan of a stored release, and the meaning of the committed state. *)
From S2P Require Import Prelude GoBase Json ModelTypes ModelValidate TransactionTypes TransactionDigest TransactionValidate TransactionProjection TransactionReducer ProjectionValidate TransactionInvariants TransactionBinding TransactionAuthority Demo.

(** ** Frozen effects *)

Lemma validated_frozen transaction :
  AgentTransaction_Validate transaction = Ok tt -> transactionStateRequiresFrozenEffects (Tx_State transaction) = true ->
  Tx_EffectSetDigest transaction <> "".
Proof.
  intros H Hf. unfold AgentTransaction_Validate in H. repeat res_step H.
  match goal with G : transactionStateRequiresFrozenEffects _ && _ = false |- _ => rewrite Hf in G; simpl in G end.
  by bool_hyps.
Qed.

Lemma pristine_not_frozen p :
  pristine p -> transactionStateRequiresFrozenEffects (Tx_State (P_Transaction p)) = false.
Proof. by intros [_ _ _ _ _ [-> | [-> | ->]]]. Qed.

Lemma Replay_frozen_bound es p :
  Replay es = Ok p -> transactionStateRequiresFrozenEffects (Tx_State (P_Transaction p)) = true ->
  bound p /\ ComputeEffectSetDigest (P_Effects p) = Some (Tx_EffectSetDigest (P_Transaction p)).
Proof.
  intros Hes Hf. pose proof (validated_frozen _ (Replay_valid _ _ Hes) Hf) as Hd.
  apply Replay_bound in Hes as [Hb|Hp]; [|by rewrite (pristine_not_frozen _ Hp) in Hf].
  split; [done|]. by apply (bound_frozen _ Hb).
Qed.

(** C6: from staging to the end the effect set is frozen: the digest of the
    recorded effects is the transaction's effect-set digest in every frozen
    state of every history, the effects are numbered and identified uniquely,
    belong to this transaction and attempt, and depend on earlier effects only. *)
Theorem frozen_effects_match_digest es p :
  Replay es = Ok p -> transactionStateRequiresFrozenEffects (Tx_State (P_Transaction p)) = true ->
  ComputeEffectSetDigest (P_Effects p) = Some (Tx_EffectSetDigest (P_Transaction p)) /\
  map Effect_ID (P_Effects p) = elems (Tx_EffectIDs (P_Transaction p)) /\ NoDup (map Effect_ID (P_Effects p)) /\
  (forall i effect, elems (P_Effects p) !! i = Some effect ->
     Effect_Validate effect = Ok tt /\ Effect_TransactionID effect = Tx_ID (P_Transaction p) /\
     Effect_Attempt effect = Tx_Attempt (P_Transaction p) /\ Effect_Sequence effect = Z.of_nat i + 1) /\
  depends_backwards (P_Effects p).
Proof.
  intros Hes Hf. destruct (Replay_frozen_bound _ _ Hes Hf) as [Hb Hd].
  destruct Hb. split_and!; auto.
Qed.

Example frozen_effects_match_digest_witness :
  ComputeEffectSetDigest (P_Effects (demo_at 15)) = Some (Tx_EffectSetDigest (P_Transaction (demo_at 15))).
Proof. exact (proj1 (frozen_effects_match_digest _ _ (demo_replay 15 ltac:(lia)) eq_refl)). Defined.

(** C16: verification evidence is bound to what it verified: every current and
    superseded result of a frozen proposal names this transaction, attempt,
    effect-set digest and staged-state digest, and the transaction's result
    identifiers are those of the current results, in order. *)
Theorem evidence_is_bound es p :
  Replay es = Ok p -> transactionStateRequiresFrozenEffects (Tx_State (P_Transaction p)) = true ->
  Forall (result_bound (P_Transaction p)) (elems (P_Verifications p) ++ elems (P_SupersededVerifications p)) /\
  map Ver_ID (P_Verifications p) = elems (Tx_VerificationResultIDs (P_Transaction p)).
Proof.
  intros Hes Hf. destruct (Replay_frozen_bound _ _ Hes Hf) as [Hb _].
  split; [apply Forall_app; split; apply Hb|apply Hb].
Qed.

Example evidence_is_bound_witness :
  Forall (result_bound (P_Transaction (demo_at 15)))
    (elems (P_Verifications (demo_at 15)) ++ elems (P_SupersededVerifications (demo_at 15))) /\
  map Ver_ID (P_Verifications (demo_at 15)) = elems (Tx_VerificationResultIDs (P_Transaction (demo_at 15))).
Proof. exact (evidence_is_bound _ _ (demo_replay 15 ltac:(lia)) eq_refl). Defined.

(** ** Stored releases *)

Lemma Projection_Validate_package p :
  Projection_Validate p = Ok tt -> validate_projected_package p = Ok tt.
Proof. intros H. unfold Projection_Validate in H. repeat res_step H. done. Qed.

Lemma validate_projected_package_some p plan package :
  validate_projected_package p = Ok tt -> P_CommitPlan p = Some plan -> P_ApprovalPackage p = Some package ->
  Pkg_CommitPlanDigest package = Tx_CommitPlanDigest (P_Transaction p) /\
  Pkg_PolicyDigest package = Plan_PolicyDigest plan /\
  elems (Pkg_VerificationResultIDs package) = elems (Tx_VerificationResultIDs (P_Transaction p)).
Proof.
  intros H Hplan Hpkg. unfold validate_projected_package in H. rewrite Hplan, Hpkg in H. res_inv H.
  unfold equalStrings in *. by bool_hyps.
Qed.

(** C4: a stored release is one consistent document set.  In every
    release-authorised projection the store accepts, the package and the plan
    carry their own content digests and name each other, the same intent,
    attempt, policy, effect set and staged state; the package lists exactly the
    current verification results; the effect-set digest is that of the recorded
    effects; and the plan's steps are exactly the effects that are not
    read-only, in order. *)
Theorem stored_release_is_bound es p :
  Replay es = Ok p -> Projection_Validate p = Ok tt ->
  transactionStateRequiresCommitPlan (Tx_State (P_Transaction p)) = true ->
  exists plan package, P_CommitPlan p = Some plan /\ P_ApprovalPackage p = Some package /\
  ComputeCommitPlanDigest plan = Some (Plan_Digest plan) /\ ComputeApprovalPackageDigest package = Some (Pkg_Digest package) /\
  Pkg_CommitPlanDigest package = Plan_Digest plan /\ Pkg_PolicyDigest package = Plan_PolicyDigest plan /\
  (Pkg_IntentDigest package = Plan_IntentDigest plan /\ Plan_IntentDigest plan = Tx_IntentDigest (P_Transaction p)) /\
  (Pkg_Attempt package = Plan_Attempt plan /\ Plan_Attempt plan = Tx_Attempt (P_Transaction p)) /\
  (Pkg_StagedStateDigest package = Plan_StagedStateDigest plan /\ Pkg_EffectSetDigest package = Plan_EffectSetDigest plan) /\
  ComputeEffectSetDigest (P_Effects p) = Some (Plan_EffectSetDigest plan) /\
  elems (Pkg_VerificationResultIDs package) = map Ver_ID (P_Verifications p) /\
  map CStep_EffectID (Plan_Steps plan) = releaseEffectIDs (P_Effects p).
Proof.
  intros Hes Hv Hreq.
  destruct (inv_held _ _ (Replay_authority _ _ Hes) Hreq) as (_ & plan & package & Hplan & Hpkg & _).
  assert (transactionStateRequiresFrozenEffects (Tx_State (P_Transaction p)) = true) as Hf
    by (destruct (Tx_State (P_Transaction p)); done).
  destruct (Replay_frozen_bound _ _ Hes Hf) as [Hb Hd].
  destruct (bound_plan _ Hb _ Hplan) as (_ & Hpc & Hpd & (_ & Hpa & Hpi & Hpe & Hps) & Hsteps).
  destruct (bound_package _ Hb _ Hpkg) as (_ & Hkc & _ & _ & Hka & Hki & Hke & Hks).
  destruct (validate_projected_package_some _ _ _ (Projection_Validate_package _ Hv) Hplan Hpkg) as (Hkp & Hpol & Hids).
  exists plan, package. split_and!; try done; try congruence. by rewrite Hids, (bound_result_ids _ Hb).
Qed.

Lemma demo_release_valid : Projection_Validate (demo_at 15) = Ok tt.
Proof. vm_compute. reflexivity. Qed.

Example stored_release_is_bound_witness :
  exists plan package, P_CommitPlan (demo_at 15) = Some plan /\ P_ApprovalPackage (demo_at 15) = Some package /\
  ComputeCommitPlanDigest plan = Some (Plan_Digest plan) /\ Pkg_CommitPlanDigest package = Plan_Digest plan /\
  map CStep_EffectID (Plan_Steps plan) = releaseEffectIDs (P_Effects (demo_at 15)).
Proof.
  destruct (stored_release_is_bound _ _ (demo_replay 15 ltac:(lia)) demo_release_valid eq_refl)
    as (plan & package & Hplan & Hpkg & Hd & _ & Hk & _ & _ & _ & _ & _ & _ & Hs).
  exists plan, package. exact (conj Hplan (conj Hpkg (conj Hd (conj Hk Hs)))).
Defined.

(** ** Committed *)

Lemma each_reject {A} (f : A -> bool) (g : A -> bool) err l :
  each (fun x => if f x then Ok tt else reject_if g x with err ;; Ok tt) l = Ok tt ->
  forall x, x ∈ l -> f x = true \/ g x = false.
Proof.
  intros H. apply each_ok in H. rewrite Forall_forall in H. intros x Hx. specialize (H _ Hx).
  simpl in H. destruct (f x); [by left|]. destruct (g x); [discriminate|by right].
Qed.

(** Entering the committed state. *)
Lemma apply_handler_committed p e q :
  apply_handler p e = Ok q -> Tx_State (P_Transaction p) <> TransactionCommitted ->
  Tx_State (P_Transaction q) = TransactionCommitted ->
  Tx_State (P_Transaction p) = TransactionCommitting /\ P_Effects q = P_Effects p /\
  forall effect, effect ∈ elems (P_Effects p) ->
    Effect_RecoveryClass effect = RecoveryReadOnly \/ Effect_Status effect = EffectCommitted.
Proof.
  intros H Hp Hq.
  destruct (apply_handler_moves _ _ _ H) as [Hs|[Hcan|(_ & Hr & _)]]; [by unfold stutters in Hs; congruence| |congruence].
  handler_cases H.
  2-13: exfalso.
  1: { handler_inv H. rewrite enter_state_state in Hq, Hcan. rewrite Hq in *. bool_hyps.
       destruct (enter_state_frame x0 x (Event_OccurredAt e)) as (? & ? & -> & _); [intros [E _]; congruence|].
       apply ok_inj in Hok1 as <-. rewrite Hguard in *. unfold validateStatePreconditions in Hok0. rewrite Hq in Hok0.
       split; [|split; [done|]].
       - apply CanTransition_in in Hcan. destruct (Tx_State (P_Transaction p)); cbn in Hcan;
           repeat (apply elem_of_cons in Hcan as [?|Hcan]); try done; by apply elem_of_nil in Hcan.
       - intros effect Hin. destruct (each_reject _ _ _ _ Hok0 _ Hin); bool_hyps; auto. }
  10: { unfold applyApprovalResolution in H. res_inv H. unfold resolve_decision in Hok1. simpl in Hq.
        res_inv Hok1; simpl in *; congruence. }
  all: handler_inv H; simpl in *; congruence.
Qed.

Lemma Effect_receipt effect :
  Effect_Validate effect = Ok tt -> effectStatusRequiresReceipt (Effect_Status effect) = true -> is_Some (Effect_Receipt effect).
Proof.
  intros H Hr. unfold Effect_Validate in H. repeat res_step H.
  match goal with G : effectStatusRequiresReceipt _ && _ = false |- _ => rewrite Hr in G; simpl in G end. by bool_hyps.
Qed.

(** C11: "committed" means committed: when an accepted event takes a transaction
    into the committed state, it was committing, and every effect that is not
    read-only has committed and carries the driver's receipt. *)
Theorem committed_is_complete es p e q :
  Replay es = Ok p -> Apply (Some p) e = Ok q ->
  Tx_State (P_Transaction p) <> TransactionCommitted -> Tx_State (P_Transaction q) = TransactionCommitted ->
  Tx_State (P_Transaction p) = TransactionCommitting /\
  forall effect, effect ∈ elems (P_Effects q) -> Effect_RecoveryClass effect <> RecoveryReadOnly ->
    Effect_Status effect = EffectCommitted /\ is_Some (Effect_Receipt effect).
Proof.
  intros Hes HA Hp Hq. apply Apply_inv in HA as (_ & r & Hr & -> & _).
  destruct (apply_handler_committed _ _ _ Hr Hp Hq) as (Hcom & Heff & Hall). split; [exact Hcom|].
  assert (elems (P_Effects (advanced r e)) = elems (P_Effects p)) as Hel.
  { change (elems (P_Effects r) = elems (P_Effects p)). rewrite Heff. simpl. by rewrite elems_clone. }
  rewrite Hel. intros effect Hin Hne. simpl in Hall. rewrite elems_clone in Hall.
  destruct (Hall _ Hin) as [?|Hst]; [done|]. split; [done|].
  assert (transactionStateRequiresFrozenEffects (Tx_State (P_Transaction p)) = true) as Hf
    by (change (Tx_State (P_Transaction p) = TransactionCommitting) in Hcom; by rewrite Hcom).
  destruct (Replay_frozen_bound _ _ Hes Hf) as [Hb _].
  apply list_elem_of_lookup in Hin as (i & Hi). destruct (bound_effects _ Hb _ _ Hi) as (Hval & _).
  apply Effect_receipt; [done|]. by rewrite Hst.
Qed.

Example committed_is_complete_witness :
  Effect_Status (demo_effect_at 15) = EffectCommitted /\ is_Some (Effect_Receipt (demo_effect_at 15)).
Proof.
  destruct (committed_is_complete (take 15 demo_events) (demo_at 14) (demo_ev 15) (demo_at 15)) as [_ H];
    [apply demo_replay; lia|apply demo_step; lia|discriminate|reflexivity|].
  apply (H (demo_effect_at 15)); [|discriminate]. apply list_elem_of_lookup. exists 0%nat. reflexivity.
Defined.

(** C33: the reducer does not make an effect start its lifecycle at the beginning:
    an effect may be added to a running transaction as already committed, with a
    receipt, before anything was frozen, verified or approved, and the stored
    projection is accepted as consistent. *)
Theorem effect_added_in_any_status :
  exists es p, Replay es = Ok p /\ Projection_Validate p = Ok tt /\
  Tx_State (P_Transaction p) = TransactionRunning /\
  exists effect, elems (P_Effects p) = [effect] /\ Effect_Status effect = EffectCommitted.
Proof.
  exists (take 2 demo_events ++ [detour_event demo_shortcut]), (detour_end demo_shortcut).
  split; [exact (detour_replay 1 _ _ _ ltac:(lia) demo_shortcut_step)|].
  split; [vm_compute; reflexivity|]. split; [reflexivity|].
  eexists. split; reflexivity.
Qed.
