(* ===== verification/PlanSafety.v ===== *)
(** * What a valid commit plan promises

    The meaning of [CommitPlan.Validate]: dependency order, reversed
    compensation, no compensation of the irreversible; and what its compensation
    check decides, in whatever order Go iterates the dependency map. *)
From S2P Require Import Prelude GoBase Json ModelTypes ModelValidate TransactionTypes TransactionDigest TransactionValidate Demo.
From Stdlib Require Import Ascii.

(** ** The step loop *)

(** One step in its place, with the steps before it. *)
Definition step_in_order (steps : list (nat * CommitStep)) (k : nat) (item : nat * CommitStep) : Prop :=
  CStep_Sequence (snd item) = Z.of_nat (fst item + 1) /\ 1 <= CStep_TimeoutSeconds (snd item) /\
  CStep_RequiresReceipt (snd item) = true /\
  forall d, d ∈ elems (CStep_DependsOn (snd item)) ->
    exists j item', (j < k)%nat /\ steps !! j = Some item' /\ CStep_EffectID (snd item') = d.

Record steps_inv (done_ : list (nat * CommitStep)) (maps : step_maps) : Prop := {
  steps_index : forall id, is_Some (fst maps !! id) <-> id ∈ map (fun item => CStep_EffectID (snd item)) done_;
  steps_deps : forall item, item ∈ done_ -> snd maps !! CStep_EffectID (snd item) = Some (elems (CStep_DependsOn (snd item)));
  steps_known : forall id deps, snd maps !! id = Some deps ->
    exists item, item ∈ done_ /\ CStep_EffectID (snd item) = id /\ elems (CStep_DependsOn (snd item)) = deps;
  steps_nodup : NoDup (map (fun item => CStep_EffectID (snd item)) done_);
  steps_each : forall k item, done_ !! k = Some item -> step_in_order done_ k item;
}.

Lemma step_in_order_snoc steps item0 k item : step_in_order steps k item -> step_in_order (steps ++ [item0]) k item.
Proof.
  intros (Hs & Ht & Hr & Hd). split_and!; [done..|]. intros d Hin.
  destruct (Hd d Hin) as (j & item' & Hj & Hl & Hid). exists j, item'. split_and!; [done|by apply lookup_app_l_Some|done].
Qed.

Lemma steps_inv_step resource done_ maps item maps' :
  steps_inv done_ maps -> validate_commit_step resource maps item = Ok maps' -> steps_inv (done_ ++ [item]) maps'.
Proof.
  intros [Hidx Hdep Hknown Hnd Heach] H. destruct item as [i step], maps as [stepIndex stepDeps].
  unfold validate_commit_step in H. res_inv H. bool_hyps.
  match goal with G : ~ is_Some (stepIndex !! _) |- _ => rename G into Hnew end. simpl in *.
  assert (CStep_EffectID step ∉ map (fun item => CStep_EffectID (snd item)) done_) as Hfresh by by rewrite <- Hidx.
  constructor; simpl.
  - intros id. rewrite map_app, elem_of_app. simpl. rewrite list_elem_of_singleton, <- Hidx, lookup_insert_is_Some'.
    split; intros [?|?]; auto.
  - intros item [Hin|Hin]%elem_of_app.
    + rewrite lookup_insert_ne; [by apply Hdep|]. intros E. apply Hfresh. rewrite E. by apply (elem_of_map_intro (fun item => CStep_EffectID (snd item))).
    + apply list_elem_of_singleton in Hin as ->. simpl. by rewrite lookup_insert_eq.
  - intros id deps [[<- <-]|[Hne (item & Hin & ?)%Hknown]]%lookup_insert_Some.
    + exists (i, step). rewrite elem_of_app, list_elem_of_singleton. auto.
    + exists item. rewrite elem_of_app. auto.
  - rewrite map_app. apply NoDup_app. split_and!; [done| |apply NoDup_singleton].
    intros id Hin ->%list_elem_of_singleton. done.
  - intros k item [Hk|[Hk Hl]]%lookup_app_Some; [apply step_in_order_snoc; by apply Heach|].
    apply list_lookup_singleton_Some in Hl as [Hz <-]. unfold step_in_order. simpl. split_and!; [done..|].
    intros d Hd. match goal with G : each _ (elems (CStep_DependsOn step)) = Ok tt |- _ => apply each_ok in G; rewrite Forall_forall in G;
      specialize (G _ Hd); res_inv G; bool_hyps end.
    match goal with G : is_Some (stepIndex !! d) |- _ => apply Hidx, list_elem_of_lookup in G as (j & Hj) end.
    rewrite list_lookup_fmap in Hj. destruct (done_ !! j) as [item'|] eqn:Ej; [|discriminate Hj].
    apply (inj Some) in Hj. pose proof (lookup_lt_Some _ _ _ Ej).
    exists j, item'. split_and!; [lia|by apply lookup_app_l_Some|done].
Qed.

Lemma steps_loop resource steps maps :
  fold_res (validate_commit_step resource) (∅, ∅) (indexed steps) = Ok maps -> steps_inv (indexed steps) maps.
Proof.
  apply (fold_res_invariant _ steps_inv).
  - intros done_ s x t Hs Hx. by eapply steps_inv_step.
  - constructor; simpl; [|set_solver|by intros id deps Hid; rewrite lookup_empty in Hid|constructor|done].
    intros id. rewrite lookup_empty. split; [by intros []|by intros ?%elem_of_nil].
Qed.

(** ** The compensation loop *)

Record compensation_inv (stepIndex : gmap string nat) (done_ : list (nat * CompensationStep))
    (index : gmap string nat) : Prop := {
  comp_index : forall item, item ∈ done_ -> index !! KStep_EffectID (snd item) = Some (fst item);
  comp_known : forall id a, index !! id = Some a -> exists item, item ∈ done_ /\ KStep_EffectID (snd item) = id;
  comp_steps : forall item, item ∈ done_ -> is_Some (stepIndex !! KStep_EffectID (snd item)) /\
    KStep_Sequence (snd item) = Z.of_nat (fst item + 1);
}.

Lemma compensation_inv_step resource stepIndex done_ index item index' :
  compensation_inv stepIndex done_ index -> validate_compensation_step resource stepIndex index item = Ok index' ->
  compensation_inv stepIndex (done_ ++ [item]) index'.
Proof.
  intros [Hidx Hknown Hsteps] H. destruct item as [i step]. unfold validate_compensation_step in H. res_inv H. bool_hyps.
  match goal with G : ~ is_Some (index !! _) |- _ => apply eq_None_not_Some in G as Hnew end.
  constructor; simpl.
  - intros item [Hin|Hin]%elem_of_app.
    + rewrite lookup_insert_ne; [by apply Hidx|]. intros E. specialize (Hidx _ Hin). congruence.
    + apply list_elem_of_singleton in Hin as ->. simpl. by rewrite lookup_insert_eq.
  - intros id a Ha. destruct (decide (id = KStep_EffectID step)) as [->|Hne].
    + exists (i, step). split; [|done]. apply elem_of_app. right. by apply list_elem_of_singleton.
    + rewrite lookup_insert_ne in Ha by done. destruct (Hknown _ _ Ha) as (item & Hin & Hid).
      exists item. split; [|done]. apply elem_of_app. by left.
  - intros item [Hin|Hin]%elem_of_app; [by apply Hsteps|]. by apply list_elem_of_singleton in Hin as ->.
Qed.

Lemma compensation_loop resource stepIndex steps index :
  fold_res (validate_compensation_step resource stepIndex) ∅ (indexed steps) = Ok index ->
  compensation_inv stepIndex (indexed steps) index.
Proof.
  apply (fold_res_invariant _ (compensation_inv stepIndex)).
  - intros done_ s x t Hs Hx. by eapply compensation_inv_step.
  - constructor; set_solver.
Qed.

(** ** Soundness *)

(** The positions of two compensation steps where one effect depends on the
    other. *)
Definition compensates_in_reverse (plan : CommitPlan) : Prop :=
  forall step d a b ka kb, step ∈ elems (Plan_Steps plan) -> d ∈ elems (CStep_DependsOn step) ->
    elems (Plan_CompensationSteps plan) !! a = Some ka -> KStep_EffectID ka = CStep_EffectID step ->
    elems (Plan_CompensationSteps plan) !! b = Some kb -> KStep_EffectID kb = d -> (a < b)%nat.

Lemma CommitPlan_Validate_inv plan :
  CommitPlan_Validate plan = Ok tt ->
  elems (Plan_Steps plan) <> [] /\
  exists maps kidx, steps_inv (indexed (Plan_Steps plan)) maps /\
  compensation_inv (fst maps) (indexed (Plan_CompensationSteps plan)) kidx /\
  each (compensation_order "CommitPlan" kidx) (map_to_list (snd maps)) = Ok tt /\
  Forall (fun id => is_Some (fst maps !! id) /\ ~ is_Some (kidx !! id)) (Plan_IrreversibleEffectIDs plan) /\
  (elems (Plan_IrreversibleEffectIDs plan) <> [] -> is_Some (Plan_ManualRecoveryRef plan)).
Proof.
  intros H. unfold CommitPlan_Validate, CommitPlan_Validate_visiting in H. do 7 res_step H.
  match goal with G : (length (elems (Plan_Steps plan)) =? 0)%nat = false |- _ => rename G into Hlen end.
  apply rbind_ok in H as (maps & Hmaps & H). apply rbind_ok in H as (kidx & Hkidx & H).
  apply rbind_ok in H as ([] & Horder & H). apply rbind_ok in H as ([] & _ & H).
  apply rbind_ok in H as ([] & Hirr & H). apply rbind_ok in H as ([] & Hmanual & _).
  split; [bool_hyps; by destruct (elems (Plan_Steps plan))|].
  exists maps, kidx. split_and!; [by eapply steps_loop|by eapply compensation_loop|done| |].
  - eapply each_forall; [|exact Hirr]. intros id Hid. simpl in Hid. res_inv Hid. by bool_hyps.
  - intros Hne. destruct (Plan_ManualRecoveryRef plan); [eauto|]. res_inv Hmanual. bool_hyps.
    destruct (elems (Plan_IrreversibleEffectIDs plan)); [done|]. simpl in *. lia.
Qed.

Lemma map_snd_indexed {A B} (f : A -> B) (l : list A) : map (fun item => f (snd item)) (indexed l) = map f l.
Proof. rewrite <- (map_map snd f), indexed_snd. done. Qed.

Lemma indexed_elem {A} (l : list A) x : x ∈ l -> exists i, (i, x) ∈ indexed l.
Proof. intros (i & Hi)%list_elem_of_lookup. exists i. by apply elem_of_indexed. Qed.

Lemma order_reversed resource plan maps kidx :
  steps_inv (indexed (Plan_Steps plan)) maps ->
  compensation_inv (fst maps) (indexed (Plan_CompensationSteps plan)) kidx ->
  each (compensation_order resource kidx) (map_to_list (snd maps)) = Ok tt -> compensates_in_reverse plan.
Proof.
  intros [_ Hdep _ _ _] [Hkix _ _] Horder step d a b ka kb Hstep Hd Ha Hka Hb Hkb.
  apply indexed_elem in Hstep as (i & Hstep). specialize (Hdep _ Hstep). simpl in Hdep.
  apply elem_of_map_to_list in Hdep. apply each_ok in Horder. rewrite Forall_forall in Horder.
  specialize (Horder _ Hdep). simpl in Horder. apply each_ok in Horder. rewrite Forall_forall in Horder.
  specialize (Horder _ Hd). simpl in Horder.
  apply elem_of_indexed in Ha, Hb. apply Hkix in Ha, Hb. simpl in Ha, Hb. rewrite Hka in Ha. rewrite Hkb in Hb.
  rewrite Ha, Hb in Horder. destruct (b <=? a)%nat eqn:E; [discriminate|]. by bool_hyps.
Qed.

(** A dependency of a step is the effect of a step. *)
Lemma commit_plan_dependencies plan step d :
  CommitPlan_Validate plan = Ok tt -> step ∈ elems (Plan_Steps plan) -> d ∈ elems (CStep_DependsOn step) ->
  d ∈ map CStep_EffectID (Plan_Steps plan).
Proof.
  intros (_ & maps & _ & [_ _ _ _ Heach] & _)%CommitPlan_Validate_inv Hin Hd.
  apply list_elem_of_lookup in Hin as (i & Hi).
  destruct (Heach i (i, step)) as (_ & _ & _ & Hdeps); [by rewrite indexed_lookup, Hi|].
  destruct (Hdeps d Hd) as (j & item & _ & Hl & <-). rewrite <- (map_snd_indexed CStep_EffectID).
  apply (elem_of_map_intro (fun item => CStep_EffectID (snd item))). by eapply list_elem_of_lookup_2.
Qed.

(** C13: a plan [CommitPlan.Validate] accepts is safe to execute and to undo:
    steps are numbered from one, unique per effect, bounded in time and
    receipted, and depend only on earlier steps; compensation covers planned
    effects only and undoes a dependent effect before the effect it depends on;
    irreversible effects are planned, never compensated, and come with a manual
    recovery reference. *)
Theorem commit_plan_sound plan :
  CommitPlan_Validate plan = Ok tt ->
  (elems (Plan_Steps plan) <> [] /\ NoDup (map CStep_EffectID (Plan_Steps plan))) /\
  (forall i step, elems (Plan_Steps plan) !! i = Some step ->
     CStep_Sequence step = Z.of_nat i + 1 /\ 1 <= CStep_TimeoutSeconds step /\ CStep_RequiresReceipt step = true /\
     forall d, d ∈ elems (CStep_DependsOn step) ->
       exists j step', (j < i)%nat /\ elems (Plan_Steps plan) !! j = Some step' /\ CStep_EffectID step' = d) /\
  (forall k, k ∈ elems (Plan_CompensationSteps plan) -> KStep_EffectID k ∈ map CStep_EffectID (Plan_Steps plan)) /\
  compensates_in_reverse plan /\
  (forall id, id ∈ elems (Plan_IrreversibleEffectIDs plan) ->
     id ∈ map CStep_EffectID (Plan_Steps plan) /\ (id ∉ map KStep_EffectID (Plan_CompensationSteps plan)) /\
     is_Some (Plan_ManualRecoveryRef plan)).
Proof.
  intros (Hne & maps & kidx & Hs & Hk & Horder & Hirr & Hmanual)%CommitPlan_Validate_inv.
  pose proof (order_reversed _ _ _ _ Hs Hk Horder) as Hrev.
  destruct Hs as [Hidx _ _ Hnd Heach]. destruct Hk as [Hkix Hknown Hksteps].
  setoid_rewrite map_snd_indexed in Hidx. rewrite map_snd_indexed in Hnd.
  split; [done|]. split; [|split; [|split; [done|]]].
  - intros i step Hi. destruct (Heach i (i, step)) as (Hseq & Ht & Hr & Hd); [by rewrite indexed_lookup, Hi|].
    simpl in *. split_and!; [lia|done..|]. intros d Hin. destruct (Hd d Hin) as (j & item & Hj & Hl & Hid).
    rewrite indexed_lookup in Hl. destruct (elems (Plan_Steps plan) !! j) as [step'|] eqn:E; [|discriminate Hl].
    apply (inj Some) in Hl as <-. by exists j, step'.
  - intros k (i & Hin)%indexed_elem. apply Hidx. exact (proj1 (Hksteps _ Hin)).
  - rewrite Forall_forall in Hirr. intros id Hin. destruct (Hirr _ Hin) as [Hstep Hno].
    split_and!; [by apply Hidx| |apply Hmanual; by intros E; rewrite E in Hin; apply elem_of_nil in Hin].
    intros (k & -> & Hk)%elem_of_map. apply indexed_elem in Hk as (i & Hk). apply Hno. specialize (Hkix _ Hk). simpl in Hkix. rewrite Hkix. eauto.
Qed.

(** Two dependent writes, undone in reverse. *)
Definition two_step_plan : CommitPlan := zero_CommitPlan
  <| Plan_Version := CommitPlanVersion |> <| Plan_ID := "p" |> <| Plan_TransactionID := "t" |>
  <| Plan_Attempt := 1 |> <| Plan_IntentDigest := demo_digest "1" |> <| Plan_EffectSetDigest := demo_digest "2" |>
  <| Plan_StagedStateDigest := demo_digest "3" |> <| Plan_PolicyDigest := demo_digest "4" |>
  <| Plan_Connector := "git" |> <| Plan_Target := mkResourceSelector "branch" "main" |>
  <| Plan_ExpectedResourceVersion := "r1" |>
  <| Plan_Steps := SList [mkCommitStep 1 "a" SNil SNil "" 60 true; mkCommitStep 2 "b" (SList ["a"]) SNil "" 60 true] |>
  <| Plan_CompensationSteps := SList [mkCompensationStep 1 "b" SNil None; mkCompensationStep 2 "a" SNil None] |>
  <| Plan_Digest := demo_digest "5" |> <| Plan_CreatedAt := demo_now |>.

Example commit_plan_sound_witness :
  NoDup (map CStep_EffectID (Plan_Steps two_step_plan)) /\ compensates_in_reverse two_step_plan.
Proof.
  destruct (commit_plan_sound two_step_plan) as ((_ & Hnd) & _ & _ & Hrev & _); [vm_compute; reflexivity|].
  split; [exact Hnd|exact Hrev].
Defined.

(** ** What the compensation check decides *)

(** A loop whose iterations fail with one and the same error does not depend on
    the order of the items. *)
Lemma each_permutation {A} (f : A -> result unit) err l l' :
  (forall x, f x = Ok tt \/ f x = Err err) -> Permutation l l' -> each f l = each f l'.
Proof.
  intros Hf. induction 1 as [|x l l' _ IH|x y l|l l' l'' _ IH1 _ IH2]; simpl; [done| | |congruence].
  - destruct (f x); simpl; [done|done].
  - destruct (Hf x) as [-> | ->], (Hf y) as [-> | ->]; done.
Qed.

Lemma each_one_error {A} (f : A -> result unit) err l :
  (forall x, f x = Ok tt \/ f x = Err err) -> each f l = Ok tt \/ each f l = Err err.
Proof. intros Hf. induction l as [|x l IH]; simpl; [by left|]. destruct (Hf x) as [-> | ->]; [done|by right]. Qed.

Definition compensation_error : KernelError := newError ErrorEffectSequence "validate" "CommitPlan" "compensation_steps".

Lemma compensation_order_error kidx entry :
  compensation_order "CommitPlan" kidx entry = Ok tt \/ compensation_order "CommitPlan" kidx entry = Err compensation_error.
Proof.
  destruct entry as [id deps]. apply each_one_error. intros d.
  destruct (match kidx !! id with Some _ => _ | None => _ end); simpl; [by right|by left].
Qed.

(** The converse of [order_reversed]: the loop rejects nothing else. *)
Lemma reversed_order plan maps kidx :
  steps_inv (indexed (Plan_Steps plan)) maps ->
  compensation_inv (fst maps) (indexed (Plan_CompensationSteps plan)) kidx ->
  compensates_in_reverse plan -> each (compensation_order "CommitPlan" kidx) (map_to_list (snd maps)) = Ok tt.
Proof.
  intros [_ _ Hknown _ _] [Hkix Hkk _] Hrev. apply each_ok, Forall_forall.
  intros [id deps] (item & Hitem & Hid & Hdeps)%elem_of_map_to_list%Hknown. apply each_ok, Forall_forall. intros d Hd.
  destruct (kidx !! id) as [a|] eqn:Ea; [|done]. destruct (kidx !! d) as [b|] eqn:Eb; [|done].
  destruct (Hkk _ _ Ea) as ([i ka] & Hka & Hia), (Hkk _ _ Eb) as ([j kb] & Hkb & Hjb).
  pose proof (Hkix _ Hka) as Ha. pose proof (Hkix _ Hkb) as Hb. simpl in *.
  rewrite Hia, Ea in Ha. rewrite Hjb, Eb in Hb. apply (inj Some) in Ha as <-, Hb as <-.
  destruct item as [n step]. apply elem_of_indexed in Hitem, Hka, Hkb. simpl in *. subst deps.
  assert (a < b)%nat as Hlt.
  { eapply (Hrev step d a b ka kb); [by eapply list_elem_of_lookup_2|done..|congruence|done|done]. }
  by rewrite (proj2 (Nat.leb_gt b a)) by lia.
Qed.

(** Validation without the compensation check. *)
Definition other_checks (plan : CommitPlan) : result unit := CommitPlan_Validate_visiting (fun _ => []) plan.

(** Either validation fails before the compensation check, or the check runs on
    what the two loops before it have built. *)
Lemma validate_split plan :
  (exists err, forall visit, CommitPlan_Validate_visiting visit plan = Err err) \/
  exists maps kidx rest,
    steps_inv (indexed (Plan_Steps plan)) maps /\
    compensation_inv (fst maps) (indexed (Plan_CompensationSteps plan)) kidx /\
    forall visit, CommitPlan_Validate_visiting visit plan =
      (check each (compensation_order "CommitPlan" kidx) (visit (snd maps)) ;; rest).
Proof.
  unfold CommitPlan_Validate_visiting. cbv zeta.
  repeat match goal with
  | |- (exists err, forall visit, rbind ?c _ = Err err) \/ _ =>
    destruct c as [?|err] eqn:?; [|left; by exists err]; cbn [rbind]
  | |- (exists err, forall visit, (if ?b then Err ?err else _) = Err err) \/ _ =>
    destruct b; [left; by exists err|]
  end.
  right. eexists _, _, _. split; [by eapply steps_loop|]. split; [by eapply compensation_loop|]. intros visit. reflexivity.
Qed.

(** C29: the compensation check decides exactly one thing, whatever the order in
    which Go visits its map.  Validation gives the same result, error included,
    for every order; a plan is accepted if and only if it passes all the other
    checks and its compensation steps undo a dependent effect before the effect
    it depends on; and a plan that fails only in this is refused with the
    sequence error of [compensation_steps]. *)
Theorem compensation_check_exact visit plan :
  (forall dependencies, Permutation (visit dependencies) (map_to_list dependencies)) ->
  CommitPlan_Validate_visiting visit plan = CommitPlan_Validate plan /\
  (CommitPlan_Validate plan = Ok tt <-> other_checks plan = Ok tt /\ compensates_in_reverse plan) /\
  (other_checks plan = Ok tt -> ~ compensates_in_reverse plan -> CommitPlan_Validate plan = Err compensation_error).
Proof.
  intros Hvisit. unfold other_checks, CommitPlan_Validate.
  destruct (validate_split plan) as [(err & Herr)|(maps & kidx & rest & Hs & Hk & Hv)].
  { rewrite !Herr. split; [done|]. split; [|done]. split; [done|]. by intros []. }
  rewrite !Hv. cbn [each rbind].
  rewrite (each_permutation _ _ _ _ (compensation_order_error kidx) (Hvisit (snd maps))). split; [done|].
  pose proof (order_reversed "CommitPlan" _ _ _ Hs Hk) as Hsound. pose proof (reversed_order _ _ _ Hs Hk) as Hcomplete.
  destruct (each_one_error _ _ (map_to_list (snd maps)) (compensation_order_error kidx)) as [E|E];
    rewrite E in *; cbn [rbind]; [|split; [split; [done|]|done]]; naive_solver.
Qed.

(** The plan of [two_step_plan] with its compensation in forward order, the map
    visited backwards. *)
Definition forward_plan : CommitPlan := two_step_plan
  <| Plan_CompensationSteps := SList [mkCompensationStep 1 "a" SNil None; mkCompensationStep 2 "b" SNil None] |>.

Lemma forward_plan_not_reversed : ~ compensates_in_reverse forward_plan.
Proof.
  intros H. cut (1 < 0)%nat; [lia|].
  refine (H (mkCommitStep 2 "b" (SList ["a"]) SNil "" 60 true) "a" 1%nat 0%nat
    (mkCompensationStep 2 "b" SNil None) (mkCompensationStep 1 "a" SNil None) _ _ eq_refl eq_refl eq_refl eq_refl).
  - right. left.
  - left.
Qed.

Example compensation_check_exact_witness :
  CommitPlan_Validate_visiting (fun dependencies => reverse (map_to_list dependencies)) forward_plan =
    CommitPlan_Validate forward_plan /\
  CommitPlan_Validate forward_plan = Err compensation_error.
Proof.
  destruct (compensation_check_exact (fun dependencies => reverse (map_to_list dependencies)) forward_plan)
    as (Hsame & _ & Hrefused); [intros dependencies; apply reverse_Permutation|].
  split; [exact Hsame|]. apply Hrefused; [vm_compute; reflexivity|exact forward_plan_not_reversed].
Defined.
