(* ===== verification/PreparationSafety.v ===== *)
(** * What PrepareAuthority prepares

    The plan and package [PrepareAuthority] returns are the ones the reducer
    accepts, cover exactly the releasable effects, and undo them backwards. *)
From S2P Require Import Prelude GoBase Json ModelTypes ModelValidate TransactionTypes TransactionDigest TransactionValidate TransactionProjection TransactionReducer TransactionEvents SequencePolicy PrepareAuthority TransactionInvariants TransactionAuthority PlanSafety Demo.
From Stdlib Require Import Ascii.

(** ** Inversion *)

(** Effects with a way back. *)
Definition undoable (effect : Effect) : bool :=
  match Effect_RecoveryClass effect with RecoveryReversible | RecoveryCompensatable => true | _ => false end.

Lemma compensation_steps_ids preconditions effects acc steps :
  compensation_steps preconditions effects acc = Ok steps ->
  map KStep_EffectID steps = map KStep_EffectID acc ++ map Effect_ID (List.filter undoable effects).
Proof.
  revert acc. induction effects as [|effect effects IH]; intros acc H; simpl in H.
  - apply ok_inj in H as <-. simpl. by rewrite app_nil_r.
  - unfold undoable at 1. simpl. destruct (Effect_RecoveryClass effect) eqn:E; try by apply IH.
    + apply IH in H. rewrite H, map_app, <- app_assoc. done.
    + destruct (Effect_Compensation effect); [|done]. apply IH in H. rewrite H, map_app, <- app_assoc. done.
Qed.

Lemma commit_steps_ids p : map CStep_EffectID (commit_steps p) = releaseEffectIDs (P_Effects p).
Proof.
  unfold commit_steps, releaseEffectIDs. apply list_eq. intros i.
  rewrite !list_lookup_fmap, list_lookup_imap. by destruct (_ !! i).
Qed.

Record prepared_from (p : Projection) (decision : SequenceDecision) (policyDigest : string) (release : ReleaseBinding)
    (now : Time) (prepared : PreparedAuthority) : Prop := {
  prepared_validating : Tx_State (P_Transaction p) = TransactionValidating;
  prepared_verified : requirePassingVerification p = Ok tt;
  prepared_current : Forall (fun res => expired_at (UTC now) res = false) (P_Verifications p);
  prepared_effects : Forall (fun effect =>
    (Effect_RecoveryClass effect = RecoveryReadOnly \/ Effect_Status effect = EffectValidated) /\
    Effect_RecoveryClass effect <> RecoveryIrreversible) (P_Effects p);
  prepared_plan : exists compensation planDigest,
    compensation_steps (Tx_VerificationResultIDs (P_Transaction p)) (reverse (P_Effects p)) [] = Ok compensation /\
    ComputeCommitPlanDigest (unsigned_plan p policyDigest release (UTC now) compensation) = Some planDigest /\
    Prepared_Plan prepared = unsigned_plan p policyDigest release (UTC now) compensation <| Plan_Digest := planDigest |> /\
    CommitPlan_Validate (Prepared_Plan prepared) = Ok tt;
  prepared_package : exists classes approvalDigest,
    ComputeApprovalPackageDigest (unsigned_package p decision policyDigest release (UTC now)
      (Plan_Digest (Prepared_Plan prepared)) classes) = Some approvalDigest /\
    Prepared_Approval prepared = unsigned_package p decision policyDigest release (UTC now)
      (Plan_Digest (Prepared_Plan prepared)) classes <| Pkg_Digest := approvalDigest |> /\
    ApprovalPackage_Validate (Prepared_Approval prepared) = Ok tt /\
    ((Decision_Outcome decision = SequenceAllow /\ classes = [] /\
      Prepared_TargetState prepared = TransactionReadyToCommit /\ elems (Prepared_OutstandingApprovalIDs prepared) = []) \/
     (Decision_Outcome decision = SequenceRequireApproval /\ classes <> [] /\
      Prepared_TargetState prepared = TransactionPendingApproval /\
      length (Prepared_OutstandingApprovalIDs prepared) = 1%nat));
}.

Lemma PrepareAuthority_inv p decision policyDigest release now prepared :
  PrepareAuthority p decision policyDigest release now = Ok prepared ->
  prepared_from p decision policyDigest release now prepared.
Proof.
  intros H. unfold PrepareAuthority in H. res_inv H. bool_hyps.
  match goal with G : each _ (elems (P_Verifications p)) = Ok tt |- _ => rename G into Hver end.
  match goal with G : each _ (elems (P_Effects p)) = Ok tt |- _ => rename G into Heff end.
  match goal with G : compensation_steps _ _ _ = Ok _ |- _ => rename G into Hcomp end.
  match goal with G : ComputeCommitPlanDigest _ = Some _ |- _ => rename G into Hpd end.
  match goal with G : CommitPlan_Validate _ = Ok _ |- _ => rename G into Hpv end.
  match goal with G : ComputeApprovalPackageDigest _ = Some _ |- _ => rename G into Hkd end.
  match goal with G : ApprovalPackage_Validate _ = Ok _ |- _ => rename G into Hkv end.
  match goal with G : requirePassingVerification _ = Ok _ |- _ => rename G into Hpass end.
  constructor; cbn [Prepared_Plan Prepared_Approval Prepared_TargetState Prepared_OutstandingApprovalIDs].
  - assumption.
  - exact Hpass.
  - eapply each_forall; [|exact Hver]. intros res Hr. simpl in Hr. by destruct (expired_at _ res).
  - eapply each_forall; [|exact Heff]. intros effect He. simpl in He. res_inv He. bool_hyps.
    split; [|done]. match goal with G : _ && _ = false |- _ => apply andb_false_iff in G as [?|?] end; bool_hyps; auto.
  - eexists _, _. exact (conj Hcomp (conj Hpd (conj eq_refl Hpv))).
  - eexists _, _. split; [exact Hkd|]. split; [reflexivity|]. split; [exact Hkv|].
    match goal with G : _ && _ = false |- _ => apply andb_false_iff in G as [?|?] end; bool_hyps.
    + left. destruct (bool_decide _) eqn:E; bool_hyps; [congruence|done].
    + right. rewrite bool_decide_true by done. done.
Qed.

(** ** The reducer accepts it *)

(** A document's digest ignores the digest it carries. *)
Lemma plan_digest_blank plan d : plan <| Plan_Digest := d |> <| Plan_Digest := "" |> = plan <| Plan_Digest := "" |>.
Proof. reflexivity. Qed.

Lemma plan_digest_stable plan d :
  ComputeCommitPlanDigest (plan <| Plan_Digest := d |>) = ComputeCommitPlanDigest plan.
Proof. unfold ComputeCommitPlanDigest. by rewrite plan_digest_blank. Qed.

Lemma package_digest_blank package d : package <| Pkg_Digest := d |> <| Pkg_Digest := "" |> = package <| Pkg_Digest := "" |>.
Proof. reflexivity. Qed.

Lemma package_digest_stable package d :
  ComputeApprovalPackageDigest (package <| Pkg_Digest := d |>) = ComputeApprovalPackageDigest package.
Proof. unfold ComputeApprovalPackageDigest. by rewrite package_digest_blank. Qed.

Lemma prepared_plan_accepted p decision policyDigest release now prepared e :
  prepared_from p decision policyDigest release now prepared ->
  decodePayload CommitPlanFrozenPayload_codec e = Ok (mkCommitPlanFrozenPayload (Prepared_Plan prepared)) ->
  applyCommitPlan p e = Ok (p <| P_CommitPlan := Some (Prepared_Plan prepared) |>
    <| P_Transaction; Tx_CommitPlanDigest := Plan_Digest (Prepared_Plan prepared) |>).
Proof.
  intros [Hs _ _ _ (compensation & d & _ & Hd & Hplan & Hval) _] He.
  unfold applyCommitPlan. rewrite Hs, He. cbv beta iota zeta delta [rbind negb].
  cbn [CommitPlanFrozen_Plan]. rewrite Hval. rewrite bool_decide_true by done. cbn [rbind negb].
  assert (ComputeCommitPlanDigest (Prepared_Plan prepared) = Some d) as -> by (by rewrite Hplan, plan_digest_stable).
  assert (Plan_Digest (Prepared_Plan prepared) = d) as Hpd by by rewrite Hplan.
  assert (map CStep_EffectID (Plan_Steps (Prepared_Plan prepared)) = releaseEffectIDs (P_Effects p)) as Hsteps
    by (rewrite Hplan; apply commit_steps_ids).
  rewrite Hsteps. unfold equalStrings. rewrite Hpd.
  assert (Plan_TransactionID (Prepared_Plan prepared) = Tx_ID (P_Transaction p) /\
    Plan_Attempt (Prepared_Plan prepared) = Tx_Attempt (P_Transaction p) /\
    Plan_IntentDigest (Prepared_Plan prepared) = Tx_IntentDigest (P_Transaction p) /\
    Plan_EffectSetDigest (Prepared_Plan prepared) = Tx_EffectSetDigest (P_Transaction p) /\
    Plan_StagedStateDigest (Prepared_Plan prepared) = Tx_StagedStateDigest (P_Transaction p)) as (-> & -> & -> & -> & ->)
    by by rewrite Hplan.
  rewrite Z.eqb_refl, !bool_decide_true by done. done.
Qed.

Lemma prepared_package_accepted p decision policyDigest release now prepared e :
  prepared_from p decision policyDigest release now prepared ->
  Tx_CommitPlanDigest (P_Transaction p) = Plan_Digest (Prepared_Plan prepared) -> is_Some (P_CommitPlan p) ->
  decodePayload ApprovalPackageFrozenPayload_codec e = Ok (mkApprovalPackageFrozenPayload (Prepared_Approval prepared)) ->
  applyApprovalPackage p e = Ok (p <| P_ApprovalPackage := Some (Prepared_Approval prepared) |>
    <| P_Transaction; Tx_ApprovalPackageDigest := Pkg_Digest (Prepared_Approval prepared) |>).
Proof.
  intros [Hs _ _ _ _ (classes & d & Hd & Hpkg & Hval & _)] Hpd [plan Hplan] He.
  unfold applyApprovalPackage. rewrite Hs, He, Hplan. cbv beta iota zeta delta [rbind negb is_nil_pointer orb].
  cbn [ApprovalPackageFrozen_Package]. rewrite Hval. rewrite bool_decide_true by done. cbn [rbind negb].
  assert (ComputeApprovalPackageDigest (Prepared_Approval prepared) = Some d) as -> by (by rewrite Hpkg, package_digest_stable).
  assert (Pkg_Digest (Prepared_Approval prepared) = d) as Hkd by by rewrite Hpkg.
  assert (Pkg_TransactionID (Prepared_Approval prepared) = Tx_ID (P_Transaction p) /\
    Pkg_Attempt (Prepared_Approval prepared) = Tx_Attempt (P_Transaction p) /\
    Pkg_IntentDigest (Prepared_Approval prepared) = Tx_IntentDigest (P_Transaction p) /\
    Pkg_EffectSetDigest (Prepared_Approval prepared) = Tx_EffectSetDigest (P_Transaction p) /\
    Pkg_StagedStateDigest (Prepared_Approval prepared) = Tx_StagedStateDigest (P_Transaction p) /\
    Pkg_CommitPlanDigest (Prepared_Approval prepared) = Plan_Digest (Prepared_Plan prepared) /\
    elems (Pkg_VerificationResultIDs (Prepared_Approval prepared)) = elems (Tx_VerificationResultIDs (P_Transaction p)))
    as (-> & -> & -> & -> & -> & -> & ->) by (rewrite Hpkg; split_and!; try reflexivity; apply elems_clone).
  unfold equalStrings. rewrite Hkd, Hpd, Z.eqb_refl, !bool_decide_true by done. done.
Qed.

Lemma passing_not_failed p : requirePassingVerification p = Ok tt -> requireNoFailedVerification p = Ok tt.
Proof. unfold requirePassingVerification. by intros ([] & ? & _)%rbind_ok. Qed.

(** Neither target of a preparation starts a new attempt or needs a reason. *)
Lemma prepared_state_accepted p decision policyDigest release now prepared e reason :
  prepared_from p decision policyDigest release now prepared ->
  is_Some (P_CommitPlan p) -> P_ApprovalPackage p = Some (Prepared_Approval prepared) ->
  decodePayload TransactionStateChangedPayload_codec e = Ok (mkTransactionStateChangedPayload
    TransactionValidating (Prepared_TargetState prepared) reason (Prepared_OutstandingApprovalIDs prepared)) ->
  applyStateChange p e = Ok (enter_state p (mkTransactionStateChangedPayload
    TransactionValidating (Prepared_TargetState prepared) reason (Prepared_OutstandingApprovalIDs prepared)) (Event_OccurredAt e)).
Proof.
  intros [Hs Hpass _ _ _ (classes & d & _ & Hpkg & _ & Hout)] [plan Hplan] Hk He.
  assert (elems (Pkg_RequiredApprovalClasses (Prepared_Approval prepared)) = classes) as Hclasses by by rewrite Hpkg.
  unfold applyStateChange. rewrite He. cbn [rbind TransactionStateChanged_From TransactionStateChanged_To]. rewrite Hs.
  rewrite (bool_decide_true (TransactionValidating = TransactionValidating)) by done. cbn [negb].
  unfold validateStatePreconditions. cbn [TransactionStateChanged_To TransactionStateChanged_OutstandingApprovalIDs].
  rewrite Hk, Hplan. destruct Hout as [(_ & -> & -> & Ho)|(_ & _ & -> & Ho)].
  - rewrite Hclasses, Ho. change (length []) with 0%nat. cbn [Nat.eqb negb].
    replace (requirePassingVerification p) with (@Ok unit tt). reflexivity.
  - rewrite Ho. replace (requireNoFailedVerification p) with (@Ok unit tt) by (symmetry; by apply passing_not_failed).
    reflexivity.
Qed.

(** C12: what [PrepareAuthority] prepares, the reducer accepts.  For the plan, the
    package and the target state of a successful preparation, events carrying
    exactly these documents are taken by [applyCommitPlan],
    [applyApprovalPackage] and [applyStateChange] in turn, and the transaction
    ends in the prepared target with both documents frozen in it. *)
Theorem prepared_authority_accepted p decision policyDigest release now prepared reason e1 e2 e3 :
  PrepareAuthority p decision policyDigest release now = Ok prepared ->
  decodePayload CommitPlanFrozenPayload_codec e1 = Ok (mkCommitPlanFrozenPayload (Prepared_Plan prepared)) ->
  decodePayload ApprovalPackageFrozenPayload_codec e2 = Ok (mkApprovalPackageFrozenPayload (Prepared_Approval prepared)) ->
  decodePayload TransactionStateChangedPayload_codec e3 = Ok (mkTransactionStateChangedPayload
    TransactionValidating (Prepared_TargetState prepared) reason (Prepared_OutstandingApprovalIDs prepared)) ->
  exists q, (let? p1 := applyCommitPlan p e1 in let? p2 := applyApprovalPackage p1 e2 in applyStateChange p2 e3) = Ok q /\
    Tx_State (P_Transaction q) = Prepared_TargetState prepared /\
    P_CommitPlan q = Some (Prepared_Plan prepared) /\ P_ApprovalPackage q = Some (Prepared_Approval prepared) /\
    Tx_CommitPlanDigest (P_Transaction q) = Plan_Digest (Prepared_Plan prepared) /\
    Tx_ApprovalPackageDigest (P_Transaction q) = Pkg_Digest (Prepared_Approval prepared).
Proof.
  intros Hprep%PrepareAuthority_inv H1 H2 H3.
  rewrite (prepared_plan_accepted _ _ _ _ _ _ _ Hprep H1). cbn [rbind].
  set (p1 := p <| P_CommitPlan := Some (Prepared_Plan prepared) |>
    <| P_Transaction; Tx_CommitPlanDigest := Plan_Digest (Prepared_Plan prepared) |>).
  assert (prepared_from p1 decision policyDigest release now prepared) as Hprep1 by (by destruct Hprep).
  rewrite (prepared_package_accepted _ _ _ _ _ _ _ Hprep1 eq_refl (mk_is_Some _ _ eq_refl) H2). cbn [rbind].
  set (p2 := p1 <| P_ApprovalPackage := Some (Prepared_Approval prepared) |>
    <| P_Transaction; Tx_ApprovalPackageDigest := Pkg_Digest (Prepared_Approval prepared) |>).
  assert (prepared_from p2 decision policyDigest release now prepared) as Hprep2 by (by destruct Hprep1).
  rewrite (prepared_state_accepted _ _ _ _ _ _ _ _ Hprep2 (mk_is_Some _ _ eq_refl) eq_refl H3).
  eexists. split; [reflexivity|]. rewrite enter_state_state. split; [done|].
  edestruct (enter_state_frame p2) as (? & ? & -> & _); [|done].
  cbn [TransactionStateChanged_To TransactionStateChanged_From]. by intros [_ ?].
Qed.

(** The demo's preparation, and events that carry its documents. *)
Definition carrying {T} (c : Codec T) (payload : T) : TransactionEvent :=
  zero_TransactionEvent <| Event_Payload := default RawEmpty (Marshal c payload) |> <| Event_OccurredAt := demo_now |>.

Definition demo_prep : PreparedAuthority := Eval vm_compute in
  match demo_prepared (demo_at 6) with Ok prepared => prepared
  | Err _ => mkPreparedAuthority zero_CommitPlan zero_ApprovalPackage TransactionCreated SNil end.

Lemma demo_prepares : PrepareAuthority (demo_at 6) (mkSequenceDecision SequenceRequireApproval (SList []))
  (demo_digest "7") (mkReleaseBinding "git" (mkResourceSelector "branch" "main") "r1") demo_now = Ok demo_prep.
Proof. vm_compute. reflexivity. Qed.

Example prepared_authority_accepted_witness :
  exists q, (let? p1 := applyCommitPlan (demo_at 6)
              (carrying CommitPlanFrozenPayload_codec (mkCommitPlanFrozenPayload (Prepared_Plan demo_prep))) in
             let? p2 := applyApprovalPackage p1
              (carrying ApprovalPackageFrozenPayload_codec (mkApprovalPackageFrozenPayload (Prepared_Approval demo_prep))) in
             applyStateChange p2 (carrying TransactionStateChangedPayload_codec (mkTransactionStateChangedPayload
              TransactionValidating (Prepared_TargetState demo_prep) "" (Prepared_OutstandingApprovalIDs demo_prep)))) = Ok q /\
    Tx_State (P_Transaction q) = Prepared_TargetState demo_prep.
Proof.
  destruct (prepared_authority_accepted _ _ _ _ _ _ ""
    (carrying CommitPlanFrozenPayload_codec (mkCommitPlanFrozenPayload (Prepared_Plan demo_prep)))
    (carrying ApprovalPackageFrozenPayload_codec (mkApprovalPackageFrozenPayload (Prepared_Approval demo_prep)))
    (carrying TransactionStateChangedPayload_codec (mkTransactionStateChangedPayload
              TransactionValidating (Prepared_TargetState demo_prep) "" (Prepared_OutstandingApprovalIDs demo_prep)))
    demo_prepares) as (q & Hq & Hs & _); [vm_compute; reflexivity..|].
  exists q. exact (conj Hq Hs).
Defined.

(** C14: a prepared release covers exactly what may be released.  The plan's
    steps are the effects that are not read-only, in order; the compensation
    steps are the effects with a way back, last first; every released effect is
    validated and none is irreversible; all verification passed on the platform
    and is current at the time of preparation. *)
Theorem prepared_authority_covers p decision policyDigest release now prepared :
  PrepareAuthority p decision policyDigest release now = Ok prepared ->
  map CStep_EffectID (Plan_Steps (Prepared_Plan prepared)) = releaseEffectIDs (P_Effects p) /\
  map KStep_EffectID (Plan_CompensationSteps (Prepared_Plan prepared)) =
    reverse (map Effect_ID (List.filter undoable (P_Effects p))) /\
  (forall effect, effect ∈ elems (P_Effects p) ->
    (Effect_RecoveryClass effect = RecoveryReadOnly \/ Effect_Status effect = EffectValidated) /\
    Effect_RecoveryClass effect <> RecoveryIrreversible) /\
  verified p /\ Forall (fun res => expired_at (UTC now) res = false) (P_Verifications p) /\
  (Prepared_TargetState prepared = TransactionReadyToCommit <->
   elems (Pkg_RequiredApprovalClasses (Prepared_Approval prepared)) = []).
Proof.
  intros [_ Hpass Hcur Heff (comp & d & Hcomp & _ & Hplan & _) (classes & kd & _ & Hpkg & _ & Hout)]%PrepareAuthority_inv.
  apply compensation_steps_ids in Hcomp.
  split; [rewrite Hplan; apply commit_steps_ids|].
  split; [rewrite Hplan; change (map KStep_EffectID comp = reverse (map Effect_ID (List.filter undoable (P_Effects p)))); rewrite Hcomp; simpl|].
  { change (fmap Effect_ID (List.filter undoable (reverse (P_Effects p))) = reverse (fmap Effect_ID (List.filter undoable (P_Effects p)))).
    rewrite <- fmap_reverse. f_equal. unfold reverse. rewrite !rev_append_rev, !app_nil_r. apply List.filter_rev. }
  split; [by rewrite Forall_forall in Heff|]. split; [by apply requirePassing_verified|]. split; [exact Hcur|].
  assert (elems (Pkg_RequiredApprovalClasses (Prepared_Approval prepared)) = classes) as -> by by rewrite Hpkg.
  destruct Hout as [(_ & -> & -> & _)|(_ & Hne & -> & _)]; split; done.
Qed.

Example prepared_authority_covers_witness :
  map CStep_EffectID (Plan_Steps (Prepared_Plan demo_prep)) = releaseEffectIDs (P_Effects (demo_at 6)).
Proof. exact (proj1 (prepared_authority_covers _ _ _ _ _ _ demo_prepares)). Defined.

(** ** Dependencies on reads *)

Lemma releaseEffectIDs_elem (l : list Effect) id :
  id ∈ releaseEffectIDs l <-> exists effect, effect ∈ l /\ Effect_ID effect = id /\ Effect_RecoveryClass effect <> RecoveryReadOnly.
Proof.
  unfold releaseEffectIDs. rewrite elem_of_map. setoid_rewrite list_elem_of_In. setoid_rewrite filter_In.
  split; intros (effect & H); exists effect; destruct H as [H1 H2].
  - destruct H2 as [H2 H3]. bool_hyps. done.
  - destruct H2 as [H2 H3]. rewrite bool_decide_false by done. done.
Qed.

Lemma NoDup_map_inj {A B} (f : A -> B) l x y : NoDup (map f l) -> x ∈ l -> y ∈ l -> f x = f y -> x = y.
Proof.
  intros Hnd (i & Hi)%list_elem_of_lookup (j & Hj)%list_elem_of_lookup E.
  assert (i = j) as ->; [|congruence]. apply (NoDup_lookup _ i j (f x) Hnd); rewrite list_lookup_fmap.
  - by rewrite Hi.
  - by rewrite Hj, E.
Qed.

(** C31: an effect that depends on a read can never be released: although the
    reducer lets an effect depend on any earlier one, [PrepareAuthority] fails
    whenever an effect to be released depends on a read-only effect, because the
    plan it builds keeps the dependency and leaves the read-only step out. *)
Theorem read_dependency_never_prepared p decision policyDigest release now reader writer :
  NoDup (map Effect_ID (P_Effects p)) -> reader ∈ elems (P_Effects p) -> writer ∈ elems (P_Effects p) ->
  Effect_RecoveryClass reader = RecoveryReadOnly -> Effect_RecoveryClass writer <> RecoveryReadOnly ->
  Effect_ID reader ∈ elems (Effect_Dependencies writer) ->
  exists e, PrepareAuthority p decision policyDigest release now = Err e.
Proof.
  intros Hnd Hr Hw Hro Hnro Hdep. destruct (PrepareAuthority _ _ _ _ _) as [prepared|e] eqn:Hok; [exfalso|by exists e].
  destruct (PrepareAuthority_inv _ _ _ _ _ _ Hok) as [_ _ _ _ (comp & d & _ & _ & Hplan & Hval) _].
  assert (elems (Plan_Steps (Prepared_Plan prepared)) = commit_steps p) as Hsteps by by rewrite Hplan.
  assert (exists step, step ∈ commit_steps p /\ elems (CStep_DependsOn step) = elems (Effect_Dependencies writer)) as (step & Hin & Hd).
  { unfold commit_steps. assert (writer ∈ List.filter (fun effect => Effect_RecoveryClass effect !=? RecoveryReadOnly) (P_Effects p)) as Hwf.
    { rewrite list_elem_of_In, filter_In, <- list_elem_of_In. rewrite bool_decide_false by done. done. }
    apply list_elem_of_lookup in Hwf as (i & Hi). eexists. split.
    - apply list_elem_of_lookup. exists i. rewrite list_lookup_imap, Hi. reflexivity.
    - apply elems_clone. }
  rewrite <- Hsteps in Hin. rewrite <- Hd in Hdep.
  pose proof (commit_plan_dependencies _ _ _ Hval Hin Hdep) as Hid. rewrite Hsteps, commit_steps_ids in Hid.
  apply releaseEffectIDs_elem in Hid as (effect & He & Heq & Hne).
  by rewrite (NoDup_map_inj _ _ _ _ Hnd He Hr Heq) in Hne.
Qed.

(** A validated write that depends on a read. *)
Definition read_then_write : Projection := demo_at 6 <| P_Effects := SList [
  demo_effect <| Effect_ID := "r" |> <| Effect_RecoveryClass := RecoveryReadOnly |>;
  demo_effect <| Effect_Status := EffectValidated |> <| Effect_Sequence := 2 |> <| Effect_Dependencies := SList ["r"] |>] |>.

Example read_dependency_never_prepared_witness : exists e,
  PrepareAuthority read_then_write (mkSequenceDecision SequenceAllow (SList [])) (demo_digest "7")
    (mkReleaseBinding "git" (mkResourceSelector "branch" "main") "r1") demo_now = Err e.
Proof.
  apply (read_dependency_never_prepared read_then_write _ _ _ _
    (demo_effect <| Effect_ID := "r" |> <| Effect_RecoveryClass := RecoveryReadOnly |>)
    (demo_effect <| Effect_Status := EffectValidated |> <| Effect_Sequence := 2 |> <| Effect_Dependencies := SList ["r"] |>)).
  - apply (bool_decide_unpack _). vm_compute. exact I.
  - apply list_elem_of_lookup. exists 0%nat. reflexivity.
  - apply list_elem_of_lookup. exists 1%nat. reflexivity.
  - reflexivity.
  - discriminate.
  - apply list_elem_of_lookup. exists 0%nat. reflexivity.
Defined.
