(* ===== verification/PolicySafety.v ===== *)
(** * What the baseline sequence policy decides

    The outcome is the worst finding, grows along a transaction prefix, and
    blocks exactly the transactions that use authority they granted; the digest
    of the policy hides negative thresholds. *)
From S2P Require Import Prelude GoBase Json ModelTypes TransactionTypes SequencePolicy Demo.

(** ** The outcome is the worst finding *)

Definition rank := sequenceOutcomeRank.

Lemma worst_outcome_from findings o :
  let w := fold_left (fun outcome finding =>
      if sequenceOutcomeRank outcome <? sequenceOutcomeRank (Finding_Outcome finding)
      then Finding_Outcome finding else outcome) findings o in
  rank o <= rank w /\ (forall f, f ∈ findings -> rank (Finding_Outcome f) <= rank w) /\
  (w = o \/ exists f, f ∈ findings /\ Finding_Outcome f = w).
Proof.
  unfold rank. revert o. induction findings as [|f fs IH]; simpl; intros o.
  - split_and!; [lia|by intros ? ?%elem_of_nil|by left].
  - destruct (IH (if sequenceOutcomeRank o <? sequenceOutcomeRank (Finding_Outcome f) then Finding_Outcome f else o))
      as (Hle & Hall & Hex).
    assert (sequenceOutcomeRank o <= sequenceOutcomeRank (if sequenceOutcomeRank o <? sequenceOutcomeRank (Finding_Outcome f)
        then Finding_Outcome f else o) /\ sequenceOutcomeRank (Finding_Outcome f) <= sequenceOutcomeRank
        (if sequenceOutcomeRank o <? sequenceOutcomeRank (Finding_Outcome f) then Finding_Outcome f else o)) as [Ho Hf]
      by (destruct (Z.ltb_spec (sequenceOutcomeRank o) (sequenceOutcomeRank (Finding_Outcome f))); lia).
    split_and!; [lia| |].
    + intros g [->|Hg]%elem_of_cons; [lia|by apply Hall].
    + destruct Hex as [Hex|(g & Hg & Hgw)].
      * rewrite Hex. destruct (_ <? _); [right; exists f; split; [left|done]|by left].
      * right. exists g. split; [by right|done].
Qed.

Lemma worst_outcome_max findings :
  (forall f, f ∈ findings -> rank (Finding_Outcome f) <= rank (worst_outcome findings)) /\
  (worst_outcome findings = SequenceAllow \/ exists f, f ∈ findings /\ Finding_Outcome f = worst_outcome findings).
Proof. destruct (worst_outcome_from findings SequenceAllow) as (_ & ? & ?). done. Qed.

(** A set of findings that covers another has an outcome at least as bad. *)
Lemma worst_outcome_mono fs gs :
  (forall f, f ∈ fs -> exists g, g ∈ gs /\ rank (Finding_Outcome f) <= rank (Finding_Outcome g)) ->
  rank (worst_outcome fs) <= rank (worst_outcome gs).
Proof.
  intros Hcov. destruct (worst_outcome_max fs) as [_ [-> | (f & Hf & <-)]].
  - change (0 <= rank (worst_outcome gs)). unfold rank. destruct (worst_outcome gs); simpl; lia.
  - destruct (Hcov f Hf) as (g & Hg & Hle). destruct (worst_outcome_max gs) as [Hmax _]. specialize (Hmax g Hg). lia.
Qed.

Section Baseline.
Context `{UnicodeTables}.

(** ** Self-use of granted authority *)

Definition uses_own_grant (grants : list string) (effects : list Effect) : Prop :=
  exists k effect dependency, effects !! k = Some effect /\ is_grant effect = false /\
  dependency ∈ elems (Effect_Dependencies effect) /\
  (dependency ∈ grants \/
   exists j grant, (j < k)%nat /\ effects !! j = Some grant /\ is_grant grant = true /\ Effect_ID grant = dependency).

Lemma self_use_spec grants effects : is_Some (self_use grants effects) <-> uses_own_grant grants effects.
Proof.
  revert grants. induction effects as [|effect effects IH]; simpl; intros grants.
  - split; [by intros []|]. by intros (k & e & d & Hk & _).
  - destruct (is_grant effect) eqn:Eg.
    + rewrite IH. split.
      * intros (k & e & d & Hk & Hg & Hd & Hsrc). exists (S k), e, d. split_and!; [done..|].
        destruct Hsrc as [[->|Hin]%elem_of_cons|(j & g & Hj & Hlj & Hgj & Hid)].
        -- right. exists 0%nat, effect. split_and!; [lia|done..].
        -- by left.
        -- right. exists (S j), g. split_and!; [lia|done..].
      * intros (k & e & d & Hk & Hg & Hd & Hsrc). destruct k as [|k]; [simpl in Hk; congruence|].
        exists k, e, d. split_and!; [done..|]. destruct Hsrc as [Hin|(j & g & Hj & Hlj & Hgj & <-)]; [by left; right|].
        destruct j as [|j]; [simpl in Hlj; simplify_eq; by left; left|].
        right. exists j, g. split_and!; [lia|done..].
    + destruct (List.find (fun dependency => bool_decide (dependency ∈ grants)) (Effect_Dependencies effect)) as [d|] eqn:Ef.
      * split; [intros _|by eauto]. apply find_some in Ef as [Hin Hd]. bool_hyps.
        exists 0%nat, effect, d. split_and!; [done..| |by left]. by apply list_elem_of_In.
      * rewrite IH. split.
        -- intros (k & e & d & Hk & Hg & Hd & Hsrc). exists (S k), e, d. split_and!; [done..|].
           destruct Hsrc as [Hin|(j & g & Hj & Hlj & Hgj & Hid)]; [by left|].
           right. exists (S j), g. split_and!; [lia|done..].
        -- intros (k & e & d & Hk & Hg & Hd & Hsrc). destruct k as [|k].
           { exfalso. simpl in Hk. simplify_eq. apply list_elem_of_In in Hd. apply (find_none _ _ Ef) in Hd. bool_hyps.
             destruct Hsrc as [?|(j & _ & Hj & _)]; [done|lia]. }
           exists k, e, d. split_and!; [done..|]. destruct Hsrc as [Hin|(j & g & Hj & Hlj & Hgj & <-)]; [by left|].
           destruct j as [|j]; [simpl in Hlj; congruence|]. right. exists j, g. split_and!; [lia|done..].
Qed.

Lemma self_use_blocks grants effects f : self_use grants effects = Some f -> Finding_Outcome f = SequenceBlock.
Proof.
  revert grants. induction effects as [|effect effects IH]; simpl; intros grants; [done|].
  destruct (is_grant effect); [apply IH|]. destruct (List.find _ _); [by intros [= <-]|apply IH].
Qed.

Lemma uses_own_grant_app grants effects more : uses_own_grant grants effects -> uses_own_grant grants (effects ++ more).
Proof.
  intros (k & e & d & Hk & Hg & Hd & Hsrc). exists k, e, d. split_and!; [by apply lookup_app_l_Some|done..|].
  destruct Hsrc as [?|(j & g & Hj & Hlj & ?)]; [by left|right]. exists j, g. split_and!; try tauto. by apply lookup_app_l_Some.
Qed.

(** ** The findings of a longer prefix *)

Lemma effect_findings_outcome threshold effect f :
  f ∈ effect_findings threshold effect -> Finding_Outcome f = SequenceRequireApproval.
Proof.
  unfold effect_findings. intros [Hf|Hf]%elem_of_app; destruct (_ ==? _) || destruct (isLargeDatabaseDelete _ _);
    try (apply list_elem_of_singleton in Hf as ->; done); by apply elem_of_nil in Hf.
Qed.

Definition threshold_of (policy : BaselinePolicy) : Z :=
  if DatabaseDeleteApprovalRows policy =? 0 then 100 else DatabaseDeleteApprovalRows policy.

Definition self_use_findings (effects : list Effect) : list SequenceFinding :=
  match delegatedAuthoritySelfUse effects with Some finding => [finding] | None => [] end.

Definition findings_of (policy : BaselinePolicy) (effects : list Effect) : list SequenceFinding :=
  concat (map (effect_findings (threshold_of policy)) effects) ++ coupling_findings effects ++ self_use_findings effects.

Lemma Evaluate_findings policy effects :
  BaselinePolicy_Evaluate policy effects =
  {| Decision_Outcome := worst_outcome (findings_of policy effects);
     Decision_Findings := SList (findings_of policy effects) |}.
Proof. reflexivity. Qed.

Lemma coupling_outcome effects f : f ∈ coupling_findings effects -> Finding_Outcome f = SequenceRequireApproval.
Proof.
  unfold coupling_findings. destruct (control_effects effects), (evidence_effects effects);
    try by intros ?%elem_of_nil. by intros ->%list_elem_of_singleton.
Qed.

Lemma coupling_app effects more f :
  f ∈ coupling_findings effects -> exists g, g ∈ coupling_findings (effects ++ more) /\ Finding_Outcome g = Finding_Outcome f.
Proof.
  intros Hf. rewrite (coupling_outcome _ _ Hf). revert Hf.
  unfold coupling_findings, control_effects, evidence_effects. rewrite !List.filter_app.
  destruct (List.filter _ effects), (List.filter _ effects); simpl; try by intros ?%elem_of_nil.
  intros _. eexists. split; [by apply list_elem_of_singleton|done].
Qed.

Lemma findings_covered policy effects more f :
  f ∈ findings_of policy effects ->
  exists g, g ∈ findings_of policy (effects ++ more) /\ rank (Finding_Outcome f) <= rank (Finding_Outcome g).
Proof.
  unfold findings_of. rewrite !elem_of_app. intros [Hf|[Hf|Hf]].
  - exists f. split; [|lia]. rewrite map_app, concat_app, !elem_of_app. auto.
  - destruct (coupling_app _ more _ Hf) as (g & Hg & Ho). exists g. rewrite Ho. split; [|lia]. rewrite !elem_of_app. auto.
  - unfold self_use_findings, delegatedAuthoritySelfUse in *.
    destruct (self_use [] effects) as [f'|] eqn:E; [|by apply elem_of_nil in Hf].
    assert (is_Some (self_use [] (effects ++ more))) as [g Hg]
      by (apply self_use_spec, uses_own_grant_app, self_use_spec; eauto).
    exists g. rewrite Hg. rewrite !elem_of_app, list_elem_of_singleton. split; [auto|].
    rewrite (self_use_blocks _ _ _ Hg). destruct (Finding_Outcome f) eqn:Ef; try (unfold rank; simpl; lia).
    apply list_elem_of_singleton in Hf as ->. apply self_use_blocks in E. congruence.
Qed.

(** Only self-use is graver than asking for approval. *)
Lemma findings_cases policy effects f :
  f ∈ findings_of policy effects ->
  Finding_Outcome f = SequenceRequireApproval \/ f ∈ self_use_findings effects.
Proof.
  unfold findings_of. rewrite !elem_of_app. intros [Hf|[Hf|Hf]]; [left|left|by right].
  - apply list_elem_of_In, in_concat in Hf as (fs & Hfs & Hin). apply in_map_iff in Hfs as (effect & <- & _).
    by apply list_elem_of_In, effect_findings_outcome in Hin.
  - by apply coupling_outcome in Hf.
Qed.

Lemma self_use_findings_elem effects f : f ∈ self_use_findings effects <-> self_use [] effects = Some f.
Proof.
  unfold self_use_findings, delegatedAuthoritySelfUse. destruct (self_use [] effects) as [g|].
  - rewrite list_elem_of_singleton. naive_solver.
  - split; [by intros ?%elem_of_nil|done].
Qed.

(** C26: the decision is the worst of its findings: no finding is graver than
    the outcome, and the outcome is "allow" or that of some finding. *)
Theorem baseline_outcome_is_worst policy effects :
  (forall f, f ∈ elems (Decision_Findings (BaselinePolicy_Evaluate policy effects)) ->
     sequenceOutcomeRank (Finding_Outcome f) <= sequenceOutcomeRank (Decision_Outcome (BaselinePolicy_Evaluate policy effects))) /\
  (Decision_Outcome (BaselinePolicy_Evaluate policy effects) = SequenceAllow \/
   exists f, f ∈ elems (Decision_Findings (BaselinePolicy_Evaluate policy effects)) /\
     Finding_Outcome f = Decision_Outcome (BaselinePolicy_Evaluate policy effects)).
Proof. rewrite Evaluate_findings. apply worst_outcome_max. Qed.

(** C25: adding effects never improves a decision: the outcome on a transaction
    prefix is at most as grave as the outcome on any extension of it. *)
Theorem baseline_prefix_monotone policy effects more :
  sequenceOutcomeRank (Decision_Outcome (BaselinePolicy_Evaluate policy effects)) <=
  sequenceOutcomeRank (Decision_Outcome (BaselinePolicy_Evaluate policy (effects ++ more))).
Proof. rewrite !Evaluate_findings. apply worst_outcome_mono. intros f Hf. by apply findings_covered. Qed.

(** C24: the baseline policy blocks exactly the transactions that consume
    authority they granted: some effect that is not itself a grant depends on
    an earlier granting effect. *)
Theorem baseline_blocks_self_use policy effects :
  Decision_Outcome (BaselinePolicy_Evaluate policy effects) = SequenceBlock <->
  exists j k grant effect, (j < k)%nat /\ effects !! j = Some grant /\ effects !! k = Some effect /\
    is_grant grant = true /\ is_grant effect = false /\ Effect_ID grant ∈ elems (Effect_Dependencies effect).
Proof.
  rewrite Evaluate_findings. cbn [Decision_Outcome].
  assert (uses_own_grant [] effects <-> exists j k grant effect, (j < k)%nat /\ effects !! j = Some grant /\
    effects !! k = Some effect /\ is_grant grant = true /\ is_grant effect = false /\
    Effect_ID grant ∈ elems (Effect_Dependencies effect)) as <-.
  { split.
    - intros (k & e & d & Hk & He & Hd & [?%elem_of_nil|(j & g & Hj & Hg & Hgr & <-)]); [done|]. by exists j, k, g, e.
    - intros (j & k & g & e & Hj & Hg & Hk & Hgr & He & Hd). exists k, e, (Effect_ID g). split_and!; [done..|]. right. by exists j, g. }
  rewrite <- self_use_spec. destruct (worst_outcome_max (findings_of policy effects)) as [Hmax Hex]. split.
  - intros Hb. destruct Hex as [Ha|(f & Hf & Hfo)]; [congruence|].
    destruct (findings_cases _ _ _ Hf) as [?|Hs%self_use_findings_elem]; [congruence|by exists f].
  - intros [f Hf]. pose proof (self_use_blocks _ _ _ Hf) as Hfo.
    assert (f ∈ findings_of policy effects) as Hin
      by (unfold findings_of; rewrite !elem_of_app, self_use_findings_elem; auto).
    specialize (Hmax f Hin). rewrite Hfo in Hmax. destruct Hex as [Ha|(g & Hg & Hgo)]; [by rewrite Ha in Hmax|].
    rewrite <- Hgo in Hmax |- *. destruct (findings_cases _ _ _ Hg) as [Ho|Hs%self_use_findings_elem]; [by rewrite Ho in Hmax|].
    congruence.
Qed.

(** ** The policy digest *)

(** An allowed transaction has no finding at all. *)
Lemma allowed_no_finding policy effects :
  Decision_Outcome (BaselinePolicy_Evaluate policy effects) = SequenceAllow -> findings_of policy effects = [].
Proof.
  rewrite Evaluate_findings. cbn [Decision_Outcome]. intros Ho.
  destruct (findings_of policy effects) as [|f fs] eqn:E; [done|exfalso].
  destruct (worst_outcome_max (f :: fs)) as [Hmax _]. specialize (Hmax f (list_elem_of_here f fs)). rewrite Ho in Hmax.
  assert (f ∈ findings_of policy effects) as Hf by (rewrite E; left).
  destruct (findings_cases _ _ _ Hf) as [Hr|Hs%self_use_findings_elem%self_use_blocks];
    [rewrite Hr in Hmax|rewrite Hs in Hmax]; unfold rank in Hmax; simpl in Hmax; lia.
Qed.

(** Two policies whose thresholds differ find the same, large deletes apart. *)
Lemma findings_large_deletes policy policy' effects :
  findings_of policy effects = [] ->
  (forall f, f ∈ findings_of policy' effects -> Finding_Outcome f = SequenceRequireApproval) /\
  (findings_of policy' effects <> [] <-> exists effect, effect ∈ effects /\ isLargeDatabaseDelete effect (threshold_of policy') = true).
Proof.
  unfold findings_of. intros (He & (Hc & Hs)%app_eq_nil)%app_eq_nil. rewrite Hc, Hs, !app_nil_r.
  assert (forall effect, effect ∈ effects -> effect_findings (threshold_of policy) effect = []) as Hno.
  { intros effect Hin. destruct (effect_findings _ effect) as [|f fs] eqn:E; [done|exfalso].
    assert (f ∈ concat (map (effect_findings (threshold_of policy)) effects)) as Hf.
    { apply list_elem_of_In, in_concat. exists (f :: fs). split; [|by left]. rewrite <- E.
      apply in_map. by apply list_elem_of_In. }
    rewrite He in Hf. by apply elem_of_nil in Hf. }
  assert (forall f, f ∈ concat (map (effect_findings (threshold_of policy')) effects) <->
    exists effect, effect ∈ effects /\ f ∈ effect_findings (threshold_of policy') effect) as Hin.
  { intros f. rewrite list_elem_of_In, in_concat. setoid_rewrite in_map_iff. split.
    - intros (fs & (effect & <- & H1) & H2). exists effect. by rewrite !list_elem_of_In.
    - intros (effect & H1 & H2). rewrite !list_elem_of_In in *. eauto. }
  split; [by intros f (effect & _ & Hf)%Hin; eapply effect_findings_outcome|].
  split.
  - intros Hne. destruct (concat (map (effect_findings (threshold_of policy')) effects)) as [|f fs] eqn:E; [done|].
    destruct (proj1 (Hin f) (list_elem_of_here f fs)) as (effect & Heff & Hf). exists effect. split; [done|].
    specialize (Hno _ Heff). unfold effect_findings in Hno, Hf.
    destruct (isLargeDatabaseDelete effect (threshold_of policy')); [done|exfalso].
    apply app_eq_nil in Hno as [Hno _]. rewrite Hno in Hf. by apply elem_of_nil in Hf.
  - intros (effect & Heff & Hbig) Hnil.
    assert (exists f, f ∈ effect_findings (threshold_of policy') effect) as (f & Hf).
    { unfold effect_findings. rewrite Hbig. eexists. apply elem_of_app. right. by left. }
    assert (f ∈ []) as []%elem_of_nil. rewrite <- Hnil. apply Hin. eauto.
Qed.

(** Rows deleted from a database, and nothing else. *)
Definition database_delete (rows : Z) : Effect := zero_Effect
  <| Effect_ID := "e" |> <| Effect_System := "database" |> <| Effect_Operation := "delete" |>
  <| Effect_EstimatedScope := mkEffectScope (Some rows) None None |>.

Lemma database_delete_large rows t : isLargeDatabaseDelete (database_delete rows) t = (t <? rows).
Proof. reflexivity. Qed.

Lemma small_delete_allowed rows :
  rows <= 100 -> Decision_Outcome (BaselinePolicy_Evaluate (mkBaselinePolicy 100) [database_delete rows]) = SequenceAllow.
Proof.
  intros Hrows. rewrite Evaluate_findings. cbn [Decision_Outcome].
  replace (findings_of (mkBaselinePolicy 100) [database_delete rows]) with (@nil SequenceFinding); [done|].
  unfold findings_of. cbn [map concat]. rewrite app_nil_r. unfold effect_findings.
  rewrite database_delete_large. change (threshold_of (mkBaselinePolicy 100)) with 100.
  rewrite (proj2 (Z.ltb_ge 100 rows)) by lia. reflexivity.
Qed.

Lemma negative_threshold_decides t effects :
  t < 0 -> Decision_Outcome (BaselinePolicy_Evaluate (mkBaselinePolicy 100) effects) = SequenceAllow ->
  Decision_Outcome (BaselinePolicy_Evaluate (mkBaselinePolicy t) effects) =
    if existsb (fun effect => isLargeDatabaseDelete effect t) effects then SequenceRequireApproval else SequenceAllow.
Proof.
  intros Ht Hallow%allowed_no_finding. destruct (findings_large_deletes _ (mkBaselinePolicy t) _ Hallow) as [Hall Hne].
  assert (threshold_of (mkBaselinePolicy t) = t) as Et
    by (unfold threshold_of; simpl; by rewrite (proj2 (Z.eqb_neq t 0)) by lia).
  rewrite Et in Hne. rewrite Evaluate_findings. cbn [Decision_Outcome].
  destruct (worst_outcome_max (findings_of (mkBaselinePolicy t) effects)) as [Hmax Hex].
  destruct (existsb _ effects) eqn:E.
  - apply existsb_exists in E as (effect & Hin%list_elem_of_In & Hbig).
    destruct (findings_of (mkBaselinePolicy t) effects) as [|f fs] eqn:Ef; [exfalso; by apply Hne; eauto|].
    specialize (Hmax f (list_elem_of_here f fs)). rewrite (Hall f (list_elem_of_here f fs)) in Hmax.
    destruct Hex as [Ho|(g & Hg & <-)]; [rewrite Ho in Hmax; unfold rank in Hmax; simpl in Hmax; lia|by apply Hall].
  - destruct Hex as [Ho|(g & Hg & _)]; [done|exfalso].
    destruct (proj1 Hne) as (effect & Hin%list_elem_of_In & Hbig); [intros Hnil; rewrite Hnil in Hg; by apply elem_of_nil in Hg|].
    rewrite <- not_true_iff_false in E. apply E, existsb_exists. eauto.
Qed.

(** C34: the digest of a policy does not determine its decisions.  Every negative
    row threshold is digested as the default 100 but evaluated as it is: on
    effects the default policy allows, a policy with threshold [t] asks for
    approval exactly when they delete more than [t] rows of a database, and for
    every number of rows from zero to a hundred there are such effects. *)
Theorem policy_digest_conflates_thresholds t :
  t < 0 ->
  BaselinePolicy_Digest (mkBaselinePolicy t) = BaselinePolicy_Digest (mkBaselinePolicy 100) /\
  (forall effects,
     Decision_Outcome (BaselinePolicy_Evaluate (mkBaselinePolicy 100) effects) = SequenceAllow ->
     Decision_Outcome (BaselinePolicy_Evaluate (mkBaselinePolicy t) effects) =
       if existsb (fun effect => isLargeDatabaseDelete effect t) effects then SequenceRequireApproval else SequenceAllow) /\
  (forall rows, 0 <= rows <= 100 ->
     Decision_Outcome (BaselinePolicy_Evaluate (mkBaselinePolicy 100) [database_delete rows]) = SequenceAllow /\
     Decision_Outcome (BaselinePolicy_Evaluate (mkBaselinePolicy t) [database_delete rows]) = SequenceRequireApproval).
Proof.
  intros Ht.
  assert (forall effects,
     Decision_Outcome (BaselinePolicy_Evaluate (mkBaselinePolicy 100) effects) = SequenceAllow ->
     Decision_Outcome (BaselinePolicy_Evaluate (mkBaselinePolicy t) effects) =
       if existsb (fun effect => isLargeDatabaseDelete effect t) effects then SequenceRequireApproval else SequenceAllow)
    as Hdecides by (intros effects; by apply negative_threshold_decides).
  split; [|split; [done|]].
  - unfold BaselinePolicy_Digest. simpl. by rewrite (proj2 (Z.leb_le t 0)) by lia.
  - intros rows Hrows. pose proof (small_delete_allowed rows ltac:(lia)) as Hallow. split; [done|].
    rewrite (Hdecides _ Hallow). simpl. by rewrite (database_delete_large rows t), (proj2 (Z.ltb_lt t rows)) by lia.
Qed.

End Baseline.

(** Tables that map every rune outside ASCII to itself. *)
Definition identity_tables : UnicodeTables := fun r => r.

Example policy_digest_conflates_thresholds_witness :
  BaselinePolicy_Digest (mkBaselinePolicy (-1)) = BaselinePolicy_Digest (mkBaselinePolicy 100) /\
  Decision_Outcome (@BaselinePolicy_Evaluate identity_tables (mkBaselinePolicy (-1)) [database_delete 50]) =
    SequenceRequireApproval.
Proof.
  destruct (@policy_digest_conflates_thresholds identity_tables (-1)) as (Hd & _ & Hrows); [lia|].
  split; [exact Hd|]. apply (Hrows 50). lia.
Defined.
