(* ===== verification/ExecutionSafety.v ===== *)
(** * Agent executions

    Which executions a transaction may record: bound to its runs, task and
    stage bindings, identified uniquely, at most one of them running. *)
From S2P Require Import Prelude GoBase Json ModelTypes ModelValidate TransactionTypes TransactionDigest TransactionValidate TransactionProjection TransactionReducer TransactionEvents TransactionInvariants Demo.
From Stdlib Require Import Ascii.

(** ** The invariant *)

(** What an execution is checked against when it starts. *)
Definition execution_bound (p : Projection) (execution : AgentExecution) : Prop :=
  AgentExecution_Validate execution = Ok tt /\ Exec_TransactionID execution = Tx_ID (P_Transaction p) /\
  Exec_RunID execution ∈ elems (Tx_AgentRunIDs (P_Transaction p)) /\
  (exists binding, binding ∈ elems (Tx_StageBindings (P_Transaction p)) /\ Binding_ID binding = Exec_StageBindingID execution) /\
  (forall task, Tx_Task (P_Transaction p) = Some task ->
     Exec_TaskDigest execution = Task_Digest task /\ Exec_RunID execution = Task_RunID task /\
     Exec_RuntimeClass execution = Profile_RuntimeClass (Task_AgentProfile task) /\
     Exec_ImageDigest execution = Profile_ImageDigest (Task_AgentProfile task) /\
     Exec_CommandDigest execution = Profile_CommandDigest (Task_AgentProfile task)).

Record executions_inv (p : Projection) : Prop := {
  inv_bound : Forall (execution_bound p) (P_Executions p);
  inv_nodup : NoDup (map Exec_ID (P_Executions p));
  inv_active : forall i execution, elems (P_Executions p) !! i = Some execution ->
    Exec_Status execution = AgentExecutionRunning -> S i = length (P_Executions p);
}.

(** Everything but the stage bindings, which only grow. *)
Lemma executions_inv_ext p q :
  identity (P_Transaction q) = identity (P_Transaction p) ->
  elems (Tx_StageBindings (P_Transaction p)) ⊆ elems (Tx_StageBindings (P_Transaction q)) ->
  elems (P_Executions q) = elems (P_Executions p) -> executions_inv p -> executions_inv q.
Proof.
  unfold identity. intros Hid Hsub He [Hb Hnd Ha].
  constructor; rewrite He; [|done..]. eapply Forall_impl; [exact Hb|].
  intros execution (Hv & Htx & Hrun & (binding & Hin & Hbid) & Htask).
  assert (Tx_ID (P_Transaction q) = Tx_ID (P_Transaction p) /\ Tx_Task (P_Transaction q) = Tx_Task (P_Transaction p) /\
    elems (Tx_AgentRunIDs (P_Transaction q)) = elems (Tx_AgentRunIDs (P_Transaction p))) as (Eid & Etask & Eruns)
    by (split_and!; congruence).
  unfold execution_bound. rewrite Eid, Etask, Eruns. split_and!; try done. exists binding. split; [by apply Hsub|done].
Qed.

(** ** Starting and finishing *)

Lemma activeExecutionIndex_none executions :
  activeExecutionIndex executions = None ->
  forall i execution, executions !! i = Some execution -> Exec_Status execution <> AgentExecutionRunning.
Proof.
  unfold activeExecutionIndex. intros Hnone i execution Hi Hs.
  destruct (List.filter _ (indexed executions)) as [|x l] eqn:E.
  - assert ((i, execution) ∈ List.filter (fun '(_, execution) => Exec_Status execution ==? AgentExecutionRunning) (indexed executions)) as Hin.
    { apply list_elem_of_In, filter_In. split; [by apply list_elem_of_In, elem_of_indexed|]. by rewrite bool_decide_true. }
    rewrite E in Hin. by apply elem_of_nil in Hin.
  - rewrite last_cons in Hnone. by destruct (last l).
Qed.

Lemma stageBindingIndex_some bindings id index :
  stageBindingIndex bindings id = Some index -> exists binding, binding ∈ bindings /\ Binding_ID binding = id.
Proof.
  intros (binding & Hb & Hid)%index_where_some. bool_hyps. exists binding. split; [by eapply list_elem_of_lookup_2|done].
Qed.

Lemma applyAgentExecutionStarted_inv p e q :
  executions_inv p -> applyAgentExecutionStarted p e = Ok q -> executions_inv q.
Proof.
  intros [Hb Hnd Ha] H. unfold applyAgentExecutionStarted in H. res_inv H. bool_hyps.
  unfold stringContains in *. bool_hyps.
  destruct (activeExecutionIndex (P_Executions p)) as [|] eqn:Eact; [discriminate|].
  destruct (stageBindingIndex _ _) as [index|] eqn:Ebind; [|discriminate].
  pose proof (activeExecutionIndex_none _ Eact) as Hidle.
  match goal with G : match Tx_Task _ with _ => _ end = Ok tt |- _ => rename G into Htask end.
  match goal with G : each _ (elems (P_Executions p)) = Ok tt |- _ => rename G into Hfresh end.
  constructor; simpl.
  - apply Forall_app. split; [exact Hb|]. constructor; [|done]. unfold execution_bound. simpl. split_and!; try done.
    + by eapply stageBindingIndex_some.
    + intros task Ht. rewrite Ht in Htask. res_inv Htask. by bool_hyps.
  - rewrite map_app. apply NoDup_app. split_and!; [done| |apply NoDup_singleton].
    intros id (execution & -> & Hin)%elem_of_map Heq. simpl in Heq. apply list_elem_of_singleton in Heq.
    apply each_ok in Hfresh. rewrite Forall_forall in Hfresh. specialize (Hfresh _ Hin). simpl in Hfresh.
    by rewrite bool_decide_true in Hfresh.
  - intros i execution [Hi|[Hi Hl]]%lookup_app_Some Hs; [by destruct (Hidle _ _ Hi)|].
    apply list_lookup_singleton_Some in Hl as [Hz _]. rewrite length_app. simpl. lia.
Qed.

Lemma applyAgentExecutionFinished_inv p e q :
  executions_inv p -> applyAgentExecutionFinished p e = Ok q -> executions_inv q.
Proof.
  intros [Hb Hnd Ha] H. unfold applyAgentExecutionFinished in H. res_inv H. bool_hyps.
  match goal with G : elems (P_Executions p) !! ?i = Some ?x |- _ => rename G into Hi; set (index := i) in *; set (old := x) in * end.
  match goal with |- context [<[index := ?new_]> _] => set (new := new_) in * end.
  assert (elems (refill (P_Executions p) (<[index := new]> (elems (P_Executions p)))) = <[index := new]> (elems (P_Executions p))) as Hel.
  { apply elems_refill. intros Hnil. by rewrite Hnil in Hi. }
  constructor; simpl; rewrite Hel.
  - apply Forall_insert; [exact Hb|]. rewrite Forall_lookup in Hb. destruct (Hb _ _ Hi) as (_ & Hrest). by split.
  - replace (map Exec_ID (<[index := new]> (elems (P_Executions p)))) with (map Exec_ID (elems (P_Executions p))); [done|].
    change (fmap Exec_ID (elems (P_Executions p)) = fmap Exec_ID (<[index:=new]> (elems (P_Executions p)))).
    rewrite list_fmap_insert. symmetry. apply list_insert_id. rewrite list_lookup_fmap, Hi. done.
  - intros i execution Hl Hs. rewrite length_insert. destruct (decide (i = index)) as [->|Hne].
    + rewrite list_lookup_insert_eq in Hl by by eapply lookup_lt_Some. apply (inj Some) in Hl as <-.
      by eapply (Ha index old).
    + rewrite list_lookup_insert_ne in Hl by done. by eapply Ha.
Qed.

(** ** Every handler *)

Lemma enter_state_executions p payload now :
  P_Executions (enter_state p payload now) = P_Executions p /\
  Tx_StageBindings (P_Transaction (enter_state p payload now)) = Tx_StageBindings (P_Transaction p).
Proof. unfold enter_state. cbv zeta. by repeat case_match. Qed.

Lemma apply_handler_executions p e q : executions_inv p -> apply_handler p e = Ok q -> executions_inv q.
Proof.
  intros Hinv H. pose proof (apply_handler_identity _ _ _ H) as Hid. handler_cases H.
  12: by eapply applyAgentExecutionStarted_inv.
  12: by eapply applyAgentExecutionFinished_inv.
  1: { handler_inv H. apply (executions_inv_ext p); [exact Hid| | |done];
         destruct (enter_state_executions x0 x (Event_OccurredAt e)) as [He Hs]; rewrite ?He, ?Hs;
         (destruct (_ && _) in Hok1; [unfold beginNextAttempt in Hok1; res_inv Hok1; done|by apply ok_inj in Hok1 as <-]). }
  10: { apply (executions_inv_ext p); [exact Hid| | |done]; unfold applyApprovalResolution in H; res_inv H;
          unfold resolve_decision in Hok1; res_inv Hok1; done. }
  all: handler_inv H; apply (executions_inv_ext p); [exact Hid| |reflexivity|done]; simpl; try done.
  apply list_subseteq_app_l. done.
Qed.

Lemma Replay_executions es p : Replay es = Ok p -> executions_inv p.
Proof.
  apply (Replay_ind executions_inv).
  - intros e q (_ & _ & H)%Apply_none. unfold applyCreation in H. res_inv H. constructor; simpl; [done|constructor|done].
  - intros p0 e q Hinv (_ & r & Hr & -> & _)%Apply_inv.
    assert (executions_inv r) as Hr'.
    { eapply apply_handler_executions; [|exact Hr]. apply (executions_inv_ext p0); [apply clone_identity| | |done]; simpl; by rewrite elems_clone. }
    by apply (executions_inv_ext r).
Qed.

(** ** Theorems *)

(** C22: every execution a history records is bound to its transaction: it is
    structurally valid, runs under one of the transaction's agent runs in one of
    its stage bindings, and, when the transaction was admitted for a task, has
    the task's digest, run, runtime class, image and command.  Execution
    identifiers are unique, and at most one execution, the latest, is running. *)
Theorem executions_are_bound es p :
  Replay es = Ok p ->
  Forall (execution_bound p) (P_Executions p) /\ NoDup (map Exec_ID (P_Executions p)) /\
  (forall i j a b, elems (P_Executions p) !! i = Some a -> elems (P_Executions p) !! j = Some b ->
     Exec_Status a = AgentExecutionRunning -> Exec_Status b = AgentExecutionRunning -> i = j) /\
  (forall i a, elems (P_Executions p) !! i = Some a -> Exec_Status a = AgentExecutionRunning ->
     S i = length (P_Executions p)).
Proof.
  intros [Hb Hnd Ha]%Replay_executions. split_and!; [done..| |done].
  intros i j a b Hi Hj Hsa Hsb. pose proof (Ha _ _ Hi Hsa). pose proof (Ha _ _ Hj Hsb). lia.
Qed.

(** A run of the agent: bind a stage, start, finish. *)
Definition demo_binding : StageBinding := mkStageBinding "s" "git" (mkResourceSelector "repo" "x") "/w" "r0" demo_now.

Definition demo_execution : AgentExecution := zero_AgentExecution
  <| Exec_Version := AgentExecutionVersion |> <| Exec_ID := "x" |> <| Exec_TransactionID := "t" |>
  <| Exec_Attempt := 1 |> <| Exec_RunID := "run" |> <| Exec_StageBindingID := "s" |> <| Exec_Program := "agent" |>
  <| Exec_CommandDigest := demo_digest "1" |> <| Exec_RuntimeClass := "host" |>
  <| Exec_RuntimeConfigDigest := demo_digest "2" |> <| Exec_Status := AgentExecutionRunning |> <| Exec_StartedAt := demo_now |>.

Definition demo_run_log := Eval vm_compute in log_of (start_log
  (CreationEvent (demo_transaction <| Tx_AgentRunIDs := SList ["run"] |>) demo_service)
  [change_state TransactionCreated TransactionRunning "" [];
   demo_event StageBindingCreatedPayload_codec EventStageBindingCreated demo_service (mkStageBindingCreatedPayload demo_binding);
   demo_event AgentExecutionStartedPayload_codec EventAgentExecutionStarted demo_service (mkAgentExecutionStartedPayload demo_execution);
   demo_event AgentExecutionFinishedPayload_codec EventAgentExecutionFinished demo_service
     (mkAgentExecutionFinishedPayload "x" AgentExecutionSucceeded (Some 0) (demo_digest "3") (demo_digest "4") None)]).

Definition demo_run_events : list TransactionEvent := Eval cbv [demo_run_log map fst] in map fst demo_run_log.
Definition demo_run_projections : list Projection := Eval cbv [demo_run_log map snd] in map snd demo_run_log.

Lemma demo_run_trace : replay_trace None demo_run_events = Ok demo_run_projections.
Proof. vm_compute. reflexivity. Qed.

Definition demo_run_end : Projection := nth 4 demo_run_projections (demo_at 0).

Lemma demo_run_replay : Replay demo_run_events = Ok demo_run_end.
Proof. unfold Replay. rewrite (replay_trace_from _ _ _ demo_run_trace). reflexivity. Qed.

Example executions_are_bound_witness :
  length (P_Executions demo_run_end) = 1%nat /\ Forall (execution_bound demo_run_end) (P_Executions demo_run_end).
Proof. split; [reflexivity|]. exact (proj1 (executions_are_bound _ _ demo_run_replay)). Defined.

(** ** Model calls *)

(** The same execution with other outcomes of its model calls. *)
Definition with_outcomes (execution : AgentExecution) (broker : ModelBrokerExecution)
    (completed failed unknown : Z) : AgentExecution :=
  execution <| Exec_ModelBroker := Some (broker
    <| MBroker_CompletedCalls := completed |> <| MBroker_FailedCalls := failed |> <| MBroker_UnknownCalls := unknown |>) |>.

(** The sum of three non-negative counters, computed in int64. *)
Lemma wrapped_sum a b c n :
  0 <= a <= MaxInt64 -> 0 <= b <= MaxInt64 -> 0 <= c <= MaxInt64 -> 0 <= n <= MaxInt64 ->
  wrap64 (wrap64 (a + b) + c) = n <-> a + b + c = n \/ a + b + c = n + 2 ^ 64.
Proof.
  unfold MaxInt64, wrap64. intros Ha Hb Hc Hn.
  assert ((((a + b + 2 ^ 63) mod 2 ^ 64 - 2 ^ 63 + c) + 2 ^ 63) mod 2 ^ 64 = (a + b + c + 2 ^ 63) mod 2 ^ 64) as ->.
  { replace ((a + b + 2 ^ 63) mod 2 ^ 64 - 2 ^ 63 + c + 2 ^ 63) with ((a + b + 2 ^ 63) mod 2 ^ 64 + c) by lia.
    rewrite Z.add_mod_idemp_l by lia. f_equal. lia. }
  destruct (decide (a + b + c < 2 ^ 63)); [rewrite Z.mod_small; lia|].
  destruct (decide (a + b + c < 2 ^ 63 + 2 ^ 64)).
  - rewrite <- (Z.mod_unique_pos (a + b + c + 2 ^ 63) (2 ^ 64) 1 (a + b + c + 2 ^ 63 - 2 ^ 64)); lia.
  - lia.
Qed.

(** The counters of an accepted execution. *)
Lemma validated_broker execution broker :
  AgentExecution_Validate execution = Ok tt -> Exec_ModelBroker execution = Some broker ->
  0 <= MBroker_Calls broker <= MaxInt64.
Proof.
  intros H Hb. assert (validate_model_broker "AgentExecution" execution = Ok tt) as Hm
    by (unfold AgentExecution_Validate in H; repeat res_step H; done).
  unfold validate_model_broker in Hm. rewrite Hb in Hm. repeat res_step Hm. bool_hyps.
  match goal with G : wrap64 ?z = MBroker_Calls broker |- _ => pose proof (wrap64_range z) as Hr; rewrite G in Hr end.
  unfold int64_range in Hr. lia.
Qed.

(** One check passed by the first execution and, convertibly, by the second. *)
Ltac same_step H :=
  res_step H;
  lazymatch goal with
  | |- rbind ?c _ = _ <-> _ =>
    match goal with E : _ = Ok _ |- _ => assert (c = Ok tt) as -> by exact E; clear E end; cbn [rbind]
  | |- (if ?b then _ else _) = _ <-> _ =>
    match goal with E : _ = false |- _ => assert (b = false) as -> by exact E; clear E end
  end.

(** The counter check is the only one that looks at the outcomes. *)
Lemma broker_outcomes resource execution broker completed failed unknown :
  validate_model_broker resource execution = Ok tt -> Exec_ModelBroker execution = Some broker ->
  0 <= completed -> 0 <= failed -> 0 <= unknown ->
  validate_model_broker resource (with_outcomes execution broker completed failed unknown) = Ok tt <->
  wrap64 (wrap64 (completed + failed) + unknown) = MBroker_Calls broker.
Proof.
  intros H Hb Hc%Z.ltb_ge Hf%Z.ltb_ge Hu%Z.ltb_ge. unfold validate_model_broker in *. rewrite Hb in H.
  change (Exec_ModelBroker (with_outcomes execution broker completed failed unknown)) with (Some (broker
    <| MBroker_CompletedCalls := completed |> <| MBroker_FailedCalls := failed |> <| MBroker_UnknownCalls := unknown |>)).
  cbv iota beta. do 2 same_step H. res_step H.
  repeat match goal with G : _ || _ = false |- _ => apply orb_false_elim in G as [G ?] end.
  simpl. rewrite Hc, Hf, Hu.
  repeat match goal with G : (_ <? 0) = false |- _ => rewrite G; clear G end. simpl.
  res_step H. rewrite <- Z.eqb_eq. destruct (wrap64 (wrap64 (completed + failed) + unknown) =? _); simpl; [|done].
  by rewrite H.
Qed.

Lemma finished_outcomes resource execution broker completed failed unknown :
  Exec_ModelBroker execution = Some broker ->
  validate_finished resource (with_outcomes execution broker completed failed unknown) = validate_finished resource execution.
Proof. intros Hb. unfold validate_finished. by rewrite Hb. Qed.

Lemma with_outcomes_valid execution broker completed failed unknown :
  AgentExecution_Validate execution = Ok tt -> Exec_ModelBroker execution = Some broker ->
  Exec_Status execution <> AgentExecutionRunning -> 0 <= completed -> 0 <= failed -> 0 <= unknown ->
  AgentExecution_Validate (with_outcomes execution broker completed failed unknown) = Ok tt <->
  wrap64 (wrap64 (completed + failed) + unknown) = MBroker_Calls broker.
Proof.
  intros H Hb Hs Hc Hf Hu. unfold AgentExecution_Validate in *. cbv zeta in *.
  do 10 same_step H. res_step H.
  rewrite <- (broker_outcomes "AgentExecution" execution broker completed failed unknown Hok Hb Hc Hf Hu).
  destruct (validate_model_broker "AgentExecution" (with_outcomes _ _ _ _ _)) as [[]|]; cbn [rbind]; [|done].
  do 2 same_step H. rewrite finished_outcomes by done.
  change (Exec_Status (with_outcomes execution broker completed failed unknown)) with (Exec_Status execution).
  rewrite (bool_decide_false (Exec_Status execution = AgentExecutionRunning)) in H |- * by done. by rewrite H.
Qed.

(** C35: the check that completed, failed and unknown model calls add up to the
    calls made is done in int64 and wraps.  Take any settled execution that is
    accepted with a model broker summary, and replace the three outcome counters
    by any non-negative int64 values: it is accepted if and only if their sum is
    the number of calls, or exceeds it by exactly 2^64. *)
Theorem model_call_counts_wrap execution broker completed failed unknown :
  AgentExecution_Validate execution = Ok tt -> Exec_ModelBroker execution = Some broker ->
  Exec_Status execution <> AgentExecutionRunning ->
  0 <= completed <= MaxInt64 -> 0 <= failed <= MaxInt64 -> 0 <= unknown <= MaxInt64 ->
  AgentExecution_Validate (with_outcomes execution broker completed failed unknown) = Ok tt <->
  completed + failed + unknown = MBroker_Calls broker \/
  completed + failed + unknown = MBroker_Calls broker + 2 ^ 64.
Proof.
  intros H Hb Hs Hc Hf Hu. rewrite (with_outcomes_valid _ _ _ _ _ H Hb Hs) by lia.
  apply wrapped_sum; [done..|by eapply validated_broker].
Qed.

(** A settled execution without model calls. *)
Definition settled_broker : ModelBrokerExecution :=
  mkModelBrokerExecution "p" (demo_digest "6") (demo_digest "7") (demo_digest "8") 0 0 0 0 0 0.

Definition settled_execution : AgentExecution := demo_execution
  <| Exec_RuntimeClass := "oci" |> <| Exec_ImageDigest := demo_digest "5" |>
  <| Exec_Status := AgentExecutionSucceeded |> <| Exec_ExitCode := Some 0 |>
  <| Exec_StdoutDigest := demo_digest "3" |> <| Exec_StderrDigest := demo_digest "4" |>
  <| Exec_CompletedAt := Some demo_now |> <| Exec_ModelBroker := Some settled_broker |>.

(** It is accepted with more than 2^63 completed and failed calls as well. *)
Example model_call_counts_wrap_witness :
  AgentExecution_Validate (with_outcomes settled_execution settled_broker MaxInt64 MaxInt64 2) = Ok tt.
Proof.
  apply (model_call_counts_wrap settled_execution settled_broker MaxInt64 MaxInt64 2);
    [vm_compute; reflexivity|reflexivity|discriminate|unfold MaxInt64; lia..|].
  right. reflexivity.
Defined.

(** C30: below the overflow the check is exact: when the three counts fit in an
    int64 together, an accepted execution's calls are their sum. *)
Theorem model_call_counts_exact execution broker :
  AgentExecution_Validate execution = Ok tt -> Exec_ModelBroker execution = Some broker ->
  MBroker_CompletedCalls broker + MBroker_FailedCalls broker + MBroker_UnknownCalls broker <= MaxInt64 ->
  MBroker_Calls broker = MBroker_CompletedCalls broker + MBroker_FailedCalls broker + MBroker_UnknownCalls broker /\
  0 <= MBroker_CompletedCalls broker /\ 0 <= MBroker_FailedCalls broker /\ 0 <= MBroker_UnknownCalls broker.
Proof.
  intros H Hb Hsum.
  assert (validate_model_broker "AgentExecution" execution = Ok tt) as Hm
    by (unfold AgentExecution_Validate in H; repeat res_step H; done).
  unfold validate_model_broker in Hm. rewrite Hb in Hm. repeat res_step Hm. bool_hyps.
  rewrite !wrap64_id in * by (unfold int64_range, MaxInt64 in *; rewrite ?wrap64_id; unfold int64_range, MaxInt64; lia). lia.
Qed.

Example model_call_counts_exact_witness :
  MBroker_Calls (mkModelBrokerExecution "p" (demo_digest "6") (demo_digest "7") (demo_digest "8") 3 1 1 1 0 0) = 3.
Proof.
  refine (proj1 (model_call_counts_exact (settled_execution <| Exec_ModelBroker :=
    Some (mkModelBrokerExecution "p" (demo_digest "6") (demo_digest "7") (demo_digest "8") 3 1 1 1 0 0) |>) _ _ _ _)).
  - vm_compute. reflexivity.
  - reflexivity.
  - vm_compute. discriminate.
Defined.
