(* ===== verification/TransactionEventSafety.v ===== *)
(** * Events the kernel builds for itself

    [NextEvent] builds events the reducer's cursor checks accept, and the two
    digest checkers of the kernel agree. *)
From S2P Require Import Prelude GoBase Json ModelTypes ModelValidate TransactionTypes TransactionDigest TransactionValidate TransactionProjection TransactionReducer TransactionEvents Demo.
From Stdlib Require Import Ascii.

(** ** The two digest checkers *)

Lemma forallb_pointwise {A} (f g : A -> bool) l : (forall x, f x = g x) -> forallb f l = forallb g l.
Proof. intros H. induction l as [|x l IH]; simpl; [done|]. by rewrite H, IH. Qed.

(** C28: the reducer's own rune-by-rune digest check accepts exactly the strings
    the model's pattern accepts. *)
Theorem isDigest_is_IsSHA256Digest value : isDigest value = IsSHA256Digest value.
Proof.
  assert (forall r, between 48 r 57 || between 97 r 102 = true -> (r < 0x80)%N) as Hascii.
  { unfold between. intros r [[_ ?%N.leb_le]%andb_prop|[_ ?%N.leb_le]%andb_prop]%orb_prop; lia. }
  unfold isDigest, IsSHA256Digest, hex64_after.
  rewrite (forallb_runes (fun r => between 48 r 57 || between 97 r 102) _ Hascii), bytes_of_substring.
  rewrite <- length_bytes_of. change (String.length "sha256:") with 7%nat.
  assert ((String.substring 0 7 value ==? "sha256:") = (take 7 (bytes_of value) ==? bytes_of "sha256:")) as ->.
  { apply bool_decide_ext. rewrite <- (drop_0 (bytes_of value)) at 1. rewrite <- bytes_of_substring.
    split; [by intros ->|by intros ?%bytes_of_inj]. }
  destruct (length (bytes_of value) =? 71)%nat eqn:El.
  - apply Nat.eqb_eq in El. assert ((length (drop 7 (bytes_of value)) =? 64)%nat = true) as ->
      by (apply Nat.eqb_eq; rewrite length_drop; lia).
    rewrite (take_ge (drop 7 _)) by (rewrite length_drop; lia). simpl. rewrite andb_true_r. f_equal.
    apply forallb_pointwise. intros b. unfold hex_char, is_digit. apply orb_comm.
  - cbn [andb]. destruct (bool_decide (take 7 _ = _)) eqn:Ep; [|done]. bool_hyps. cbn [andb]. symmetry. apply andb_false_iff. left.
    apply Nat.eqb_neq. rewrite length_drop.
    assert (length (take 7 (bytes_of value)) = 7%nat) as Hl by (rewrite Ep; reflexivity).
    rewrite length_take in Hl. lia.
Qed.

(** ** NextEvent *)

(** C27: an event [NextEvent] builds on a projection always passes the reducer's
    cursor checks: its digest, transaction, sequence number, chain link and time
    are never the reason it is refused, so that [Apply] is the event's own
    validation followed by its handler. *)
Theorem next_event_passes_cursor {T} (c : Codec T) p eventType actor occurredAt payload e :
  NextEvent c p eventType actor occurredAt payload = Ok e -> eventType <> EventTransactionCreated ->
  Apply (Some p) e =
    (check TransactionEvent_Validate e ;;
     let? next := apply_handler (cloneProjection p) e in
     check AgentTransaction_Validate (P_Transaction (advanced next e)) ;; Ok (advanced next e)).
Proof.
  intros (Htx & Hseq & Htype & _ & Htime & _ & Hprev & Hver)%NextEvent_fields Hne.
  unfold Apply. rewrite Hver. cbn [negb]. rewrite Htx, Hseq, Hprev, Htype, Htime, event_time_after.
  rewrite !(bool_decide_true (_ = _)) by done. rewrite Z.eqb_refl. rewrite bool_decide_false by done. done.
Qed.

Example next_event_passes_cursor_witness :
  Apply (Some (demo_at 0)) (demo_ev 1) =
    (check TransactionEvent_Validate (demo_ev 1) ;;
     let? next := apply_handler (cloneProjection (demo_at 0)) (demo_ev 1) in
     check AgentTransaction_Validate (P_Transaction (advanced next (demo_ev 1))) ;; Ok (advanced next (demo_ev 1))).
Proof.
  apply (next_event_passes_cursor TransactionStateChangedPayload_codec (demo_at 0) EventTransactionStateChanged demo_service demo_now
    (mkTransactionStateChangedPayload TransactionCreated TransactionRunning "" (SList []))); [vm_compute; reflexivity|discriminate].
Defined.
