(* ===== verification/RunDemo.v ===== *)
(** * A concrete run

    A run from its creation through one execution to its cancellation, and one
    grant installed after the end, built with [NextRunEvent] and replayed by
    [ApplyRun].  The witnesses of the run theorems instantiate them here. *)
From S2P Require Import Prelude GoBase Sha256 Json ModelTypes ModelValidate TransactionTypes RunTypes RunValidate RunReducer Demo.
From Stdlib Require Import Ascii.

Definition run_builder : Type := RunProjection -> result RunEvent.

(** One builder after the other; the log pairs every event with the projection
    after it. *)
Fixpoint build_run_log (current : RunProjection) (builders : list run_builder) : result (list (RunEvent * RunProjection)) :=
  match builders with
  | [] => Ok []
  | build :: builders' =>
    let? event := build current in
    let? next := ApplyRun (Some current) event in
    let? log := build_run_log next builders' in
    Ok ((event, next) :: log)
  end.

Definition rundemo_run : AgentRun := zero_AgentRun
  <| Run_Version := AgentRunVersion |> <| Run_ID := "run" |> <| Run_Namespace := "n" |>
  <| Run_ImageDigest := demo_digest "1" |> <| Run_ContractDigest := demo_digest "2" |>
  <| Run_Principal := mkPrincipal "run" PrincipalRun "" "" |> <| Run_State := RunCreated |>
  <| Run_BudgetLimits := zero_BudgetLimits <| Limits_MaxModelCalls := Some 5 |> |>
  <| Run_EventSequence := 1 |> <| Run_CreatedAt := demo_now |> <| Run_UpdatedAt := demo_now |>.

Definition rundemo_grant (id : string) : CapabilityGrant := zero_CapabilityGrant
  <| Grant_Version := CapabilityGrantVersion |> <| Grant_ID := id |> <| Grant_SubjectRunID := "run" |>
  <| Grant_Issuer := demo_service |> <| Grant_Resource := mkResourceSelector "repo" "x" |>
  <| Grant_Operations := SList ["read"] |> <| Grant_IssuedAt := demo_now |>
  <| Grant_ExpiresAt := Add demo_now Hour |> <| Grant_PolicyDecisionID := "policy" |>.

Definition run_event {T} (c : Codec T) (type : string) (payload : T) : run_builder :=
  fun p => NextRunEvent c p type demo_service demo_now payload.

Definition grant_capability (id : string) : run_builder :=
  run_event CapabilitiesGrantedPayload_codec EventCapabilitiesGranted
    (mkCapabilitiesGrantedPayload (demo_digest "2") (SList [rundemo_grant id])).

Definition change_run (from to : RunState) (reason : string) : run_builder :=
  run_event RunStateChangedPayload_codec EventRunStateChanged (mkRunStateChangedPayload from to reason).

(** The creation event: what [NextRunEvent] builds, renumbered as the first. *)
Definition rundemo_creation : result RunEvent :=
  match Marshal RunCreatedPayload_codec (mkRunCreatedPayload rundemo_run) with
  | None => Err run_encoding_error
  | Some data =>
    let event := zero_RunEvent
      <| RunEvent_Version := RunEventVersion |> <| RunEvent_ID := RunEventID "run" 1 |> <| RunEvent_RunID := "run" |>
      <| RunEvent_Sequence := 1 |> <| RunEvent_Type := EventRunCreated |> <| RunEvent_Actor := demo_service |>
      <| RunEvent_OccurredAt := demo_now |> <| RunEvent_Payload := data |> in
    match ComputeEventDigest event with
    | None => Err run_encoding_error
    | Some digest => Ok (event <| RunEvent_Digest := digest |>)
    end
  end.

Definition rundemo_log := Eval vm_compute in
  match
    (let? event := rundemo_creation in
     let? first := ApplyRun None event in
     let? log := build_run_log first [
       grant_capability "g";
       change_run RunCreated RunAdmitted "";
       run_event RunExecutionStartedPayload_codec EventRunExecutionStarted (mkRunExecutionStartedPayload "t" "x" 1);
       run_event RunExecutionFinishedPayload_codec EventRunExecutionFinished
         (mkRunExecutionFinishedPayload "t" "x" 1 AgentExecutionSucceeded (mkBudgetUsage 10 20 1 0 5 60));
       change_run RunWaitingForEvent RunCancelled "done";
       grant_capability "late"] in
     Ok ((event, first) :: log))
  with Ok log => log | Err _ => [] end.

Definition rundemo_events : list RunEvent := Eval cbv [rundemo_log map fst] in map fst rundemo_log.

(** The projection after [n + 1] events. *)
Definition rundemo_at (n : nat) : RunProjection := nth n (map snd rundemo_log) (mkRunProjection zero_AgentRun "").

(** Running, ended, and ended with one more grant. *)
Lemma rundemo_running : ReplayRun (take 4 rundemo_events) = Ok (rundemo_at 3).
Proof. vm_compute. reflexivity. Qed.

Lemma rundemo_ended : ReplayRun (take 6 rundemo_events) = Ok (rundemo_at 5).
Proof. vm_compute. reflexivity. Qed.

Lemma rundemo_after : replay_run_from (Some (rundemo_at 5)) (drop 6 rundemo_events) = Ok (Some (rundemo_at 6)).
Proof. vm_compute. reflexivity. Qed.
