(* ===== verification/RunSafety.v ===== *)
(** * The run ledger: execution lock, budget, lifecycle, capabilities

    The run reducer as an event ledger, its refinement of a lock held by at
    most one execution, the exact accounting of the budget, the life cycle of a
    run and the provenance of its capabilities. *)
From S2P Require Import Prelude GoBase EventLedger Json ModelTypes ModelValidate TransactionTypes TransactionValidate RunTypes RunValidate RunReducer Demo RunDemo.

(** ** Inversion *)

Definition run_advanced (run : AgentRun) (e : RunEvent) : RunProjection :=
  mkRunProjection (run <| Run_EventSequence := RunEvent_Sequence e |> <| Run_UpdatedAt := RunEvent_OccurredAt e |>)
    (RunEvent_Digest e).

(** The guards every event after the first one passes. *)
Definition run_cursor_ok (p : RunProjection) (e : RunEvent) : Prop :=
  RunEvent_Validate e = Ok tt /\ RunEvent_RunID e = Run_ID (RP_Run p) /\
  RunEvent_Sequence e = wrap64 (Run_EventSequence (RP_Run p) + 1) /\
  RunEvent_PreviousDigest e = RP_LastEventDigest p /\
  Time_ns (Run_UpdatedAt (RP_Run p)) <= Time_ns (RunEvent_OccurredAt e) /\ RunEvent_Type e <> EventRunCreated.

Lemma ApplyRun_inv p e q :
  ApplyRun (Some p) e = Ok q ->
  run_cursor_ok p e /\ exists run, apply_run_handler (RP_Run p) e = Ok run /\ q = run_advanced run e /\
  AgentRun_Validate (RP_Run q) = Ok tt.
Proof.
  intros H. unfold ApplyRun in H. res_inv H. unfold Before in *. bool_hyps.
  unfold run_cursor_ok. split; [naive_solver|]. eauto.
Qed.

Lemma ApplyRun_none e p :
  ApplyRun None e = Ok p ->
  RunEvent_Validate e = Ok tt /\ RunEvent_Sequence e = 1 /\ RunEvent_Type e = EventRunCreated /\
  exists payload, DecodePayloadStrict RunCreatedPayload_codec e = Ok payload /\
  p = mkRunProjection (RunCreated_Run payload) (RunEvent_Digest e) /\
  AgentRun_Validate (RP_Run p) = Ok tt /\ Run_ID (RP_Run p) = RunEvent_RunID e /\ Run_State (RP_Run p) = RunCreated /\
  Run_EventSequence (RP_Run p) = 1 /\ Time_ns (Run_UpdatedAt (RP_Run p)) = Time_ns (RunEvent_OccurredAt e).
Proof.
  intros H. unfold ApplyRun in H. res_step H. unfold applyRunCreation in H. res_inv H. unfold Equal in *. bool_hyps.
  split_and!; [done..|]. eexists. split; [done|]. by split_and!.
Qed.

(** The handlers behind one dispatched event. *)
Ltac run_handler_cases H :=
  unfold apply_run_handler in H;
  repeat lazymatch type of H with
  | (if ?b then _ else _) = Ok _ =>
    let E := fresh "Htype" in destruct b eqn:E
  end;
  [.. | discriminate H];
  unfold applyRunStateChanged, applyCapabilitiesGranted, applyActionRequested, applyActionDecision,
    applyActionExecuting, applyActionResult, applyExecutionStarted, applyExecutionFinished in H;
  res_inv H; bool_hyps.

(** ** The run reducer as an event ledger *)

#[export] Instance run_ledger : EventLedger RunProjection RunEvent := {|
  ledger_apply := ApplyRun;
  ledger_owner p := Run_ID (RP_Run p);
  ledger_sequence p := Run_EventSequence (RP_Run p);
  ledger_head := RP_LastEventDigest;
  ledger_updated p := Run_UpdatedAt (RP_Run p);
  event_owner := RunEvent_RunID;
  event_sequence := RunEvent_Sequence;
  event_previous := RunEvent_PreviousDigest;
  event_digest := RunEvent_Digest;
  event_at := RunEvent_OccurredAt;
  event_accepted e := RunEvent_Validate e = Ok tt;
|}.

Lemma replay_run_from_ledger p es : replay_run_from p es = ledger_from p es.
Proof. revert p. induction es as [|e es IH]; intros p; simpl; [done|]. destruct (ApplyRun p e); simpl; auto. Qed.

Lemma ReplayRun_reaches es p : ReplayRun es = Ok p <-> reaches es p.
Proof.
  unfold ReplayRun, reaches. rewrite replay_run_from_ledger.
  destruct (ledger_from None es) as [[q|]|e]; simpl; naive_solver.
Qed.

Lemma ReplayRun_history_ind (I : list RunEvent -> RunProjection -> Prop) :
  (forall e p, ApplyRun None e = Ok p -> I [e] p) ->
  (forall es p e q, ReplayRun es = Ok p -> I es p -> ApplyRun (Some p) e = Ok q -> I (es ++ [e]) q) ->
  forall es p, ReplayRun es = Ok p -> I es p.
Proof.
  intros Hnew Hstep es p H%ReplayRun_reaches.
  refine (proj2 (reaches_history_ind (fun es p => reaches es p /\ I es p) _ _ es p H)).
  - intros e q He. split; [exact (f_equal (fun r => rbind r (fun x => Ok (Some x))) He)|auto].
  - intros es' p' e q [Hr HI] He. split; [by eapply reaches_snoc|].
    eapply Hstep; [by apply ReplayRun_reaches|done..].
Qed.

(** ** Identity *)

(** The fields no event changes. *)
Definition run_identity (run : AgentRun) :=
  (Run_ID run, Run_Namespace run, Run_ImageDigest run, Run_ContractDigest run, Run_Principal run,
   Run_ParentRunID run, Run_BudgetLimits run, Run_CreatedAt run).

Lemma apply_run_handler_identity run e run' :
  apply_run_handler run e = Ok run' -> run_identity run' = run_identity run.
Proof. intros H. run_handler_cases H; reflexivity. Qed.

Lemma ApplyRun_identity p e q : ApplyRun (Some p) e = Ok q -> run_identity (RP_Run q) = run_identity (RP_Run p).
Proof. intros (_ & run & Hr & -> & _)%ApplyRun_inv. by rewrite <- (apply_run_handler_identity _ _ _ Hr). Qed.

#[export] Instance run_ledger_laws : LedgerLaws RunProjection RunEvent.
Proof.
  split.
  - intros e p (Hv & Hs & _ & payload & _ & -> & _ & Hid & _ & Hseq & Hup)%ApplyRun_none.
    split; [exact Hs|]. split; [exact Hv|]. split; [exact Hid|]. split; [by cbn in *; congruence|]. done.
  - intros p e q HA. pose proof (ApplyRun_identity _ _ _ HA) as Hid. unfold run_identity in Hid.
    assert (Run_ID (RP_Run q) = Run_ID (RP_Run p)) as HID by congruence. clear Hid.
    apply ApplyRun_inv in HA as ((Hval & Hrun & Hsq & Hprev & Hle & _) & r & _ & -> & _).
    split; [exact Hrun|]. split; [exact Hprev|]. split; [exact Hsq|]. split.
    { unfold RunEvent_Validate in Hval. res_inv Hval. bool_hyps. cbn. lia. }
    split; [exact Hle|]. split; [exact Hval|]. split; [exact (eq_trans HID (eq_sym Hrun))|done].
Qed.

(** ** The execution lock *)

(** What a run promises of its executions, in the abstract: a lock that one
    execution may hold.  Starting takes it, settling the same execution gives
    it back, and nothing else touches it. *)
Definition lock_step (held : option string) (e : RunEvent) : option (option string) :=
  if RunEvent_Type e ==? EventRunExecutionStarted then
    match held, DecodePayloadStrict RunExecutionStartedPayload_codec e with
    | None, Ok payload => Some (Some (RunExecStarted_ExecutionID payload))
    | _, _ => None
    end
  else if RunEvent_Type e ==? EventRunExecutionFinished then
    match held, DecodePayloadStrict RunExecutionFinishedPayload_codec e with
    | Some owner, Ok payload => if RunExecFinished_ExecutionID payload ==? owner then Some None else None
    | _, _ => None
    end
  else Some held.

Fixpoint lock_run (held : option string) (es : list RunEvent) : option (option string) :=
  match es with
  | [] => Some held
  | e :: es' => held' ← lock_step held e; lock_run held' es'
  end.

Lemma lock_run_snoc held es e : lock_run held (es ++ [e]) = (held' ← lock_run held es; lock_step held' e).
Proof.
  revert held. induction es as [|x es IH]; intros held; simpl.
  - by destruct (lock_step held e).
  - by destruct (lock_step held x); simpl.
Qed.

(** Who holds the lock according to a run. *)
Definition lock_of (run : AgentRun) : option string :=
  if Run_ActiveExecutionID run ==? "" then None else Some (Run_ActiveExecutionID run).

Lemma lock_of_none run : Run_ActiveExecutionID run = "" -> lock_of run = None.
Proof. unfold lock_of. intros ->. done. Qed.

Lemma lock_of_some run : Run_ActiveExecutionID run <> "" -> lock_of run = Some (Run_ActiveExecutionID run).
Proof. intros H. unfold lock_of. by rewrite bool_decide_false. Qed.

Lemma identifier_nonempty s : IsIdentifier s = true -> s <> "".
Proof. by intros H ->. Qed.

Lemma dispatch_started run e :
  RunEvent_Type e = EventRunExecutionStarted ->
  apply_run_handler run e =
    (let? payload := DecodePayloadStrict RunExecutionStartedPayload_codec e in applyExecutionStarted run payload).
Proof. unfold apply_run_handler. by intros ->. Qed.

Lemma dispatch_finished run e :
  RunEvent_Type e = EventRunExecutionFinished ->
  apply_run_handler run e =
    (let? payload := DecodePayloadStrict RunExecutionFinishedPayload_codec e in applyExecutionFinished run payload).
Proof. unfold apply_run_handler. by intros ->. Qed.

(** Only the two execution events touch the owner and the budget. *)
Lemma apply_run_handler_owner run e run' :
  apply_run_handler run e = Ok run' ->
  RunEvent_Type e <> EventRunExecutionStarted -> RunEvent_Type e <> EventRunExecutionFinished ->
  Run_ActiveExecutionID run' = Run_ActiveExecutionID run /\ Run_BudgetUsage run' = Run_BudgetUsage run.
Proof. intros H Hs Hf. run_handler_cases H; try done; congruence. Qed.

Lemma apply_run_handler_lock run e run' :
  apply_run_handler run e = Ok run' -> lock_step (lock_of run) e = Some (lock_of run').
Proof.
  intros H. unfold lock_step.
  destruct (decide (RunEvent_Type e = EventRunExecutionStarted)) as [Hs|Hs];
    [rewrite bool_decide_true by done; rewrite (dispatch_started _ _ Hs) in H
    |rewrite bool_decide_false by done;
     destruct (decide (RunEvent_Type e = EventRunExecutionFinished)) as [Hf|Hf];
     [rewrite bool_decide_true by done; rewrite (dispatch_finished _ _ Hf) in H|rewrite bool_decide_false by done]].
  - unfold applyExecutionStarted in H. res_inv H. bool_hyps. rewrite (lock_of_none run) by done.
    match goal with G : DecodePayloadStrict _ e = Ok _ |- _ => rewrite G end.
    rewrite lock_of_some; [done|]. by apply identifier_nonempty.
  - unfold applyExecutionFinished in H. res_inv H. bool_hyps.
    match goal with G : Run_ActiveExecutionID run = _ |- _ => rename G into Hown end.
    match goal with G : IsIdentifier (RunExecFinished_ExecutionID _) = true |- _ => apply identifier_nonempty in G end.
    match goal with G : DecodePayloadStrict _ e = Ok _ |- _ => rewrite G end.
    rewrite (lock_of_some run) by congruence. rewrite bool_decide_true by done. done.
  - destruct (apply_run_handler_owner _ _ _ H Hs Hf) as [Ho _]. unfold lock_of. by rewrite Ho.
Qed.

Lemma validated_run_owner run :
  AgentRun_Validate run = Ok tt -> Run_ActiveExecutionID run <> "" -> Run_State run = RunRunning.
Proof.
  intros H Hne. unfold AgentRun_Validate in H. do 17 res_step H. clear H.
  match goal with G : (if Run_ActiveExecutionID run !=? "" then _ else _) = Ok tt |- _ => rename G into Hact end.
  rewrite bool_decide_false in Hact by done. simpl in Hact. res_inv Hact. by bool_hyps.
Qed.

Lemma ReplayRun_valid es p : ReplayRun es = Ok p -> AgentRun_Validate (RP_Run p) = Ok tt.
Proof.
  revert es p. apply (ReplayRun_history_ind (fun _ p => AgentRun_Validate (RP_Run p) = Ok tt)).
  - intros e p H%ApplyRun_none. naive_solver.
  - intros es p e q _ _ H%ApplyRun_inv. naive_solver.
Qed.

(** C9: the run ledger refines a lock held by at most one execution: whatever
    events a replayed run has seen, its starts and settlements alternate, each
    settlement names the execution that started last, the run's active execution
    is exactly the holder, and a held lock means the run is running. *)
Theorem run_execution_lock es p :
  ReplayRun es = Ok p ->
  lock_run None es = Some (lock_of (RP_Run p)) /\
  (lock_of (RP_Run p) <> None -> Run_State (RP_Run p) = RunRunning).
Proof.
  intros H. split.
  - revert es p H. apply ReplayRun_history_ind.
    + intros e p (_ & _ & Ht & payload & _ & -> & Hv & _ & Hstate & _)%ApplyRun_none. simpl in *.
      unfold lock_step. rewrite Ht. simpl. f_equal. symmetry. apply lock_of_none.
      destruct (decide (Run_ActiveExecutionID (RunCreated_Run payload) = "")) as [|Hne]; [done|].
      by rewrite (validated_run_owner _ Hv Hne) in Hstate.
    + intros es p e q _ IH (_ & r & Hr & -> & _)%ApplyRun_inv. rewrite lock_run_snoc, IH. simpl.
      by rewrite (apply_run_handler_lock _ _ _ Hr).
  - intros Hl. apply ReplayRun_valid in H. apply (validated_run_owner _ H). intros E. by rewrite lock_of_none in Hl.
Qed.

Example run_execution_lock_witness :
  lock_run None (take 4 rundemo_events) = Some (Some "x") /\ Run_State (RP_Run (rundemo_at 3)) = RunRunning.
Proof.
  destruct (run_execution_lock _ _ rundemo_running) as [Hl Hs].
  split; [exact Hl|]. apply Hs. discriminate.
Defined.

(** ** The budget *)

(** The six counters. *)
Definition counters : list (BudgetUsage -> Z) :=
  [Usage_InputTokens; Usage_OutputTokens; Usage_ModelCalls; Usage_ToolCalls; Usage_CostMicros; Usage_WallTimeSeconds].

Definition usage_in_range (usage : BudgetUsage) : Prop := forall f, f ∈ counters -> int64_range (f usage).

Lemma charge_exact name current delta total :
  0 <= current <= MaxInt64 ->
  charge name current delta = Ok total <-> 0 <= delta /\ current + delta <= MaxInt64 /\ total = current + delta.
Proof.
  intros Hc. unfold charge. rewrite (wrap64_id (MaxInt64 - current)) by (unfold int64_range, MaxInt64 in *; lia).
  destruct ((delta <? 0) || _) eqn:E.
  - split; [done|]. intros (? & ? & _). apply orb_true_iff in E as [E|E]; lia.
  - apply orb_false_iff in E as [E1 E2]. rewrite wrap64_id by (unfold int64_range, MaxInt64 in *; lia).
    split; [intros <-%ok_inj; lia|]. intros (_ & _ & ->). done.
Qed.

Lemma addBudgetUsage_exact current delta total :
  (forall f, f ∈ counters -> 0 <= f current <= MaxInt64) ->
  addBudgetUsage current delta = Ok total <->
  (forall f, f ∈ counters -> 0 <= f delta /\ f current + f delta <= MaxInt64 /\ f total = f current + f delta).
Proof.
  intros Hc. rewrite <- Forall_forall in Hc. unfold counters in Hc. rewrite !Forall_cons in Hc.
  destruct Hc as (H1 & H2 & H3 & H4 & H5 & H6 & _). rewrite <- Forall_forall. unfold counters. rewrite !Forall_cons.
  unfold addBudgetUsage. split.
  - intros H. res_inv H. rewrite charge_exact in * by done. simpl. repeat split; try done; lia.
  - intros (G1 & G2 & G3 & G4 & G5 & G6 & _).
    rewrite (proj2 (charge_exact _ _ _ _ H1) G1), (proj2 (charge_exact _ _ _ _ H2) G2),
      (proj2 (charge_exact _ _ _ _ H3) G3), (proj2 (charge_exact _ _ _ _ H4) G4),
      (proj2 (charge_exact _ _ _ _ H5) G5), (proj2 (charge_exact _ _ _ _ H6) G6). by destruct total.
Qed.

(** What one event charges. *)
Definition charged (e : RunEvent) : BudgetUsage :=
  if RunEvent_Type e ==? EventRunExecutionFinished then
    match DecodePayloadStrict RunExecutionFinishedPayload_codec e with
    | Ok payload => RunExecFinished_Usage payload
    | Err _ => zero_BudgetUsage
    end
  else zero_BudgetUsage.

Definition total (f : BudgetUsage -> Z) (es : list RunEvent) : Z := foldr Z.add 0 (map (fun e => f (charged e)) es).

Lemma total_snoc f es e : total f (es ++ [e]) = total f es + f (charged e).
Proof. unfold total. induction es as [|x es IH]; simpl; lia. Qed.

Lemma zero_counters f : f ∈ counters -> f zero_BudgetUsage = 0.
Proof. revert f. apply Forall_forall. by repeat constructor. Qed.

(** One goal per field of a struct codec. *)
Ltac each_field :=
  repeat lazymatch goal with
  | |- Forall _ (_ :: _) => apply Forall_cons_2; [apply make_field_keeps|]
  | |- Forall _ [] => apply Forall_nil_2
  | |- Forall _ ?fs => unfold fs
  end.

(** Decoded counters are int64 values. *)
Lemma BudgetUsage_decodes_to : decodes_to BudgetUsage_codec usage_in_range.
Proof.
  apply struct_decodes_to.
  - intros f Hf. rewrite (zero_counters _ Hf). unfold int64_range, MaxInt64. lia.
  - each_field; intros r v Hr [j Hj];
      (eapply (proj2 int64_decodes_to) in Hj; [|apply Hr; unfold counters; set_solver]);
      intros f Hf; unfold counters in Hf; rewrite !elem_of_cons in Hf;
      destruct Hf as [->|[->|[->|[->|[->|[->|Hf%elem_of_nil]]]]]]; try done; apply Hr; unfold counters; set_solver.
Qed.

Lemma AgentRun_decodes_to : decodes_to AgentRun_codec (fun run => usage_in_range (Run_BudgetUsage run)).
Proof.
  apply struct_decodes_to; [exact (proj1 BudgetUsage_decodes_to)|].
  each_field; intros r v Hr [j Hj]; try exact Hr.
  exact (proj2 BudgetUsage_decodes_to _ _ _ Hr Hj).
Qed.

Lemma RunCreatedPayload_decodes_to :
  decodes_to RunCreatedPayload_codec (fun payload => usage_in_range (Run_BudgetUsage (RunCreated_Run payload))).
Proof.
  apply struct_decodes_to; [exact (proj1 AgentRun_decodes_to)|].
  each_field; intros r v Hr [j Hj].
  exact (proj2 AgentRun_decodes_to _ _ _ Hr Hj).
Qed.

Lemma DecodePayloadStrict_ok {T} (c : Codec T) e v :
  DecodePayloadStrict c e = Ok v -> DecodeStrict c (RunEvent_Payload e) = Ok v.
Proof. unfold DecodePayloadStrict. by destruct (DecodeStrict _ _). Qed.

(** The hard limit of each counter. *)
Definition limits (limits : BudgetLimits) : list (option Z) :=
  [Limits_MaxInputTokens limits; Limits_MaxOutputTokens limits; Limits_MaxModelCalls limits;
   Limits_MaxToolCalls limits; Limits_MaxCostMicros limits; Limits_MaxWallTimeSeconds limits].

Definition within (run : AgentRun) : Prop :=
  Forall2 (fun f limit => 0 <= f (Run_BudgetUsage run) /\ forall l, limit = Some l -> f (Run_BudgetUsage run) <= l)
    counters (limits (Run_BudgetLimits run)).

Lemma usage_entry resource field used limit :
  (reject_if used <? 0 with invalid resource field ;;
   reject_if match limit with Some l => l <? used | None => false end
     with newError ErrorBudgetExceeded "validate" resource field ;; Ok tt) = Ok tt ->
  0 <= used /\ forall l, limit = Some l -> used <= l.
Proof. intros H. res_step H. res_step H. bool_hyps. split; [done|]. intros l ->. by bool_hyps. Qed.

Lemma validated_run_budget run : AgentRun_Validate run = Ok tt -> within run.
Proof.
  intros H. unfold AgentRun_Validate in H. do 15 res_step H. clear H.
  match goal with G : validateBudgetUsage _ _ _ _ = Ok tt |- _ => rename G into Hu end.
  unfold validateBudgetUsage in Hu. apply each_ok in Hu. rewrite !Forall_cons in Hu.
  destruct Hu as (H1 & H2 & H3 & H4 & H5 & H6 & _). unfold within, counters, limits.
  repeat (apply Forall2_cons_2; [by eapply usage_entry|]). apply Forall2_nil_2.
Qed.

(** A step's effect on the usage, in unbounded integers. *)
Lemma ApplyRun_usage p e q :
  ApplyRun (Some p) e = Ok q -> within (RP_Run p) -> usage_in_range (Run_BudgetUsage (RP_Run p)) ->
  forall f, f ∈ counters ->
    0 <= f (charged e) /\ f (Run_BudgetUsage (RP_Run q)) = f (Run_BudgetUsage (RP_Run p)) + f (charged e) /\
    f (Run_BudgetUsage (RP_Run q)) <= MaxInt64.
Proof.
  intros (_ & r & Hr & -> & _)%ApplyRun_inv Hw Hrange.
  assert (forall f, f ∈ counters -> 0 <= f (Run_BudgetUsage (RP_Run p)) <= MaxInt64) as Hc.
  { intros f Hf. split; [|by apply Hrange]. unfold within in Hw. apply Forall2_same_length_lookup in Hw as [_ Hw].
    apply list_elem_of_lookup in Hf as [i Hi]. destruct (limits (Run_BudgetLimits (RP_Run p)) !! i) as [l|] eqn:El.
    - by destruct (Hw _ _ _ Hi El).
    - exfalso. apply lookup_lt_Some in Hi. apply lookup_ge_None in El. unfold counters, limits in *. simpl in *. lia. }
  intros f Hf. change (Run_BudgetUsage (RP_Run (run_advanced r e))) with (Run_BudgetUsage r).
  pose proof (Hc _ Hf) as Hcf. unfold charged.
  destruct (decide (RunEvent_Type e = EventRunExecutionFinished)) as [Ht|Ht].
  - rewrite bool_decide_true by done. rewrite (dispatch_finished _ _ Ht) in Hr.
    unfold applyExecutionFinished in Hr. res_inv Hr.
    match goal with G : DecodePayloadStrict _ e = Ok _ |- _ => rewrite G end.
    match goal with G : addBudgetUsage _ _ = Ok _ |- _ => destruct (proj1 (addBudgetUsage_exact _ _ _ Hc) G f Hf) as (? & ? & Htot) end.
    cbn. lia.
  - rewrite bool_decide_false by done. rewrite (zero_counters _ Hf), Z.add_0_r.
    assert (Run_BudgetUsage r = Run_BudgetUsage (RP_Run p)) as ->; [|lia].
    destruct (decide (RunEvent_Type e = EventRunExecutionStarted)) as [Hs|Hs]; [|by apply (apply_run_handler_owner _ _ _ Hr)].
    rewrite (dispatch_started _ _ Hs) in Hr. unfold applyExecutionStarted in Hr. res_inv Hr. done.
Qed.

(** The run a history was created with. *)
Definition created_run (es : list RunEvent) (run : AgentRun) : Prop :=
  exists e payload, head es = Some e /\ DecodePayloadStrict RunCreatedPayload_codec e = Ok payload /\
  run = RunCreated_Run payload.

Lemma created_run_snoc es e run : created_run es run -> created_run (es ++ [e]) run.
Proof. intros (e0 & payload & He & H). exists e0, payload. split; [|done]. by destruct es. Qed.

(** C10: the budget is accounted for exactly: each of the six counters of a
    replayed run is what the run was created with plus everything the settled
    executions charged, as integers and not modulo 2^64; no charge is negative,
    so usage never falls; and the limits, which never change, are respected. *)
Theorem run_budget_accounts es p :
  ReplayRun es = Ok p ->
  exists created, created_run es created /\
  (forall f, f ∈ counters ->
     f (Run_BudgetUsage (RP_Run p)) = f (Run_BudgetUsage created) + total f es /\
     (forall e, e ∈ es -> 0 <= f (charged e))) /\
  Run_BudgetLimits (RP_Run p) = Run_BudgetLimits created /\ within (RP_Run p).
Proof.
  intros H. enough (usage_in_range (Run_BudgetUsage (RP_Run p)) /\ exists created, created_run es created /\
    (forall f, f ∈ counters -> f (Run_BudgetUsage (RP_Run p)) = f (Run_BudgetUsage created) + total f es /\
       (forall e, e ∈ es -> 0 <= f (charged e))) /\ Run_BudgetLimits (RP_Run p) = Run_BudgetLimits created)
    as (_ & created & Hc & Hf & Hl).
  { exists created. split_and!; [done..|]. by apply validated_run_budget, ReplayRun_valid with es. }
  revert es p H. apply ReplayRun_history_ind.
  - intros e p (_ & _ & Ht & payload & Hpay & -> & _)%ApplyRun_none. simpl. split.
    + exact (DecodeStrict_decodes_to _ _ _ _ RunCreatedPayload_decodes_to (DecodePayloadStrict_ok _ _ _ Hpay)).
    + assert (charged e = zero_BudgetUsage) as Hz by (unfold charged; by rewrite Ht).
      exists (RunCreated_Run payload). split; [by exists e, payload|]. split; [|done].
      intros f Hf. unfold total. simpl. rewrite Hz, (zero_counters _ Hf). split; [lia|].
      intros e' ->%list_elem_of_singleton. rewrite Hz, (zero_counters _ Hf). done.
  - intros es p e q Hes (Hrange & created & Hc & Hu & Hl) HA.
    pose proof (ApplyRun_usage _ _ _ HA (validated_run_budget _ (ReplayRun_valid _ _ Hes)) Hrange) as Hstep.
    pose proof (ApplyRun_identity _ _ _ HA) as Hid. unfold run_identity in Hid. split.
    + intros f Hf. destruct (Hstep _ Hf) as (? & Hq & ?). rewrite Hq in *. pose proof (Hrange _ Hf). unfold int64_range in *. lia.
    + exists created. split; [by apply created_run_snoc|]. split; [|congruence].
      intros f Hf. destruct (Hstep _ Hf) as (Hpos & Hq & _), (Hu _ Hf) as [Hsum Hnn]. rewrite total_snoc, Hq. split; [lia|].
      intros e' [He| ->%list_elem_of_singleton]%elem_of_app; [by apply Hnn|done].
Qed.

Example run_budget_accounts_witness :
  exists created, created_run (take 6 rundemo_events) created /\
    Usage_OutputTokens (Run_BudgetUsage (RP_Run (rundemo_at 5))) =
      Usage_OutputTokens (Run_BudgetUsage created) + total Usage_OutputTokens (take 6 rundemo_events) /\
    total Usage_OutputTokens (take 6 rundemo_events) = 20.
Proof.
  destruct (run_budget_accounts _ _ rundemo_ended) as (created & Hc & Hf & _).
  exists created. split; [exact Hc|]. split; [|reflexivity].
  apply (Hf Usage_OutputTokens). unfold counters. right. left.
Defined.

(** ** The life cycle *)

Lemma ValidateTransition_ok from to reason : ValidateTransition from to reason = Ok tt -> CanTransitionRun from to = true.
Proof. intros H. unfold ValidateTransition in H. res_inv H. by bool_hyps. Qed.

Lemma apply_run_handler_state run e run' :
  apply_run_handler run e = Ok run' ->
  (Run_State run' = Run_State run /\ Run_StateReason run' = Run_StateReason run /\ Run_CompletedAt run' = Run_CompletedAt run) \/
  CanTransitionRun (Run_State run) (Run_State run') = true.
Proof.
  intros H. run_handler_cases H; try (by left); right; simpl.
  1,2: match goal with G : ValidateTransition _ _ _ = Ok tt |- _ => apply ValidateTransition_ok in G; congruence end.
  match goal with G : Run_State run = RunRunning |- _ => rewrite G end. by case_bool_decide.
Qed.

Lemma validated_run_completed run :
  AgentRun_Validate run = Ok tt -> RunState_Terminal (Run_State run) = true -> is_Some (Run_CompletedAt run).
Proof.
  intros H Ht. unfold AgentRun_Validate in H. repeat res_step H.
  destruct (Run_CompletedAt run); [done|]. by rewrite Ht in H.
Qed.

Lemma terminal_run_stuck from to : RunState_Terminal from = true -> CanTransitionRun from to = false.
Proof. unfold CanTransitionRun. destruct from; try done; intros _; by rewrite bool_decide_false by apply not_elem_of_nil. Qed.

(** The part of a run that is settled when it ends. *)
Definition run_outcome (run : AgentRun) :=
  (Run_State run, Run_StateReason run, Run_CompletedAt run, Run_ActiveExecutionID run, Run_BudgetUsage run).

Lemma apply_run_handler_terminal run e run' :
  RunState_Terminal (Run_State run) = true -> apply_run_handler run e = Ok run' -> run_outcome run' = run_outcome run.
Proof.
  intros Ht H. destruct (apply_run_handler_state _ _ _ H) as [(Hs & Hr & Hc)|Htr]; [|by rewrite terminal_run_stuck in Htr].
  assert (RunEvent_Type e <> EventRunExecutionStarted) as Hns.
  { intros E. rewrite (dispatch_started _ _ E) in H. unfold applyExecutionStarted in H. res_inv H. bool_hyps.
    simpl in Hs. rewrite <- Hs in Ht. done. }
  assert (RunEvent_Type e <> EventRunExecutionFinished) as Hnf.
  { intros E. rewrite (dispatch_finished _ _ E) in H. unfold applyExecutionFinished in H. res_inv H. bool_hyps.
    match goal with G : Run_State run = RunRunning |- _ => rewrite G in Ht end. done. }
  destruct (apply_run_handler_owner _ _ _ H Hns Hnf) as [Ho Hu]. unfold run_outcome. congruence.
Qed.

(** C21: a run that has failed, completed or been cancelled is over: whatever
    events are appended later, its state, reason, completion time and budget
    usage stay, and no execution owns it again. *)
Theorem ended_run_is_final es p es' q :
  ReplayRun es = Ok p -> RunState_Terminal (Run_State (RP_Run p)) = true ->
  replay_run_from (Some p) es' = Ok (Some q) ->
  run_outcome (RP_Run q) = run_outcome (RP_Run p) /\ Run_ActiveExecutionID (RP_Run q) = "" /\
  is_Some (Run_CompletedAt (RP_Run q)).
Proof.
  intros Hes Ht Hq. enough (run_outcome (RP_Run q) = run_outcome (RP_Run p)) as Hout.
  { apply ReplayRun_valid in Hes. pose proof Hout as Heq. unfold run_outcome in Heq. injection Heq as _ _ Hc Ho _.
    rewrite Ho, Hc. split; [done|]. split; [|by apply validated_run_completed].
    destruct (decide (Run_ActiveExecutionID (RP_Run p) = "")) as [|Hne]; [done|].
    by rewrite (validated_run_owner _ Hes Hne) in Ht. }
  rewrite replay_run_from_ledger in Hq. clear Hes. revert es' p q Hq Ht.
  apply (ledger_from_ind (fun p q => RunState_Terminal (Run_State (RP_Run p)) = true -> run_outcome (RP_Run q) = run_outcome (RP_Run p))); [done|].
  intros p e q r (_ & run & Hr & -> & _)%ApplyRun_inv IH Ht.
  pose proof (apply_run_handler_terminal _ _ _ Ht Hr) as Ho.
  rewrite <- Ho. apply IH. assert (Run_State run = Run_State (RP_Run p)) as E by (unfold run_outcome in Ho; congruence).
  simpl. by rewrite E.
Qed.

Example ended_run_is_final_witness :
  run_outcome (RP_Run (rundemo_at 6)) = run_outcome (RP_Run (rundemo_at 5)) /\
  length (Run_CapabilityIDs (RP_Run (rundemo_at 6))) = 2%nat.
Proof.
  split; [|reflexivity].
  exact (proj1 (ended_run_is_final _ _ _ _ rundemo_ended eq_refl rundemo_after)).
Defined.

(** ** Capabilities *)

(** The grants one event installs. *)
Definition granted (e : RunEvent) : list CapabilityGrant :=
  if RunEvent_Type e ==? EventCapabilitiesGranted then
    match DecodePayloadStrict CapabilitiesGrantedPayload_codec e with
    | Ok payload => CapsGranted_Grants payload
    | Err _ => []
    end
  else [].

Definition grant_ids (es : list RunEvent) : list string := flat_map (fun e => map Grant_ID (granted e)) es.

Lemma grant_ids_snoc es e : grant_ids (es ++ [e]) = grant_ids es ++ map Grant_ID (granted e).
Proof. unfold grant_ids. rewrite flat_map_app. simpl. by rewrite app_nil_r. Qed.

Lemma install_grants run seen ids grants seen' ids' :
  fold_res (install_grant run) (seen, ids) grants = Ok (seen', ids') ->
  elems ids' = elems ids ++ map Grant_ID grants /\
  Forall (fun grant => CapabilityGrant_Validate grant = Ok tt /\ Grant_SubjectRunID grant = Run_ID run) grants.
Proof.
  revert seen ids. induction grants as [|grant grants IH]; intros seen ids H.
  - simpl in H. simplify_eq. by rewrite app_nil_r.
  - simpl in H. apply rbind_ok in H as ([seen1 ids1] & H1 & H). unfold install_grant in H1. res_inv H1. bool_hyps.
    simplify_eq. destruct (IH _ _ H) as [-> Hall]. split; [|by constructor].
    simpl. by rewrite <- app_assoc.
Qed.

Lemma dispatch_granted run e :
  RunEvent_Type e = EventCapabilitiesGranted -> apply_run_handler run e = applyCapabilitiesGranted run e.
Proof. unfold apply_run_handler. by intros ->. Qed.

Lemma apply_run_handler_grants run e run' :
  apply_run_handler run e = Ok run' ->
  elems (Run_CapabilityIDs run') = elems (Run_CapabilityIDs run) ++ map Grant_ID (granted e) /\
  Forall (fun grant => CapabilityGrant_Validate grant = Ok tt /\ Grant_SubjectRunID grant = Run_ID run) (granted e).
Proof.
  intros H. unfold granted. destruct (decide (RunEvent_Type e = EventCapabilitiesGranted)) as [Ht|Ht].
  - rewrite bool_decide_true by done. rewrite (dispatch_granted _ _ Ht) in H. unfold applyCapabilitiesGranted in H.
    res_inv H. match goal with G : DecodePayloadStrict _ e = Ok _ |- _ => rewrite G end.
    match goal with G : fold_res _ _ _ = Ok ?x |- _ => destruct x as [seen' ids']; apply install_grants in G; exact G end.
  - rewrite bool_decide_false by done. rewrite app_nil_r. split; [|done].
    run_handler_cases H; try done; congruence.
Qed.

Lemma validated_run_capabilities run : AgentRun_Validate run = Ok tt -> NoDup (elems (Run_CapabilityIDs run)).
Proof.
  intros H. unfold AgentRun_Validate in H. repeat res_step H.
  match goal with G : validateUniqueIdentifiers _ "capability_ids" _ = Ok tt |- _ => by apply validateUniqueIdentifiers_nodup in G end.
Qed.

(** C20: a run holds exactly the capabilities it was created with and those its
    [capabilities.granted] events installed, in that order and none twice; every
    installed grant is valid and issued to this very run. *)
Theorem capabilities_are_granted es p :
  ReplayRun es = Ok p ->
  exists created, created_run es created /\
  elems (Run_CapabilityIDs (RP_Run p)) = elems (Run_CapabilityIDs created) ++ grant_ids es /\
  NoDup (elems (Run_CapabilityIDs (RP_Run p))) /\
  (forall e grant, e ∈ es -> grant ∈ granted e ->
     CapabilityGrant_Validate grant = Ok tt /\ Grant_SubjectRunID grant = Run_ID (RP_Run p)).
Proof.
  intros H. enough (exists created, created_run es created /\
    elems (Run_CapabilityIDs (RP_Run p)) = elems (Run_CapabilityIDs created) ++ grant_ids es /\
    (forall e grant, e ∈ es -> grant ∈ granted e ->
       CapabilityGrant_Validate grant = Ok tt /\ Grant_SubjectRunID grant = Run_ID (RP_Run p)))
    as (created & Hc & Hids & Hg).
  { exists created. split_and!; [done..| |done]. by apply validated_run_capabilities, ReplayRun_valid with es. }
  revert es p H. apply ReplayRun_history_ind.
  - intros e p (_ & _ & Ht & payload & Hpay & -> & _)%ApplyRun_none. simpl.
    assert (granted e = []) as Hnone by (unfold granted; by rewrite Ht).
    exists (RunCreated_Run payload). split; [by exists e, payload|]. unfold grant_ids. simpl. rewrite Hnone. simpl.
    split; [by rewrite app_nil_r|]. intros e' grant ->%list_elem_of_singleton. rewrite Hnone. by intros ?%elem_of_nil.
  - intros es p e q _ (created & Hc & Hids & Hg) HA. pose proof (ledger_owner_kept _ _ _ HA) as Hown.
    change (Run_ID (RP_Run q) = Run_ID (RP_Run p)) in Hown.
    apply ApplyRun_inv in HA as (_ & r & [Hr Hall]%apply_run_handler_grants & -> & _).
    exists created. split; [by apply created_run_snoc|]. split.
    + simpl. by rewrite Hr, Hids, grant_ids_snoc, <- app_assoc.
    + intros e' grant [He| ->%list_elem_of_singleton]%elem_of_app Hgr; rewrite Hown; [by eapply Hg|].
      rewrite Forall_forall in Hall. by apply Hall.
Qed.

Example capabilities_are_granted_witness :
  exists created, created_run (take 6 rundemo_events) created /\
    elems (Run_CapabilityIDs (RP_Run (rundemo_at 5))) = elems (Run_CapabilityIDs created) ++ ["g"].
Proof.
  destruct (capabilities_are_granted _ _ rundemo_ended) as (created & Hc & Hids & _).
  exists created. split; [exact Hc|exact Hids].
Defined.

(** ** What replay does not check *)

Definition with_actor (actor : Principal) (e : RunEvent) : RunEvent := e <| RunEvent_Actor := actor |>.

Lemma RunEvent_Validate_actor actor e :
  validatePrincipal "RunEvent" "actor" actor = Ok tt -> RunEvent_Validate e = Ok tt ->
  RunEvent_Validate (with_actor actor e) = Ok tt.
Proof.
  intros Ha H. unfold RunEvent_Validate in *.
  change (RunEvent_Sequence (with_actor actor e)) with (RunEvent_Sequence e).
  apply rbind_ok in H as ([] & H1 & H). apply rbind_ok. exists tt. split; [exact H1|].
  apply rbind_ok in H as ([] & H2 & H). apply rbind_ok. exists tt. split; [exact H2|].
  destruct (RunEvent_Sequence e <? 1); [done|].
  apply rbind_ok in H as ([] & _ & H). apply rbind_ok. exists tt. split; [exact Ha|exact H].
Qed.

Lemma ApplyRun_actor actor p e q :
  validatePrincipal "RunEvent" "actor" actor = Ok tt -> ApplyRun p e = Ok q -> ApplyRun p (with_actor actor e) = Ok q.
Proof.
  intros Ha H. unfold ApplyRun in *. apply rbind_ok in H as ([] & Hv & H).
  rewrite (RunEvent_Validate_actor _ _ Ha Hv). exact H.
Qed.

(** C32: replay does not protect the attribution of run events: the run reducer
    never recomputes an event's digest, so a history in which every event names
    another (valid) actor replays to the very same run, head digest included,
    although the digest is computed over the actor. *)
Theorem run_replay_ignores_actor es p actor :
  ReplayRun es = Ok p -> validatePrincipal "RunEvent" "actor" actor = Ok tt ->
  ReplayRun (map (with_actor actor) es) = Ok p.
Proof.
  intros H Ha. revert es p H. apply ReplayRun_history_ind.
  - intros e p HA. apply ReplayRun_reaches. unfold reaches. simpl.
    change (let? q := ApplyRun None (with_actor actor e) in Ok (Some q)) with
      (rbind (ApplyRun None (with_actor actor e)) (fun q => Ok (Some q))).
    by rewrite (ApplyRun_actor _ _ _ _ Ha HA).
  - intros es p e q _ IH HA. rewrite map_app. apply ReplayRun_reaches.
    apply (reaches_snoc _ p); [by apply ReplayRun_reaches|]. exact (ApplyRun_actor _ _ _ _ Ha HA).
Qed.

(** In the altered history no digest is that of its event any more. *)
Example run_replay_ignores_actor_witness :
  ReplayRun (map (with_actor demo_alice) (take 6 rundemo_events)) = Ok (rundemo_at 5) /\
  Forall (fun e => VerifyEventDigest e = Some true) (take 6 rundemo_events) /\
  Forall (fun e => VerifyEventDigest e = Some false) (map (with_actor demo_alice) (take 6 rundemo_events)).
Proof.
  split; [exact (run_replay_ignores_actor _ _ demo_alice rundemo_ended eq_refl)|].
  split; apply (bool_decide_unpack _); vm_compute; exact I.
Defined.
